(* ===== verification/_CoqProject ===== *)
-Q . S2P
Prelude.v
JsValue.v
JsNumber.v
Endpoint.v
ExportTracker.v
FeedClient.v
FeedView.v
Chat.v
ChatView.v
Loader.v
MapView.v
Chart.v
DataViz.v
DataVizView.v
FloatList.v
Collaboration.v
CollabView.v
ExportView.v
Dashboard.v
Page.v
Startup.v
Header.v
Dom.v
StaticUI.v
PageView.v
