(* ===== verification/Prelude.v ===== *)
(** * FloatChat: a verification development of the client-side components

    The repository (FloatChat, a Next.js/React front end for ARGO ocean
    data) keeps all of its behaviour in React components under
    [src/code/Floatchat] and in the concatenated sources
    [src/unnamed/part_001] to [part_003].  The page [Home]
    ([app/page.tsx]) shows one tab at a time: the dashboard, the
    visualization tab, the chat, the export tool or the collaboration tab;
    the components talk to the backend over [fetch] (and, for the live
    feed, a WebSocket) and to each other only through props.

    ** How the program is modelled

    Each component is a world: a [Record] of its [useState] cells and
    refs, the asynchronous work it has started (pending requests, timers,
    sockets, suspended [async] loops), and the outputs the user sees
    (toasts, the clipboard).  One [dispatch] function per component
    handles one event of the browser (a click the rendered DOM offers, a
    timer, a settled [fetch], a socket event), with the guards, the
    [setState] calls and the effects of the source in their order; a
    render that changes an effect's dependencies runs the cleanup of the
    old run and then the new run.  React's rules are written out: a
    [setState] of an unmounted instance is dropped (instances are told
    apart by a generation number), while timers, sockets and toasts live
    on.  The event loop is the choice of the next event: a step relation
    whose reflexive transitive closure [star] (notation [a ==[ R ]=>* b])
    is reachability.  Fallible JavaScript (a property read on [null], a
    method a value lacks, [JSON.parse]) returns a [js_exn + _] sum.

    Each file declares its definitions in a Module named after it (the
    shared libraries [JsValue], [JsNumber], [Endpoint] and [Loader] as
    [Module Export], so that their clients use them unqualified).

    Files, in dependency order:
    - [Prelude] (this file): the scope [fc_scope], the hint databases
      [floatchat] and [fc_rw], [star] with its invariance and fold lemmas,
      and generic lemmas on lists and strings.
    - [JsValue]: JSON values, truthiness, [||], [??], property reads,
      object spread, toasts.
    - [JsNumber]: Number(), Number::toString, toFixed, the arithmetic and
      comparisons the components use, on exact rationals, and the numeric
      equality [≡] with the [Proper] instances of printing.
    - [Endpoint]: the base URL of the backend, [encodeURIComponent], and
      the reading of a query string back ([search_param]).
    - [ExportTracker] (Module [ExportTracker]): [DataExport] with
      [handleExport] and the [simulateExport] loop (DataExport.tsx).
    - [FeedClient] and [FeedView]: [RealTimeUpdates] (part_002, lines
      1-301), its socket handlers and reconnect timer, then its render.
    - [Chat] and [ChatView]: [ChatInterface] (Footer.tsx, lines
      213-528), its handlers and requests, then its render.
    - [Loader]: the [aborted]-flag fetch effect shared by the map and the
      chart, generic over the class [FetchSource] (the URL and the
      decoder a component supplies).
    - [MapView]: [MapVisualization] (part_003); [Chart]: [DataChart]
      (DataChart.tsx); both are [FetchSource] instances.
    - [DataViz] and [DataVizView]: [DataVisualization] with its
      animation interval, its statistics request and its map and chart
      children, then its render (controls, main area, summary).
    - [FloatList]: the filtered mock float list (part_001).
    - [Collaboration] and [CollabView]: the collaboration tab (part_002,
      lines 889-1400), its mock data, copy link and share modal, then its
      render (session cards, collaborator and activity rows, the modal).
    - [ExportView]: the export history rows of [DataExport].
    - [Dashboard]: [Dashboard] (part_002, lines 631-888) composed with
      the worlds of its map, charts and float list.
    - [Page]: [Home], against the class [Component] (mount, unmount,
      handlers, with the laws [ComponentLaws]) that each tab's component
      instantiates.
    - [Startup]: the startup script (part_000, lines 1-73) as a shell
      state threaded through its lines, with signals delivered between
      any two of them.
    - [Header]: the page header (after [DataExport] in DataExport.tsx,
      lines 456-568) with its mobile menu toggle; [PageView]: the render
      of [Home], with the header, the Hero, the tab buttons and the
      content of the active tab.
    - [Dom]: the element trees the static components render (tags, texts,
      the [key], [href] and [id] attributes) and their queries.
    - [StaticUI]: [Hero] (part_001), [Features] (part_002), [Footer]
      (Footer.tsx, lines 1-211) and [RootLayout] (layout.tsx) as the
      trees they render from their constant arrays.

    ** What the theorems show

    - Invariants of every reachable world, by induction on [star]: one
      export per instance and its request shape (ExportTracker), at most
      50 updates in the feed, the chat's single request in flight and
      well-formed conversation, the map's spinner following its current
      request, the only live animation interval being the playing
      instance's (DataViz), the visualization controls highlighting
      exactly the selection (DataVizView), exactly the active tab
      mounted (Page).
    - Termination and liveness: every export completes within 11 timer
      firings; a playing visualization selects each of the five
      parameters within five ticks.
    - Refinement: the export requests follow the abstract lifecycle
      Pending -> Processing -> Completed; the page's worlds project to
      reachable worlds of each component.
    - Functional behaviour and error paths of each handler: messages,
      malformed payloads, send guards, settlements of requests, decoding
      of payloads, the summaries a component prints.
    - Types: while the socket's messages have the declared shape, the
      feed's state keeps its types and its render never throws; one
      message naming [stats.lastSync] makes it throw.  Likewise the chat
      renders while the server's replies carry renderable fields, and one
      reply whose [response] is an object crashes it.
    - Equivalence and round trips: the chart's request URL reads back as
      the props it was built from; the collaboration tab's
      render is invariant under time translation, so what it first shows
      depends only on the time since mounting; its share modal copies the
      link it shows, as the session's card does.
    - Bounds: file sizes, marker positions, sizes printed in KB.
    - The static page: its fragment links (header and footer) have no target, its calls to
      action no handler, and its texts carry the source's double-encoded
      characters.
    - The startup script: its exits, the servers it leaves running, when
      its final [wait] returns (only once both servers have ended on
      their own) and what a signal does after each of its lines, for
      every machine
      (the directories do not influence the control state, so each
      statement is decided on the machine's four tests by evaluation).
    - The defects the models exhibit (a reconnect loop after unmount, a
      leaked socket, stale failures that empty the map and the chart, the
      Start Export button disabled forever) are theorems too, listed as
      findings of the manifest.

    ** Bounds and fuel

    The export loop has 11 ticks (progress 0, 10, ..., 100), so 11 timer
    firings suffice.  The feed keeps [slice(0, 50)]; its reconnect delay
    is the 5 s of the source.  [JsNumber.dec_scale] looks for a finite
    decimal expansion for [log2] of the denominator steps, which suffices
    for every rational with one (its denominator [2^a 5^b] needs
    [max a b <= log2] steps); others are cut there, as no JSON literal
    denotes them.  Whole numbers below 1024 are checked to print as their
    digits by evaluation over [0..1023].  The parameter cycle has length
    five, checked by evaluation.

    ** Not modelled

    The chat's [scrollToBottom] only moves the DOM.  The documents (the
    demo script after line 73 of part_000, the READMEs and the project
    summary) are prose.  The commands the startup script runs (npm, pip,
    the servers) are modelled by their start, their PIDs and whether a
    server keeps running from the directory it was started in;
    [createdb] fails exactly when PostgreSQL is down or the database
    exists (its other failures are not modelled).  Class
    names, animation (framer-motion), the drawing of Recharts and
    Leaflet, and the 3D placeholder are styling or library calls.  The
    browser's locale formatting ([toLocaleString] and the like),
    [JSON.stringify] and [getFullYear] are parameters of the definitions
    that use them.  Numbers are exact rationals rather than doubles (see
    [JsNumber]); [Math.random()] draws are rationals in [[0, 1)] given
    with the events.  The platform algorithms the code calls
    ([encodeURIComponent], StringToNumber) are modelled from the
    ECMAScript specification and carry no map entry.  StrictMode's
    double effects are not modelled: the page is built for production.
    The backend is not part of the repository; only what the client
    sends and reads is modelled.  [RealTimeUpdates] is modelled in full,
    but the page never renders it. *)

From stdpp Require Export base gmap strings list pretty.
From Stdlib Require Export ZArith Lia.

Set Default Goal Selector "!".

Declare Scope fc_scope.
Delimit Scope fc_scope with fc.

Create HintDb floatchat.
#[export] Hint Constants Transparent : floatchat.
Create Rewrite HintDb fc_rw.

(** Inverting equations between options, as produced by the handlers that
    look a request up by id. *)
Ltac inv_opt :=
  repeat match goal with
  | H : Some _ = Some _ |- _ => injection H as H
  | H : None = Some _ |- _ => discriminate H
  | H : Some _ = None |- _ => discriminate H
  end.

(** ** Reachability: the closure of a step relation *)

Section Star.
Context {A : Type} (R : A -> A -> Prop).

Inductive star : A -> A -> Prop :=
| star_refl a : star a a
| star_step a b c : R a b -> star b c -> star a c.

Lemma star_one a b : R a b -> star a b.
Proof. eauto using star. Qed.

Lemma star_trans a b c : star a b -> star b c -> star a c.
Proof. induction 1; eauto using star. Qed.

Lemma star_right a b c : star a b -> R b c -> star a c.
Proof. eauto using star_trans, star_one. Qed.

(** An invariant of every step holds of every reachable state. *)
Lemma star_invariant (P : A -> Prop) :
  (forall a b, R a b -> P a -> P b) -> forall a b, star a b -> P a -> P b.
Proof. intros Hstep a b Hs. induction Hs; eauto. Qed.

(** A sequence of events, each a step, run by a fold of the handler. *)
Lemma star_foldl {E} (d : E -> A -> A) :
  (forall e a, R a (d e a)) ->
  forall es a b, star a b -> star a (foldl (fun w e => d e w) b es).
Proof.
  intros Hd es. induction es as [|e es IH]; intros a b Hab; [done|].
  apply IH. by eapply star_right.
Qed.
End Star.

(** [a ==[ R ]=>* b]: [b] is reachable from [a] by steps of [R]. *)
Notation "a ==[ R ]=>* b" := (star R a b) (at level 70, R at level 200) : fc_scope.

#[export] Hint Constructors star : floatchat.
#[export] Hint Resolve star_one star_trans star_right : floatchat.

(** ** Generic list lemmas *)

(** A [map] whose function is the identity on every element leaves the
    list unchanged: the shape of React's [prev.map(x => cond ? .. : x)]. *)
Lemma map_id_on {A} (f : A -> A) (l : list A) :
  (forall x, x ∈ l -> f x = x) -> map f l = l.
Proof.
  induction l as [|x l IH]; intros Hf; [done|]; simpl.
  rewrite Hf, IH; [done| |]; set_solver.
Qed.

Lemma length_take_le_n {A} n (l : list A) : length (take n l) <= n.
Proof. rewrite length_take. lia. Qed.

#[export] Hint Resolve length_take_le_n : floatchat.

(** A filter whose predicate holds of every element keeps the list. *)
Lemma filter_all {A} (P : A -> Prop) `{!forall x, Decision (P x)} (l : list A) :
  (forall x, x ∈ l -> P x) -> filter P l = l.
Proof.
  induction l as [|x l IH]; intros HP; [done|]. rewrite filter_cons.
  rewrite decide_True by (apply HP; set_solver). f_equal. apply IH. set_solver.
Qed.

(** String concatenation ([+] on strings, template literals) is associative. *)
Lemma string_app_assoc (a b c : string) : (a +:+ b) +:+ c = a +:+ (b +:+ c).
Proof.
  induction a as [|x a IH]; [done|].
  change (String x ((a +:+ b) +:+ c) = String x (a +:+ (b +:+ c))). by rewrite IH.
Qed.

#[export] Hint Rewrite string_app_assoc : fc_rw.

(** ** Draws of [Math.random()]

    [Math.floor(Math.random() * n)] for a draw [r] in [[0, 1)] is an
    index below [n]. *)

From Stdlib Require Import QArith Qround Lqa.

Lemma Qfloor_draw_bounds (r : Q) (n : Z) :
  (0 <= r)%Q -> (r < 1)%Q -> (0 < n)%Z -> (0 <= Qfloor (r * inject_Z n) < n)%Z.
Proof.
  intros H0 H1 Hn. assert (Hn' : (0 < inject_Z n)%Q) by (change 0%Q with (inject_Z 0); rewrite <- Zlt_Qlt; done). split.
  - change 0%Z with (Qfloor 0). apply Qfloor_resp_le. apply Qmult_le_0_compat; lra.
  - rewrite Zlt_Qlt. pose proof (Qfloor_le (r * inject_Z n)).
    assert (r * inject_Z n < 1 * inject_Z n)%Q by (apply Qmult_lt_r; lra). lra.
Qed.
