(* ===== verification/JsValue.v ===== *)
(** * JavaScript values as the components see them

    The handlers of the repository read fields of values produced by
    [JSON.parse] and combine them with JavaScript's operators.  This file
    models exactly the fragment they use:
    - [jval]: the values [JSON.parse] returns (numbers are decimal literals,
      kept exactly as rationals [Q]); [option jval] is a JavaScript value
      that may be [undefined] ([None]);
    - [truthy] and [js_or]: the [||] operator of [data.type || 'data_sync'];
    - [js_nullish]: the [??] operator of [stats.total_floats ?? '—'];
    - [get_prop]: the property read [data.type], which throws a [TypeError]
      on [null] and gives [undefined] for a missing key;
    - [spread_json]: the object spread [{...prev, ...data.stats}], which
      copies the own enumerable properties of an object, the indices of an
      array or of a string, and nothing for other primitives;
    - [toast]: the notifications of react-hot-toast, as an output trace.

    Property reads are modelled for keys that are not members of
    [Object.prototype], [Array.prototype] or [String.prototype]; every key
    the modelled code reads ([type], [message], [status], [data], [stats])
    is such a key.  Strings are byte strings: the indices a string spreads
    into count bytes, which coincide with UTF-16 code units on ASCII. *)

From S2P Require Import Prelude.
From Stdlib Require Import QArith.

Module Export JsValue.
Local Close Scope Q_scope.
Local Set Warnings "-register-all".

(** ** Values *)

Inductive jval : Type :=
| JNull
| JBool (b : bool)
| JNum (q : Q)
| JStr (s : string)
| JArr (l : list jval)
| JObj (kvs : list (string * jval)).

(** Own property of an object parsed from JSON: with duplicate keys,
    [JSON.parse] keeps the last binding. *)
Fixpoint obj_lookup (k : string) (kvs : list (string * jval)) : option jval :=
  match kvs with
  | [] => None
  | (k', v) :: rest =>
      match obj_lookup k rest with
      | Some w => Some w
      | None => if decide (k = k') then Some v else None
      end
  end.

(** ** Truthiness and the operators [||] and [??] *)

(** ECMAScript ToBoolean on the values JSON produces: [null], [false],
    [0] and [""] are falsy; arrays and objects, even empty, are truthy. *)
Definition truthy_val (v : jval) : bool :=
  match v with
  | JNull => false
  | JBool b => b
  | JNum q => negb (Qeq_bool q 0)
  | JStr s => negb (bool_decide (s = ""%string))
  | JArr _ | JObj _ => true
  end.

Definition truthy (v : option jval) : bool :=
  match v with None => false | Some x => truthy_val x end.

(** [a || d] where the default [d] is a literal: the result is [a] when [a]
    is truthy and [d] otherwise (never [undefined]). *)
Definition js_or (a : option jval) (d : jval) : jval :=
  match a with
  | Some x => if truthy_val x then x else d
  | None => d
  end.

(** [a ?? d]: only [null] and [undefined] are replaced. *)
Definition js_nullish (a : option jval) (d : jval) : jval :=
  match a with
  | None | Some JNull => d
  | Some x => x
  end.

(** [v === s] for a string literal [s]. *)
Definition str_eq (v : jval) (s : string) : bool :=
  match v with JStr s' => bool_decide (s' = s) | _ => false end.

(** ** Property reads *)

(** [TypeError] of a property read on [null] or a call of a missing
    method; [SyntaxError] of [JSON.parse]; [RenderError] of React when a
    child is a plain object. *)
Inductive js_exn := TypeError | SyntaxError | RenderError.

(** [v.k]: throws on [null]; reads an own property of an object; gives
    [undefined] on the other primitives and on arrays for the keys above. *)
Definition get_prop (v : jval) (k : string) : js_exn + option jval :=
  match v with
  | JNull => inl TypeError
  | JObj kvs => inr (obj_lookup k kvs)
  | _ => inr None
  end.

(** Code that may throw: a value or the exception, with a bind that
    stops at the first exception, as a [try] block does. *)
Definition js_bind {A B} (c : js_exn + A) (k : A -> js_exn + B) : js_exn + B :=
  match c with inl e => inl e | inr x => k x end.

Declare Scope js_scope.
Delimit Scope js_scope with js.
Notation "'let*' x := c 'in' k" := (js_bind c (fun x => k))
  (at level 200, x name, c at level 100, k at level 200) : js_scope.

(** ** Object spread *)

(** The own enumerable properties that [{...v}] copies, in order. *)
Definition spread_entries (v : option jval) : list (string * jval) :=
  match v with
  | Some (JObj kvs) => kvs
  | Some (JArr l) => imap (fun i x => (pretty i, x)) l
  | Some (JStr s) =>
      imap (fun i c => (pretty i, JStr (String c EmptyString)))
        (String.list_ascii_of_string s)
  | _ => []
  end.

(** [{...m, ...v}] for a target object modelled as a finite map whose
    values have type [V]; [inj] embeds a copied JSON value into [V]. *)
Definition spread_json {V} (inj : jval -> V) (m : gmap string V)
    (v : option jval) : gmap string V :=
  foldl (fun acc '(k, x) => <[k := inj x]> acc) m (spread_entries v).

(** ** Strings *)

(** The code points [String.prototype.trim] and StringToNumber remove
    (WhiteSpace and LineTerminator of ECMA-262): tab, line feed, vertical
    tab, form feed, carriage return, space, U+00A0, U+1680,
    U+2000-U+200A, U+2028, U+2029, U+202F, U+205F, U+3000 and U+FEFF.
    A string is the UTF-8 bytes of its text, so each code point is the
    byte sequence that encodes it. *)
Definition js_space_seqs : list (list nat) :=
  [[9]; [10]; [11]; [12]; [13]; [32]; [194; 160]; [225; 154; 128]] ++
  List.map (fun k => [226; 128; 128 + k]) (seq 0 11) ++
  [[226; 128; 168]; [226; 128; 169]; [226; 128; 175]; [226; 129; 159]; [227; 128; 128];
   [239; 187; 191]].

(** The length of the whitespace sequence among [seqs] that [l] starts
    with, [0] when it starts with none. *)
Definition space_prefix (seqs : list (list nat)) (l : list Ascii.ascii) : nat :=
  let bs := List.map Ascii.nat_of_ascii l in
  match list_find (fun q => firstn (length q) bs = q) seqs with
  | Some (_, q) => length q
  | None => 0
  end.

(** Whitespace removed from the front; every round removes at least one
    byte, so [length l] rounds suffice. *)
Fixpoint drop_spaces (seqs : list (list nat)) (fuel : nat) (l : list Ascii.ascii) : list Ascii.ascii :=
  match fuel with
  | 0 => l
  | S n => match space_prefix seqs l with 0 => l | k => drop_spaces seqs n (drop k l) end
  end.

Definition drop_ws (l : list Ascii.ascii) : list Ascii.ascii := drop_spaces js_space_seqs (length l) l.

(** Whitespace removed from the end: the same on the reversed bytes, with
    the reversed sequences. *)
Definition drop_ws_end (l : list Ascii.ascii) : list Ascii.ascii :=
  rev (drop_spaces (List.map (@rev nat) js_space_seqs) (length l) (rev l)).

Definition trim_bytes (l : list Ascii.ascii) : list Ascii.ascii := drop_ws_end (drop_ws l).

(** [s.trim()]: whitespace removed at both ends. *)
Definition js_trim (s : string) : string :=
  String.string_of_list_ascii (trim_bytes (String.list_ascii_of_string s)).

(** ** Notifications *)

Inductive toast :=
| ToastSuccess (msg : jval)
| ToastError (msg : jval)
| ToastIcon (msg : jval) (icon : string).

(** ** Lemmas *)

Lemma js_or_truthy a d : truthy a = true -> Some (js_or a d) = a.
Proof. destruct a as [x|]; simpl; [|done]. by intros ->. Qed.

Lemma js_or_falsy a d : truthy a = false -> js_or a d = d.
Proof. destruct a as [x|]; simpl; [|done]. by intros ->. Qed.

(** [js_or] with a truthy default is always truthy. *)
Lemma js_or_truthy_result a d : truthy_val d = true -> truthy_val (js_or a d) = true.
Proof. destruct a as [x|]; simpl; [|done]. by destruct (truthy_val x) eqn:?. Qed.

Lemma get_prop_not_null v k : v <> JNull -> exists r, get_prop v k = inr r.
Proof. destruct v; simpl; eauto; done. Qed.

(** Spreading the entries of a list of bindings: a key bound in the list
    gets its last value, every other key keeps its old value. *)
Lemma foldl_insert_lookup {V} (inj : jval -> V) (kvs : list (string * jval))
    (m : gmap string V) k :
  foldl (fun acc '(k', x) => <[k' := inj x]> acc) m kvs !! k =
  match obj_lookup k kvs with Some x => Some (inj x) | None => m !! k end.
Proof.
  revert m. induction kvs as [|[k' x] kvs IH]; intros m; simpl; [done|].
  rewrite IH. destruct (obj_lookup k kvs); [done|].
  case_decide; subst; [by rewrite lookup_insert_eq|].
  by rewrite lookup_insert_ne.
Qed.

(** The partial update [{...prev, ...stats}] with an object: field-wise
    overwrite, fields absent from [stats] unchanged. *)
Lemma spread_json_obj {V} (inj : jval -> V) m kvs k :
  spread_json inj m (Some (JObj kvs)) !! k =
  match obj_lookup k kvs with Some x => Some (inj x) | None => m !! k end.
Proof. apply foldl_insert_lookup. Qed.

(** Spreading a value that has no own enumerable properties is the identity. *)
Lemma spread_json_nothing {V} (inj : jval -> V) m v :
  spread_entries v = [] -> spread_json inj m v = m.
Proof. unfold spread_json. by intros ->. Qed.

(** A round removes at least one byte. *)
Lemma space_prefix_len seqs l : space_prefix seqs l <> 0%nat -> (space_prefix seqs l <= length l)%nat.
Proof.
  unfold space_prefix. destruct (list_find _ _) as [[i q]|] eqn:Hf; [|done].
  apply list_find_Some in Hf as (_ & Hq & _). intros _.
  rewrite <- Hq, length_firstn, length_map. lia.
Qed.

Lemma drop_spaces_length seqs n l : (length (drop_spaces seqs n l) <= length l)%nat.
Proof.
  revert l. induction n as [|n IH]; intros l; simpl; [lia|].
  destruct (space_prefix seqs l) eqn:Hk; [lia|]. rewrite IH, length_drop. lia.
Qed.

(** Enough fuel: after [length l] rounds what is left starts with no
    whitespace. *)
Lemma drop_spaces_done seqs n l :
  (length l <= n)%nat -> space_prefix seqs (drop_spaces seqs n l) = 0%nat.
Proof.
  revert l. induction n as [|n IH]; intros l Hl; simpl.
  - destruct l; [|simpl in Hl; lia]. unfold space_prefix. cbn.
    destruct (list_find _ _) as [[i q]|] eqn:Hf; [|done].
    apply list_find_Some in Hf as (_ & Hq & _). by rewrite firstn_nil in Hq; subst q.
  - destruct (space_prefix seqs l) as [|k] eqn:Hk; [done|]. apply IH.
    pose proof (space_prefix_len seqs l ltac:(lia)). rewrite length_drop. lia.
Qed.

(** [!s.trim()] on a non-breaking space: the browser blocks it, and so
    does the model. *)
Lemma js_trim_nbsp : js_trim (String (Ascii.ascii_of_nat 194) (String (Ascii.ascii_of_nat 160) EmptyString))
  = ""%string.
Proof. vm_compute. reflexivity. Qed.

#[export] Hint Resolve js_or_truthy_result : floatchat.

End JsValue.
