(* ===== verification/JsNumber.v ===== *)
(** * JavaScript numbers as the components read and print them

    The components convert JSON values to numbers ([Number(d.latitude)],
    [Number(y[i] ?? 0)]), compare them with constants ([value > 29]),
    compute with them ([(lon + 180) / 360 * 100]) and print them
    ([String(total)], [x.toFixed(2)], template literals).  This file
    models the operations of ECMAScript they use:
    - [jnum]: a number, [NaN], an infinity or a finite value;
    - [string_to_number]: StringToNumber (trimming, the empty string,
      signs, [Infinity], decimal literals with fraction and exponent,
      [0x]/[0o]/[0b] integer literals);
    - [to_number]: ToNumber on JSON values and [undefined], through
      [to_string] for arrays as the specification does;
    - [num_to_string]: Number::toString in base 10 (plain notation for
      exponents in (-7, 21], scientific notation otherwise);
    - [to_fixed]: Number.prototype.toFixed;
    - [jadd], [jmul], [jdiv], [jgt]: IEEE arithmetic and comparison.

    Finite numbers are exact rationals.  A double holds about 16
    significant decimal digits: on values with more, and on ties of
    [toFixed] (a double such as [1.005] is slightly below its literal), the
    double result may differ from the exact one computed here.  The
    modelled code reads literals of at most 8 significant digits and
    compares them with round constants, where both agree.  Signed zeros
    are not distinguished.  Number::toString prints a rational without a
    finite decimal expansion (which no JSON literal denotes) cut after
    [log2] of its denominator digits.  Rationals are not reduced, so two
    representations of one number are related by [≡] ([jnum_equiv]), and
    printing respects it. *)

From S2P Require Import Prelude JsValue.
From Stdlib Require Import QArith Qround Qabs Ascii.

Module Export JsNumber.
Local Set Warnings "-register-all".

Inductive jnum := NaN | PInf | NInf | Fin (q : Q).

(** ** Digits *)

Definition ascii_code (c : Ascii.ascii) : Z := Z.of_nat (Ascii.nat_of_ascii c).

(** The value of a digit of [base] 2, 8, 10 or 16. *)
Definition digit_value (base : Z) (c : Ascii.ascii) : option Z :=
  let n := ascii_code c in
  let d := if decide (48 <= n <= 57)%Z then Some (n - 48)%Z
           else if decide (97 <= n <= 102)%Z then Some (n - 87)%Z
           else if decide (65 <= n <= 70)%Z then Some (n - 55)%Z
           else None in
  match d with Some v => if decide (v < base)%Z then Some v else None | None => None end.

(** The longest prefix of digits: its value, its length and the rest. *)
Fixpoint span_digits (base : Z) (l : list Ascii.ascii) (acc : Z) (n : nat)
    : Z * nat * list Ascii.ascii :=
  match l with
  | c :: r =>
      match digit_value base c with
      | Some d => span_digits base r (acc * base + d)%Z (S n)
      | None => (acc, n, l)
      end
  | [] => (acc, n, [])
  end.

(** ** StringToNumber *)

(** The optional [ExponentPart] of a decimal literal and what follows it;
    [None] when an [e] is not followed by digits. *)
Definition parse_exponent (l : list Ascii.ascii) : option (Z * list Ascii.ascii) :=
  match l with
  | c :: r =>
      if decide (c = "e"%char \/ c = "E"%char) then
        let '(sgn, r1) := match r with
                          | "+"%char :: r' => (1%Z, r')
                          | "-"%char :: r' => ((-1)%Z, r')
                          | _ => (1%Z, r)
                          end in
        let '(e, ne, r2) := span_digits 10 r1 0 0 in
        if decide (ne = 0%nat) then None else Some ((sgn * e)%Z, r2)
      else Some (0%Z, l)
  | [] => Some (0%Z, [])
  end.

(** [StrUnsignedDecimalLiteral], which must be the whole (trimmed) string. *)
Definition parse_unsigned (l : list Ascii.ascii) : jnum :=
  if decide (l = String.list_ascii_of_string "Infinity") then PInf
  else
    let '(ip, ni, r1) := span_digits 10 l 0 0 in
    let '(fp, nf, r2) := match r1 with
                         | "."%char :: r => span_digits 10 r 0 0
                         | _ => (0%Z, 0%nat, r1)
                         end in
    if decide (ni = 0%nat /\ nf = 0%nat) then NaN
    else
      match parse_exponent r2 with
      | Some (e, []) =>
          Fin ((inject_Z (ip * 10 ^ Z.of_nat nf + fp) / inject_Z (10 ^ Z.of_nat nf))
               * Qpower (inject_Z 10) e)
      | _ => NaN
      end.

(** A [NonDecimalIntegerLiteral] after its prefix: at least one digit and
    nothing else. *)
Definition parse_radix (base : Z) (l : list Ascii.ascii) : jnum :=
  match span_digits base l 0 0 with
  | (v, S _, []) => Fin (inject_Z v)
  | _ => NaN
  end.

Definition jneg (x : jnum) : jnum :=
  match x with NaN => NaN | PInf => NInf | NInf => PInf | Fin q => Fin (- q) end.

Definition trim_list (l : list Ascii.ascii) : list Ascii.ascii := trim_bytes l.

Definition string_to_number (s : string) : jnum :=
  match trim_list (String.list_ascii_of_string s) with
  | [] => Fin 0
  | "0"%char :: c :: r =>
      if decide (c = "x"%char \/ c = "X"%char) then parse_radix 16 r
      else if decide (c = "o"%char \/ c = "O"%char) then parse_radix 8 r
      else if decide (c = "b"%char \/ c = "B"%char) then parse_radix 2 r
      else parse_unsigned ("0"%char :: c :: r)
  | "+"%char :: r => parse_unsigned r
  | "-"%char :: r => jneg (parse_unsigned r)
  | l => parse_unsigned l
  end.

(** ** Number::toString *)

Definition digits_of (z : Z) : list Ascii.ascii := String.list_ascii_of_string (pretty (Z.to_N z)).

(** [a / b * 10^j] for the least [j] (up to [fuel]) that makes it whole. *)
Fixpoint dec_scale (fuel : nat) (a b : Z) (j : nat) : Z * nat :=
  if decide ((a * 10 ^ Z.of_nat j) mod b = 0)%Z then ((a * 10 ^ Z.of_nat j) / b, j)%Z
  else match fuel with
       | O => ((a * 10 ^ Z.of_nat j) / b, j)%Z
       | S f => dec_scale f a b (S j)
       end.

(** [s * 10^t] with the trailing zeros of [s] moved into [t]. *)
Fixpoint strip_zeros (fuel : nat) (s t : Z) : Z * Z :=
  match fuel with
  | O => (s, t)
  | S f => if decide (s mod 10 = 0)%Z then strip_zeros f (s / 10) (t + 1) else (s, t)
  end.

(** The digits [d1...dk] and the exponent [n] of a positive rational
    [0.d1...dk * 10^n], [dk] not zero (step 5 of Number::toString).
    Rationals without a finite decimal expansion, which no JSON literal
    denotes, are cut after [log2] of their denominator digits. *)
Definition decimal_form (q : Q) : list Ascii.ascii * Z :=
  let r := Qred q in
  let b := Zpos (Qden r) in
  let '(s, j) := dec_scale (Z.to_nat (Z.log2 b)) (Qnum r) b 0 in
  let '(s', t) := strip_zeros (length (digits_of s)) s (- Z.of_nat j) in
  let ds := digits_of s' in
  (ds, Z.of_nat (length ds) + t)%Z.

Definition zeros (n : Z) : list Ascii.ascii := repeat "0"%char (Z.to_nat n).

Definition format_positive (q : Q) : list Ascii.ascii :=
  let '(ds, n) := decimal_form q in
  let k := Z.of_nat (length ds) in
  if decide (k <= n <= 21)%Z then ds ++ zeros (n - k)
  else if decide (0 < n <= 21)%Z then
    take (Z.to_nat n) ds ++ ["."%char] ++ drop (Z.to_nat n) ds
  else if decide (-6 < n <= 0)%Z then ["0"%char; "."%char] ++ zeros (- n) ++ ds
  else
    let e := (n - 1)%Z in
    let mant := match ds with
                | [d] => [d]
                | d :: rest => d :: "."%char :: rest
                | [] => []
                end in
    mant ++ ["e"%char; if decide (0 <= e)%Z then "+"%char else "-"%char] ++ digits_of (Z.abs e).

(** Number::toString(x) for a finite [x]. *)
Definition num_to_string (q : Q) : string :=
  if Qeq_bool q 0 then "0"
  else if Qle_bool 0 q then String.string_of_list_ascii (format_positive q)
  else String.string_of_list_ascii ("-"%char :: format_positive (- q)).

Definition jnum_to_string (x : jnum) : string :=
  match x with
  | NaN => "NaN"
  | PInf => "Infinity"
  | NInf => "-Infinity"
  | Fin q => num_to_string q
  end.

(** ToString on JSON values: arrays are joined with commas, [null]
    elements giving the empty string. *)
Fixpoint to_string (v : jval) : string :=
  match v with
  | JNull => "null"
  | JBool b => if b then "true" else "false"
  | JNum q => num_to_string q
  | JStr s => s
  | JArr l =>
      String.concat ","
        ((fix go (l : list jval) : list string :=
            match l with
            | [] => []
            | JNull :: r => "" :: go r
            | x :: r => to_string x :: go r
            end) l)
  | JObj _ => "[object Object]"
  end.

(** ToNumber of a value that may be [undefined]. *)
Definition to_number (v : option jval) : jnum :=
  match v with
  | None => NaN
  | Some JNull => Fin 0
  | Some (JBool b) => Fin (if b then 1 else 0)
  | Some (JNum q) => Fin q
  | Some (JStr s) => string_to_number s
  | Some x => string_to_number (to_string x)
  end.

(** ** toFixed *)

(** [x.toFixed(f)] for [0 <= x < 10^21]: the integer [n] nearest to
    [x * 10^f], the larger one on a tie, with a point before its last [f]
    digits. *)
Definition fixed_positive (f : nat) (x : Q) : list Ascii.ascii :=
  let n := Qfloor (x * inject_Z (10 ^ Z.of_nat f) + (1 # 2)) in
  let m := if decide (n = 0)%Z then ["0"%char] else digits_of n in
  if decide (f = 0%nat) then m
  else
    let m' := if decide (length m <= f)%nat then repeat "0"%char (f + 1 - length m) ++ m else m in
    take (length m' - f) m' ++ ["."%char] ++ drop (length m' - f) m'.

Definition to_fixed (f : nat) (x : jnum) : string :=
  match x with
  | NaN => "NaN"
  | PInf => "Infinity"
  | NInf => "-Infinity"
  | Fin q =>
      if Qle_bool (inject_Z (10 ^ 21)) (Qabs q) then num_to_string q
      else if Qle_bool 0 q then String.string_of_list_ascii (fixed_positive f q)
      else String.string_of_list_ascii ("-"%char :: fixed_positive f (- q))
  end.

(** ** Arithmetic and comparison *)

Definition jadd (x y : jnum) : jnum :=
  match x, y with
  | NaN, _ | _, NaN => NaN
  | PInf, NInf | NInf, PInf => NaN
  | PInf, _ | _, PInf => PInf
  | NInf, _ | _, NInf => NInf
  | Fin a, Fin b => Fin (a + b)
  end.

Definition jsign (q : Q) : Z := if Qeq_bool q 0 then 0 else if Qle_bool 0 q then 1 else -1.

Definition inf_of_sign (s : Z) : jnum := if decide (0 < s)%Z then PInf else NInf.

Definition jmul (x y : jnum) : jnum :=
  match x, y with
  | NaN, _ | _, NaN => NaN
  | Fin a, Fin b => Fin (a * b)
  | Fin a, PInf | PInf, Fin a => if decide (jsign a = 0)%Z then NaN else inf_of_sign (jsign a)
  | Fin a, NInf | NInf, Fin a => if decide (jsign a = 0)%Z then NaN else inf_of_sign (- jsign a)
  | PInf, PInf | NInf, NInf => PInf
  | PInf, NInf | NInf, PInf => NInf
  end.

Definition jdiv (x y : jnum) : jnum :=
  match x, y with
  | NaN, _ | _, NaN => NaN
  | (PInf | NInf), (PInf | NInf) => NaN
  | Fin _, (PInf | NInf) => Fin 0
  | PInf, Fin b => inf_of_sign (if decide (jsign b = -1)%Z then -1 else 1)
  | NInf, Fin b => inf_of_sign (if decide (jsign b = -1)%Z then 1 else -1)
  | Fin a, Fin b =>
      if decide (jsign b = 0)%Z then
        (if decide (jsign a = 0)%Z then NaN else inf_of_sign (jsign a))
      else Fin (a / b)
  end.

(** [x < y]; any comparison with [NaN] is false. *)
Definition jlt (x y : jnum) : bool :=
  match x, y with
  | NaN, _ | _, NaN => false
  | Fin a, Fin b => negb (Qle_bool b a)
  | NInf, NInf | PInf, _ => false
  | NInf, _ => true
  | Fin _, PInf => true
  | Fin _, NInf => false
  end.

Definition jgt (x y : jnum) : bool := jlt y x.

(** ** JSX children *)

(** The text React renders for [{v}] in JSX: nothing for [null] and
    booleans, the number or string itself, the children of an array one
    after the other; a plain object is not a valid child and throws. *)
Fixpoint jsx_text (v : jval) : js_exn + string :=
  match v with
  | JNull | JBool _ => inr ""
  | JNum q => inr (num_to_string q)
  | JStr s => inr s
  | JArr l =>
      (fix go (l : list jval) : js_exn + string :=
         match l with
         | [] => inr ""
         | x :: r => match jsx_text x, go r with
                     | inr a, inr b => inr (a +:+ b)
                     | inl e, _ | _, inl e => inl e
                     end
         end) l
  | JObj _ => inl RenderError
  end.

(** ** Numeric equality *)

(** Two numbers are the same number ([SameValue] without signed zeros):
    the model's rationals are not reduced, so [Fin (1 # 2)] and
    [Fin (2 # 4)] are one number. *)
#[export] Instance jnum_equiv : Equiv jnum := fun x y =>
  match x, y with
  | NaN, NaN | PInf, PInf | NInf, NInf => True
  | Fin a, Fin b => a == b
  | _, _ => False
  end.

#[export] Instance jnum_equivalence : Equivalence (≡@{jnum}).
Proof.
  split.
  - intros []; done.
  - intros [] []; try done; apply Qeq_sym.
  - intros [] [] []; try done; apply Qeq_trans.
Qed.

#[export] Instance Fin_proper : Proper (Qeq ==> (≡)) Fin.
Proof. by intros a b H. Qed.

#[export] Instance Qle_bool_proper : Proper (Qeq ==> Qeq ==> eq) Qle_bool.
Proof.
  intros a a' Ha b b' Hb. apply eq_true_iff_eq. rewrite !Qle_bool_iff, Ha, Hb. done.
Qed.

#[export] Instance Qeq_bool_proper : Proper (Qeq ==> Qeq ==> eq) Qeq_bool.
Proof.
  intros a a' Ha b b' Hb. apply eq_true_iff_eq. rewrite !Qeq_bool_iff, Ha, Hb. done.
Qed.

(** The printed digits depend on the value only, through [Qred]. *)
#[export] Instance decimal_form_proper : Proper (Qeq ==> eq) decimal_form.
Proof. intros a b H. unfold decimal_form. by rewrite (Qred_complete a b H). Qed.

#[export] Instance format_positive_proper : Proper (Qeq ==> eq) format_positive.
Proof. intros a b H. unfold format_positive. by rewrite (decimal_form_proper _ _ H). Qed.

#[export] Instance num_to_string_proper : Proper (Qeq ==> eq) num_to_string.
Proof.
  intros a b H. unfold num_to_string.
  rewrite (Qeq_bool_proper a b H 0 0 (Qeq_refl 0)), (Qle_bool_proper 0 0 (Qeq_refl 0) a b H).
  by rewrite (format_positive_proper a b H), (format_positive_proper (- a) (- b) (Qopp_comp a b H)).
Qed.

#[export] Instance fixed_positive_proper f : Proper (Qeq ==> eq) (fixed_positive f).
Proof.
  intros a b H. unfold fixed_positive.
  rewrite (Qfloor_comp (a * inject_Z (10 ^ Z.of_nat f) + (1 # 2))
                       (b * inject_Z (10 ^ Z.of_nat f) + (1 # 2))); [done|].
  apply Qplus_comp; [apply Qmult_comp|]; [exact H|reflexivity|reflexivity].
Qed.

#[export] Instance to_fixed_proper f : Proper ((≡) ==> eq) (to_fixed f).
Proof.
  intros [] [] H; try done. simpl in H. unfold to_fixed.
  rewrite (Qle_bool_proper _ _ (Qeq_refl _) (Qabs q) (Qabs q0) (Qabs_wd _ _ H)),
    (Qle_bool_proper 0 0 (Qeq_refl 0) q q0 H), (num_to_string_proper q q0 H).
  by rewrite (fixed_positive_proper f q q0 H), (fixed_positive_proper f (- q) (- q0) (Qopp_comp q q0 H)).
Qed.

#[export] Instance jlt_proper : Proper ((≡) ==> (≡) ==> eq) jlt.
Proof.
  intros [] [] Hx [] [] Hy; try done. simpl in *. by rewrite (Qle_bool_proper _ _ Hy _ _ Hx).
Qed.

End JsNumber.
