(* ===== verification/Endpoint.v ===== *)
(** * The API endpoint of the components

    Three components compute the base URL of the backend with the same
    two lines (ChatInterface in src/code/Floatchat/components/Footer.tsx,
    lines 299-300; MapVisualization in src/unnamed/part_003, lines 29-30;
    DataChart in src/code/Floatchat/components/DataChart.tsx, lines 23-24):
    [process.env.NEXT_PUBLIC_API_BASE_URL], else the page's protocol and
    host name with port 8000, else the empty string (a relative URL).
    This file holds that computation, the environment it reads,
    [encodeURIComponent] for the query strings, and how the receiving end
    reads a query string back ([search_param]: split at [&], first field
    of the key, percent-decoding), with the lemmas that decoding inverts
    the encoding and that an encoded value holds no [&]. *)

From S2P Require Import Prelude JsValue.
From Stdlib Require Import Ascii.

Module Export Endpoint.

(** [process.env.NEXT_PUBLIC_API_BASE_URL] and [window.location]'s
    protocol and host name ([None] on the server, where [window] is
    undefined). *)
Record Env := mkEnv {
  apiBaseUrl : option string;
  location : option (string * string)
}.

(** [a || d] on strings. *)
Definition str_or (a d : string) : string := if decide (a = ""%string) then d else a.

Definition runtimeBase (loc : option (string * string)) : string :=
  match loc with
  | Some (protocol, hostname) => protocol +:+ "//" +:+ hostname +:+ ":8000"
  | None => ""
  end.

Definition baseUrl (e : Env) : string :=
  str_or (str_or (default "" (apiBaseUrl e)) (runtimeBase (location e))) "".

(** [encodeURIComponent(s)] on the UTF-8 bytes of [s]: the unreserved
    characters [A-Z a-z 0-9 - _ . ! ~ * ' ( )] are kept, every other byte
    becomes [%XX] in upper-case hexadecimal. *)
Definition uri_unreserved (c : Ascii.ascii) : bool :=
  let n := Ascii.nat_of_ascii c in
  ((65 <=? n) && (n <=? 90)) || ((97 <=? n) && (n <=? 122)) || ((48 <=? n) && (n <=? 57)) ||
  bool_decide (n ∈ [45; 95; 46; 33; 126; 42; 39; 40; 41])%nat.

Definition hex_digit (n : nat) : Ascii.ascii :=
  Ascii.ascii_of_nat (if (n <? 10)%nat then 48 + n else 55 + n).

Definition encodeURIComponent (s : string) : string :=
  String.string_of_list_ascii
    (List.flat_map (fun c =>
       if uri_unreserved c then [c]
       else let n := Ascii.nat_of_ascii c in ["%"%char; hex_digit (n / 16); hex_digit (n mod 16)])
     (String.list_ascii_of_string s)).

(** How a [fetch] settles: a rejected promise, a response that is not
    [ok], or an [ok] response whose [res.json()] gives a value ([None] when
    it rejects). *)
Inductive Response :=
| NetworkError
| HttpError (status : Z)
| OkJson (data : option jval).

(** ** Reading a query string back *)

(** What the backend does with the query string of a request URL, as
    [URLSearchParams.get] and the usual server frameworks do it: the part
    after the first [?] is split at [&], the first field that starts with
    [key=] is taken, and its value is percent-decoded ([%XX] is the byte
    [XX], [+] is a space; a [%] without two hexadecimal digits fails). *)
Definition hex_value (c : Ascii.ascii) : option nat :=
  let n := Ascii.nat_of_ascii c in
  if (48 <=? n) && (n <=? 57) then Some (n - 48)
  else if (65 <=? n) && (n <=? 70) then Some (n - 55)
  else if (97 <=? n) && (n <=? 102) then Some (n - 87)
  else None.

Fixpoint percent_decode (l : list Ascii.ascii) : option (list Ascii.ascii) :=
  match l with
  | [] => Some []
  | c :: r =>
      if decide (c = "%"%char) then
        match r with
        | h1 :: h2 :: r' =>
            match hex_value h1, hex_value h2 with
            | Some a, Some b => cons (Ascii.ascii_of_nat (16 * a + b)) <$> percent_decode r'
            | _, _ => None
            end
        | _ => None
        end
      else if decide (c = "+"%char) then cons " "%char <$> percent_decode r
      else cons c <$> percent_decode r
  end.

(** The fields of [l] between the separators [d]. *)
Fixpoint split_on (d : Ascii.ascii) (l : list Ascii.ascii) : list (list Ascii.ascii) :=
  match l with
  | [] => [[]]
  | c :: r =>
      if decide (c = d) then [] :: split_on d r
      else match split_on d r with
           | f :: fs => (c :: f) :: fs
           | [] => [[c]]
           end
  end.

Fixpoint strip_prefix (p l : list Ascii.ascii) : option (list Ascii.ascii) :=
  match p, l with
  | [], _ => Some l
  | a :: p', b :: l' => if decide (a = b) then strip_prefix p' l' else None
  | _ :: _, [] => None
  end.

(** The part of a URL after its first [?]. *)
Fixpoint url_query (l : list Ascii.ascii) : list Ascii.ascii :=
  match l with
  | [] => []
  | c :: r => if decide (c = "?"%char) then r else url_query r
  end.

Definition search_param (key url : string) : option string :=
  let fields := split_on "&"%char (url_query (String.list_ascii_of_string url)) in
  let field_value f := strip_prefix (String.list_ascii_of_string key ++ ["="%char]) f in
  match omap field_value fields with
  | v :: _ => String.string_of_list_ascii <$> percent_decode v
  | [] => None
  end.

(** *** Lemmas *)

Lemma list_ascii_of_string_app s1 s2 :
  String.list_ascii_of_string (s1 +:+ s2) =
  String.list_ascii_of_string s1 ++ String.list_ascii_of_string s2.
Proof. induction s1 as [|c s1 IH]; simpl; [done|]. by rewrite IH. Qed.

Lemma hex_value_digit k : (k < 16)%nat -> hex_value (hex_digit k) = Some k.
Proof.
  intros Hk. assert (Hall : Forall (fun k => hex_value (hex_digit k) = Some k) (seq 0 16))
    by (apply (bool_decide_unpack _); vm_compute; reflexivity).
  rewrite Forall_forall in Hall. apply Hall, elem_of_seq. lia.
Qed.

(** The escape of one byte. *)
Definition encode_byte (c : Ascii.ascii) : list Ascii.ascii :=
  if uri_unreserved c then [c]
  else let n := Ascii.nat_of_ascii c in ["%"%char; hex_digit (n / 16); hex_digit (n mod 16)].

Lemma encodeURIComponent_bytes s :
  String.list_ascii_of_string (encodeURIComponent s) =
  List.flat_map encode_byte (String.list_ascii_of_string s).
Proof. apply String.list_ascii_of_string_of_list_ascii. Qed.

Lemma decode_encode_byte c r :
  percent_decode (encode_byte c ++ r) = cons c <$> percent_decode r.
Proof.
  unfold encode_byte. destruct (uri_unreserved c) eqn:Hu.
  - simpl. rewrite !decide_False by (intros ->; discriminate Hu). done.
  - pose proof (Ascii.nat_ascii_bounded c) as Hb. set (n := Ascii.nat_of_ascii c) in *.
    assert (H1 : hex_value (hex_digit (n / 16)) = Some (n / 16))
      by (apply hex_value_digit, Nat.Div0.div_lt_upper_bound; lia).
    assert (H2 : hex_value (hex_digit (n mod 16)) = Some (n mod 16))
      by (apply hex_value_digit, Nat.mod_upper_bound; lia).
    cbn -[Nat.div Nat.modulo hex_value hex_digit Nat.mul Nat.add]. rewrite H1, H2.
    rewrite <- (Nat.div_mod_eq n 16). subst n. by rewrite Ascii.ascii_nat_embedding.
Qed.

(** Percent-decoding inverts [encodeURIComponent]. *)
Lemma percent_decode_encode s :
  percent_decode (String.list_ascii_of_string (encodeURIComponent s)) =
  Some (String.list_ascii_of_string s).
Proof.
  rewrite encodeURIComponent_bytes. induction (String.list_ascii_of_string s) as [|c l IH]; [done|].
  cbn [List.flat_map]. by rewrite decode_encode_byte, IH.
Qed.

(** The escape of a byte has no [&]: an encoded value is one field. *)
Lemma encodeURIComponent_no_amp s :
  "&"%char ∉ String.list_ascii_of_string (encodeURIComponent s).
Proof.
  rewrite encodeURIComponent_bytes. induction (String.list_ascii_of_string s) as [|c l IH];
    [apply not_elem_of_nil|].
  cbn [List.flat_map]. rewrite elem_of_app. intros [Hc|Hl]; [|done].
  unfold encode_byte in Hc. destruct (uri_unreserved c) eqn:Hu.
  - apply list_elem_of_singleton in Hc as <-. discriminate Hu.
  - assert (Hhex : Forall (fun k => hex_digit k <> "&"%char) (seq 0 16))
      by (apply (bool_decide_unpack _); vm_compute; reflexivity).
    rewrite Forall_forall in Hhex. pose proof (Ascii.nat_ascii_bounded c) as Hb.
    rewrite !elem_of_cons, elem_of_nil in Hc.
    destruct Hc as [Hc|[Hc|[Hc|[]]]]; [discriminate Hc| |];
      (eapply Hhex; [apply elem_of_seq|symmetry; exact Hc]);
      [pose proof (Nat.Div0.div_lt_upper_bound (Ascii.nat_of_ascii c) 16 16)|
       pose proof (Nat.mod_upper_bound (Ascii.nat_of_ascii c) 16)]; lia.
Qed.

Lemma split_on_nodelim d a : d ∉ a -> split_on d a = [a].
Proof.
  induction a as [|c a IH]; intros Hd; [done|]. simpl.
  rewrite decide_False by (intros ->; apply Hd; left). rewrite IH; [done|]. set_solver.
Qed.

Lemma split_on_app d a b : d ∉ a -> split_on d (a ++ d :: b) = a :: split_on d b.
Proof.
  induction a as [|c a IH]; intros Hd; simpl; [by rewrite decide_True|].
  rewrite decide_False by (intros ->; apply Hd; left). rewrite IH; [done|]. set_solver.
Qed.

Lemma url_query_app a b : "?"%char ∉ a -> url_query (a ++ b) = url_query b.
Proof.
  induction a as [|c a IH]; intros Hq; simpl; [done|].
  rewrite decide_False by (intros ->; apply Hq; left). apply IH. set_solver.
Qed.

(** An encoded value reads back as itself. *)
Lemma decode_encodeURIComponent v :
  String.string_of_list_ascii <$> percent_decode (String.list_ascii_of_string (encodeURIComponent v)) =
  Some v.
Proof.
  rewrite percent_decode_encode. cbn [fmap option_fmap option_map]. f_equal.
  apply String.string_of_list_ascii_of_string.
Qed.

Lemma field_no_amp key v :
  "&"%char ∉ String.list_ascii_of_string key ->
  "&"%char ∉ String.list_ascii_of_string key ++ "="%char :: String.list_ascii_of_string (encodeURIComponent v).
Proof.
  intros Hk. rewrite elem_of_app, elem_of_cons.
  intros [H|[H|H]]; [done|discriminate H|by apply (encodeURIComponent_no_amp v)].
Qed.

End Endpoint.
