(* ===== verification/ExportTracker.v ===== *)
(** * The export job tracker: [DataExport] (components/DataExport.tsx)

    The component keeps seven [useState] cells (lines 44-50), collects an
    export request in a modal, prepends it to [exportRequests] in
    [handleExport] (lines 121-146) and advances it with the asynchronous
    loop of [simulateExport] (lines 148-179): eleven timer ticks of 500 ms
    that set the progress to 0, 10, ..., 100 with status [processing], then
    in the same continuation as the last tick the completion with a
    download URL and a random file size.

    The world of the component ([World]) holds the state of the mounted
    instance (the page mounts [DataExport] only while its tab is active,
    app/page.tsx line 92), the suspended [simulateExport] calls and the
    toasts shown.  A suspended call keeps running after its instance is
    unmounted, but its [setExportRequests] calls then change nothing
    (React drops updates to unmounted components); instances are told
    apart by a generation number.  [dispatch] handles one event of the
    browser: a click or selection the rendered DOM offers, or a timer. *)

From S2P Require Import Prelude JsValue.
From Stdlib Require Import QArith Qround Lqa.
Local Close Scope Q_scope.
Local Open Scope Z_scope.

Module ExportTracker.

(** ** Data (lines 20-41, 52-111) *)

Inductive ReqStatus := Pending | Processing | Completed | Failed.

#[export] Instance ReqStatus_eq_dec : EqDecision ReqStatus.
Proof. solve_decision. Defined.

Module Request.
(** [interface ExportRequest]; dates are milliseconds since the epoch,
    optional fields are [option]. *)
Record t := mk {
  id : string;
  format : string;
  parameters : list string;
  timeRange : string;
  region : string;
  status : ReqStatus;
  progress : Z;
  createdAt : Z;
  completedAt : option Z;
  downloadUrl : option string;
  fileSize : option Z
}.
End Request.

(** The option lists of the modal: the ids the buttons and selects offer. *)
Definition exportFormats : list string := ["csv"; "netcdf"; "json"; "excel"]%string.
Definition parameters : list string :=
  ["temperature"; "salinity"; "pressure"; "oxygen"; "ph"; "chlorophyll"]%string.
Definition timeRanges : list string := ["24h"; "7d"; "30d"; "90d"; "1y"; "custom"]%string.
Definition regions : list string := ["global"; "indian"; "pacific"; "atlantic"; "southern"]%string.

(** The [useState] cells of one mounted instance (lines 44-50). *)
Record State := mkState {
  isOpen : bool;
  selectedFormat : string;
  selectedParameters : list string;
  timeRange : string;
  region : string;
  exportRequests : list Request.t;
  isExporting : bool
}.

Definition initState : State :=
  mkState false "csv" ["temperature"; "salinity"] "7d" "global" [] false.

(** A suspended call [simulateExport(requestId)] of instance [task_gen],
    waiting on the timer of the loop iteration [task_progress]. *)
Record SimTask := mkTask {
  task_gen : nat;
  task_requestId : string;
  task_progress : Z
}.

(** The world: the mounted instance if any, its generation, the suspended
    [simulateExport] calls by call number, the next call number, and the
    toasts shown so far.  The page starts on its dashboard tab, so the
    component starts unmounted. *)
Record World := mkWorld {
  comp : option State;
  gen : nat;
  tasks : gmap nat SimTask;
  nextCall : nat;
  toasts : list toast
}.

Definition initWorld : World := mkWorld None 0 ∅ 0 [].

(** ** Operations *)

(** [handleParameterToggle] (lines 113-119). *)
Definition handleParameterToggle (parameterId : string) (prev : list string) : list string :=
  if decide (parameterId ∈ prev) then filter (fun p => p <> parameterId) prev
  else prev ++ [parameterId].

(** The record created by [handleExport] (lines 129-138); [Date.now()] and
    [new Date()] are read in the same synchronous block, both as [now]. *)
Definition newRequest (st : State) (now : Z) : Request.t :=
  Request.mk ("export_" +:+ pretty now) (selectedFormat st) (selectedParameters st)
    (timeRange st) (region st) Pending 0 now None None None.

(** [handleExport] (lines 121-146) on the state of the mounted instance:
    the guard on an empty selection, then [setIsExporting(true)], the
    prepended request, [setIsOpen(false)], the toast, and the first
    iteration of [simulateExport], which suspends on its first timer. *)
Definition handleExport (now : Z) (g : nat) (st : State)
    : State * list SimTask * list toast :=
  if decide (selectedParameters st = []) then
    (st, [], [ToastError (JStr "Please select at least one parameter")])
  else
    let req := newRequest st now in
    (mkState false (selectedFormat st) (selectedParameters st) (timeRange st)
       (region st) (req :: exportRequests st) true,
     [mkTask g (Request.id req) 0],
     [ToastSuccess (JStr "Export started")]).

(** The updater of lines 153-159 for one request. *)
Definition markProgress (requestId : string) (progress : Z) (req : Request.t) : Request.t :=
  if decide (Request.id req = requestId) then
    Request.mk (Request.id req) (Request.format req) (Request.parameters req)
      (Request.timeRange req) (Request.region req) Processing progress
      (Request.createdAt req) (Request.completedAt req) (Request.downloadUrl req)
      (Request.fileSize req)
  else req.

(** [Math.floor(Math.random() * 50000000) + 1000000] for a draw [rnd]. *)
Definition randomFileSize (rnd : Q) : Z := Qfloor (rnd * 50000000) + 1000000.

(** The updater of lines 163-176 for one request. *)
Definition markCompleted (requestId : string) (now : Z) (rnd : Q) (req : Request.t)
    : Request.t :=
  if decide (Request.id req = requestId) then
    Request.mk (Request.id req) (Request.format req) (Request.parameters req)
      (Request.timeRange req) (Request.region req) Completed 100
      (Request.createdAt req) (Some now) (Some "#"%string) (Some (randomFileSize rnd))
  else req.

(** What a continuation of [simulateExport] does when the timer of loop
    iteration [p] fires: the update of that iteration, then either the
    next suspension, on iteration [p + 10] ([simulateNext]), or, once the
    loop condition [p + 10 <= 100] fails, the completion.  The updates of
    one continuation are applied together, as React batches them into one
    render. *)
Definition simulateNext (p : Z) : option Z :=
  if decide (p + 10 <= 100) then Some (p + 10) else None.

Definition simulateUpdate (requestId : string) (p now : Z) (rnd : Q)
    (reqs : list Request.t) : list Request.t :=
  let reqs1 := map (markProgress requestId p) reqs in
  if decide (p + 10 <= 100) then reqs1 else map (markCompleted requestId now rnd) reqs1.

Definition setExportRequests (st : State) (reqs : list Request.t) : State :=
  mkState (isOpen st) (selectedFormat st) (selectedParameters st) (timeRange st)
    (region st) reqs (isExporting st).

(** A state update of the instance of generation [g]: a no-op unless that
    instance is the mounted one. *)
Definition updateInstance (g : nat) (f : State -> State) (w : World) : option State :=
  match comp w with
  | Some st => if decide (g = gen w) then Some (f st) else Some st
  | None => None
  end.

Definition setIsOpen (b : bool) (st : State) : State :=
  mkState b (selectedFormat st) (selectedParameters st) (timeRange st) (region st)
    (exportRequests st) (isExporting st).

Definition setSelectedFormat (f : string) (st : State) : State :=
  mkState (isOpen st) f (selectedParameters st) (timeRange st) (region st)
    (exportRequests st) (isExporting st).

Definition toggleSelected (p : string) (st : State) : State :=
  mkState (isOpen st) (selectedFormat st) (handleParameterToggle p (selectedParameters st))
    (timeRange st) (region st) (exportRequests st) (isExporting st).

Definition setTimeRange (t : string) (st : State) : State :=
  mkState (isOpen st) (selectedFormat st) (selectedParameters st) t (region st)
    (exportRequests st) (isExporting st).

Definition setRegion (r : string) (st : State) : State :=
  mkState (isOpen st) (selectedFormat st) (selectedParameters st) (timeRange st) r
    (exportRequests st) (isExporting st).

(** ** Events of the browser *)

Inductive Event :=
| Mount                                   (** the Export tab is selected *)
| Unmount                                 (** another tab is selected *)
| OpenModal                               (** "Export Data", line 211 *)
| CloseModal                              (** backdrop, X or Cancel, lines 292, 304, 411 *)
| SelectFormat (f : string)               (** line 321 *)
| ToggleParameter (p : string)            (** line 347 *)
| SetTimeRange (t : string)               (** line 369 *)
| SetRegion (r : string)                  (** line 384 *)
| ClickStartExport (now : Z)              (** line 417, at time [now] *)
| TimerFires (k : nat) (now : Z) (rnd : Q).
    (** the timer of suspended call [k] fires at [now]; [rnd] is the value
        [Math.random()] returns if the continuation calls it *)

(** The values the DOM can deliver: the ids of the rendered options, and
    draws of [Math.random()] in [0, 1). *)
Definition event_ok (e : Event) : bool :=
  match e with
  | SelectFormat f => bool_decide (f ∈ exportFormats)
  | ToggleParameter p => bool_decide (p ∈ parameters)
  | SetTimeRange t => bool_decide (t ∈ timeRanges)
  | SetRegion r => bool_decide (r ∈ regions)
  | TimerFires _ _ rnd => Qle_bool 0 rnd && negb (Qle_bool 1 rnd)
  | _ => true
  end.

(** The Start Export button (lines 416-419) is rendered only in the open
    modal and is [disabled={isExporting || selectedParameters.length === 0}]:
    a disabled button delivers no click. *)
Definition startExportEnabled (st : State) : bool :=
  isOpen st && negb (isExporting st || bool_decide (length (selectedParameters st) = 0%nat)).

Definition withComp (c : option State) (w : World) : World :=
  mkWorld c (gen w) (tasks w) (nextCall w) (toasts w).

(** An event of a control inside the modal (rendered only while [isOpen]). *)
Definition inModal (f : State -> State) (w : World) : World :=
  match comp w with
  | Some st => if isOpen st then withComp (Some (f st)) w else w
  | None => w
  end.

(** The continuation of suspended call [k] when its timer fires. *)
Definition fireTimer (k : nat) (now : Z) (rnd : Q) (w : World) : World :=
  match tasks w !! k with
  | None => w
  | Some t =>
      let c := updateInstance (task_gen t)
                 (fun st => setExportRequests st
                    (simulateUpdate (task_requestId t) (task_progress t) now rnd
                       (exportRequests st))) w in
      match simulateNext (task_progress t) with
      | Some p' =>
          mkWorld c (gen w) (<[k := mkTask (task_gen t) (task_requestId t) p']> (tasks w))
            (nextCall w) (toasts w)
      | None =>
          mkWorld c (gen w) (delete k (tasks w)) (nextCall w)
            (toasts w ++ [ToastSuccess (JStr "Export completed!")])
      end
  end.

Definition dispatch (e : Event) (w : World) : World :=
  match e with
  | Mount =>
      match comp w with
      | None => mkWorld (Some initState) (S (gen w)) (tasks w) (nextCall w) (toasts w)
      | Some _ => w
      end
  | Unmount => withComp None w
  | OpenModal =>
      match comp w with
      | Some st => withComp (Some (setIsOpen true st)) w
      | None => w
      end
  | CloseModal => inModal (setIsOpen false) w
  | SelectFormat f => inModal (setSelectedFormat f) w
  | ToggleParameter p => inModal (toggleSelected p) w
  | SetTimeRange t => inModal (setTimeRange t) w
  | SetRegion r => inModal (setRegion r) w
  | ClickStartExport now =>
      match comp w with
      | Some st =>
          if startExportEnabled st then
            let '(st', ts, out) := handleExport now (gen w) st in
            mkWorld (Some st') (gen w)
              (foldr (fun t m => <[nextCall w := t]> m) (tasks w) ts)
              (nextCall w + length ts) (toasts w ++ out)
          else w
      | None => w
      end
  | TimerFires k now rnd => fireTimer k now rnd w
  end.

Inductive step : World -> World -> Prop :=
| step_event e w : event_ok e = true -> step w (dispatch e w).

Definition reachable (w : World) : Prop := star step initWorld w.

Definition run (es : list Event) (w : World) : World := foldl (fun w e => dispatch e w) w es.

(** ** Scenarios *)

(** The instance state of a world, and the first request of a state. *)
Definition compOf (w : World) : State := default initState (comp w).
Definition firstReq (st : State) : Request.t :=
  default (newRequest initState 0) (head (exportRequests st)).

(** The scenario of the documentation: the Export tab is selected, the
    modal opened and the default CSV export of temperature and salinity
    over 7 days of the global region started at t = 1000 ms. *)
Definition demoEvents : list Event := [Mount; OpenModal; ClickStartExport 1000].
Definition demoWorld : World := run demoEvents initWorld.

(** The same world after the eleven ticks of [simulateExport]. *)
Definition demoDoneWorld : World :=
  run (repeat (TimerFires 0 6500 (1#2)%Q) 11) demoWorld.

(** An instance whose selection was emptied by toggling both defaults. *)
Definition emptySelectionWorld : World :=
  run [Mount; OpenModal; ToggleParameter "temperature"; ToggleParameter "salinity"] initWorld.

(** ** The abstract job lifecycle *)

(** What a job promises (the state machine of the tracker's contract):
    [Pending] until its first tick, then [Processing] with a progress that
    only grows up to 100, then [Completed]; [Failed] may end any
    unfinished job.  Terminal phases have no successor. *)
Inductive JobPhase := JPending | JProcessing (p : Z) | JCompleted | JFailed.

Inductive job_step : JobPhase -> JobPhase -> Prop :=
| job_start : job_step JPending (JProcessing 0)
| job_advance p p' : 0 <= p < p' -> p' <= 100 -> job_step (JProcessing p) (JProcessing p')
| job_complete p : job_step (JProcessing p) JCompleted
| job_fail_pending : job_step JPending JFailed
| job_fail p : job_step (JProcessing p) JFailed.

Definition phase (r : Request.t) : JobPhase :=
  match Request.status r with
  | Pending => JPending
  | Processing => JProcessing (Request.progress r)
  | Completed => JCompleted
  | Failed => JFailed
  end.

(** ** The invariant *)

Definition detailsUnset (r : Request.t) : Prop :=
  Request.completedAt r = None /\ Request.downloadUrl r = None /\ Request.fileSize r = None.

(** The shape of a request in each status. *)
Definition wfRequest (r : Request.t) : Prop :=
  match Request.status r with
  | Pending => Request.progress r = 0 /\ detailsUnset r
  | Processing =>
      0 <= Request.progress r <= 90 /\ Request.progress r mod 10 = 0 /\ detailsUnset r
  | Completed =>
      Request.progress r = 100 /\ is_Some (Request.completedAt r) /\
      Request.downloadUrl r = Some "#"%string /\
      match Request.fileSize r with Some n => 1000000 <= n < 51000000 | None => False end
  | Failed => False
  end.

(** A suspended call and the request it drives: the call waits on the
    iteration after the progress the request shows. *)
Definition coupled (t : SimTask) (r : Request.t) : Prop :=
  task_requestId t = Request.id r /\
  (task_progress t = 0 /\ Request.status r = Pending \/
   Request.status r = Processing /\ task_progress t = Request.progress r + 10).

(** A suspended call of the mounted generation. *)
Definition current (w : World) (k : nat) (t : SimTask) : Prop :=
  tasks w !! k = Some t /\ task_gen t = gen w.

(** The invariant of a mounted instance: no request and no call of its
    own, or exactly one well-formed request, driven by exactly one call
    until it is completed. *)
Definition instInv (w : World) (st : State) : Prop :=
  match exportRequests st with
  | [] => isExporting st = false /\ forall k t, ~ current w k t
  | [r] =>
      isExporting st = true /\ wfRequest r /\
      (forall k t, current w k t -> coupled t r /\ forall k' t', current w k' t' -> k' = k) /\
      (Request.status r <> Completed -> exists k t, current w k t)
  | _ => False
  end.

Definition worldInv (w : World) : Prop :=
  (forall k t, tasks w !! k = Some t -> (task_gen t <= gen w)%nat /\ (k < nextCall w)%nat) /\
  (forall st, comp w = Some st -> instInv w st).

(** ** Lemmas on the operations *)

Lemma randomFileSize_bounds rnd :
  (0 <= rnd)%Q -> (rnd < 1)%Q -> 1000000 <= randomFileSize rnd < 51000000.
Proof.
  intros H0 H1. unfold randomFileSize. pose proof (Qfloor_draw_bounds rnd 50000000 H0 H1) as Hb.
  change (inject_Z 50000000) with 50000000%Q in Hb. lia.
Qed.

Lemma event_ok_rnd k now rnd :
  event_ok (TimerFires k now rnd) = true -> (0 <= rnd)%Q /\ (rnd < 1)%Q.
Proof.
  simpl. intros [Ha Hb]%andb_prop. apply negb_true_iff in Hb.
  split; [by apply Qle_bool_imp_le|].
  apply Qnot_le_lt. intros Hle%Qle_bool_iff. congruence.
Qed.

Lemma markProgress_id rid p r : Request.id (markProgress rid p r) = Request.id r.
Proof. unfold markProgress. by repeat case_decide. Qed.

Lemma markProgress_other rid p r : Request.id r <> rid -> markProgress rid p r = r.
Proof. unfold markProgress. by repeat case_decide. Qed.

Lemma markCompleted_other rid now rnd r : Request.id r <> rid -> markCompleted rid now rnd r = r.
Proof. unfold markCompleted. by repeat case_decide. Qed.

#[export] Hint Rewrite markProgress_id : fc_rw.

(** ** Preservation of the invariant, event by event *)

(** [instInv] reads the world only through its current calls. *)
Lemma instInv_transfer w w' st st' :
  (forall k t, current w' k t <-> current w k t) ->
  exportRequests st' = exportRequests st -> isExporting st' = isExporting st ->
  instInv w st -> instInv w' st'.
Proof.
  intros Hcur Hreq Hexp. unfold instInv. rewrite Hreq, Hexp.
  destruct (exportRequests st) as [|r [|]]; [| |done]; by setoid_rewrite Hcur.
Qed.

(** Changing the entry of a call that is not current changes no current call. *)
Lemma current_frame w w' k t0 :
  gen w' = gen w -> tasks w !! k = Some t0 -> task_gen t0 <> gen w ->
  (tasks w' = delete k (tasks w) \/
   exists t1, task_gen t1 = task_gen t0 /\ tasks w' = <[k := t1]> (tasks w)) ->
  forall k' t', current w' k' t' <-> current w k' t'.
Proof.
  unfold current. intros Hg Hk Hn Htasks k' t'. rewrite Hg.
  destruct Htasks as [-> | (t1 & Ht1 & ->)].
  - rewrite lookup_delete. case_decide; [subst|done].
    rewrite Hk. split; [by intros [? _]|intros [[= <-] ?]; congruence].
  - rewrite lookup_insert. case_decide; [subst|done].
    rewrite Hk. split; intros [[= <-] ?]; congruence.
Qed.

Lemma instInv_nonempty w st k t :
  instInv w st -> current w k t -> exists r, exportRequests st = [r].
Proof.
  unfold instInv. destruct (exportRequests st) as [|r [|]]; naive_solver.
Qed.

(** Events inside the modal touch neither the requests nor [isExporting]. *)
Lemma inModal_inv f w :
  (forall st, exportRequests (f st) = exportRequests st /\ isExporting (f st) = isExporting st) ->
  worldInv w -> worldInv (inModal f w).
Proof.
  intros Hf Hinv. unfold inModal.
  destruct (comp w) as [st|] eqn:Hcomp; [|done].
  destruct (isOpen st); [|done]. destruct Hinv as [Hg Hc]. split; [done|].
  simpl. intros st' [= <-]. destruct (Hf st) as [H1 H2].
  eapply instInv_transfer; [done|done|done|]. by apply Hc.
Qed.

(** One tick of a call that has a successor iteration. *)
Lemma tick_progress_wf t r :
  coupled t r -> wfRequest r -> task_progress t + 10 <= 100 ->
  let r' := markProgress (task_requestId t) (task_progress t) r in
  wfRequest r' /\ Request.status r' = Processing /\ Request.id r' = Request.id r /\
  Request.progress r' = task_progress t.
Proof.
  intros [Hid Hc] Hwf Hp. unfold markProgress. rewrite decide_True by done.
  unfold wfRequest, detailsUnset in *; simpl.
  destruct Hc as [[Hpt Hst] | [Hst Hpt]]; rewrite Hpt in *; rewrite Hst in Hwf.
  - destruct Hwf as (_ & Hd). repeat split; try lia; tauto.
  - destruct Hwf as (Hb & Hm & Hd). repeat split; try lia; try tauto.
    rewrite Z.add_mod by lia. rewrite Hm. reflexivity.
Qed.

(** The last tick: the iteration of progress 100 and the completion. *)
Lemma tick_complete_wf t r now rnd :
  coupled t r -> wfRequest r -> ~ task_progress t + 10 <= 100 ->
  (0 <= rnd)%Q -> (rnd < 1)%Q ->
  let r' := markCompleted (task_requestId t) now rnd
              (markProgress (task_requestId t) (task_progress t) r) in
  wfRequest r' /\ Request.status r' = Completed /\ Request.id r' = Request.id r.
Proof.
  intros [Hid Hc] Hwf Hp H0 H1. unfold markProgress. rewrite decide_True by done.
  unfold markCompleted. simpl. rewrite decide_True by done. unfold wfRequest; simpl.
  pose proof (randomFileSize_bounds rnd H0 H1). repeat split; try done; lia.
Qed.

Lemma updateInstance_other g f w : g <> gen w -> updateInstance g f w = comp w.
Proof. intros Hg. unfold updateInstance. destruct (comp w); [|done]. by rewrite decide_False. Qed.

Lemma updateInstance_cur g f w st :
  g = gen w -> comp w = Some st -> updateInstance g f w = Some (f st).
Proof. intros -> Hc. unfold updateInstance. rewrite Hc. by rewrite decide_True. Qed.

Lemma updateInstance_none g f w : comp w = None -> updateInstance g f w = None.
Proof. intros Hc. unfold updateInstance. by rewrite Hc. Qed.

(** The bookkeeping part of the invariant survives re-arming or
    retiring the call [k]. *)
Lemma tasks_bound_change w k t m :
  worldInv w -> tasks w !! k = Some t ->
  (m = delete k (tasks w) \/ exists p', m = <[k := mkTask (task_gen t) (task_requestId t) p']> (tasks w)) ->
  forall k' t', m !! k' = Some t' -> (task_gen t' <= gen w)%nat /\ (k' < nextCall w)%nat.
Proof.
  intros [Hg _] Ht [-> | [p' ->]] k' t'.
  - rewrite lookup_delete_Some. intros [_ H]. eauto.
  - rewrite lookup_insert. case_decide; [|eauto]. subst. intros [= <-]. simpl. eauto.
Qed.

Lemma fireTimer_other_inv k now rnd w t :
  worldInv w -> tasks w !! k = Some t -> task_gen t <> gen w ->
  worldInv (fireTimer k now rnd w).
Proof.
  intros Hinv Ht Hn. unfold fireTimer. rewrite Ht, updateInstance_other by done.
  pose proof Hinv as [Hg Hc].
  destruct (simulateNext (task_progress t)) as [p'|]; split; simpl.
  1, 3: eapply tasks_bound_change; [done|done|eauto].
  all: intros st Hst; eapply instInv_transfer; [|done|done|by apply Hc].
  - eapply current_frame; [done|done|done|simpl]. right. exists (mkTask (task_gen t) (task_requestId t) p'). done.
  - eapply current_frame; [done|done|done|simpl]. by left.
Qed.

Lemma fireTimer_current_inv k now rnd w t :
  (0 <= rnd)%Q -> (rnd < 1)%Q ->
  worldInv w -> tasks w !! k = Some t -> task_gen t = gen w ->
  worldInv (fireTimer k now rnd w).
Proof.
  intros H0 H1 Hinv Ht Hcur. pose proof Hinv as [Hg Hc].
  assert (Hcw : current w k t) by done.
  unfold fireTimer. rewrite Ht.
  destruct (comp w) as [st|] eqn:Hcomp.
  2: { rewrite updateInstance_none by done.
       destruct (simulateNext _) as [p'|]; split; simpl; try by intros ? ?.
       all: eapply tasks_bound_change; [done|done|eauto]. }
  rewrite (updateInstance_cur _ _ _ st) by done.
  pose proof (Hc st eq_refl) as Hst.
  destruct (instInv_nonempty w st k t Hst Hcw) as [r Hreqs].
  unfold instInv in Hst. rewrite Hreqs in Hst.
  destruct Hst as (Hexp & Hwf & Hcpl & _).
  destruct (Hcpl k t Hcw) as [Hct Huniq].
  unfold simulateNext, simulateUpdate. rewrite Hreqs. simpl.
  destruct (decide (task_progress t + 10 <= 100)) as [Hp|Hp].
  - destruct (tick_progress_wf t r Hct Hwf Hp) as (Hwf' & Hs' & Hid' & Hpr').
    split; [simpl; eapply tasks_bound_change; eauto|].
    intros st' [= <-]. unfold instInv; simpl. split_and!; [done|done| |].
    + intros k' t' [Hk' Hg']. simpl in Hk'. rewrite lookup_insert in Hk'.
      case_decide as Hkk; [subst k'; injection Hk' as <-; split|].
      * destruct Hct as [Hid _]. split; [simpl; congruence|right; simpl; split; [done|lia]].
      * intros k'' t'' [Hk'' Hg'']. simpl in Hk''. rewrite lookup_insert in Hk''.
        case_decide; [done|]. by apply (Huniq k'' t'').
      * exfalso. apply Hkk. symmetry. by apply (Huniq k' t').
    + intros _. eexists k, _. split; [simpl; apply lookup_insert_eq|done].
  - destruct (tick_complete_wf t r now rnd Hct Hwf Hp H0 H1) as (Hwf' & Hs' & Hid').
    split; [simpl; eapply tasks_bound_change; eauto|].
    intros st' [= <-]. unfold instInv; simpl. split_and!; [done|done| |done].
    intros k' t' [Hk' Hg']. simpl in Hk'. apply lookup_delete_Some in Hk' as [Hkk Hk'].
    exfalso. apply Hkk. symmetry. by apply (Huniq k' t').
Qed.

Lemma fireTimer_inv k now rnd w :
  (0 <= rnd)%Q -> (rnd < 1)%Q -> worldInv w -> worldInv (fireTimer k now rnd w).
Proof.
  intros H0 H1 Hinv. destruct (tasks w !! k) as [t|] eqn:Ht.
  - destruct (decide (task_gen t = gen w)).
    + by eapply fireTimer_current_inv.
    + by eapply fireTimer_other_inv.
  - unfold fireTimer. by rewrite Ht.
Qed.

(** An enabled Start Export button implies an instance with no request:
    [isExporting] is [false] only before the first export. *)
Lemma startExport_inv now w : worldInv w -> worldInv (dispatch (ClickStartExport now) w).
Proof.
  intros Hinv. simpl. destruct (comp w) as [st|] eqn:Hcomp; [|done].
  destruct (startExportEnabled st) eqn:Hen; [|done].
  destruct Hinv as [Hg Hc]. pose proof (Hc st Hcomp) as Hst.
  unfold startExportEnabled in Hen.
  apply andb_prop in Hen as [_ Hen]. apply negb_true_iff, orb_false_iff in Hen as [Hexp Hlen].
  assert (exportRequests st = [] /\ forall k t, ~ current w k t) as [Hreqs Hnone].
  { unfold instInv in Hst. destruct (exportRequests st) as [|r [|]]; [split; [done|apply Hst]| |done].
    destruct Hst as [H _]. congruence. }
  unfold handleExport. rewrite decide_False.
  2: { intros Hp. rewrite Hp in Hlen. done. }
  simpl. split.
  - intros k t. simpl. rewrite lookup_insert.
    destruct (decide (nextCall w = k)) as [<-|Hne]; [intros [= <-]; simpl; lia|].
    intros Ht. destruct (Hg k t Ht). lia.
  - simpl. intros st' [= <-]. unfold instInv; simpl. rewrite Hreqs.
    split_and!; [done|unfold wfRequest, detailsUnset; simpl; auto| |].
    + intros k t [Hk Hgen]. simpl in Hk. rewrite lookup_insert in Hk.
      case_decide as Hkk; [injection Hk as <-|by destruct (Hnone k t)].
      split; [split; [done|by left]|].
      intros k' t' [Hk' Hg']. simpl in Hk'. rewrite lookup_insert in Hk'.
      case_decide; [congruence|by destruct (Hnone k' t')].
    + intros _. eexists _, _. split; [simpl; apply lookup_insert_eq|done].
Qed.

Lemma dispatch_inv e w : event_ok e = true -> worldInv w -> worldInv (dispatch e w).
Proof.
  intros Hok Hinv. destruct e; simpl.
  - destruct (comp w) eqn:Hcomp; [done|]. destruct Hinv as [Hg _]. split; simpl.
    + intros k t Ht. destruct (Hg k t Ht). lia.
    + intros st [= <-]. unfold instInv; simpl. split; [done|].
      intros k t [Ht Hgen]. destruct (Hg k t Ht). simpl in Hgen. lia.
  - destruct Hinv as [Hg _]. by split.
  - destruct (comp w) as [st|] eqn:Hcomp; [|done]. destruct Hinv as [Hg Hc].
    split; [done|]. intros st' [= <-]. by apply (instInv_transfer w w st); [| | |apply Hc].
  - apply inModal_inv; [done|done].
  - apply inModal_inv; [done|done].
  - apply inModal_inv; [done|done].
  - apply inModal_inv; [done|done].
  - apply inModal_inv; [done|done].
  - by apply (startExport_inv now).
  - apply event_ok_rnd in Hok as [H0 H1]. by apply fireTimer_inv.
Qed.

Lemma initWorld_inv : worldInv initWorld.
Proof. split; [intros k t; simpl; by rewrite lookup_empty|done]. Qed.

Lemma reachable_inv w : reachable w -> worldInv w.
Proof.
  intros Hr. eapply (star_invariant step worldInv); [|exact Hr|apply initWorld_inv].
  intros a b [e ? Hok]. by apply dispatch_inv.
Qed.

(** ** Liveness of a started export *)

(** The continuation of the current call, computed. *)
Lemma fireTimer_current_eq w st r k t now rnd :
  comp w = Some st -> exportRequests st = [r] -> tasks w !! k = Some t ->
  task_gen t = gen w ->
  fireTimer k now rnd w =
    if decide (task_progress t + 10 <= 100) then
      mkWorld (Some (setExportRequests st
                       [markProgress (task_requestId t) (task_progress t) r]))
        (gen w) (<[k := mkTask (task_gen t) (task_requestId t) (task_progress t + 10)]> (tasks w))
        (nextCall w) (toasts w)
    else
      mkWorld (Some (setExportRequests st
                       [markCompleted (task_requestId t) now rnd
                          (markProgress (task_requestId t) (task_progress t) r)]))
        (gen w) (delete k (tasks w)) (nextCall w)
        (toasts w ++ [ToastSuccess (JStr "Export completed!")]).
Proof.
  intros Hc Hr Ht Hg. unfold fireTimer. rewrite Ht, (updateInstance_cur _ _ _ st) by done.
  unfold simulateNext, simulateUpdate. rewrite Hr. simpl. by destruct (decide _).
Qed.

(** The current call of a mounted instance with an unfinished request. *)
Lemma current_of_unfinished w st r :
  worldInv w -> comp w = Some st -> exportRequests st = [r] ->
  Request.status r <> Completed ->
  exists k t, current w k t /\ coupled t r /\ wfRequest r.
Proof.
  intros [_ Hc] Hcomp Hr Hs. specialize (Hc st Hcomp). unfold instInv in Hc.
  rewrite Hr in Hc. destruct Hc as (_ & Hwf & Hcpl & Hlive).
  destruct (Hlive Hs) as (k & t & Hkt). exists k, t. split_and!; [done| |done].
  by destruct (Hcpl k t Hkt).
Qed.

(** The iteration a current call waits on is a multiple of 10 in [0, 100]. *)
Lemma coupled_progress_bound t r :
  coupled t r -> wfRequest r -> 0 <= task_progress t <= 100 /\ task_progress t mod 10 = 0.
Proof.
  intros [_ [[-> _] | [Hs ->]]] Hwf; [done|].
  unfold wfRequest in Hwf. rewrite Hs in Hwf. destruct Hwf as (Hb & Hm & _).
  split; [lia|]. rewrite Z.add_mod, Hm by lia. done.
Qed.

Lemma instInv_single_wf w st r : instInv w st -> exportRequests st = [r] -> wfRequest r.
Proof. unfold instInv. intros H Hr. rewrite Hr in H. apply H. Qed.

(** [n] more firings of the current call complete the request, where [n]
    is the number of loop iterations left. *)
Lemma fire_until_completed n k now rnd :
  (0 <= rnd)%Q -> (rnd < 1)%Q ->
  forall w st r t, worldInv w -> comp w = Some st -> exportRequests st = [r] ->
  current w k t -> coupled t r -> Z.of_nat n * 10 + task_progress t = 110 ->
  exists st' r', comp (Nat.iter n (fireTimer k now rnd) w) = Some st' /\
    exportRequests st' = [r'] /\ Request.status r' = Completed /\ Request.id r' = Request.id r.
Proof.
  intros H0 H1. induction n as [|n IH]; intros w st r t Hinv Hc Hr [Ht Hg] Hcpl Hn.
  all: pose proof (instInv_single_wf w st r (proj2 Hinv st Hc) Hr) as Hwf.
  all: pose proof (coupled_progress_bound t r Hcpl Hwf) as Hb.
  { lia. }
  rewrite Nat.iter_succ_r.
  pose proof (fireTimer_inv k now rnd w H0 H1 Hinv) as Hinv'.
  rewrite (fireTimer_current_eq w st r k t now rnd) in Hinv' |- * by done.
  destruct (decide (task_progress t + 10 <= 100)) as [Hp|Hp].
  - pose proof (tick_progress_wf t r Hcpl Hwf Hp) as (_ & Hs' & Hid' & Hpr').
    edestruct (IH _ (setExportRequests st [markProgress (task_requestId t) (task_progress t) r])
                 (markProgress (task_requestId t) (task_progress t) r)
                 (mkTask (task_gen t) (task_requestId t) (task_progress t + 10)) Hinv')
      as (st' & r' & ? & ? & ? & ?); [done|done| | | |].
    + split; [apply lookup_insert_eq|done].
    + destruct Hcpl as [Hid _]. split; [cbn [task_requestId]; congruence|].
      right. split; [exact Hs'|cbn [task_progress]; lia].
    + cbn [task_progress]. lia.
    + exists st', r'. split_and!; [done|done|done|congruence].
  - assert (n = 0%nat) as -> by lia. simpl.
    destruct (tick_complete_wf t r now rnd Hcpl Hwf Hp H0 H1) as (_ & Hs' & Hid').
    by eexists _, _.
Qed.

Lemma run_cons e es w : run (e :: es) w = run es (dispatch e w).
Proof. done. Qed.

Lemma run_repeat_timer n k now rnd w :
  run (repeat (TimerFires k now rnd) n) w = Nat.iter n (fireTimer k now rnd) w.
Proof.
  revert w. induction n as [|n IH]; intros w; [done|].
  simpl repeat. rewrite run_cons, IH. by rewrite Nat.iter_succ_r.
Qed.

(** A sequence of events the DOM can deliver keeps a world reachable. *)
Lemma run_reachable es w :
  reachable w -> forallb event_ok es = true -> reachable (run es w).
Proof.
  revert w. induction es as [|e es IH]; intros w Hr Hok; [done|].
  simpl in Hok. apply andb_prop in Hok as [He Hes]. rewrite run_cons.
  apply IH; [|done]. eapply star_right; [exact Hr|]. by constructor.
Qed.

(** A mounted instance of a reachable world holds at most one request. *)
Lemma reachable_requests w st :
  reachable w -> comp w = Some st ->
  exportRequests st = [] \/ exists r, exportRequests st = [r] /\ wfRequest r.
Proof.
  intros Hr Hc. pose proof (proj2 (reachable_inv w Hr) st Hc) as Hst.
  unfold instInv in Hst. destruct (exportRequests st) as [|r [|]]; [by left| |done].
  right. exists r. split; [done|apply Hst].
Qed.

(** ** Lemmas for the refinement *)

Lemma inModal_comp f w st :
  comp w = Some st -> comp (inModal f w) = Some (if isOpen st then f st else st).
Proof. intros Hc. unfold inModal. rewrite Hc. destruct (isOpen st); simpl; congruence. Qed.

Lemma markProgress_createdAt rid p r : Request.createdAt (markProgress rid p r) = Request.createdAt r.
Proof. unfold markProgress. by repeat case_decide. Qed.

Lemma markCompleted_id rid now rnd r : Request.id (markCompleted rid now rnd r) = Request.id r.
Proof. unfold markCompleted. by repeat case_decide. Qed.

Lemma markCompleted_createdAt rid now rnd r :
  Request.createdAt (markCompleted rid now rnd r) = Request.createdAt r.
Proof. unfold markCompleted. by repeat case_decide. Qed.

#[export] Hint Rewrite markProgress_createdAt markCompleted_id markCompleted_createdAt : fc_rw.

Lemma markProgress_step t r :
  coupled t r -> wfRequest r -> task_progress t + 10 <= 100 ->
  job_step (phase r) (phase (markProgress (task_requestId t) (task_progress t) r)).
Proof.
  intros Hc Hwf Hp. pose proof (tick_progress_wf t r Hc Hwf Hp) as (_ & Hs' & _ & Hpr').
  unfold phase at 2. rewrite Hs', Hpr'.
  destruct Hc as [_ [[-> Hs] | [Hs ->]]]; unfold phase; rewrite Hs; [constructor|].
  unfold wfRequest in Hwf. rewrite Hs in Hwf. constructor; lia.
Qed.

Lemma markCompleted_step t r now rnd :
  coupled t r -> ~ task_progress t + 10 <= 100 ->
  job_step (phase r)
    (phase (markCompleted (task_requestId t) now rnd
              (markProgress (task_requestId t) (task_progress t) r))).
Proof.
  intros [Hid [[Hp _] | [Hs _]]] Hlt; [lia|].
  unfold markProgress. rewrite decide_True by done. unfold markCompleted; simpl.
  rewrite decide_True by done. unfold phase at 1. rewrite Hs. constructor.
Qed.

(** The refinement obligation for a step that leaves the list alone. *)
Lemma refines_unchanged w st st' r' :
  instInv w st -> exportRequests st' = exportRequests st -> r' ∈ exportRequests st' ->
  (exists r, exportRequests st = [r] /\ Request.id r' = Request.id r /\
    Request.createdAt r' = Request.createdAt r /\
    (phase r' = phase r \/ job_step (phase r) (phase r'))) \/
  (exportRequests st = [] /\ phase r' = JPending).
Proof.
  intros Hst Heq Hin. rewrite Heq in Hin. unfold instInv in Hst.
  destruct (exportRequests st) as [|r [|]]; [set_solver| |done].
  apply list_elem_of_singleton in Hin as ->. left. exists r. auto.
Qed.

(** ** Properties of the component *)

(** C1. One export per mounted instance: in every reachable world the
    mounted [DataExport] holds at most one request, and once it holds one
    the Start Export button is disabled for good, because [handleExport]
    sets [isExporting] to [true] (line 127) and no code ever resets it. *)
Theorem reachable_single_export w st :
  reachable w -> comp w = Some st ->
  (length (exportRequests st) <= 1)%nat /\
  (exportRequests st <> [] -> startExportEnabled st = false).
Proof.
  intros Hr Hc. pose proof (proj2 (reachable_inv w Hr) st Hc) as Hst.
  unfold instInv, startExportEnabled in *.
  destruct (exportRequests st) as [|r [|]]; [split; [simpl; lia|done]| |done].
  destruct Hst as [-> _]. simpl. split; [lia|]. by rewrite andb_false_r.
Qed.

Lemma reachable_single_export_witness :
  exportRequests (compOf demoWorld) <> [] /\ startExportEnabled (compOf demoWorld) = false.
Proof.
  assert (Hne : exportRequests (compOf demoWorld) <> []) by (vm_compute; discriminate).
  split; [exact Hne|].
  apply (reachable_single_export demoWorld (compOf demoWorld));
    [apply run_reachable; [apply star_refl|vm_compute; reflexivity]
    |vm_compute; reflexivity|exact Hne].
Defined.


(** C2. Termination of [simulateExport]: for every request of a reachable
    world there is a suspended call [k] and a number [n <= 11] of firings
    of its timer after which, whatever the times and the random draw, the
    request is [completed] with progress 100 and a download URL. *)
Theorem export_completes w st r :
  reachable w -> comp w = Some st -> r ∈ exportRequests st ->
  exists k n, (n <= 11)%nat /\
    forall now rnd, (0 <= rnd)%Q -> (rnd < 1)%Q ->
    exists st' r', comp (run (repeat (TimerFires k now rnd) n) w) = Some st' /\
      exportRequests st' = [r'] /\ Request.id r' = Request.id r /\
      Request.status r' = Completed /\ Request.progress r' = 100 /\
      Request.downloadUrl r' = Some "#"%string.
Proof.
  intros Hr Hc Hin.
  destruct (reachable_requests w st Hr Hc) as [Hn|(r0 & Hr0 & Hwf)];
    [rewrite Hn in Hin; set_solver|].
  rewrite Hr0 in Hin. apply list_elem_of_singleton in Hin as <-.
  assert (Hdone : forall n k now rnd, (0 <= rnd)%Q -> (rnd < 1)%Q ->
            forall st' r', comp (run (repeat (TimerFires k now rnd) n) w) = Some st' ->
            exportRequests st' = [r'] -> Request.status r' = Completed ->
            Request.progress r' = 100 /\ Request.downloadUrl r' = Some "#"%string).
  { intros n k now rnd H0 H1 st' r' Hc' Hr' Hs'.
    assert (Hok : event_ok (TimerFires k now rnd) = true).
    { simpl. apply andb_true_intro. split; [by apply Qle_bool_iff|].
      apply negb_true_iff, not_true_iff_false. intros Hle%Qle_bool_iff. lra. }
    assert (Hrun : reachable (run (repeat (TimerFires k now rnd) n) w)).
    { apply run_reachable; [done|]. apply forallb_forall.
      intros e He%repeat_spec. by subst. }
    destruct (reachable_requests _ _ Hrun Hc') as [Hn|(r1 & Hr1 & Hwf1)]; [congruence|].
    rewrite Hr' in Hr1. injection Hr1 as <-. unfold wfRequest in Hwf1.
    rewrite Hs' in Hwf1. naive_solver. }
  destruct (decide (Request.status r = Completed)) as [Hs|Hs].
  - exists 0%nat, 0%nat. split; [lia|]. intros now rnd H0 H1.
    exists st, r. split_and!; try done. all: by edestruct (Hdone 0%nat 0%nat now rnd H0 H1 st r).
  - destruct (current_of_unfinished w st r (reachable_inv w Hr) Hc Hr0 Hs)
      as (k & t & Hcur & Hcpl & _).
    pose proof (coupled_progress_bound t r Hcpl Hwf) as [Hb Hm].
    exists k, (Z.to_nat ((110 - task_progress t) / 10)). split.
    { apply Nat2Z.inj_le. rewrite Z2Nat.id by (apply Z.div_pos; lia).
      apply Z.div_le_upper_bound; lia. }
    intros now rnd H0 H1. rewrite run_repeat_timer.
    destruct (fire_until_completed (Z.to_nat ((110 - task_progress t) / 10)) k now rnd H0 H1
                w st r t (reachable_inv w Hr) Hc Hr0 Hcur Hcpl) as (st' & r' & Hc' & Hr' & Hs' & Hid').
    { rewrite Z2Nat.id by (apply Z.div_pos; lia).
      assert ((110 - task_progress t) mod 10 = 0) by (rewrite Zminus_mod, Hm; done).
      pose proof (Z.div_mod (110 - task_progress t) 10). lia. }
    exists st', r'. rewrite <- run_repeat_timer in Hc' |- *.
    edestruct (Hdone _ k now rnd H0 H1 st' r' Hc'); [done|done|]. done.
Qed.

Lemma export_completes_witness :
  exists k n, (n <= 11)%nat /\
    forall now rnd, (0 <= rnd)%Q -> (rnd < 1)%Q ->
    exists st' r', comp (run (repeat (TimerFires k now rnd) n) demoWorld) = Some st' /\
      exportRequests st' = [r'] /\ Request.id r' = Request.id (firstReq (compOf demoWorld)) /\
      Request.status r' = Completed /\ Request.progress r' = 100 /\
      Request.downloadUrl r' = Some "#"%string.
Proof.
  apply (export_completes demoWorld (compOf demoWorld) (firstReq (compOf demoWorld))).
  - apply run_reachable; [apply star_refl|vm_compute; reflexivity].
  - vm_compute. reflexivity.
  - vm_compute. constructor.
Defined.


(** C3. The documented shape of a request holds in every reachable world:
    the status is never [failed], the progress lies in [0, 100], and the
    progress is 100, [completedAt] is set and [downloadUrl] is set exactly
    when the request is [completed]. *)
Theorem reachable_request_shape w st r :
  reachable w -> comp w = Some st -> r ∈ exportRequests st ->
  Request.status r <> Failed /\ 0 <= Request.progress r <= 100 /\
  (Request.progress r = 100 <-> Request.status r = Completed) /\
  (is_Some (Request.completedAt r) <-> Request.status r = Completed) /\
  (is_Some (Request.downloadUrl r) <-> Request.status r = Completed).
Proof.
  intros Hr Hc Hin.
  destruct (reachable_requests w st Hr Hc) as [Hn|(r0 & Hr0 & Hwf)];
    [rewrite Hn in Hin; set_solver|].
  rewrite Hr0 in Hin. apply list_elem_of_singleton in Hin as <-.
  unfold wfRequest, detailsUnset in Hwf. destruct (Request.status r).
  - destruct Hwf as (Hp & Hca & Hdu & _). rewrite Hca, Hdu.
    split_and!; try done; try lia; split; try lia; try done; by intros [? ?].
  - destruct Hwf as (Hb & _ & Hca & Hdu & _). rewrite Hca, Hdu.
    split_and!; try done; try lia; split; try lia; try done; by intros [? ?].
  - destruct Hwf as (Hp & Hca & Hdu & _). rewrite Hdu.
    split_and!; try done; try lia; split; try done; by eexists.
  - done.
Qed.

Lemma reachable_request_shape_witness :
  let r := firstReq (compOf demoDoneWorld) in
  Request.status r <> Failed /\ 0 <= Request.progress r <= 100 /\
  (Request.progress r = 100 <-> Request.status r = Completed) /\
  (is_Some (Request.completedAt r) <-> Request.status r = Completed) /\
  (is_Some (Request.downloadUrl r) <-> Request.status r = Completed).
Proof.
  apply (reachable_request_shape demoDoneWorld (compOf demoDoneWorld)).
  - apply run_reachable; [apply run_reachable; [apply star_refl|]|]; vm_compute; reflexivity.
  - vm_compute. reflexivity.
  - vm_compute. constructor.
Defined.


(** C5. The file size drawn at completion is in [1000000, 51000000) in
    every reachable world ([Math.floor(Math.random() * 50000000) + 1000000]
    with [Math.random()] in [0, 1)). *)
Theorem completed_fileSize_bounds w st r :
  reachable w -> comp w = Some st -> r ∈ exportRequests st ->
  Request.status r = Completed ->
  exists n, Request.fileSize r = Some n /\ 1000000 <= n < 51000000.
Proof.
  intros Hr Hc Hin Hs.
  destruct (reachable_requests w st Hr Hc) as [Hn|(r0 & Hr0 & Hwf)];
    [rewrite Hn in Hin; set_solver|].
  rewrite Hr0 in Hin. apply list_elem_of_singleton in Hin as <-.
  unfold wfRequest in Hwf. rewrite Hs in Hwf. destruct Hwf as (_ & _ & _ & Hf).
  destruct (Request.fileSize r) as [n|]; [by exists n|done].
Qed.

Lemma completed_fileSize_bounds_witness :
  exists n, Request.fileSize (firstReq (compOf demoDoneWorld)) = Some n /\
    1000000 <= n < 51000000.
Proof.
  apply (completed_fileSize_bounds demoDoneWorld (compOf demoDoneWorld)).
  - apply run_reachable; [apply run_reachable; [apply star_refl|]|]; vm_compute; reflexivity.
  - vm_compute. reflexivity.
  - vm_compute. constructor.
  - vm_compute. reflexivity.
Defined.


(** A step whose instance state is the old one up to fields other than
    the requests. *)
Local Ltac refine_same Hc' Hsame :=
  first [ injection Hc' as <-; apply Hsame; reflexivity
        | match type of Hc' with
          | Some (if ?b then _ else _) = _ => destruct b; refine_same Hc' Hsame
          end ].

(** C4. Refinement of the job lifecycle: every event the browser delivers
    to a reachable world maps each request of the mounted instance to a
    step of the abstract lifecycle [job_step] or to no change (same id,
    same creation time), or creates a new [Pending] job in an instance
    that had none.  In particular a [completed] request never changes and
    the progress never decreases. *)
Theorem tracker_refines_lifecycle w e st st' r' :
  reachable w -> event_ok e = true -> comp w = Some st ->
  comp (dispatch e w) = Some st' -> gen (dispatch e w) = gen w ->
  r' ∈ exportRequests st' ->
  (exists r, exportRequests st = [r] /\ Request.id r' = Request.id r /\
     Request.createdAt r' = Request.createdAt r /\
     (phase r' = phase r \/ job_step (phase r) (phase r'))) \/
  (exportRequests st = [] /\ phase r' = JPending).
Proof.
  intros Hr Hok Hc Hc' Hg Hin. pose proof (reachable_inv w Hr) as Hinv.
  pose proof (proj2 Hinv st Hc) as Hst.
  assert (Hsame := fun Heq => refines_unchanged w st st' r' Hst Heq Hin).
  destruct e; simpl in Hc', Hg |- *;
    try (rewrite (inModal_comp _ _ st Hc) in Hc'; refine_same Hc' Hsame).
  - rewrite Hc in Hc'. simpl in Hc'. rewrite Hc in Hc'. refine_same Hc' Hsame.
  - done.
  - rewrite Hc in Hc'. refine_same Hc' Hsame.
  - rewrite Hc in Hc'. destruct (startExportEnabled st) eqn:Hen.
    2: { simpl in Hc'. rewrite Hc in Hc'. refine_same Hc' Hsame. }
    unfold startExportEnabled in Hen.
    apply andb_prop in Hen as [_ Hen]. apply negb_true_iff, orb_false_iff in Hen as [Hexp Hlen].
    unfold handleExport in Hc'. rewrite decide_False in Hc'.
    2: { intros Hp. rewrite Hp in Hlen. done. }
    injection Hc' as <-. right. simpl in Hin.
    unfold instInv in Hst. destruct (exportRequests st) as [|r [|]]; [| |done].
    + apply list_elem_of_singleton in Hin as ->. done.
    + destruct Hst as [Hx _]. congruence.
  - unfold fireTimer in Hc', Hg |- *.
    destruct (tasks w !! k) as [t|] eqn:Ht; [|rewrite Hc in Hc'; injection Hc' as <-; by apply Hsame].
    destruct (decide (task_gen t = gen w)) as [Hcur|Hncur].
    2: { rewrite updateInstance_other in Hc' by done. rewrite Hc in Hc'.
         destruct (simulateNext _); injection Hc' as <-; by apply Hsame. }
    destruct (instInv_nonempty w st k t Hst (conj Ht Hcur)) as [r Hr0].
    pose proof Hst as Hst'. unfold instInv in Hst'. rewrite Hr0 in Hst'.
    destruct Hst' as (_ & Hwf & Hcpl & _). destruct (Hcpl k t (conj Ht Hcur)) as [Hct _].
    pose proof (fireTimer_current_eq w st r k t now rnd Hc Hr0 Ht Hcur) as Heq.
    unfold fireTimer in Heq. rewrite Ht in Heq. rewrite Heq in Hc'.
    left. exists r. split; [done|].
    destruct (decide (task_progress t + 10 <= 100)) as [Hp|Hp];
      injection Hc' as <-; simpl in Hin; apply list_elem_of_singleton in Hin as ->;
      autorewrite with fc_rw; (split; [done|split; [done|right]]).
    + by apply markProgress_step.
    + by apply markCompleted_step.
Qed.

Lemma tracker_refines_lifecycle_witness :
  let st := compOf demoWorld in
  let r' := firstReq (compOf (dispatch (TimerFires 0 1500 (1#2)%Q) demoWorld)) in
  (exists r, exportRequests st = [r] /\ Request.id r' = Request.id r /\
     Request.createdAt r' = Request.createdAt r /\
     (phase r' = phase r \/ job_step (phase r) (phase r'))) \/
  (exportRequests st = [] /\ phase r' = JPending).
Proof.
  apply (tracker_refines_lifecycle demoWorld (TimerFires 0 1500 (1#2)%Q) (compOf demoWorld)
           (compOf (dispatch (TimerFires 0 1500 (1#2)%Q) demoWorld))).
  - apply run_reachable; [apply star_refl|vm_compute; reflexivity].
  - vm_compute. reflexivity.
  - vm_compute. reflexivity.
  - vm_compute. reflexivity.
  - vm_compute. reflexivity.
  - vm_compute. constructor.
Defined.


(** C6. The empty selection: a Start Export click with no parameter
    selected changes nothing at all, not even the toasts, because the
    button is disabled (line 418); the [toast.error] branch of
    [handleExport] (lines 122-125) is unreachable from the page. *)
Theorem start_export_empty_noop w st now :
  comp w = Some st -> selectedParameters st = [] ->
  dispatch (ClickStartExport now) w = w.
Proof.
  intros Hc Hp. simpl. rewrite Hc. unfold startExportEnabled. rewrite Hp. simpl.
  by rewrite orb_true_r, andb_false_r.
Qed.

Lemma start_export_empty_noop_witness :
  dispatch (ClickStartExport 2000) emptySelectionWorld = emptySelectionWorld.
Proof.
  apply (start_export_empty_noop emptySelectionWorld (compOf emptySelectionWorld));
    vm_compute; reflexivity.
Defined.


(** C7. [handleExport] on a non-empty selection prepends a [pending]
    request with progress 0 and id ["export_" ++ Date.now()], closes the
    modal, sets [isExporting] and starts one suspended call on iteration 0;
    two successive submissions J1 then J2 list J2 before J1. *)
Theorem handleExport_order now1 now2 g st :
  selectedParameters st <> [] ->
  let '(st1, ts1, _) := handleExport now1 g st in
  let '(st2, ts2, _) := handleExport now2 g st1 in
  exportRequests st2 = newRequest st now2 :: newRequest st now1 :: exportRequests st /\
  Request.id (newRequest st now1) = ("export_" +:+ pretty now1)%string /\
  Request.status (newRequest st now1) = Pending /\ Request.progress (newRequest st now1) = 0 /\
  isExporting st2 = true /\ isOpen st2 = false /\
  ts1 = [mkTask g (Request.id (newRequest st now1)) 0] /\
  ts2 = [mkTask g (Request.id (newRequest st now2)) 0].
Proof.
  intros Hp. unfold handleExport. rewrite decide_False by done. simpl.
  rewrite decide_False by done. done.
Qed.

Lemma handleExport_order_witness :
  let '(st1, ts1, _) := handleExport 1000 1 initState in
  let '(st2, ts2, _) := handleExport 2000 1 st1 in
  exportRequests st2 = newRequest initState 2000 :: newRequest initState 1000 :: exportRequests initState /\
  Request.id (newRequest initState 1000) = ("export_" +:+ pretty 1000)%string /\
  Request.status (newRequest initState 1000) = Pending /\ Request.progress (newRequest initState 1000) = 0 /\
  isExporting st2 = true /\ isOpen st2 = false /\
  ts1 = [mkTask 1 (Request.id (newRequest initState 1000)) 0] /\
  ts2 = [mkTask 1 (Request.id (newRequest initState 2000)) 0].
Proof. apply handleExport_order. vm_compute. discriminate. Defined.


(** C8. [handleParameterToggle] flips the membership of the toggled id,
    keeps every other id, and keeps a selection free of duplicates. *)
Theorem handleParameterToggle_spec p l :
  NoDup l ->
  NoDup (handleParameterToggle p l) /\
  (p ∈ handleParameterToggle p l <-> p ∉ l) /\
  (forall q, q <> p -> q ∈ handleParameterToggle p l <-> q ∈ l).
Proof.
  intros Hnd. unfold handleParameterToggle. case_decide as Hin.
  - split_and!.
    + by apply NoDup_filter.
    + rewrite list_elem_of_filter. naive_solver.
    + intros q Hq. rewrite list_elem_of_filter. naive_solver.
  - split_and!.
    + apply NoDup_app. split_and!; [done| |apply NoDup_singleton].
      intros x Hx Hx'. apply list_elem_of_singleton in Hx' as ->. done.
    + rewrite elem_of_app, list_elem_of_singleton. naive_solver.
    + intros q Hq. rewrite elem_of_app, list_elem_of_singleton. naive_solver.
Qed.

Lemma handleParameterToggle_spec_witness :
  NoDup (handleParameterToggle "ph" ["temperature"; "salinity"]) /\
  ("ph" ∈ handleParameterToggle "ph" ["temperature"; "salinity"] <-> "ph" ∉ ["temperature"; "salinity"]) /\
  (forall q, q <> "ph" -> q ∈ handleParameterToggle "ph" ["temperature"; "salinity"] <->
                        q ∈ ["temperature"; "salinity"]).
Proof.
  apply handleParameterToggle_spec. apply (bool_decide_unpack _). vm_compute. reflexivity.
Defined.


(** Toggling an unselected parameter twice gives back the selection. *)
Lemma handleParameterToggle_twice p l :
  p ∉ l -> handleParameterToggle p (handleParameterToggle p l) = l.
Proof.
  intros Hn. unfold handleParameterToggle. destruct (decide (p ∈ l)); [done|].
  rewrite decide_True by set_solver.
  rewrite filter_app, filter_cons, decide_False by (intros Hne; by apply Hne).
  rewrite app_nil_r.
  apply filter_all. intros x Hx ->. done.
Qed.

(** Export ids are distinct for distinct submission times, so the
    updaters of one export never touch a request of another. *)
Lemma newRequest_id_inj st1 st2 now1 now2 :
  Request.id (newRequest st1 now1) = Request.id (newRequest st2 now2) -> now1 = now2.
Proof.
  simpl. intros H. injection H as H. by apply (inj pretty).
Qed.

End ExportTracker.
