(* ===== verification/FeedClient.v ===== *)
(** * The live update feed: [RealTimeUpdates] (src/unnamed/part_002, lines 1-301)

    The component keeps five [useState] cells (lines 29-40: [isConnected],
    [updates], [lastUpdate], [stats], [mounted]) and two refs ([wsRef],
    [reconnectTimeoutRef]).  [connectWebSocket] (lines 58-98) opens a
    WebSocket to [ws://localhost:8000/ws] and installs four handlers:
    [onopen] marks the feed connected, [onmessage] parses the payload and
    calls [handleRealtimeUpdate] (lines 100-126), [onclose] marks it
    disconnected and arms a 5 s timer that calls [connectWebSocket] again,
    [onerror] marks it disconnected.  The mount effect (lines 42-52) calls
    [connectWebSocket] and its cleanup closes the socket and clears the
    timer; the Refresh button (line 291) calls [connectWebSocket] too.

    The world ([World]) holds the instance (its cells and refs), whether it
    is still mounted ([alive]: React drops [setState] calls of an unmounted
    component, while refs, sockets, timers and toasts still change), the
    browser's sockets with their ready states, the pending reconnect
    timers and the toasts shown.  The browser's events on a socket are
    delivered only in the ready states where the WebSocket standard fires
    them.  [JSON.parse] is the library's: a payload is given as its result,
    [None] when it throws. *)

From S2P Require Import Prelude JsValue.
From Stdlib Require Import QArith.
Local Close Scope Q_scope.
Local Open Scope Z_scope.
Local Open Scope js_scope.

Module FeedClient.

(** ** Data (lines 19-40) *)

(** [interface UpdateData]: the fields as [handleRealtimeUpdate] fills
    them, which are whatever the payload carried (the declared unions are
    not checked at run time). *)
Record UpdateData := mkUpdate {
  id : string;
  type : jval;
  message : jval;
  timestamp : Z;
  status : jval;
  data : option jval
}.

(** A value of the [stats] object: the initial [lastSync] is a [Date];
    the other initial fields and every merged field are JSON values. *)
Inductive StatVal := SDate (t : Z) | SVal (v : jval).

Record State := mkState {
  isConnected : bool;
  updates : list UpdateData;
  lastUpdate : Z;
  stats : gmap string StatVal;
  mounted : bool;
  wsRef : option nat;
  reconnectTimeoutRef : option nat
}.

(** The history keeps the last 50 updates (line 110). *)
Definition historyLimit : nat := 50.

(** The reconnect delay of line 85, in milliseconds. *)
Definition reconnectDelay : Z := 5000.

Definition initStats (now : Z) : gmap string StatVal :=
  <["totalFloats" := SVal (JNum 3847)]> (<["activeFloats" := SVal (JNum 3621)]>
    (<["dataPoints" := SVal (JNum 1247832)]> {["lastSync" := SDate now]})).

(** The cells and refs at the first render, at time [now]. *)
Definition initState (now : Z) : State :=
  mkState true [] now (initStats now) false None None.

(** The WebSocket ready states. *)
Inductive ReadyState := Connecting | Open | Closing | Closed.

#[export] Instance ReadyState_eq_dec : EqDecision ReadyState.
Proof. solve_decision. Defined.

Record World := mkWorld {
  comp : option State;               (** [None] before the first render *)
  alive : bool;                      (** mounted, so [setState] takes effect *)
  sockets : gmap nat ReadyState;     (** every socket created, by number *)
  timers : gset nat;                 (** pending reconnect timers *)
  nextSocket : nat;
  nextTimer : nat;
  toasts : list toast
}.

Definition initWorld : World := mkWorld None false ∅ ∅ 0 0 [].

(** ** Cells, refs and the world *)

Definition setIsConnected (b : bool) (st : State) : State :=
  mkState b (updates st) (lastUpdate st) (stats st) (mounted st) (wsRef st)
    (reconnectTimeoutRef st).

Definition setLastUpdate (t : Z) (st : State) : State :=
  mkState (isConnected st) (updates st) t (stats st) (mounted st) (wsRef st)
    (reconnectTimeoutRef st).

Definition setMounted (b : bool) (st : State) : State :=
  mkState (isConnected st) (updates st) (lastUpdate st) (stats st) b (wsRef st)
    (reconnectTimeoutRef st).

Definition setWsRef (s : option nat) (st : State) : State :=
  mkState (isConnected st) (updates st) (lastUpdate st) (stats st) (mounted st) s
    (reconnectTimeoutRef st).

Definition setReconnectRef (t : option nat) (st : State) : State :=
  mkState (isConnected st) (updates st) (lastUpdate st) (stats st) (mounted st) (wsRef st) t.

(** [setUpdates(prev => [update, ...prev].slice(0, 50))] (line 110). *)
Definition pushUpdate (u : UpdateData) (st : State) : State :=
  mkState (isConnected st) (take historyLimit (u :: updates st)) (lastUpdate st) (stats st)
    (mounted st) (wsRef st) (reconnectTimeoutRef st).

(** [setStats(prev => ({ ...prev, ...data.stats }))] (line 115). *)
Definition mergeStats (v : option jval) (st : State) : State :=
  mkState (isConnected st) (updates st) (lastUpdate st) (spread_json SVal (stats st) v)
    (mounted st) (wsRef st) (reconnectTimeoutRef st).

Definition withComp (c : option State) (w : World) : World :=
  mkWorld c (alive w) (sockets w) (timers w) (nextSocket w) (nextTimer w) (toasts w).

Definition withSockets (m : gmap nat ReadyState) (w : World) : World :=
  mkWorld (comp w) (alive w) m (timers w) (nextSocket w) (nextTimer w) (toasts w).

Definition addToasts (ts : list toast) (w : World) : World :=
  mkWorld (comp w) (alive w) (sockets w) (timers w) (nextSocket w) (nextTimer w) (toasts w ++ ts).

(** A [setState] call: effective only while the instance is mounted. *)
Definition setCells (f : State -> State) (w : World) : World :=
  match comp w with
  | Some st => if alive w then withComp (Some (f st)) w else w
  | None => w
  end.

(** A ref assignment [ref.current = ...]: effective in any case. *)
Definition setRefs (f : State -> State) (w : World) : World :=
  match comp w with
  | Some st => withComp (Some (f st)) w
  | None => w
  end.

(** ** Operations *)

(** [connectWebSocket] (lines 58-98).  [ok] says whether the constructor
    [new WebSocket(url)] returns; when it throws (for instance a
    [SecurityError] for [ws:] from an [https:] page) the [catch] marks the
    feed disconnected and, unlike a closed socket, arms no timer. *)
Definition connectWebSocket (ok : bool) (w : World) : World :=
  if ok then
    let s := nextSocket w in
    setRefs (setWsRef (Some s))
      (mkWorld (comp w) (alive w) (<[s := Connecting]> (sockets w)) (timers w) (S s)
         (nextTimer w) (toasts w))
  else setCells (setIsConnected false) w.

(** [ws.onopen] (lines 62-66). *)
Definition onopen (w : World) : World :=
  addToasts [ToastSuccess (JStr "Connected to real-time updates")]
    (setCells (setIsConnected true) w).

(** [ws.onclose] (lines 77-86): disconnected, a toast, and a new timer of
    [reconnectDelay] that calls [connectWebSocket], stored in the ref
    (overwriting any timer stored before, which stays armed). *)
Definition onclose (w : World) : World :=
  let w1 := addToasts [ToastError (JStr "Disconnected from real-time updates")]
              (setCells (setIsConnected false) w) in
  let t := nextTimer w1 in
  setRefs (setReconnectRef (Some t))
    (mkWorld (comp w1) (alive w1) (sockets w1) ({[t]} ∪ timers w1) (nextSocket w1) (S t)
       (toasts w1)).

(** [ws.onerror] (lines 88-91). *)
Definition onerror (w : World) : World := setCells (setIsConnected false) w.

(** The [update] object of [handleRealtimeUpdate] (lines 101-108): reading
    [data.type] throws when [data] is [null]. *)
Definition buildUpdate (data : jval) (now : Z) : js_exn + UpdateData :=
  let* ty := get_prop data "type" in
  let* msg := get_prop data "message" in
  let* st := get_prop data "status" in
  let* dt := get_prop data "data" in
  inr (mkUpdate ("update_" +:+ pretty now) (js_or ty (JStr "data_sync"))
         (js_or msg (JStr "Data updated")) now (js_or st (JStr "success")) dt).

(** The toast of lines 119-125, by strict equality of [update.status]. *)
Definition statusToast (u : UpdateData) : list toast :=
  match status u with
  | JStr s =>
      if decide (s = "success")%string then [ToastSuccess (message u)]
      else if decide (s = "warning")%string then [ToastIcon (message u) "⚠️"]
      else if decide (s = "error")%string then [ToastError (message u)]
      else []
  | _ => []
  end.

(** [handleRealtimeUpdate(data)] at time [now] (lines 100-126).  A throw
    ends the handler, keeping the effects already done, as the [try] of
    [onmessage] catches it. *)
Definition handleRealtimeUpdate (data : jval) (now : Z) (w : World) : World :=
  match buildUpdate data now with
  | inl _ => w
  | inr u =>
      let w1 := setCells (setLastUpdate now) (setCells (pushUpdate u) w) in
      match get_prop data "stats" with
      | inl _ => w1
      | inr sts =>
          let w2 := if truthy sts then setCells (mergeStats sts) w1 else w1 in
          addToasts (statusToast u) w2
      end
  end.

(** [ws.onmessage] (lines 68-75): [raw] is the result of [JSON.parse],
    [None] when it throws; the error is only logged. *)
Definition onmessage (raw : option jval) (now : Z) (w : World) : World :=
  match raw with
  | Some data => handleRealtimeUpdate data now w
  | None => w
  end.

(** [ws.close()]: a connecting or open socket starts closing; its close
    event comes later. *)
Definition closeSocket (s : nat) (w : World) : World :=
  match sockets w !! s with
  | Some Connecting | Some Open => withSockets (<[s := Closing]> (sockets w)) w
  | _ => w
  end.

Definition clearTimer (t : nat) (w : World) : World :=
  mkWorld (comp w) (alive w) (sockets w) (timers w ∖ {[t]}) (nextSocket w) (nextTimer w)
    (toasts w).

(** The cleanup of the mount effect (lines 44-51). *)
Definition cleanup (w : World) : World :=
  match comp w with
  | Some st =>
      let w1 := match wsRef st with Some s => closeSocket s w | None => w end in
      match reconnectTimeoutRef st with Some t => clearTimer t w1 | None => w1 end
  | None => w
  end.

Definition setAlive (b : bool) (w : World) : World :=
  mkWorld (comp w) b (sockets w) (timers w) (nextSocket w) (nextTimer w) (toasts w).

(** ** Events *)

Inductive Event :=
| Mount (now : Z) (ok : bool)      (** first render at [now], then the effects *)
| Unmount                          (** the cleanup, then setState is dropped *)
| Refresh (ok : bool)              (** the Refresh button, line 291 *)
| SockOpen (s : nat)
| SockMessage (s : nat) (raw : option jval) (now : Z)
| SockError (s : nat)
| SockClose (s : nat)
| TimerFires (t : nat) (ok : bool).

Definition dispatch (e : Event) (w : World) : World :=
  match e with
  | Mount now ok =>
      match comp w with
      | None =>
          let w0 := mkWorld (Some (initState now)) true (sockets w) (timers w)
                      (nextSocket w) (nextTimer w) (toasts w) in
          setCells (setMounted true) (connectWebSocket ok w0)
      | Some _ => w
      end
  | Unmount => if alive w then setAlive false (cleanup w) else w
  | Refresh ok => if alive w then connectWebSocket ok w else w
  | SockOpen s =>
      if decide (sockets w !! s = Some Connecting)
      then onopen (withSockets (<[s := Open]> (sockets w)) w) else w
  | SockMessage s raw now =>
      if decide (sockets w !! s = Some Open) then onmessage raw now w else w
  | SockError s =>
      match sockets w !! s with
      | Some Connecting | Some Open => onerror w
      | _ => w
      end
  | SockClose s =>
      match sockets w !! s with
      | Some Connecting | Some Open | Some Closing =>
          onclose (withSockets (<[s := Closed]> (sockets w)) w)
      | _ => w
      end
  | TimerFires t ok =>
      if decide (t ∈ timers w) then connectWebSocket ok (clearTimer t w) else w
  end.

Inductive step : World -> World -> Prop :=
| step_event e w : step w (dispatch e w).

Definition reachable (w : World) : Prop := star step initWorld w.

Definition run (es : list Event) (w : World) : World := foldl (fun w e => dispatch e w) w es.

(** ** Field lemmas of the handlers *)

Lemma setCells_fields f w :
  alive (setCells f w) = alive w /\ sockets (setCells f w) = sockets w /\
  timers (setCells f w) = timers w /\ nextSocket (setCells f w) = nextSocket w /\
  nextTimer (setCells f w) = nextTimer w /\ toasts (setCells f w) = toasts w.
Proof. unfold setCells. by repeat case_match. Qed.

Lemma setRefs_fields f w :
  alive (setRefs f w) = alive w /\ sockets (setRefs f w) = sockets w /\
  timers (setRefs f w) = timers w /\ nextSocket (setRefs f w) = nextSocket w /\
  nextTimer (setRefs f w) = nextTimer w /\ toasts (setRefs f w) = toasts w.
Proof. unfold setRefs. by repeat case_match. Qed.

(** [onclose] arms the timer [nextTimer w] and touches no socket. *)
Lemma onclose_fields w :
  alive (onclose w) = alive w /\ sockets (onclose w) = sockets w /\
  nextSocket (onclose w) = nextSocket w /\
  timers (onclose w) = {[nextTimer w]} ∪ timers w /\ nextTimer (onclose w) = S (nextTimer w).
Proof.
  unfold onclose, setRefs, setCells, addToasts, withComp. by repeat case_match.
Qed.

(** A constructor that returns opens the socket [nextSocket w]. *)
Lemma connect_fields w :
  sockets (connectWebSocket true w) = <[nextSocket w := Connecting]> (sockets w) /\
  alive (connectWebSocket true w) = alive w /\
  nextSocket (connectWebSocket true w) = S (nextSocket w) /\
  timers (connectWebSocket true w) = timers w.
Proof.
  unfold connectWebSocket, setRefs, withComp. by repeat case_match.
Qed.

(** The cleanup closes the referenced socket and keeps the counters. *)
Lemma cleanup_fields w :
  alive (cleanup w) = alive w /\ nextTimer (cleanup w) = nextTimer w /\
  nextSocket (cleanup w) = nextSocket w /\
  (forall st s, comp w = Some st -> wsRef st = Some s ->
   sockets (cleanup w) = sockets (closeSocket s w)).
Proof.
  unfold cleanup, closeSocket, clearTimer.
  destruct (comp w) as [st|] eqn:Hc; [|split_and!; [done|done|done|congruence]].
  split_and!; [by repeat case_match|by repeat case_match|by repeat case_match|].
  intros st' s' [= <-] Hws. rewrite Hws. by repeat case_match.
Qed.

(** ** Invariants of the instance state *)

(** The cleanup changes sockets and timers, never the instance. *)
Lemma comp_cleanup w : comp (cleanup w) = comp w.
Proof.
  unfold cleanup, closeSocket, clearTimer.
  destruct (comp w) as [st|] eqn:Hc; [|by rewrite Hc].
  repeat case_match; simpl; by rewrite ?Hc.
Qed.

(** A property of the cells and refs holds in every reachable world when
    the first render has it and every cell or ref update keeps it. *)
Definition onComp (P : State -> Prop) (w : World) : Prop :=
  forall st, comp w = Some st -> P st.

Section CellInvariant.
Variable P : State -> Prop.
Hypothesis P_init : forall now, P (initState now).
Hypothesis P_isConnected : forall b st, P st -> P (setIsConnected b st).
Hypothesis P_lastUpdate : forall t st, P st -> P (setLastUpdate t st).
Hypothesis P_mounted : forall b st, P st -> P (setMounted b st).
Hypothesis P_wsRef : forall s st, P st -> P (setWsRef s st).
Hypothesis P_reconnectRef : forall t st, P st -> P (setReconnectRef t st).
Hypothesis P_push : forall u st, P st -> P (pushUpdate u st).
Hypothesis P_merge : forall v st, P st -> P (mergeStats v st).

Lemma setCells_onComp f w : (forall st, P st -> P (f st)) -> onComp P w -> onComp P (setCells f w).
Proof.
  intros Hf Hw st. unfold setCells.
  destruct (comp w) as [st0|] eqn:Hc; [|by apply Hw].
  destruct (alive w); [simpl; intros [= <-]; by apply Hf, Hw|by apply Hw].
Qed.

Lemma setRefs_onComp f w : (forall st, P st -> P (f st)) -> onComp P w -> onComp P (setRefs f w).
Proof.
  intros Hf Hw st. unfold setRefs.
  destruct (comp w) as [st0|] eqn:Hc; [simpl; intros [= <-]; by apply Hf, Hw|by apply Hw].
Qed.

Lemma addToasts_onComp ts w : onComp P w -> onComp P (addToasts ts w).
Proof. done. Qed.

Lemma connectWebSocket_onComp ok w : onComp P w -> onComp P (connectWebSocket ok w).
Proof.
  intros Hw. unfold connectWebSocket. destruct ok.
  - apply setRefs_onComp; [auto|exact Hw].
  - apply setCells_onComp; [auto|exact Hw].
Qed.

Lemma handleRealtimeUpdate_onComp d now w :
  onComp P w -> onComp P (handleRealtimeUpdate d now w).
Proof.
  intros Hw. unfold handleRealtimeUpdate.
  destruct (buildUpdate d now) as [|u]; [exact Hw|].
  assert (Hw1 : onComp P (setCells (setLastUpdate now) (setCells (pushUpdate u) w)))
    by (do 2 (apply setCells_onComp; [auto|]); exact Hw).
  destruct (get_prop d "stats") as [|sts]; [exact Hw1|].
  apply (addToasts_onComp (statusToast u)).
  destruct (truthy sts); [apply setCells_onComp; [auto|exact Hw1]|exact Hw1].
Qed.

Lemma onopen_onComp w : onComp P w -> onComp P (onopen w).
Proof. intros Hw. apply addToasts_onComp, setCells_onComp; [auto|exact Hw]. Qed.

Lemma onclose_onComp w : onComp P w -> onComp P (onclose w).
Proof.
  intros Hw. unfold onclose. apply setRefs_onComp; [auto|].
  intros st Hst. exact (setCells_onComp _ w (P_isConnected false) Hw st Hst).
Qed.

Lemma dispatch_onComp e w : onComp P w -> onComp P (dispatch e w).
Proof.
  intros Hw. destruct e; simpl.
  - destruct (comp w) eqn:Hc; [exact Hw|].
    apply setCells_onComp; [auto|]. apply connectWebSocket_onComp.
    intros st [= <-]. apply P_init.
  - destruct (alive w); [|exact Hw].
    intros st. simpl. rewrite comp_cleanup. apply Hw.
  - destruct (alive w); [by apply connectWebSocket_onComp|exact Hw].
  - case_decide; [|exact Hw]. by apply onopen_onComp.
  - case_decide; [|exact Hw]. destruct raw; [by apply handleRealtimeUpdate_onComp|exact Hw].
  - repeat case_match; try exact Hw; (apply setCells_onComp; [auto|exact Hw]).
  - repeat case_match; try exact Hw; by apply onclose_onComp.
  - case_decide; [apply connectWebSocket_onComp; exact Hw|exact Hw].
Qed.

Lemma reachable_onComp w : reachable w -> onComp P w.
Proof.
  intros Hr. eapply (star_invariant step (onComp P)); [|exact Hr|by intros st].
  intros a b [e ?]. by apply dispatch_onComp.
Qed.
End CellInvariant.

(** The message handler of an open socket on a mounted instance, computed. *)
Lemma message_object_eq w st s kvs now :
  comp w = Some st -> alive w = true -> sockets w !! s = Some Open ->
  let u := mkUpdate ("update_" +:+ pretty now) (js_or (obj_lookup "type" kvs) (JStr "data_sync"))
             (js_or (obj_lookup "message" kvs) (JStr "Data updated")) now
             (js_or (obj_lookup "status" kvs) (JStr "success")) (obj_lookup "data" kvs) in
  let st1 := setLastUpdate now (pushUpdate u st) in
  dispatch (SockMessage s (Some (JObj kvs)) now) w =
  mkWorld (Some (if truthy (obj_lookup "stats" kvs) then mergeStats (obj_lookup "stats" kvs) st1 else st1))
    true (sockets w) (timers w) (nextSocket w) (nextTimer w) (toasts w ++ statusToast u).
Proof.
  intros Hc Ha Hs u st1. simpl. rewrite decide_True by done.
  unfold onmessage, handleRealtimeUpdate, buildUpdate, setCells. simpl.
  rewrite Hc, Ha. simpl. rewrite Ha.
  destruct (truthy (obj_lookup "stats" kvs)); simpl; [rewrite Ha|];
    unfold addToasts, withComp; simpl; by rewrite Ha.
Qed.

(** ** Socket numbering *)

(** Every socket created so far has a number below [nextSocket]. *)
Definition socketsBelow (w : World) : Prop :=
  forall s, (nextSocket w <= s)%nat -> sockets w !! s = None.

Lemma socketsBelow_insert_old w (m : gmap nat ReadyState) k v :
  socketsBelow w -> is_Some (sockets w !! k) ->
  (forall s, m !! s = (<[k := v]> (sockets w)) !! s) ->
  forall n, n = nextSocket w -> forall s, (n <= s)%nat -> m !! s = None.
Proof.
  intros Hb [x Hk] Hm n -> s' Hs'. rewrite Hm.
  assert (k <> s') by (intros <-; rewrite Hb in Hk; [done|lia]).
  rewrite lookup_insert_ne by done. by apply Hb.
Qed.

Lemma connect_socketsBelow ok w : socketsBelow w -> socketsBelow (connectWebSocket ok w).
Proof.
  intros Hb s Hs. destruct ok.
  - destruct (connect_fields w) as (-> & _ & Hn & _). rewrite Hn in Hs.
    rewrite lookup_insert_ne by lia. apply Hb. lia.
  - change (connectWebSocket false w) with (setCells (setIsConnected false) w) in *.
    destruct (setCells_fields (setIsConnected false) w) as (_ & -> & _ & Hn & _).
    rewrite Hn in Hs. by apply Hb.
Qed.

Lemma closeSocket_socketsBelow s w : socketsBelow w -> socketsBelow (closeSocket s w).
Proof.
  intros Hb. unfold closeSocket.
  destruct (sockets w !! s) as [[]|] eqn:Hk; try exact Hb;
    (intros s' Hs'; eapply socketsBelow_insert_old; [exact Hb|by rewrite Hk|done|reflexivity|exact Hs']).
Qed.

Lemma dispatch_socketsBelow e w : socketsBelow w -> socketsBelow (dispatch e w).
Proof.
  intros Hb. destruct e; simpl.
  - destruct (comp w); [exact Hb|].
    intros s Hs. destruct (setCells_fields (setMounted true) (connectWebSocket ok
      (mkWorld (Some (initState now)) true (sockets w) (timers w) (nextSocket w)
         (nextTimer w) (toasts w)))) as (_ & -> & _ & Hn & _).
    rewrite Hn in Hs. by apply (connect_socketsBelow ok (mkWorld (Some (initState now)) true
      (sockets w) (timers w) (nextSocket w) (nextTimer w) (toasts w)) Hb).
  - destruct (alive w); [|exact Hb]. unfold cleanup.
    destruct (comp w) as [st|]; [|exact Hb].
    assert (Hb1 : socketsBelow (match wsRef st with Some s => closeSocket s w | None => w end))
      by (destruct (wsRef st); [by apply closeSocket_socketsBelow|exact Hb]).
    by destruct (reconnectTimeoutRef st).
  - destruct (alive w); [by apply connect_socketsBelow|exact Hb].
  - case_decide as Hk; [|exact Hb]. intros s' Hs'.
    unfold onopen, addToasts in *. cbn [sockets nextSocket] in *.
    destruct (setCells_fields (setIsConnected true)
      (withSockets (<[s := Open]> (sockets w)) w)) as (_ & Hm & _ & Hn & _).
    rewrite Hn in Hs'. rewrite Hm.
    eapply socketsBelow_insert_old; [exact Hb|by rewrite Hk|done|reflexivity|exact Hs'].
  - case_decide; [|exact Hb]. destruct raw as [d|]; [|exact Hb].
    intros s' Hs'. unfold onmessage, handleRealtimeUpdate in *.
    destruct (buildUpdate d now); [by apply Hb|].
    destruct (setCells_fields (setLastUpdate now) (setCells (pushUpdate u) w)) as (_ & Hm & _ & Hn & _).
    destruct (setCells_fields (pushUpdate u) w) as (_ & Hm' & _ & Hn' & _).
    destruct (get_prop d "stats") as [|sts]; [rewrite Hm, Hm'; rewrite Hn, Hn' in Hs'; by apply Hb|].
    destruct (truthy sts); unfold addToasts in *; cbn [sockets nextSocket] in *;
      [destruct (setCells_fields (mergeStats sts) (setCells (setLastUpdate now) (setCells (pushUpdate u) w)))
         as (_ & Hm'' & _ & Hn'' & _); rewrite Hm''; rewrite Hn'' in Hs'|];
      rewrite Hm, Hm'; rewrite Hn, Hn' in Hs'; by apply Hb.
  - intros s' Hs'. destruct (sockets w !! s) as [[]|] eqn:Hk; try (by apply Hb);
      destruct (setCells_fields (setIsConnected false) w) as (_ & Hm & _ & Hn & _);
      unfold onerror in *; rewrite Hm; rewrite Hn in Hs'; by apply Hb.
  - intros s' Hs'. destruct (sockets w !! s) as [[]|] eqn:Hk; try (by apply Hb);
      destruct (onclose_fields (withSockets (<[s := Closed]> (sockets w)) w)) as (_ & Hm & Hn & _);
      rewrite Hm; rewrite Hn in Hs';
      (eapply socketsBelow_insert_old; [exact Hb|by rewrite Hk|done|reflexivity|exact Hs']).
  - case_decide; [|exact Hb]. apply connect_socketsBelow. exact Hb.
Qed.

Lemma reachable_socketsBelow w : reachable w -> socketsBelow w.
Proof.
  intros Hr. eapply (star_invariant step socketsBelow); [|exact Hr|done].
  intros a b [e ?]. by apply dispatch_socketsBelow.
Qed.

Lemma feed_run_cons e es w : run (e :: es) w = run es (dispatch e w).
Proof. done. Qed.

Lemma feed_run_reachable es w : reachable w -> reachable (run es w).
Proof.
  apply star_foldl. constructor.
Qed.

(** ** After unmount *)

(** The five [useState] cells of an instance, without its refs. *)
Definition cells (st : State) := (isConnected st, updates st, lastUpdate st, stats st, mounted st).

Lemma setCells_dead f w : alive w = false -> setCells f w = w.
Proof. unfold setCells. intros Ha. by rewrite Ha; case_match. Qed.

(** Once unmounted, no event changes a cell or remounts the instance:
    only the refs, the sockets, the timers and the toasts move. *)
Lemma dispatch_dead e w st :
  alive w = false -> comp w = Some st ->
  exists st', comp (dispatch e w) = Some st' /\ cells st' = cells st /\
    alive (dispatch e w) = false.
Proof.
  intros Ha Hc. destruct e; simpl; rewrite ?Hc, ?Ha; try by eauto.
  - case_decide; [|by eauto]. unfold onopen. rewrite setCells_dead by done. simpl. eauto.
  - case_decide; [|by eauto]. destruct raw as [d|]; [|by eauto].
    unfold onmessage, handleRealtimeUpdate.
    destruct (buildUpdate d now); [by eauto|]. rewrite !(setCells_dead _ w Ha).
    destruct (get_prop d "stats"); [by eauto|].
    destruct (truthy _); rewrite ?(setCells_dead _ w Ha); simpl; eauto.
  - unfold onerror. case_match; try case_match; rewrite ?setCells_dead by done; eauto.
  - unfold onclose, setRefs. case_match; try case_match;
      rewrite ?setCells_dead by done; simpl; rewrite ?Hc, ?Ha; eauto.
  - case_decide; [|by eauto]. destruct ok; simpl;
      [unfold setRefs; simpl; rewrite Hc; simpl; eauto|rewrite setCells_dead by done; simpl; eauto].
Qed.

(** ** Scenarios *)

(** Mounted at time 0 with its first socket open. *)
Definition openWorld : World := run [Mount 0 true; SockOpen 0] initWorld.

Definition openState : State :=
  setIsConnected true (setMounted true (setWsRef (Some 0%nat) (initState 0))).

(** The message of the spec's example, [{"stats": {"activeFloats": 10}}]. *)
Definition statsMessage : list (string * jval) := [("stats", JObj [("activeFloats", JNum 10)])].

(** ** Properties of the component *)

(** The history is bounded: in every reachable world the instance
    holds at most 50 updates ([[update, ...prev].slice(0, 50)]). *)
Theorem history_bounded w st :
  reachable w -> comp w = Some st -> (length (updates st) <= historyLimit)%nat.
Proof.
  intros Hr. revert st.
  apply (reachable_onComp (fun st => length (updates st) <= historyLimit)%nat); try done.
  - intros now. simpl. lia.
  - intros u st _. apply length_take_le_n.
Qed.

Lemma history_bounded_witness :
  reachable (run [SockMessage 0 (Some (JObj [])) 5] openWorld) /\
  (length (updates (setLastUpdate 5 (pushUpdate (mkUpdate "update_5" (JStr "data_sync")
     (JStr "Data updated") 5 (JStr "success") None) openState))) <= historyLimit)%nat.
Proof.
  split; [apply feed_run_reachable, feed_run_reachable, star_refl|].
  apply (history_bounded (run [SockMessage 0 (Some (JObj [])) 5] openWorld));
    [apply feed_run_reachable, feed_run_reachable, star_refl|vm_compute; reflexivity].
Defined.

(** C13. A message object on an open socket of a mounted instance puts
    the new update at the head of the history, keeps the 49 most recent
    earlier ones, stamps [lastUpdate], merges [stats] when the payload's
    [stats] is truthy, and toasts according to the status. *)
Theorem message_effect w st s kvs now :
  comp w = Some st -> alive w = true -> sockets w !! s = Some Open ->
  exists st', comp (dispatch (SockMessage s (Some (JObj kvs)) now) w) = Some st' /\
    (exists u, updates st' = u :: take 49 (updates st) /\
       id u = ("update_" +:+ pretty now)%string /\
       type u = js_or (obj_lookup "type" kvs) (JStr "data_sync") /\
       message u = js_or (obj_lookup "message" kvs) (JStr "Data updated") /\
       status u = js_or (obj_lookup "status" kvs) (JStr "success") /\
       toasts (dispatch (SockMessage s (Some (JObj kvs)) now) w) = toasts w ++ statusToast u) /\
    lastUpdate st' = now /\
    stats st' = (if truthy (obj_lookup "stats" kvs)
                 then spread_json SVal (stats st) (obj_lookup "stats" kvs) else stats st).
Proof.
  intros Hc Ha Hs. rewrite (message_object_eq w st s kvs now Hc Ha Hs). simpl.
  eexists. split; [reflexivity|].
  destruct (truthy (obj_lookup "stats" kvs)); simpl; (split; [eexists; split_and!; done|done]).
Qed.

Lemma message_effect_witness :
  comp openWorld = Some openState /\ alive openWorld = true /\
  sockets openWorld !! 0%nat = Some Open /\
  exists st', comp (dispatch (SockMessage 0 (Some (JObj statsMessage)) 7) openWorld) = Some st' /\
    (exists u, updates st' = u :: take 49 (updates openState) /\
       id u = ("update_" +:+ pretty 7)%string /\
       type u = js_or (obj_lookup "type" statsMessage) (JStr "data_sync") /\
       message u = js_or (obj_lookup "message" statsMessage) (JStr "Data updated") /\
       status u = js_or (obj_lookup "status" statsMessage) (JStr "success") /\
       toasts (dispatch (SockMessage 0 (Some (JObj statsMessage)) 7) openWorld) =
         toasts openWorld ++ statusToast u) /\
    lastUpdate st' = 7 /\
    stats st' = (if truthy (obj_lookup "stats" statsMessage)
                 then spread_json SVal (stats openState) (obj_lookup "stats" statsMessage)
                 else stats openState).
Proof.
  split_and!; [vm_compute; reflexivity..|].
  apply message_effect; vm_compute; reflexivity.
Defined.

(** Partial update of the stats: a message whose [stats] is an
    object overwrites exactly the fields it names and leaves the others
    unchanged ([{ ...prev, ...data.stats }]). *)
Theorem stats_partial_update w st s kvs skvs now k :
  comp w = Some st -> alive w = true -> sockets w !! s = Some Open ->
  obj_lookup "stats" kvs = Some (JObj skvs) ->
  exists st', comp (dispatch (SockMessage s (Some (JObj kvs)) now) w) = Some st' /\
    stats st' !! k = match obj_lookup k skvs with
                     | Some x => Some (SVal x)
                     | None => stats st !! k
                     end.
Proof.
  intros Hc Ha Hs Hst. rewrite (message_object_eq w st s kvs now Hc Ha Hs), Hst. simpl.
  eexists. split; [reflexivity|]. apply spread_json_obj.
Qed.

Lemma stats_partial_update_witness :
  comp openWorld = Some openState /\ alive openWorld = true /\
  sockets openWorld !! 0%nat = Some Open /\
  obj_lookup "stats" statsMessage = Some (JObj [("activeFloats", JNum 10)]) /\
  exists st', comp (dispatch (SockMessage 0 (Some (JObj statsMessage)) 7) openWorld) = Some st' /\
    stats st' !! "totalFloats"%string = stats openState !! "totalFloats"%string /\
    stats st' !! "activeFloats"%string = Some (SVal (JNum 10)).
Proof.
  split_and!; [vm_compute; reflexivity..|].
  destruct (stats_partial_update openWorld openState 0 statsMessage [("activeFloats", JNum 10)] 7
    "totalFloats") as (st1 & Hc1 & Hk1); [vm_compute; reflexivity..|].
  exists st1. split_and!; [exact Hc1|exact Hk1|].
  destruct (stats_partial_update openWorld openState 0 statsMessage [("activeFloats", JNum 10)] 7
    "activeFloats") as (st2 & Hc2 & Hk2); [vm_compute; reflexivity..|].
  rewrite Hc1 in Hc2. injection Hc2 as <-. exact Hk2.
Defined.

(** A payload [JSON.parse] rejects, or the payload [null] (whose
    [data.type] throws inside the [try]), changes nothing: no update, no
    stats change, no toast, no change of connection state. *)
Theorem malformed_message_noop w s raw now :
  raw = None \/ raw = Some JNull -> dispatch (SockMessage s raw now) w = w.
Proof. intros [-> | ->]; simpl; by case_decide. Qed.

Lemma malformed_message_noop_witness :
  (None : option jval) = None /\ dispatch (SockMessage 0 None 7) openWorld = openWorld.
Proof. split; [reflexivity|]. apply malformed_message_noop. by left. Defined.

(** A well-formed JSON payload that is neither an object nor [null]
    (a number, string, boolean or array) is not discarded: it becomes an
    update of type [data_sync] with message ["Data updated"] and status
    [success], and a success toast. *)
Theorem nonobject_message_accepted w st s d now :
  comp w = Some st -> alive w = true -> sockets w !! s = Some Open ->
  d <> JNull -> (forall kvs, d <> JObj kvs) ->
  exists st' u, comp (dispatch (SockMessage s (Some d) now) w) = Some st' /\
    updates st' = u :: take 49 (updates st) /\
    type u = JStr "data_sync" /\ message u = JStr "Data updated" /\
    status u = JStr "success" /\
    toasts (dispatch (SockMessage s (Some d) now) w) =
      toasts w ++ [ToastSuccess (JStr "Data updated")].
Proof.
  intros Hc Ha Hs Hn Ho. simpl. rewrite decide_True by done.
  unfold onmessage, handleRealtimeUpdate, buildUpdate.
  assert (Hp : forall k, get_prop d k = inr None).
  { intros k. destruct d; try done. by destruct (Ho kvs). }
  rewrite !Hp. simpl. unfold setCells. rewrite Hc, Ha. simpl. rewrite Ha. simpl.
  eexists _, _. split_and!; try reflexivity.
Qed.

Lemma nonobject_message_accepted_witness :
  comp openWorld = Some openState /\ alive openWorld = true /\
  sockets openWorld !! 0%nat = Some Open /\
  exists st' u, comp (dispatch (SockMessage 0 (Some (JNum 42)) 7) openWorld) = Some st' /\
    updates st' = u :: take 49 (updates openState) /\
    type u = JStr "data_sync" /\ message u = JStr "Data updated" /\
    status u = JStr "success" /\
    toasts (dispatch (SockMessage 0 (Some (JNum 42)) 7) openWorld) =
      toasts openWorld ++ [ToastSuccess (JStr "Data updated")].
Proof.
  split_and!; [vm_compute; reflexivity..|].
  apply nonobject_message_accepted; [vm_compute; reflexivity..|done|done].
Defined.

(** C14. Reconnection after unmount: closing the socket in the cleanup
    does not stop the reconnect loop.  The close event, which the browser
    delivers after the cleanup, arms a new 5 s timer whose callback opens
    a new socket for the unmounted component; the spec requires that no
    reconnect happens after [disconnect()]. *)
Theorem reconnect_after_unmount w st s :
  comp w = Some st -> alive w = true -> wsRef st = Some s ->
  (sockets w !! s = Some Connecting \/ sockets w !! s = Some Open) ->
  let w2 := run [Unmount; SockClose s] w in
  alive w2 = false /\ nextTimer w ∈ timers w2 /\
  sockets (dispatch (TimerFires (nextTimer w) true) w2) !! nextSocket w = Some Connecting.
Proof.
  intros Hc Ha Hws Hs. simpl. rewrite Ha.
  set (wU := setAlive false (cleanup w)).
  assert (HU : alive wU = false /\ sockets wU !! s = Some Closing /\
               nextTimer wU = nextTimer w /\ nextSocket wU = nextSocket w).
  { subst wU. destruct (cleanup_fields w) as (_ & Hn1 & Hn2 & Hsk).
    simpl. rewrite (Hsk st s Hc Hws). unfold closeSocket.
    destruct Hs as [Hs|Hs]; rewrite Hs; simpl; split_and!; try done; by rewrite lookup_insert_eq. }
  destruct HU as (HUa & HUs & HUt & HUn). rewrite HUs.
  set (X := withSockets (<[s := Closed]> (sockets wU)) wU).
  destruct (onclose_fields X) as (Ha' & _ & Hn' & Ht' & _).
  split_and!.
  - rewrite Ha'. exact HUa.
  - rewrite Ht'. change (nextTimer X) with (nextTimer wU). rewrite HUt. set_solver.
  - rewrite decide_True
      by (rewrite Ht'; change (nextTimer X) with (nextTimer wU); rewrite HUt; set_solver).
    rewrite (proj1 (proj2 (setRefs_fields _ _))). cbn [sockets]. rewrite Hn'.
    change (nextSocket X) with (nextSocket wU). rewrite HUn. apply lookup_insert_eq.
Qed.

Lemma reconnect_after_unmount_witness :
  let w := run [Mount 0 true] initWorld in
  comp w = Some (setMounted true (setWsRef (Some 0%nat) (initState 0))) /\ alive w = true /\
  sockets w !! 0%nat = Some Connecting /\
  alive (run [Unmount; SockClose 0] w) = false /\ nextTimer w ∈ timers (run [Unmount; SockClose 0] w) /\
  sockets (dispatch (TimerFires (nextTimer w) true) (run [Unmount; SockClose 0] w)) !! nextSocket w
    = Some Connecting.
Proof.
  do 3 (split; [vm_compute; reflexivity|]).
  apply (reconnect_after_unmount _ (setMounted true (setWsRef (Some 0%nat) (initState 0))) 0);
    [vm_compute; reflexivity..|left; vm_compute; reflexivity].
Defined.

(** C15. The Refresh button on a connected instance opens a second
    socket and points [wsRef] at it without closing the open one; the
    cleanup at unmount then closes only the new socket, so the old one
    stays open after the component is gone. *)
Theorem refresh_leaks_socket w st s :
  reachable w -> comp w = Some st -> alive w = true -> wsRef st = Some s ->
  sockets w !! s = Some Open ->
  let w1 := dispatch (Refresh true) w in
  sockets w1 !! nextSocket w = Some Connecting /\ sockets w1 !! s = Some Open /\
  (exists st1, comp w1 = Some st1 /\ wsRef st1 = Some (nextSocket w)) /\
  sockets (dispatch Unmount w1) !! s = Some Open.
Proof.
  intros Hr Hc Ha Hws Hs w1.
  assert (Hne : s <> nextSocket w)
    by (intros ->; rewrite (reachable_socketsBelow w Hr) in Hs; [done|lia]).
  assert (Hw1 : w1 = connectWebSocket true w) by (subst w1; simpl; by rewrite Ha).
  destruct (connect_fields w) as (Hs1 & Ha1 & _).
  assert (Hc1 : comp w1 = Some (setWsRef (Some (nextSocket w)) st))
    by (rewrite Hw1; unfold connectWebSocket, setRefs; simpl; by rewrite Hc).
  rewrite <- Hw1 in Hs1, Ha1.
  split_and!.
  - rewrite Hs1. apply lookup_insert_eq.
  - rewrite Hs1, lookup_insert_ne by done. exact Hs.
  - by eexists.
  - cbn [dispatch]. rewrite Ha1, Ha.
    destruct (cleanup_fields w1) as (_ & _ & _ & Hcl).
    cbn [sockets setAlive]. rewrite (Hcl _ (nextSocket w) Hc1 eq_refl).
    unfold closeSocket. rewrite Hs1, lookup_insert_eq. simpl.
    rewrite !lookup_insert_ne by done. exact Hs.
Qed.

Lemma refresh_leaks_socket_witness :
  let w := run [Mount 0 true; SockOpen 0] initWorld in
  reachable w /\ comp w = Some (setWsRef (Some 0%nat) (setIsConnected true
    (setMounted true (setWsRef (Some 0%nat) (initState 0))))) /\
  alive w = true /\ sockets w !! 0%nat = Some Open /\
  sockets (dispatch Unmount (dispatch (Refresh true) w)) !! 0%nat = Some Open.
Proof.
  split_and!; [apply feed_run_reachable, star_refl|vm_compute; reflexivity|reflexivity
    |vm_compute; reflexivity|].
  apply (refresh_leaks_socket _ (setWsRef (Some 0%nat) (setIsConnected true
    (setMounted true (setWsRef (Some 0%nat) (initState 0))))) 0);
    [apply feed_run_reachable, star_refl|vm_compute; reflexivity|reflexivity|reflexivity
    |vm_compute; reflexivity].
Defined.

(** The first render reports the feed as connected: right after
    mounting, [isConnected] is [true] (its initial value, line 29) while
    the only socket is still connecting; no handler has run yet. *)
Theorem mount_reports_connected w now :
  comp w = None ->
  exists st1, comp (dispatch (Mount now true) w) = Some st1 /\ isConnected st1 = true /\
    wsRef st1 = Some (nextSocket w) /\
    sockets (dispatch (Mount now true) w) !! nextSocket w = Some Connecting.
Proof.
  intros Hc. simpl. rewrite Hc. eexists. split_and!; [reflexivity..|].
  simpl. apply lookup_insert_eq.
Qed.

Lemma mount_reports_connected_witness :
  comp initWorld = None /\
  exists st1, comp (dispatch (Mount 0 true) initWorld) = Some st1 /\ isConnected st1 = true /\
    wsRef st1 = Some 0%nat /\ sockets (dispatch (Mount 0 true) initWorld) !! 0%nat = Some Connecting.
Proof. split; [reflexivity|]. apply (mount_reports_connected initWorld 0). reflexivity. Defined.

(** After unmount the cells are frozen: whatever events follow
    (socket events, timers, the Refresh button), the instance's cells keep
    their values and the instance stays unmounted; React drops every
    [setState] of an unmounted component. *)
Theorem unmounted_cells_frozen es w st :
  comp w = Some st -> alive w = false ->
  exists st', comp (run es w) = Some st' /\ cells st' = cells st /\ alive (run es w) = false.
Proof.
  revert w st. induction es as [|e es IH]; intros w st Hc Ha; [by eauto|].
  destruct (dispatch_dead e w st Ha Hc) as (st1 & Hc1 & Hcl1 & Ha1).
  rewrite feed_run_cons. destruct (IH _ _ Hc1 Ha1) as (st' & ? & Hcl & ?).
  exists st'. split_and!; congruence.
Qed.

Lemma unmounted_cells_frozen_witness :
  let w := run [Mount 0 true; SockOpen 0; Unmount] initWorld in
  comp w = Some (setIsConnected true (setMounted true (setWsRef (Some 0%nat) (initState 0)))) /\
  alive w = false /\
  exists st', comp (run [SockClose 0; TimerFires 0 true; SockOpen 1] w) = Some st' /\
    cells st' = cells (setIsConnected true (setMounted true (setWsRef (Some 0%nat) (initState 0)))) /\
    alive (run [SockClose 0; TimerFires 0 true; SockOpen 1] w) = false.
Proof.
  split_and!; [vm_compute; reflexivity|reflexivity|].
  apply unmounted_cells_frozen; [vm_compute; reflexivity|reflexivity].
Defined.

End FeedClient.
