(* ===== verification/FeedView.v ===== *)
(** * The render of the live update feed: [RealTimeUpdates]
    (src/unnamed/part_002, lines 128-300)

    The render shows the connection status, the time since the last
    update, four statistics ([stats.totalFloats.toLocaleString()] and the
    like, lines 196-231) and one row per update of the history (lines
    244-277): icons by type and status, the type as a label
    ([update.type.replace('_', ' ').toUpperCase()]), the age of the update,
    its message and, when truthy, its [data] as JSON.

    The state is the one [FeedClient] maintains.  Its fields hold whatever
    the socket's messages carried: [handleRealtimeUpdate] copies
    [data.type] and [data.message] and spreads [data.stats] over the stats
    object without checking them.  A render that throws is a [js_exn]: the
    component has no error boundary, so React unmounts the tree.

    The browser's locale formatting is a parameter of the section:
    [localeDate] for [Date.prototype.toLocaleDateString], [dateLocale] and
    [numLocale] for [toLocaleString] of a date and of a non-null JSON value,
    [stringify] for [JSON.stringify(v, null, 2)].  [toUpperCase] is
    modelled on ASCII letters. *)

From Stdlib Require Import QArith Ascii.
From S2P Require Import Prelude JsValue JsNumber FeedClient.
Local Set Warnings "-register-all".
Local Open Scope js_scope.
Local Open Scope fc_scope.

Module FeedView.
Import FeedClient.

(** [getStatusIcon] (lines 128-139) and [getTypeIcon] (lines 141-152):
    the icon and its classes, by strict equality. *)
Definition getStatusIcon (status : jval) : string * string :=
  if str_eq status "success" then ("CheckCircle", "w-4 h-4 text-green-400")
  else if str_eq status "warning" then ("AlertCircle", "w-4 h-4 text-yellow-400")
  else if str_eq status "error" then ("AlertCircle", "w-4 h-4 text-red-400")
  else ("Activity", "w-4 h-4 text-blue-400").

Definition getTypeIcon (type : jval) : string * string :=
  if str_eq type "float_update" then ("Globe", "w-4 h-4 text-blue-400")
  else if str_eq type "data_sync" then ("Database", "w-4 h-4 text-green-400")
  else if str_eq type "system_alert" then ("AlertCircle", "w-4 h-4 text-orange-400")
  else ("Activity", "w-4 h-4 text-gray-400").

(** [update.type.replace('_', ' ')]: the first underscore only. *)
Fixpoint replace_first (c r : Ascii.ascii) (l : list Ascii.ascii) : list Ascii.ascii :=
  match l with
  | [] => []
  | x :: l' => if Ascii.ascii_dec x c then r :: l' else x :: replace_first c r l'
  end.

Definition upper_char (c : Ascii.ascii) : Ascii.ascii :=
  let n := Ascii.nat_of_ascii c in
  if (97 <=? n) && (n <=? 122) then Ascii.ascii_of_nat (n - 32) else c.

(** The label of line 260: a string's method; any other value has no
    [replace] and the call throws. *)
Definition typeLabel (t : jval) : js_exn + string :=
  match t with
  | JStr s => inr (String.string_of_list_ascii
                     (map upper_char (replace_first "_"%char " "%char (String.list_ascii_of_string s))))
  | _ => inl TypeError
  end.

(** ** Types *)

(** What [interface UpdateData] and the initial [stats] object declare:
    string types and messages, numeric counters and a [Date] for
    [lastSync]. *)
Definition goodUpdate (u : UpdateData) : Prop :=
  (exists s, type u = JStr s) /\ (exists s, message u = JStr s).

Definition numStat (m : gmap string StatVal) (k : string) : Prop :=
  exists q, m !! k = Some (SVal (JNum q)).

Definition goodStats (m : gmap string StatVal) : Prop :=
  numStat m "totalFloats" /\ numStat m "activeFloats" /\ exists t, m !! "lastSync"%string = Some (SDate t).

Definition wellTyped (st : State) : Prop := Forall goodUpdate (updates st) /\ goodStats (stats st).

(** A message field that [||] replaces or that is a string. *)
Definition strField (v : option jval) : bool :=
  match v with
  | Some (JStr _) | None => true
  | Some x => negb (truthy_val x)
  end.

Definition numField (v : option jval) : bool :=
  match v with Some (JNum _) | None => true | _ => false end.

(** A [stats] payload of the declared type: absent, falsy, or an object
    whose counters are numbers and which has no [lastSync] (JSON has no
    [Date]). *)
Definition statsOk (v : option jval) : bool :=
  match v with
  | Some (JObj kvs) => numField (obj_lookup "totalFloats" kvs) && numField (obj_lookup "activeFloats" kvs)
                       && bool_decide (obj_lookup "lastSync" kvs = None)
  | Some x => negb (truthy_val x)
  | None => true
  end.

(** A message of the declared shape. *)
Definition msgOk (d : jval) : bool :=
  match d with
  | JObj kvs => strField (obj_lookup "type" kvs) && strField (obj_lookup "message" kvs)
                && statsOk (obj_lookup "stats" kvs)
  | _ => false
  end.

(** The browser's events, with the socket's messages of the declared
    shape. *)
Definition eventOk (e : Event) : bool :=
  match e with SockMessage _ (Some d) _ => msgOk d | _ => true end.

Inductive okStep : World -> World -> Prop :=
| okStep_event e w : eventOk e = true -> okStep w (dispatch e w).

Definition okReachable (w : World) : Prop := initWorld ==[ okStep ]=>* w.

Section Render.
Variable localeDate : Z -> string.
Variable dateLocale : Z -> string.
Variable numLocale : jval -> string.
Variable stringify : jval -> string.

(** [formatTimeAgo(date)] at time [now] (lines 154-165): a [Date] gives
    seconds, minutes, hours, then its locale date; a JSON value merged
    into [stats] has no [getTime] and the call throws. *)
Definition formatTimeAgo (now : Z) (d : StatVal) : js_exn + string :=
  match d with
  | SDate t =>
      let seconds := ((now - t) / 1000)%Z in
      let minutes := (seconds / 60)%Z in
      let hours := (minutes / 60)%Z in
      if decide (seconds < 60)%Z then inr (pretty seconds +:+ "s ago")
      else if decide (minutes < 60)%Z then inr (pretty minutes +:+ "m ago")
      else if decide (hours < 24)%Z then inr (pretty hours +:+ "h ago")
      else inr (localeDate t)
  | SVal _ => inl TypeError
  end.

(** [stats.k.toLocaleString()] (lines 204 and 212): [null] has no method. *)
Definition statText (v : option StatVal) : js_exn + string :=
  match v with
  | Some (SDate t) => inr (dateLocale t)
  | Some (SVal JNull) | None => inl TypeError
  | Some (SVal x) => inr (numLocale x)
  end.

(** [(stats.dataPoints / 1000000).toFixed(1)] (line 220); a [Date]
    divides by its time value. *)
Definition dataPointsText (v : option StatVal) : string :=
  let x := match v with
           | Some (SDate t) => Fin (inject_Z t)
           | Some (SVal y) => to_number (Some y)
           | None => NaN
           end in
  to_fixed 1 (jdiv x (Fin 1000000)) +:+ "M".

(** [{update.data && <div>{JSON.stringify(update.data, null, 2)}</div>}]
    (lines 268-272): a falsy value is rendered itself, which shows only
    for [0]. *)
Definition dataLine (d : option jval) : option string :=
  match d with
  | Some v => if truthy_val v then Some (stringify v)
              else match v with JNum q => Some (num_to_string q) | _ => None end
  | None => None
  end.

Record Row := mkRow {
  r_typeIcon : string * string;
  r_statusIcon : string * string;
  r_label : string;
  r_age : string;
  r_message : string;
  r_data : option string
}.

(** One row of the history (lines 245-276), in the order JSX evaluates
    its children. *)
Definition row (now : Z) (mounted : bool) (u : UpdateData) : js_exn + Row :=
  let* lbl := typeLabel (type u) in
  let* age := if mounted then formatTimeAgo now (SDate (timestamp u)) else inr ""%string in
  let* msg := jsx_text (message u) in
  inr (mkRow (getTypeIcon (type u)) (getStatusIcon (status u)) lbl age msg (dataLine (data u))).

Fixpoint rows (now : Z) (mounted : bool) (us : list UpdateData) : js_exn + list Row :=
  match us with
  | [] => inr []
  | u :: us' => let* r := row now mounted u in let* rs := rows now mounted us' in inr (r :: rs)
  end.

Record View := mkView {
  connectedText : string;         (** line 180 *)
  lastUpdateText : string;        (** line 192 *)
  totalText : string;
  activeText : string;
  pointsText : string;
  lastSyncText : string;          (** line 229 *)
  rowsView : list Row;            (** "No updates yet" when empty, line 241 *)
  footerText : string             (** line 286 *)
}.

(** The render of the instance at time [now] (lines 167-300). *)
Definition view (now : Z) (st : State) : js_exn + View :=
  let* lu := if mounted st then formatTimeAgo now (SDate (lastUpdate st)) else inr ""%string in
  let* tot := statText (stats st !! "totalFloats"%string) in
  let* act := statText (stats st !! "activeFloats"%string) in
  let pts := dataPointsText (stats st !! "dataPoints"%string) in
  let* ls := if mounted st then
               match stats st !! "lastSync"%string with
               | Some d => formatTimeAgo now d
               | None => inl TypeError
               end
             else inr ""%string in
  let* rs := rows now (mounted st) (updates st) in
  inr (mkView (if isConnected st then "Connected" else "Disconnected") lu tot act pts ls rs
         (if isConnected st then "Live updates active" else "Reconnecting...")).

End Render.

(** ** The declared types are kept, and then the render is total *)

Lemma strField_js_or v d : strField v = true -> exists s, js_or v (JStr d) = JStr s.
Proof. destruct v as [[]|]; simpl; try case_match; try discriminate; eauto. Qed.

Lemma buildUpdate_good d now u : msgOk d = true -> buildUpdate d now = inr u -> goodUpdate u.
Proof.
  destruct d as [| | | | |kvs]; try discriminate. simpl.
  intros [[Ht Hm]%andb_prop _]%andb_prop [= <-]. split; simpl; by apply strField_js_or.
Qed.

Lemma spread_falsy x : truthy_val x = false -> spread_entries (Some x) = [].
Proof. destruct x; simpl; try done. intros H. case_bool_decide; [by subst|done]. Qed.

Lemma numStat_spread m kvs k :
  numField (obj_lookup k kvs) = true -> numStat m k -> numStat (spread_json SVal m (Some (JObj kvs))) k.
Proof.
  intros Hf Hm. unfold numStat. rewrite spread_json_obj.
  destruct (obj_lookup k kvs) as [[]|]; try discriminate; eauto.
Qed.

Lemma mergeStats_good v st :
  statsOk v = true -> goodStats (stats st) -> goodStats (stats (mergeStats v st)).
Proof.
  intros Hok (Ht & Ha & Hl). simpl.
  destruct v as [x|]; [|by rewrite spread_json_nothing].
  destruct x as [| | | | |kvs]; try (rewrite spread_json_nothing by (apply spread_falsy; simpl in Hok;
    by apply negb_true_iff); by split_and!).
  simpl in Hok. apply andb_prop in Hok as [[H1 H2]%andb_prop H3%bool_decide_eq_true].
  split_and!; [by apply numStat_spread|by apply numStat_spread|].
  rewrite spread_json_obj, H3. done.
Qed.

Lemma wellTyped_push u st : goodUpdate u -> wellTyped st -> wellTyped (pushUpdate u st).
Proof.
  intros Hu [Hus Hs]. split; [|done]. unfold pushUpdate, updates. apply Forall_take. by constructor.
Qed.

Local Ltac wt_setter := intros; match goal with H : wellTyped _ |- _ => destruct H; split; done end.

Lemma handleRealtimeUpdate_wt d now w :
  msgOk d = true -> onComp wellTyped w -> onComp wellTyped (handleRealtimeUpdate d now w).
Proof.
  intros Hok Hw. unfold handleRealtimeUpdate.
  destruct (buildUpdate d now) as [|u] eqn:Hb; [exact Hw|].
  pose proof (buildUpdate_good d now u Hok Hb) as Hu.
  assert (Hw1 : onComp wellTyped (setCells (setLastUpdate now) (setCells (pushUpdate u) w))).
  { apply setCells_onComp; [wt_setter|]. apply setCells_onComp; [|exact Hw].
    intros st. by apply wellTyped_push. }
  destruct d as [| | | | |kvs]; try discriminate. simpl.
  apply (addToasts_onComp wellTyped (statusToast u)).
  destruct (truthy _); [|exact Hw1]. apply setCells_onComp; [|exact Hw1].
  intros st [Hus Hs]. split; [done|]. apply mergeStats_good; [|done].
  simpl in Hok. by apply andb_prop in Hok as [_ ->].
Qed.

Lemma dispatch_wt e w : eventOk e = true -> onComp wellTyped w -> onComp wellTyped (dispatch e w).
Proof.
  intros Hok Hw. destruct e; simpl.
  - destruct (comp w) eqn:Hc; [exact Hw|].
    apply setCells_onComp; [wt_setter|]. apply connectWebSocket_onComp; [wt_setter..|].
    intros st [= <-]. split; [constructor|]. split_and!; eexists; reflexivity.
  - destruct (alive w); [|exact Hw]. intros st. simpl. rewrite comp_cleanup. apply Hw.
  - destruct (alive w); [by apply connectWebSocket_onComp; [wt_setter..|]|exact Hw].
  - case_decide; [|exact Hw]. by apply onopen_onComp; [wt_setter|].
  - case_decide; [|exact Hw]. destruct raw; [by apply handleRealtimeUpdate_wt|exact Hw].
  - repeat case_match; try exact Hw; (apply setCells_onComp; [wt_setter|exact Hw]).
  - repeat case_match; try exact Hw; by apply onclose_onComp; [wt_setter..|].
  - case_decide; [apply connectWebSocket_onComp; [wt_setter..|exact Hw]|exact Hw].
Qed.

Lemma okReachable_wt w : okReachable w -> onComp wellTyped w.
Proof.
  intros Hr. eapply (star_invariant okStep (onComp wellTyped)); [|exact Hr|by intros st].
  intros a b [e ? Hok]. by apply dispatch_wt.
Qed.

Section RenderTotal.
Variables (localeDate dateLocale : Z -> string) (numLocale stringify : jval -> string).

(** The age of a [Date] always prints. *)
Lemma formatTimeAgo_date now t : exists a, formatTimeAgo localeDate now (SDate t) = inr a.
Proof. unfold formatTimeAgo. repeat case_decide; by eexists. Qed.

Lemma rows_good now m us : Forall goodUpdate us -> exists rs, rows localeDate stringify now m us = inr rs.
Proof.
  induction 1 as [|u us [[t Ht] [msg Hm]] _ [rs Hrs]]; [by eexists|]. simpl.
  unfold row. rewrite Ht, Hm. destruct (formatTimeAgo_date now (timestamp u)) as [a Ha].
  cbn [typeLabel js_bind]. destruct m; [rewrite Ha|]; cbn [js_bind jsx_text]; rewrite Hrs; by eexists.
Qed.

Lemma statText_err v e : statText dateLocale numLocale v = inl e -> e = TypeError.
Proof. destruct v as [[t|[]]|]; simpl; congruence. Qed.

(** A well-typed state renders without throwing. *)
Lemma view_total now st :
  wellTyped st -> exists v, view localeDate dateLocale numLocale stringify now st = inr v.
Proof.
  intros [Hus ([q1 H1] & [q2 H2] & [t Ht])]. destruct (rows_good now (mounted st) _ Hus) as [rs Hrs].
  unfold view. rewrite H1, H2, Ht. destruct (formatTimeAgo_date now (lastUpdate st)) as [a Ha].
  destruct (formatTimeAgo_date now t) as [b Hb].
  destruct (mounted st); cbn [statText js_bind]; rewrite ?Ha, ?Hb; cbn [js_bind]; rewrite Hrs; by eexists.
Qed.

(** A mounted instance whose [lastSync] holds a JSON value throws. *)
Lemma view_lastSync_json now st x :
  mounted st = true -> stats st !! "lastSync"%string = Some (SVal x) ->
  view localeDate dateLocale numLocale stringify now st = inl TypeError.
Proof.
  intros Hm Hl. unfold view. rewrite Hm, Hl. destruct (formatTimeAgo_date now (lastUpdate st)) as [a Ha].
  rewrite Ha. cbn [js_bind].
  destruct (statText _ _ (stats st !! "totalFloats"%string)) as [e|] eqn:E; cbn [js_bind];
    [by apply statText_err in E as ->|].
  destruct (statText _ _ (stats st !! "activeFloats"%string)) as [e|] eqn:E'; simpl;
    [by apply statText_err in E' as ->|done].
Qed.

End RenderTotal.

(** C16. The render and the declared types: while every message the
    socket delivers has the declared shape (string [type] and [message],
    numeric counters in [stats], no [lastSync]), the instance keeps the
    types of [UpdateData] and of the initial [stats] and its render never
    throws; one message [{"stats": {"lastSync": x}}] on an open socket of a
    mounted instance, whatever the JSON value [x], makes the render throw,
    since [formatTimeAgo] calls [getTime] on it. *)
Theorem feed_render_typed ld dl nl sf now w st :
  okReachable w -> comp w = Some st ->
  wellTyped st /\ (exists v, view ld dl nl sf now st = inr v) /\
  (forall s x now', alive w = true -> mounted st = true -> sockets w !! s = Some Open ->
     exists st', comp (dispatch (SockMessage s (Some (JObj [("stats", JObj [("lastSync", x)])])) now') w)
                 = Some st' /\ view ld dl nl sf now st' = inl TypeError).
Proof.
  intros Hr Hc. pose proof (okReachable_wt w Hr st Hc) as Hwt.
  split_and!; [done|exact (view_total ld dl nl sf now st Hwt)|].
  intros s x now' Ha Hm Hs. rewrite (message_object_eq w st s _ now' Hc Ha Hs). simpl.
  eexists. split; [reflexivity|]. apply (view_lastSync_json _ _ _ _ _ _ x); [done|].
  simpl. by rewrite spread_json_obj.
Qed.

Lemma feed_render_typed_witness :
  okReachable openWorld /\ comp openWorld = Some openState /\
  exists st', comp (dispatch (SockMessage 0 (Some (JObj [("stats", JObj [("lastSync", JStr "2024-01-01")])])) 5)
                 openWorld) = Some st' /\
    view (fun _ => "") (fun _ => "") (fun _ => "") (fun _ => "") 5 st' = inl TypeError.
Proof.
  assert (Hr : okReachable openWorld).
  { change openWorld with (dispatch (SockOpen 0) (dispatch (Mount 0 true) initWorld)).
    eapply star_right; [eapply star_right; [apply star_refl|]|]; by constructor. }
  assert (Hc : comp openWorld = Some openState) by (vm_compute; reflexivity).
  split_and!; [exact Hr|exact Hc|].
  refine (proj2 (proj2 (feed_render_typed (fun _ => "") (fun _ => "") (fun _ => "") (fun _ => "") 5%Z
            openWorld openState Hr Hc)) 0%nat (JStr "2024-01-01") 5%Z _ _ _); vm_compute; reflexivity.
Defined.

End FeedView.
