(* ===== verification/Chat.v ===== *)
(** * The chat assistant: [ChatInterface]
    (src/code/Floatchat/components/Footer.tsx, lines 213-528)

    The component keeps the conversation ([messages], starting with a
    welcome message of id ["1"]), the text box ([input]) and two flags
    ([isLoading], [isTyping]).  [handleSendMessage] (lines 283-327) refuses
    a blank input or a send while a reply is pending, appends the user's
    message, clears the text box, raises both flags and posts the query to
    [<base>/api/chat/query]; when the [fetch] settles, it appends the
    assistant's reply (or toasts an error) and lowers both flags.

    The world holds the mounted instance (the page mounts it on the [chat]
    tab only, page.tsx line 90), a generation counter that tells a later
    instance from an earlier one, the requests whose [fetch] is still
    pending with the generation of the instance that sent them, the toasts
    and the clipboard.  A settled request of an earlier generation is a
    continuation of an unmounted instance: its [setState] calls are
    dropped, its toast is shown. *)

From S2P Require Import Prelude JsValue Endpoint.
From Stdlib Require Import QArith Qround Ascii.
Local Close Scope Q_scope.
Local Open Scope Z_scope.
Local Open Scope js_scope.

Module Chat.

(** ** Data (lines 235-281) *)

Inductive MsgType := MsgUser | MsgAssistant.

#[export] Instance MsgType_eq_dec : EqDecision MsgType.
Proof. solve_decision. Defined.

Record Metadata := mkMeta {
  queryType : string;
  dataPoints : jval;
  visualization : string
}.

(** [interface Message]; the content of a reply is whatever the server's
    [response] field holds, so it is a JSON value. *)
Record Message := mkMessage {
  id : string;
  type : MsgType;
  content : jval;
  timestamp : Z;
  metadata : option Metadata
}.

Definition welcomeText : string :=
  "Hello! I'm FloatChat, your AI assistant for ocean data discovery. I can help you explore ARGO float data, visualize ocean parameters, and answer questions about marine science. What would you like to know?".

(** The initial message of lines 249-254, stamped at the first render. *)
Definition welcome (now : Z) : Message :=
  mkMessage "1" MsgAssistant (JStr welcomeText) now None.

Record State := mkState {
  messages : list Message;
  input : string;
  isLoading : bool;
  isTyping : bool;
  mounted : bool
}.

Definition initState (now : Z) : State := mkState [welcome now] "" false false false.

Definition exampleQueries : list string := [
  "Show me salinity profiles near the equator in March 2023";
  "Compare BGC parameters in the Arabian Sea for the last 6 months";
  "What are the nearest ARGO floats to this location?";
  "Visualize temperature trends in the Indian Ocean";
  "Find floats with the highest oxygen levels";
  "Show me data from floats deployed in 2024"]%string.

(** ** The endpoint (lines 299-301) *)

Definition chatUrl (e : Env) : string := baseUrl e +:+ "/api/chat/query".

(** ** The world *)

(** A [fetch] in flight: the generation of the instance whose
    [handleSendMessage] is suspended on it, the URL and the JSON body. *)
Record Request := mkReq {
  req_gen : nat;
  url : string;
  body : jval
}.

Record World := mkWorld {
  comp : option State;
  gen : nat;
  env : Env;
  requests : gmap nat Request;
  nextReq : nat;
  toasts : list toast;
  clipboard : list jval
}.

Definition initWorld (e : Env) : World := mkWorld None 0 e ∅ 0 [] [].

(** ** Operations *)

Definition setInput (s : string) (st : State) : State :=
  mkState (messages st) s (isLoading st) (isTyping st) (mounted st).

Definition setMounted (b : bool) (st : State) : State :=
  mkState (messages st) (input st) (isLoading st) (isTyping st) b.

(** [setMessages(prev => [...prev, m])]. *)
Definition appendMessage (m : Message) (st : State) : State :=
  mkState (messages st ++ [m]) (input st) (isLoading st) (isTyping st) (mounted st).

(** The [finally] block (lines 323-326). *)
Definition stopLoading (st : State) : State :=
  mkState (messages st) (input st) false false (mounted st).

(** [!input.trim() || isLoading] (line 284, and the button's [disabled]). *)
Definition sendBlocked (st : State) : bool :=
  negb (truthy_val (JStr (js_trim (input st)))) || isLoading st.

Definition userMessage (now : Z) (st : State) : Message :=
  mkMessage (pretty now) MsgUser (JStr (input st)) now None.

Definition withComp (c : option State) (w : World) : World :=
  mkWorld c (gen w) (env w) (requests w) (nextReq w) (toasts w) (clipboard w).

Definition addToasts (ts : list toast) (w : World) : World :=
  mkWorld (comp w) (gen w) (env w) (requests w) (nextReq w) (toasts w ++ ts) (clipboard w).

(** A [setState] of the instance of generation [g]: dropped when that
    instance is no longer mounted. *)
Definition setCells (g : nat) (f : State -> State) (w : World) : World :=
  match comp w with
  | Some st => if decide (g = gen w) then withComp (Some (f st)) w else w
  | None => w
  end.

(** The part of [handleSendMessage] that runs before its first [await]
    (lines 283-305): the guard, the user's message, the cleared text box,
    both flags, and the [fetch] started with [JSON.stringify({query: input})],
    where [input] is still the value of the render the handler belongs to. *)
Definition handleSendMessage (now : Z) (w : World) : World :=
  match comp w with
  | Some st =>
      if sendBlocked st then w
      else
        let st1 := mkState (messages st ++ [userMessage now st]) "" true true (mounted st) in
        let k := nextReq w in
        mkWorld (Some st1) (gen w) (env w)
          (<[k := mkReq (gen w) (chatUrl (env w)) (JObj [("query", JStr (input st))])]>
             (requests w))
          (S k) (toasts w) (clipboard w)
  | None => w
  end.

(** The [assistantMessage] literal of lines 309-319, built at time [now]
    from the parsed body; reading a field of [null] throws. *)
Definition assistantMessage (data : jval) (now : Z) : js_exn + Message :=
  let* resp := get_prop data "response" in
  let* dp := get_prop data "data_points" in
  inr (mkMessage (pretty (now + 1)) MsgAssistant
         (js_or resp (JStr "I could not find relevant data.")) now
         (Some (mkMeta "data_query" (js_nullish dp (JNum 0)) "chart"))).

(** The [try] block after the [await]: the reply, or [None] when it throws
    (line 307 throws on a response that is not [ok]). *)
Definition reply (r : Response) (now : Z) : option Message :=
  match r with
  | OkJson (Some data) =>
      match assistantMessage data now with inr m => Some m | inl _ => None end
  | _ => None
  end.

Definition failToast : toast := ToastError (JStr "Failed to send message. Please try again.").

(** The promise of request [k] is consumed. *)
Definition dropRequest (k : nat) (w : World) : World :=
  mkWorld (comp w) (gen w) (env w) (delete k (requests w)) (nextReq w) (toasts w) (clipboard w).

(** The rest of [handleSendMessage] when request [k] settles with [r] at
    time [now] (lines 306-326): the reply appended or the error toast, and
    the [finally] block, all in one batch. *)
Definition settle (k : nat) (r : Response) (now : Z) (w : World) : World :=
  match requests w !! k with
  | Some rq =>
      let w1 := dropRequest k w in
      match reply r now with
      | Some m => setCells (req_gen rq) (fun st => stopLoading (appendMessage m st)) w1
      | None => addToasts [failToast] (setCells (req_gen rq) stopLoading w1)
      end
  | None => w
  end.

(** [copyToClipboard] (lines 343-346). *)
Definition copyToClipboard (text : jval) (w : World) : World :=
  addToasts [ToastSuccess (JStr "Copied to clipboard!")]
    (mkWorld (comp w) (gen w) (env w) (requests w) (nextReq w) (toasts w) (clipboard w ++ [text])).

(** [generateResponse] (lines 329-337), which no code calls: the array
    literal draws [Math.random()] twice while it is built ([r1] for the
    first template, [r2] for the third), then a third time ([r3]) to pick
    a template; an index out of the array would give [undefined]. *)
Definition quote : string := String "034"%char EmptyString.

Definition generateResponse (query : string) (r1 r2 r3 : Q) : option string :=
  let responses :=
    ["I found " +:+ pretty (Qfloor (r1 * inject_Z 500) + 50) +:+ " data points matching your query about " +:+
       quote +:+ query +:+ quote +:+
       ". The data shows interesting patterns in the ocean parameters you're interested in. Would you like me to create a visualization?";
     "Based on your query, I've analyzed the ARGO float data and found some fascinating insights. The data indicates significant variations in the ocean parameters you mentioned. Let me show you the results.";
     "Great question! I've processed your request and found relevant data from " +:+
       pretty (Qfloor (r2 * inject_Z 20) + 5) +:+
       " ARGO floats. The analysis reveals important trends that could be valuable for your research.";
     "I've successfully queried the ocean database for your request. The results show interesting patterns that I can visualize for you. Would you like to see a specific type of chart or map?"]%string in
  responses !! Z.to_nat (Qfloor (r3 * inject_Z (Z.of_nat (length responses)))).

(** ** Events *)

Inductive Event :=
| Mount (now : Z)                       (** the chat tab is selected *)
| Unmount                               (** another tab is selected *)
| TypeInput (s : string)                (** the textarea's [onChange], line 502 *)
| ExampleClick (i : nat)                (** an example query, lines 483-491 *)
| KeyPress (key : string) (shift : bool) (now : Z)   (** [handleKeyPress], line 503 *)
| ClickSend (now : Z)                   (** the send button, lines 510-512 *)
| CopyMessage (i : nat)                 (** the copy button of a reply, line 432 *)
| FetchSettles (k : nat) (r : Response) (now : Z).

Definition dispatch (e : Event) (w : World) : World :=
  match e with
  | Mount now =>
      match comp w with
      | None =>
          setCells (S (gen w)) (setMounted true)
            (mkWorld (Some (initState now)) (S (gen w)) (env w) (requests w) (nextReq w)
               (toasts w) (clipboard w))
      | Some _ => w
      end
  | Unmount => withComp None w
  | TypeInput s => setCells (gen w) (setInput s) w
  | ExampleClick i =>
      match comp w with
      | Some st =>
          if decide (length (messages st) = 1%nat) then
            match take 3 exampleQueries !! i with
            | Some q => setCells (gen w) (setInput q) w
            | None => w
            end
          else w
      | None => w
      end
  | KeyPress key shift now =>
      if decide (key = "Enter"%string) then if shift then w else handleSendMessage now w
      else w
  | ClickSend now =>
      match comp w with
      | Some st => if sendBlocked st then w else handleSendMessage now w
      | None => w
      end
  | CopyMessage i =>
      match comp w with
      | Some st =>
          match messages st !! i with
          | Some m => if decide (type m = MsgAssistant) then copyToClipboard (content m) w else w
          | None => w
          end
      | None => w
      end
  | FetchSettles k r now => settle k r now w
  end.

Inductive step : World -> World -> Prop :=
| step_event e w : step w (dispatch e w).

Definition reachable (e : Env) (w : World) : Prop := star step (initWorld e) w.

Definition run (es : list Event) (w : World) : World := foldl (fun w e => dispatch e w) w es.

(** ** Invariant of the conversation *)

(** Request [k] is in flight for the current generation. *)
Definition pending (w : World) (k : nat) : Prop :=
  exists rq, requests w !! k = Some rq /\ req_gen rq = gen w.

(** Every assistant message but the first directly follows a user message. *)
Definition repliesFollowUser (msgs : list Message) : Prop :=
  forall i m, msgs !! S i = Some m -> type m = MsgAssistant ->
    exists m', msgs !! i = Some m' /\ type m' = MsgUser.

Definition convWf (msgs : list Message) : Prop :=
  (exists t, head msgs = Some (welcome t)) /\ repliesFollowUser msgs.

(** Requests are numbered below [nextReq], belong to this or an earlier
    generation, and at most one belongs to the current one. *)
Definition reqInv (w : World) : Prop :=
  (forall k rq, requests w !! k = Some rq -> (req_gen rq <= gen w)%nat) /\
  (forall k, (nextReq w <= k)%nat -> requests w !! k = None) /\
  (forall k1 k2, pending w k1 -> pending w k2 -> k1 = k2).

(** The flags agree, the loading flag is up exactly while a request of the
    instance is in flight, and then the last message is the user's. *)
Definition stInv (w : World) (st : State) : Prop :=
  isTyping st = isLoading st /\
  (isLoading st = true <-> exists k, pending w k) /\
  (isLoading st = true -> exists m, last (messages st) = Some m /\ type m = MsgUser) /\
  convWf (messages st).

Definition chatInv (w : World) : Prop :=
  reqInv w /\ forall st, comp w = Some st -> stInv w st.

(** ** Lemmas on the conversation *)

Lemma repliesFollowUser_snoc msgs m :
  repliesFollowUser msgs ->
  (type m = MsgAssistant -> msgs <> [] -> exists m', last msgs = Some m' /\ type m' = MsgUser) ->
  repliesFollowUser (msgs ++ [m]).
Proof.
  intros H Hm i m0 Hi Ht.
  destruct (decide (S i < length msgs)%nat) as [Hlt|Hge].
  - rewrite lookup_app_l in Hi by done. destruct (H i m0 Hi Ht) as (m' & Hm' & Hu).
    exists m'. by rewrite lookup_app_l by lia.
  - rewrite lookup_app_r in Hi by lia. apply list_lookup_singleton_Some in Hi as [Hi <-].
    destruct Hm as (m' & Hl & Hu); [done|by intros ->; simpl in *; lia|].
    exists m'. rewrite lookup_app_l by lia. split; [|done].
    rewrite last_lookup in Hl. by replace i with (pred (length msgs)) by lia.
Qed.

Lemma convWf_snoc msgs m :
  convWf msgs ->
  (type m = MsgAssistant -> exists m', last msgs = Some m' /\ type m' = MsgUser) ->
  convWf (msgs ++ [m]).
Proof.
  intros [[t Ht] Hr] Hm. split.
  - exists t. by destruct msgs.
  - apply repliesFollowUser_snoc; [done|]. intros Ha _. by apply Hm.
Qed.

(** An instance update that keeps the conversation and the flags keeps
    the invariant, as do the world updates that keep the requests. *)
Lemma stInv_frame w w' st st' :
  requests w' = requests w -> gen w' = gen w ->
  messages st' = messages st -> isLoading st' = isLoading st -> isTyping st' = isTyping st ->
  stInv w st -> stInv w' st'.
Proof. unfold stInv, pending. intros -> -> -> -> ->. done. Qed.

Lemma reqInv_frame w w' :
  requests w' = requests w -> gen w' = gen w -> nextReq w' = nextReq w ->
  reqInv w -> reqInv w'.
Proof. unfold reqInv, pending. intros -> -> ->. done. Qed.

Lemma setCells_comp g f w :
  comp (setCells g f w) =
  match comp w with Some st => if decide (g = gen w) then Some (f st) else Some st | None => None end.
Proof. unfold setCells. by repeat case_match. Qed.

Lemma chat_setCells_fields g f w :
  gen (setCells g f w) = gen w /\ requests (setCells g f w) = requests w /\
  nextReq (setCells g f w) = nextReq w /\ toasts (setCells g f w) = toasts w.
Proof. unfold setCells. by repeat case_match. Qed.

(** Setting the text box keeps the invariant. *)
Lemma chatInv_setInput g q w : chatInv w -> chatInv (setCells g (setInput q) w).
Proof.
  intros [Hr Hs]. destruct (chat_setCells_fields g (setInput q) w) as (Hg & Hq & Hn & _).
  split; [by eapply reqInv_frame|].
  intros st. rewrite setCells_comp. destruct (comp w) as [st0|] eqn:Hc; [|done].
  specialize (Hs st0 eq_refl).
  case_decide; intros [= <-]; (eapply stInv_frame; [exact Hq|exact Hg|done..|exact Hs]).
Qed.

Lemma pending_dropRequest w k k' :
  pending (dropRequest k w) k' <-> pending w k' /\ k' <> k.
Proof.
  unfold pending, dropRequest. simpl. setoid_rewrite lookup_delete_Some. naive_solver.
Qed.

Lemma reqInv_dropRequest w k : reqInv w -> reqInv (dropRequest k w).
Proof.
  intros (Hg & Hf & Hu). split_and!.
  - intros k' rq. unfold dropRequest. simpl. rewrite lookup_delete_Some.
    intros [_ H]. by eapply Hg.
  - intros k' Hk'. unfold dropRequest. simpl.
    apply lookup_delete_None. right. by apply Hf.
  - intros k1 k2 H1%pending_dropRequest H2%pending_dropRequest. apply Hu; naive_solver.
Qed.

Lemma sendBlocked_false st :
  sendBlocked st = false -> isLoading st = false.
Proof. unfold sendBlocked. by intros [_ ->]%orb_false_iff. Qed.

Lemma chatInv_send now w : chatInv w -> chatInv (handleSendMessage now w).
Proof.
  intros Hinv. unfold handleSendMessage.
  destruct (comp w) as [st|] eqn:Hc; [|exact Hinv].
  destruct (sendBlocked st) eqn:Hb; [exact Hinv|].
  destruct Hinv as [(Hg & Hf & Hu) Hs].
  pose proof (sendBlocked_false st Hb) as Hl.
  destruct (Hs st Hc) as (Ht & Hp & _ & Hcv).
  assert (Hnp : forall k, ~ pending w k) by (intros k Hk; rewrite Hl in Hp; naive_solver).
  assert (Hpk : forall k', pending (handleSendMessage now w) k' <-> k' = nextReq w).
  { intros k'. unfold handleSendMessage, pending. rewrite Hc, Hb. simpl.
    setoid_rewrite lookup_insert_Some. split; [|intros ->; naive_solver].
    intros (rq & [[-> _]|[Hne Hk']] & Hgen); [done|]. destruct (Hnp k'). by exists rq. }
  unfold handleSendMessage in Hpk. rewrite Hc, Hb in Hpk.
  split; [split_and!|].
  - intros k rq. simpl. rewrite lookup_insert_Some.
    intros [[_ <-]|[_ Hk]]; [simpl; lia|by eapply Hg].
  - intros k Hk. simpl in Hk |- *. rewrite lookup_insert_ne by lia. apply Hf. lia.
  - intros k1 k2 H1%Hpk H2%Hpk. congruence.
  - intros st' [= <-]. split_and!; simpl; [done| |by intros _; eexists; rewrite last_snoc|].
    + split; [intros _; exists (nextReq w); by apply Hpk|done].
    + by apply convWf_snoc.
Qed.

(** A settled request of the current instance: the loading flag goes
    down, the reply (if any) follows the user's message. *)
Lemma stInv_settle_cur w k rq st f :
  reqInv w -> stInv w st -> requests w !! k = Some rq -> req_gen rq = gen w ->
  (forall st', messages (f st') = messages st' \/
     exists m, messages (f st') = messages st' ++ [m]) ->
  isLoading (f st) = false -> isTyping (f st) = false ->
  stInv (dropRequest k w) (f st).
Proof.
  intros (_ & _ & Hu) (Ht & Hp & Hlast & Hcv) Hk Hg Hf Hl Hty.
  assert (Hpk : pending w k) by (exists rq; done).
  destruct (Hlast (proj2 Hp (ex_intro _ k Hpk))) as (mu & Hmu & Hut).
  split_and!; [congruence| |by rewrite Hl|].
  - rewrite Hl. split; [done|]. intros [k' [Hk' Hne]%pending_dropRequest].
    by destruct Hne; apply Hu.
  - destruct (Hf st) as [->|[m ->]]; [done|]. apply convWf_snoc; [done|eauto].
Qed.

Lemma chatInv_settle k r now w : chatInv w -> chatInv (settle k r now w).
Proof.
  intros [Hr Hs]. unfold settle. destruct (requests w !! k) as [rq|] eqn:Hk; [|by split].
  assert (Hr1 : reqInv (dropRequest k w)) by by apply reqInv_dropRequest.
  assert (Hold : forall st, comp w = Some st -> req_gen rq <> gen w -> stInv (dropRequest k w) st).
  { intros st Hc Hne. destruct (Hs st Hc) as (Ht & Hp & Hl & Hcv). split_and!; [done| |done|done].
    rewrite Hp. setoid_rewrite pending_dropRequest.
    split; [intros [k' Hk']; exists k'; split; [done|]|naive_solver].
    intros ->. destruct Hk' as (rq' & Hrq' & Hg'). congruence. }
  assert (Hcells : forall f, (forall st', messages (f st') = messages st' \/
      exists m, messages (f st') = messages st' ++ [m]) ->
      (forall st', isLoading (f st') = false /\ isTyping (f st') = false) ->
      chatInv (setCells (req_gen rq) f (dropRequest k w))).
  { intros f Hf Hfl. destruct (chat_setCells_fields (req_gen rq) f (dropRequest k w)) as (Hg & Hq & Hn & _).
    split; [by eapply reqInv_frame|]. intros st. rewrite setCells_comp. simpl.
    destruct (comp w) as [st0|] eqn:Hc; [|done]. case_decide as Hge; intros [= <-].
    - unfold stInv, pending in *. rewrite Hq, Hg.
      apply (stInv_settle_cur w k rq st0 f); try done; [exact (Hs st0 eq_refl)|apply Hfl..].
    - unfold stInv, pending in *. rewrite Hq, Hg. by apply Hold. }
  destruct (reply r now) as [m|].
  - apply Hcells; [intros st'; right; by eexists|done].
  - assert (H := Hcells stopLoading (fun st' => or_introl eq_refl) (fun _ => conj eq_refl eq_refl)).
    destruct H as [H1 H2]. split; [exact H1|exact H2].
Qed.

Lemma chatInv_mount now w : comp w = None -> chatInv w -> chatInv (dispatch (Mount now) w).
Proof.
  intros Hc [(Hg & Hf & Hu) _]. simpl. rewrite Hc. unfold setCells. simpl.
  rewrite decide_True by done.
  assert (Hnp : forall k, ~ pending (mkWorld (Some (initState now)) (S (gen w)) (env w)
                  (requests w) (nextReq w) (toasts w) (clipboard w)) k).
  { intros k (rq & Hk & Hgk). simpl in *. specialize (Hg k rq Hk). lia. }
  split; [split_and!|].
  - intros k rq Hk. simpl. specialize (Hg k rq Hk). lia.
  - exact Hf.
  - intros k1 k2 H1. by destruct (Hnp k1).
  - intros st [= <-]. split_and!; [done| |done|].
    + split; [done|]. intros [k Hk]. by destruct (Hnp k).
    + split; [by eexists|]. intros [|i] m Hi; simpl in Hi; done.
Qed.

(** Every event keeps the invariant. *)
Lemma chatInv_dispatch e w : chatInv w -> chatInv (dispatch e w).
Proof.
  intros Hinv. destruct e; simpl.
  - destruct (comp w) eqn:Hc; [exact Hinv|].
    pose proof (chatInv_mount now w Hc Hinv) as H. cbn [dispatch] in H. rewrite Hc in H. exact H.
  - destruct Hinv as [Hr _]. by split.
  - by apply chatInv_setInput.
  - repeat case_match; try exact Hinv. by apply chatInv_setInput.
  - repeat case_match; try exact Hinv. by apply chatInv_send.
  - case_match; [case_match; [exact Hinv|by apply chatInv_send]|exact Hinv].
  - destruct Hinv as [Hr Hs].
    repeat case_match; try (by split); (split; [exact Hr|]).
    all: intros st Hst; apply Hs; simpl in Hst; congruence.
  - by apply chatInv_settle.
Qed.

Lemma chatInv_init e : chatInv (initWorld e).
Proof. split; [split_and!|]; [done|done| |done]. intros k1 k2 (rq & Hk & _). done. Qed.

Lemma reachable_chatInv e w : reachable e w -> chatInv w.
Proof.
  intros Hr. eapply (star_invariant step chatInv); [|exact Hr|apply chatInv_init].
  intros a b [ev ?]. by apply chatInv_dispatch.
Qed.

(** ** Scenarios *)

(** A page served from [http://localhost:3000] without the variable set. *)
Definition localEnv : Env := mkEnv None (Some ("http:", "localhost")).

(** Mounted at time 0 with the text box holding ["salinity"]. *)
Definition typedWorld : World := run [Mount 0; TypeInput "salinity"] (initWorld localEnv).

Definition typedState : State := setInput "salinity" (setMounted true (initState 0)).

Lemma chat_run_reachable en es w : reachable en w -> reachable en (run es w).
Proof.
  apply star_foldl. constructor.
Qed.

(** ** Properties of the component *)

(** C17. One query at a time: in every reachable world the loading flag
    of the mounted chat is up exactly when one of its requests is in
    flight, there is never more than one, and the typing indicator shows
    exactly while loading. *)
Theorem single_request_in_flight e w st :
  reachable e w -> comp w = Some st ->
  (isLoading st = true <-> exists k, pending w k) /\
  (forall k1 k2, pending w k1 -> pending w k2 -> k1 = k2) /\
  isTyping st = isLoading st.
Proof.
  intros Hr Hc. destruct (reachable_chatInv e w Hr) as [(_ & _ & Hu) Hs].
  destruct (Hs st Hc) as (Ht & Hp & _). done.
Qed.

Lemma single_request_in_flight_witness :
  reachable localEnv (run [ClickSend 5] typedWorld) /\
  comp (run [ClickSend 5] typedWorld) =
    Some (mkState (messages typedState ++ [userMessage 5 typedState]) "" true true true) /\
  (forall k1 k2, pending (run [ClickSend 5] typedWorld) k1 ->
     pending (run [ClickSend 5] typedWorld) k2 -> k1 = k2).
Proof.
  assert (Hr : reachable localEnv (run [ClickSend 5] typedWorld))
    by (apply chat_run_reachable, chat_run_reachable, star_refl).
  split_and!; [exact Hr|vm_compute; reflexivity|].
  apply (single_request_in_flight localEnv _
    (mkState (messages typedState ++ [userMessage 5 typedState]) "" true true true));
    [exact Hr|vm_compute; reflexivity].
Defined.

(** C18. The conversation is well formed: in every reachable world it
    starts with the welcome message and every assistant message after it
    directly follows a user message, so a reply is never appended twice or
    after another reply. *)
Theorem replies_follow_user e w st :
  reachable e w -> comp w = Some st ->
  (exists t, head (messages st) = Some (welcome t)) /\
  (forall i m, messages st !! S i = Some m -> type m = MsgAssistant ->
     exists m', messages st !! i = Some m' /\ type m' = MsgUser).
Proof.
  intros Hr Hc. destruct (reachable_chatInv e w Hr) as [_ Hs].
  destruct (Hs st Hc) as (_ & _ & _ & Hcv). exact Hcv.
Qed.

Lemma replies_follow_user_witness :
  let w := run [ClickSend 5; FetchSettles 0 (OkJson (Some (JObj [("response", JStr "ok")]))) 9]
             typedWorld in
  reachable localEnv w /\ exists st, comp w = Some st /\
  (exists t, head (messages st) = Some (welcome t)).
Proof.
  assert (Hr : reachable localEnv (run [ClickSend 5; FetchSettles 0
    (OkJson (Some (JObj [("response", JStr "ok")]))) 9] typedWorld))
    by (apply chat_run_reachable, chat_run_reachable, star_refl).
  split; [exact Hr|]. eexists. split; [vm_compute; reflexivity|].
  eapply (replies_follow_user localEnv); [exact Hr|vm_compute; reflexivity].
Defined.

(** C19. Sending: with a non-blank text box and no reply pending, the
    send button and the Enter key (without Shift) append the user's
    message with the text as typed, clear the box, raise both flags and
    post the same text as [{"query": ...}] to the chat endpoint. *)
Theorem send_effect w st now :
  comp w = Some st -> sendBlocked st = false ->
  dispatch (KeyPress "Enter" false now) w = dispatch (ClickSend now) w /\
  comp (dispatch (ClickSend now) w) =
    Some (mkState (messages st ++ [mkMessage (pretty now) MsgUser (JStr (input st)) now None])
            "" true true (mounted st)) /\
  requests (dispatch (ClickSend now) w) !! nextReq w =
    Some (mkReq (gen w) (chatUrl (env w)) (JObj [("query", JStr (input st))])).
Proof.
  intros Hc Hb. simpl. rewrite Hc, Hb. unfold handleSendMessage. rewrite Hc, Hb.
  split_and!; [reflexivity|reflexivity|]. simpl. apply lookup_insert_eq.
Qed.

Lemma send_effect_witness :
  comp typedWorld = Some typedState /\ sendBlocked typedState = false /\
  requests (dispatch (ClickSend 5) typedWorld) !! 0%nat =
    Some (mkReq 1 "http://localhost:8000/api/chat/query" (JObj [("query", JStr "salinity")])).
Proof.
  split_and!; [vm_compute; reflexivity|vm_compute; reflexivity|].
  change 0%nat with (nextReq typedWorld).
  rewrite (proj2 (proj2 (send_effect typedWorld typedState 5 ltac:(vm_compute; reflexivity)
    ltac:(vm_compute; reflexivity)))).
  vm_compute. reflexivity.
Defined.

(** The guard: when the text box is blank (only whitespace, which
    [trim] removes) or a reply is pending, neither the send button nor
    Enter changes anything; Shift+Enter and other keys never send. *)
Theorem send_blocked_noop w st now key :
  comp w = Some st ->
  js_trim (input st) = ""%string \/ isLoading st = true ->
  dispatch (ClickSend now) w = w /\ dispatch (KeyPress "Enter" false now) w = w /\
  dispatch (KeyPress key true now) w = w.
Proof.
  intros Hc Hbl.
  assert (Hb : sendBlocked st = true).
  { unfold sendBlocked. destruct Hbl as [Hs | ->]; [|by rewrite orb_true_r].
    by rewrite Hs. }
  simpl. rewrite Hc, Hb. unfold handleSendMessage. rewrite Hc, Hb.
  split_and!; [done|done|by case_decide].
Qed.

Lemma send_blocked_noop_witness :
  comp (run [TypeInput "   "] typedWorld) = Some (setInput "   " typedState) /\
  dispatch (ClickSend 5) (run [TypeInput "   "] typedWorld) = run [TypeInput "   "] typedWorld.
Proof.
  split; [vm_compute; reflexivity|].
  apply (send_blocked_noop _ (setInput "   " typedState) 5 "Enter");
    [vm_compute; reflexivity|left; vm_compute; reflexivity].
Defined.

(** A settled request of the current, mounted instance. *)
Lemma settle_cur k rq r now w st :
  requests w !! k = Some rq -> req_gen rq = gen w -> comp w = Some st ->
  settle k r now w =
  match reply r now with
  | Some m => withComp (Some (stopLoading (appendMessage m st))) (dropRequest k w)
  | None => addToasts [failToast] (withComp (Some (stopLoading st)) (dropRequest k w))
  end.
Proof.
  intros Hk Hg Hc. unfold settle, setCells. rewrite Hk.
  destruct (reply r now); simpl; by rewrite Hc, decide_True by done.
Qed.

(** A reply: when the request of the mounted instance settles with
    an [ok] response whose body is an object, the reply is appended with
    [data.response || 'I could not find relevant data.'] and
    [data.data_points ?? 0], both flags go down and no toast is shown. *)
Theorem settle_success k rq kvs now w st :
  requests w !! k = Some rq -> req_gen rq = gen w -> comp w = Some st ->
  let w' := dispatch (FetchSettles k (OkJson (Some (JObj kvs))) now) w in
  comp w' = Some (mkState (messages st ++ [mkMessage (pretty (now + 1)) MsgAssistant
                    (js_or (obj_lookup "response" kvs) (JStr "I could not find relevant data."))
                    now (Some (mkMeta "data_query"
                      (js_nullish (obj_lookup "data_points" kvs) (JNum 0)) "chart"))])
                  (input st) false false (mounted st)) /\
  toasts w' = toasts w /\ requests w' !! k = None.
Proof.
  intros Hk Hg Hc. simpl. rewrite (settle_cur k rq _ now w st Hk Hg Hc). simpl.
  split_and!; [done|done|apply lookup_delete_eq].
Qed.

Lemma settle_success_witness :
  let w := dispatch (ClickSend 5) typedWorld in
  requests w !! 0%nat = Some (mkReq 1 "http://localhost:8000/api/chat/query"
                               (JObj [("query", JStr "salinity")])) /\
  comp w = Some (mkState (messages typedState ++ [userMessage 5 typedState]) "" true true true) /\
  toasts (dispatch (FetchSettles 0 (OkJson (Some (JObj [("data_points", JNum 12)]))) 9) w) = [].
Proof.
  split_and!; [vm_compute; reflexivity..|].
  refine (proj1 (proj2 (settle_success 0 (mkReq 1 "http://localhost:8000/api/chat/query"
    (JObj [("query", JStr "salinity")])) [("data_points", JNum 12)] 9 _
    (mkState (messages typedState ++ [userMessage 5 typedState]) "" true true true) _ _ _)));
    vm_compute; reflexivity.
Defined.

(** C20. A failed request: a network error, a response that is not [ok],
    a body that is not JSON, or the body [null] leave the conversation as
    it was, lower both flags and show the error toast. *)
Theorem settle_failure k rq r now w st :
  requests w !! k = Some rq -> req_gen rq = gen w -> comp w = Some st ->
  (r = NetworkError \/ (exists c, r = HttpError c) \/ r = OkJson None \/ r = OkJson (Some JNull)) ->
  let w' := dispatch (FetchSettles k r now) w in
  comp w' = Some (mkState (messages st) (input st) false false (mounted st)) /\
  toasts w' = toasts w ++ [ToastError (JStr "Failed to send message. Please try again.")].
Proof.
  intros Hk Hg Hc Hr. simpl. rewrite (settle_cur k rq r now w st Hk Hg Hc).
  by destruct Hr as [->|[[c ->]|[->| ->]]].
Qed.

Lemma settle_failure_witness :
  let w := dispatch (ClickSend 5) typedWorld in
  requests w !! 0%nat = Some (mkReq 1 "http://localhost:8000/api/chat/query"
                               (JObj [("query", JStr "salinity")])) /\
  toasts (dispatch (FetchSettles 0 (HttpError 500) 9) w) = [failToast].
Proof.
  split; [vm_compute; reflexivity|].
  refine (proj2 (settle_failure 0 (mkReq 1 "http://localhost:8000/api/chat/query"
    (JObj [("query", JStr "salinity")])) (HttpError 500) 9 _
    (mkState (messages typedState ++ [userMessage 5 typedState]) "" true true true) _ _ _ _));
    [vm_compute; reflexivity..|right; left; by eexists].
Defined.

(** Message ids can collide: a reply that arrives at [t] gets the id
    [t + 1] ([Date.now() + 1]), which is also the id of a user message sent
    at [t + 1]; the list then renders two children with the same React
    key.  Here with non-decreasing times 0, 5, 5, 6. *)
Example duplicate_message_ids :
  let w := run [Mount 0; TypeInput "a"; ClickSend 5;
                FetchSettles 0 (OkJson (Some (JObj []))) 5; TypeInput "b"; ClickSend 6]
             (initWorld localEnv) in
  reachable localEnv w /\
  exists st, comp w = Some st /\ map id (messages st) = ["1"; "5"; "6"; "6"]%string /\
    ~ NoDup (map id (messages st)).
Proof.
  split; [apply chat_run_reachable, star_refl|].
  eexists. split; [vm_compute; reflexivity|]. vm_compute. split; [reflexivity|].
  intros Hn. apply NoDup_cons in Hn as [_ Hn]. apply NoDup_cons in Hn as [_ Hn].
  apply NoDup_cons in Hn as [Hin _]. apply Hin. left.
Qed.

(** [generateResponse] always answers for draws in [[0, 1)]: the index is
    below the four templates, and the counts it prints lie in [50, 549]
    and [5, 24]. *)
Lemma generateResponse_defined q r1 r2 r3 :
  (0 <= r1 < 1)%Q -> (0 <= r2 < 1)%Q -> (0 <= r3 < 1)%Q ->
  is_Some (generateResponse q r1 r2 r3) /\
  50 <= Qfloor (r1 * inject_Z 500) + 50 <= 549 /\ 5 <= Qfloor (r2 * inject_Z 20) + 5 <= 24.
Proof.
  intros [H1 H1'] [H2 H2'] [H3 H3'].
  pose proof (Qfloor_draw_bounds r1 500 H1 H1' ltac:(lia)).
  pose proof (Qfloor_draw_bounds r2 20 H2 H2' ltac:(lia)).
  pose proof (Qfloor_draw_bounds r3 4 H3 H3' ltac:(lia)).
  split; [|lia]. unfold generateResponse. apply lookup_lt_is_Some_2. cbn [length].
  change (Z.of_nat 4) with 4%Z. lia.
Qed.

End Chat.
