(* ===== verification/ChatView.v ===== *)
(** * The render of the chat: [ChatInterface]
    (src/code/Floatchat/components/Footer.tsx, lines 355-527)

    The render shows one bubble per message (lines 387-454): the user's on
    the right with the user's avatar, the assistant's on the left with the
    bot's, the content as a React child, the metadata line
    ["{dataPoints} data points"] and the query type, the time of the
    message, and for a reply the copy and feedback buttons.  Below come
    "AI is thinking..." while [isTyping] (lines 457-473), the first three
    example queries while the conversation is the welcome message alone
    (lines 479-494), the text box and the send button, disabled on a blank
    input or a pending reply and showing a spinner while loading (lines
    497-524).

    The content of a reply is the server's [response] field and its
    [dataPoints] the server's [data_points] field, both unchecked: a JSON
    object there is not a valid React child and the render throws
    ([jsx_text]).  [toLocaleTimeString] depends on the locale and is the
    parameter [timeLocale] of the section. *)

From S2P Require Import Prelude JsValue JsNumber Endpoint Chat.
Local Open Scope js_scope.
Local Open Scope fc_scope.

Module ChatView.
Import Chat.

Section Render.
Variable timeLocale : Z -> string.

Record Bubble := mkBubble {
  b_user : bool;                          (** right-aligned, lines 393 and 448 *)
  b_text : string;                        (** [{message.content}], line 407 *)
  b_meta : option (string * string);      (** lines 409-422 *)
  b_time : string;                        (** line 427 *)
  b_actions : bool                        (** copy and feedback buttons, lines 429-444 *)
}.

(** One message, its children in the order JSX evaluates them. *)
Definition bubble (mounted : bool) (m : Message) : js_exn + Bubble :=
  let* txt := jsx_text (content m) in
  let* meta := match metadata m with
               | Some md => let* dp := jsx_text (dataPoints md) in
                            inr (Some (dp +:+ " data points", queryType md))
               | None => inr None
               end in
  inr (mkBubble (bool_decide (type m = MsgUser)) txt meta
         (if mounted then timeLocale (timestamp m) else "")
         (bool_decide (type m = MsgAssistant))).

Fixpoint bubbles (mounted : bool) (ms : list Message) : js_exn + list Bubble :=
  match ms with
  | [] => inr []
  | m :: ms' => let* b := bubble mounted m in let* bs := bubbles mounted ms' in inr (b :: bs)
  end.

(** "AI is thinking..." while a reply is pending (lines 457-473). *)
Definition typingIndicator (st : State) : option string :=
  if isTyping st then Some "AI is thinking..."%string else None.

(** The first three example queries, while the conversation is the
    welcome message alone (lines 479-494). *)
Definition exampleButtons (st : State) : list string :=
  if decide (length (messages st) = 1%nat) then take 3 exampleQueries else [].

(** The text box and the send button (lines 497-524): disabled on a blank
    input or a pending reply, a spinner while loading. *)
Record InputArea := mkInput { i_value : string; i_disabled : bool; i_spinner : bool }.

Definition inputArea (st : State) : InputArea := mkInput (input st) (sendBlocked st) (isLoading st).

Record View := mkView {
  v_bubbles : list Bubble;
  v_typing : option string;
  v_examples : list string;
  v_input : InputArea
}.

(** The render (lines 355-527). *)
Definition view (st : State) : js_exn + View :=
  let* bs := bubbles (mounted st) (messages st) in
  inr (mkView bs (typingIndicator st) (exampleButtons st) (inputArea st)).

End Render.

(** ** Replies that render *)

(** A value React can render as a child. *)
Definition childOk (v : jval) : bool := match jsx_text v with inr _ => true | inl _ => false end.

Definition optChildOk (v : option jval) : bool := match v with Some x => childOk x | None => true end.

Definition msgOk (m : Message) : bool :=
  childOk (content m) &&
  match metadata m with Some md => childOk (dataPoints md) | None => true end.

(** A response whose [response] and [data_points] fields, when it has
    them, render. *)
Definition replyOk (r : Response) : bool :=
  match r with
  | OkJson (Some d) =>
      match get_prop d "response", get_prop d "data_points" with
      | inr a, inr b => optChildOk a && optChildOk b
      | _, _ => true
      end
  | _ => true
  end.

Definition eventOk (e : Event) : bool :=
  match e with FetchSettles _ r _ => replyOk r | _ => true end.

Inductive okStep : World -> World -> Prop :=
| ok_step e w : eventOk e = true -> okStep w (dispatch e w).

Definition okReachable (e : Env) (w : World) : Prop := initWorld e ==[ okStep ]=>* w.

Definition onComp (P : State -> Prop) (w : World) : Prop := forall st, comp w = Some st -> P st.

Definition rendersAll (st : State) : Prop := Forall (fun m => msgOk m = true) (messages st).

(** ** Every message of a conforming run renders *)

Lemma childOk_js_or a d : optChildOk a = true -> childOk d = true -> childOk (js_or a d) = true.
Proof. destruct a as [x|]; simpl; [case_match|]; done. Qed.

Lemma childOk_js_nullish a d : optChildOk a = true -> childOk d = true -> childOk (js_nullish a d) = true.
Proof. by destruct a as [[]|]. Qed.

Lemma reply_ok r now m : replyOk r = true -> reply r now = Some m -> msgOk m = true.
Proof.
  destruct r as [| |[d|]]; try discriminate. simpl. unfold assistantMessage.
  destruct (get_prop d "response") as [|a]; [discriminate|].
  destruct (get_prop d "data_points") as [|b]; [discriminate|].
  intros [Ha Hb]%andb_prop [= <-]. unfold msgOk; cbn [content metadata dataPoints].
  by rewrite childOk_js_or, childOk_js_nullish.
Qed.

Lemma chat_setCells_onComp P g f w :
  (forall st, P st -> P (f st)) -> onComp P w -> onComp P (setCells g f w).
Proof.
  intros Hf Hw st. unfold setCells. destruct (comp w) as [st0|] eqn:Hc; [|by apply Hw].
  case_decide; [intros [= <-]; by apply Hf, Hw|by apply Hw].
Qed.

Lemma rendersAll_snoc st m :
  rendersAll st -> msgOk m = true -> Forall (fun m => msgOk m = true) (messages st ++ [m]).
Proof. intros H Hm. apply Forall_app. split; [done|by constructor]. Qed.

Lemma settle_renders k r now w :
  replyOk r = true -> onComp rendersAll w -> onComp rendersAll (settle k r now w).
Proof.
  intros Hr Hw. unfold settle. destruct (requests w !! k); [|done].
  destruct (reply r now) as [m|] eqn:Hm.
  - apply chat_setCells_onComp; [|exact Hw]. intros st Hst. by apply rendersAll_snoc, (reply_ok r now).
  - intros st. apply (chat_setCells_onComp _ _ stopLoading); [done|exact Hw].
Qed.

Lemma handleSendMessage_renders now w : onComp rendersAll w -> onComp rendersAll (handleSendMessage now w).
Proof.
  intros Hw st. unfold handleSendMessage. destruct (comp w) as [st0|] eqn:Hc; [|by apply Hw].
  case_match; [by apply Hw|]. intros [= <-]. apply rendersAll_snoc; [by apply Hw|done].
Qed.

Lemma dispatch_renders e w : eventOk e = true -> onComp rendersAll w -> onComp rendersAll (dispatch e w).
Proof.
  intros Hok Hw. destruct e; simpl.
  - destruct (comp w) eqn:Hc; [exact Hw|]. apply chat_setCells_onComp; [done|].
    intros st [= <-]. by repeat constructor.
  - done.
  - by apply chat_setCells_onComp.
  - repeat case_match; try exact Hw. by apply chat_setCells_onComp.
  - repeat case_match; try exact Hw. by apply handleSendMessage_renders.
  - repeat case_match; try exact Hw. by apply handleSendMessage_renders.
  - repeat case_match; try exact Hw; intros st; apply Hw.
  - by apply settle_renders.
Qed.

Lemma okReachable_renders e w : okReachable e w -> onComp rendersAll w.
Proof.
  intros Hr. eapply (star_invariant okStep (onComp rendersAll)); [|exact Hr|done].
  intros a b [ev ? Hok]. by apply dispatch_renders.
Qed.

Section RenderTotal.
Variable timeLocale : Z -> string.

Lemma bubble_ok mnt m : msgOk m = true -> exists b, bubble timeLocale mnt m = inr b.
Proof.
  unfold msgOk, bubble, childOk. destruct (jsx_text (content m)); [discriminate|].
  destruct (metadata m) as [md|]; cbn [js_bind]; [|by eexists].
  destruct (jsx_text (dataPoints md)); [by rewrite andb_false_r|]. by eexists.
Qed.

Lemma bubbles_ok mnt ms : Forall (fun m => msgOk m = true) ms -> exists bs, bubbles timeLocale mnt ms = inr bs.
Proof.
  induction 1 as [|m ms Hm _ [bs Hbs]]; [by eexists|]. simpl.
  destruct (bubble_ok mnt m Hm) as [b ->]. cbn [js_bind]. rewrite Hbs. by eexists.
Qed.

(** A message whose content is an object throws after the ones before it
    rendered. *)
Lemma bubbles_snoc_obj mnt ms m kvs :
  Forall (fun m => msgOk m = true) ms -> content m = JObj kvs ->
  bubbles timeLocale mnt (ms ++ [m]) = inl RenderError.
Proof.
  intros Hms Hc. induction Hms as [|m' ms Hm' _ IH]; simpl.
  - unfold bubble. by rewrite Hc.
  - destruct (bubble_ok mnt m' Hm') as [b ->]. cbn [js_bind]. by rewrite IH.
Qed.

End RenderTotal.

Lemma ok_run_reachable en es w :
  Forall (fun e => eventOk e = true) es -> okReachable en w -> okReachable en (run es w).
Proof.
  intros Hes. revert w. induction Hes as [|ev es Hev _ IH]; intros w Hr; [done|].
  apply IH. eapply star_right; [exact Hr|by constructor].
Qed.

(** C21. The chat render and the server's replies: in every run whose ok
    replies carry renderable [response] and [data_points] fields
    (strings, numbers, booleans, [null], arrays of them, or nothing), the
    mounted chat renders; one ok reply whose [response] is an object, to
    the pending request of the mounted chat, makes the next render throw,
    whatever the conversation held before. *)
Theorem chat_render_typed tl e w st :
  okReachable e w -> comp w = Some st ->
  (exists v, view tl st = inr v) /\
  (forall k rq kvs now, requests w !! k = Some rq -> req_gen rq = gen w ->
     exists st', comp (dispatch (FetchSettles k (OkJson (Some (JObj [("response", JObj kvs)]))) now) w)
                 = Some st' /\ view tl st' = inl RenderError).
Proof.
  intros Hr Hc. pose proof (okReachable_renders e w Hr st Hc) as Hall. split.
  - destruct (bubbles_ok tl (mounted st) _ Hall) as [bs Hbs]. unfold view. rewrite Hbs. by eexists.
  - intros k rq kvs now Hk Hg. simpl. rewrite (settle_cur k rq _ now w st Hk Hg Hc). simpl.
    eexists. split; [reflexivity|]. unfold view. cbn [messages stopLoading appendMessage].
    by rewrite (bubbles_snoc_obj tl _ _ _ kvs Hall).
Qed.

Lemma chat_render_typed_witness :
  let w := run [Mount 0%Z; TypeInput "salinity"; ClickSend 5%Z] (initWorld localEnv) in
  okReachable localEnv w /\
  exists st', comp (dispatch (FetchSettles 0 (OkJson (Some (JObj [("response", JObj [])]))) 9) w)
                = Some st' /\ view (fun _ => "") st' = inl RenderError.
Proof.
  assert (Hr : okReachable localEnv (run [Mount 0; TypeInput "salinity"; ClickSend 5] (initWorld localEnv)))
    by (apply ok_run_reachable; [repeat constructor|apply star_refl]).
  split; [exact Hr|].
  refine (proj2 (chat_render_typed (fun _ => "") localEnv _
    (mkState (messages typedState ++ [userMessage 5 typedState]) "" true true true) Hr _) 0
    (mkReq 1 "http://localhost:8000/api/chat/query" (JObj [("query", JStr "salinity")])) [] 9%Z _ _);
    vm_compute; reflexivity.
Defined.

End ChatView.
