(* ===== verification/Loader.v ===== *)
(** * Data loading keyed on props: the [aborted]-flag fetch effect

    MapVisualization (src/unnamed/part_003, lines 24-57) and DataChart
    (src/code/Floatchat/components/DataChart.tsx, lines 18-43) load their
    data with the same effect, re-run whenever its dependencies (the
    component's props) change:

    {[
    useEffect(() => {
      let aborted = false
      const load = async () => {
        try {
          setIsLoading(true)
          const res = await fetch(url(props))
          if (!res.ok) throw new Error(...)
          const payload = await res.json()
          if (aborted) return
          setItems(decode(payload))
        } catch (e) { setItems([]) }
        finally { if (!aborted) setIsLoading(false) }
      }
      load()
      return () => { aborted = true }
    }, [props])
    ]}

    A component is described by a [FetchSource]: the URL it requests for
    given props and the decoding of the payload (which may throw).  The
    [Section Loader] models the effect for any source: each run of the
    effect has a number, its own [aborted] flag (the set [aborted] of runs
    whose cleanup ran) and one pending [fetch]; a settled [fetch] runs the
    rest of its [load] call.  The theorems of the section hold for every
    source; MapView and Chart instantiate them. *)

From S2P Require Import Prelude JsValue Endpoint.

Module Export Loader.

(** What a component promises the loader: the URL for its props and the
    decoding of a payload. *)
Class FetchSource (P A : Type) := {
  source_url : Env -> P -> string;
  source_decode : jval -> js_exn + list A
}.

Section Loader.
Context {P A : Type} `{EqDecision P} `{FetchSource P A}.

(** The two cells of the effect. *)
Record LState := mkLState {
  items : list A;
  isLoading : bool
}.

(** A pending [fetch]: the generation of the instance and the URL. *)
Record Fetch := mkFetch {
  f_gen : nat;
  f_url : string
}.

Record LWorld := mkLWorld {
  comp : option LState;
  gen : nat;
  env : Env;
  props : P;
  run : nat;                (** the effect run of the current render *)
  nextRun : nat;
  aborted : gset nat;       (** runs whose cleanup set [aborted = true] *)
  fetches : gmap nat Fetch  (** pending [fetch] of each run *)
}.

Definition initLWorld (e : Env) (p : P) : LWorld := mkLWorld None 0 e p 0 0 ∅ ∅.

Definition setItems (xs : list A) (st : LState) : LState := mkLState xs (isLoading st).

Definition setLoading (b : bool) (st : LState) : LState := mkLState (items st) b.

Definition withComp (c : option LState) (w : LWorld) : LWorld :=
  mkLWorld c (gen w) (env w) (props w) (run w) (nextRun w) (aborted w) (fetches w).

(** A [setState] of the instance of generation [g]. *)
Definition setCells (g : nat) (f : LState -> LState) (w : LWorld) : LWorld :=
  match comp w with
  | Some st => if decide (g = gen w) then withComp (Some (f st)) w else w
  | None => w
  end.

(** A run of the effect: [load()] runs up to its first [await]. *)
Definition startRun (w : LWorld) : LWorld :=
  let k := nextRun w in
  setCells (gen w) (setLoading true)
    (mkLWorld (comp w) (gen w) (env w) (props w) k (S k) (aborted w)
       (<[k := mkFetch (gen w) (source_url (env w) (props w))]> (fetches w))).

(** The cleanup of the current run: [aborted = true]. *)
Definition abortRun (w : LWorld) : LWorld :=
  mkLWorld (comp w) (gen w) (env w) (props w) (run w) (nextRun w) ({[run w]} ∪ aborted w)
    (fetches w).

(** First render with props [p] ([isLoading] starts [true], the list
    empty), then the effect. *)
Definition mount (p : P) (w : LWorld) : LWorld :=
  match comp w with
  | None =>
      startRun (mkLWorld (Some (mkLState [] true)) (S (gen w)) (env w) p (run w) (nextRun w)
                  (aborted w) (fetches w))
  | Some _ => w
  end.

Definition unmount (w : LWorld) : LWorld :=
  match comp w with
  | Some _ => withComp None (abortRun w)
  | None => w
  end.

(** A render with props [p]: the effect re-runs when they differ. *)
Definition setProps (p : P) (w : LWorld) : LWorld :=
  match comp w with
  | Some _ =>
      if decide (p = props w) then w
      else
        let w1 := abortRun w in
        startRun (mkLWorld (comp w1) (gen w1) (env w1) p (run w1) (nextRun w1) (aborted w1)
                    (fetches w1))
  | None => w
  end.

(** The rest of [load()] of run [k] when its [fetch] settles with [r]. *)
Definition settle (k : nat) (r : Response) (w : LWorld) : LWorld :=
  match fetches w !! k with
  | Some f =>
      let w1 := mkLWorld (comp w) (gen w) (env w) (props w) (run w) (nextRun w) (aborted w)
                  (delete k (fetches w)) in
      let ab := bool_decide (k ∈ aborted w) in
      let fin := fun w => if ab then w else setCells (f_gen f) (setLoading false) w in
      match r with
      | OkJson (Some payload) =>
          if ab then w1
          else match source_decode payload with
               | inr xs => fin (setCells (f_gen f) (setItems xs) w1)
               | inl _ => fin (setCells (f_gen f) (setItems []) w1)
               end
      | _ => fin (setCells (f_gen f) (setItems []) w1)
      end
  | None => w
  end.

Inductive LEvent :=
| LMount (p : P)
| LUnmount
| LSetProps (p : P)
| LSettle (k : nat) (r : Response).

Definition ldispatch (e : LEvent) (w : LWorld) : LWorld :=
  match e with
  | LMount p => mount p w
  | LUnmount => unmount w
  | LSetProps p => setProps p w
  | LSettle k r => settle k r w
  end.

Inductive lstep : LWorld -> LWorld -> Prop :=
| lstep_event e w : lstep w (ldispatch e w).

Definition lreachable (e : Env) (p : P) (w : LWorld) : Prop := star lstep (initLWorld e p) w.

Definition lrun (es : list LEvent) (w : LWorld) : LWorld := foldl (fun w e => ldispatch e w) w es.

End Loader.

Arguments LState A : clear implicits.
Arguments LWorld P A : clear implicits.
Arguments LEvent P : clear implicits.

(** ** Invariant *)

Section LoaderInvariant.
Context {P A : Type} `{EqDecision P} `{FetchSource P A}.
Implicit Types (w : LWorld P A) (st : LState A).

(** The run [k] is pending for the current instance. *)
Definition currentPending w (k : nat) : Prop :=
  exists f, fetches w !! k = Some f /\ f_gen f = gen w.

(** Runs and fetches are numbered below [nextRun] and belong to this or an
    earlier instance; while mounted, the current run is not aborted, the
    loading flag is up exactly while its fetch is pending, and every other
    pending fetch of the instance belongs to an aborted run. *)
Definition linv w : Prop :=
  (forall k f, fetches w !! k = Some f -> (f_gen f <= gen w)%nat /\ (k < nextRun w)%nat) /\
  (forall k, k ∈ aborted w -> (k < nextRun w)%nat) /\
  (forall st, comp w = Some st ->
     (run w < nextRun w)%nat /\ run w ∉ aborted w /\
     (isLoading st = true <-> currentPending w (run w)) /\
     (forall k, currentPending w k -> k <> run w -> k ∈ aborted w)).

Lemma lsetCells_comp g f w :
  comp (setCells g f w) =
  match comp w with Some st => if decide (g = gen w) then Some (f st) else Some st | None => None end.
Proof. unfold setCells. by repeat case_match. Qed.

Lemma lsetCells_frame g f w :
  gen (setCells g f w) = gen w /\ fetches (setCells g f w) = fetches w /\
  aborted (setCells g f w) = aborted w /\ run (setCells g f w) = run w /\
  nextRun (setCells g f w) = nextRun w /\ props (setCells g f w) = props w /\
  env (setCells g f w) = env w.
Proof. unfold setCells. by repeat case_match. Qed.

(** A run started in an invariant world whose instance is mounted with
    the given cells. *)
Lemma linv_startRun w st :
  comp w = Some st ->
  (forall k f, fetches w !! k = Some f -> (f_gen f <= gen w)%nat /\ (k < nextRun w)%nat) ->
  (forall k, k ∈ aborted w -> (k < nextRun w)%nat) ->
  (forall k, currentPending w k -> k ∈ aborted w) ->
  linv (startRun w).
Proof.
  intros Hc Hf Ha Hab. unfold startRun.
  set (w1 := mkLWorld _ _ _ _ _ _ _ _).
  destruct (lsetCells_frame (gen w) (setLoading true) w1) as (Hg & Hq & Hb & Hr & Hn & _).
  assert (Hfresh : fetches w !! nextRun w = None).
  { destruct (fetches w !! nextRun w) as [f|] eqn:E; [|done]. apply Hf in E. lia. }
  split_and!.
  - intros k f. rewrite Hq, Hg, Hn. simpl. rewrite lookup_insert_Some.
    intros [[<- <-]|[Hne Hk]]; [simpl; lia|]. apply Hf in Hk. lia.
  - intros k. rewrite Hb, Hn. simpl. intros Hk%Ha. lia.
  - intros st'. rewrite lsetCells_comp. simpl. rewrite Hc, decide_True by done.
    intros [= <-]. rewrite Hr, Hb, Hn. simpl. unfold currentPending. rewrite Hq, Hg. simpl.
    split_and!; [lia|intros Hk%Ha; lia| |].
    + split; [intros _; exists (mkFetch (gen w) (source_url (env w) (props w)));
              by rewrite lookup_insert_eq|done].
    + intros k (f & Hk & Hgk) Hne. rewrite lookup_insert_ne in Hk by done.
      apply Hab. by exists f.
Qed.

Lemma linv_mount p w : linv w -> linv (mount p w).
Proof.
  intros Hinv. unfold mount. destruct (comp w) eqn:Hc; [exact Hinv|].
  destruct Hinv as (Hf & Ha & _).
  eapply linv_startRun; [reflexivity|simpl..].
  - intros k f Hk. apply Hf in Hk. lia.
  - exact Ha.
  - intros k (f & Hk & Hg). apply Hf in Hk. simpl in Hg. lia.
Qed.

Lemma linv_unmount w : linv w -> linv (unmount w).
Proof.
  intros Hinv. unfold unmount. destruct (comp w) as [st|] eqn:Hc; [|exact Hinv].
  destruct Hinv as (Hf & Ha & Hs).
  destruct (Hs st Hc) as (Hr & _).
  split_and!; [exact Hf| |done]. simpl. intros k Hk.
  destruct (decide (k = run w)) as [->|Hne]; [done|]. apply Ha. set_solver.
Qed.

Lemma linv_setProps p w : linv w -> linv (setProps p w).
Proof.
  intros Hinv. unfold setProps. destruct (comp w) as [st|] eqn:Hc; [|exact Hinv].
  case_decide; [exact Hinv|]. destruct Hinv as (Hf & Ha & Hs).
  destruct (Hs st Hc) as (Hr & _ & _ & Hab).
  eapply linv_startRun; [simpl; by rewrite Hc|exact Hf|..]; simpl.
  - intros k Hk. destruct (decide (k = run w)) as [->|Hne]; [done|]. apply Ha. set_solver.
  - intros k Hk. destruct (decide (k = run w)) as [->|Hne]; [set_solver|].
    pose proof (Hab k Hk Hne). set_solver.
Qed.

Lemma currentPending_delete w W k j :
  fetches W = delete k (fetches w) -> gen W = gen w ->
  currentPending W j <-> currentPending w j /\ j <> k.
Proof.
  intros Hq Hg. unfold currentPending. rewrite Hq, Hg.
  setoid_rewrite lookup_delete_Some. naive_solver.
Qed.

(** A settled fetch: its entry goes, and the loading flag goes down
    exactly when it was the current run's. *)
Lemma linv_settle_gen w k f W :
  linv w -> fetches w !! k = Some f ->
  fetches W = delete k (fetches w) -> gen W = gen w -> run W = run w ->
  nextRun W = nextRun w -> aborted W = aborted w ->
  (forall st', comp W = Some st' -> exists st, comp w = Some st /\
     (isLoading st' = true <-> isLoading st = true /\ ~ (k = run w /\ f_gen f = gen w))) ->
  linv W.
Proof.
  intros (Hf & Ha & Hs) Hk Hq Hg Hr Hn Hb Hc.
  split_and!.
  - intros j f' Hj. rewrite Hq, lookup_delete_Some in Hj. rewrite Hg, Hn. apply Hf, Hj.
  - intros j. rewrite Hb, Hn. apply Ha.
  - intros st' Hst'. destruct (Hc st' Hst') as (st & Hst & Hl).
    destruct (Hs st Hst) as (Hr0 & Hnab & Hload & Hother).
    rewrite Hr, Hn, Hb. split_and!; [done|done| |].
    + pose proof (currentPending_delete w W k (run w) Hq Hg) as Hd.
      unfold currentPending in Hload, Hd |- *. rewrite Hl, Hd, Hload.
      split; [intros [Hp Hne]; split; [done|]; intros Heq; subst k; naive_solver|naive_solver].
    + intros j Hj Hne. rewrite (currentPending_delete w W k j Hq Hg) in Hj.
      apply Hother; naive_solver.
Qed.

(** The world after [settle] and its cells, by the three cases: a fetch of
    an earlier instance, of an aborted run, or of the current run. *)
Lemma linv_settle k r w : linv w -> linv (settle k r w).
Proof.
  intros Hinv. unfold settle. destruct (fetches w !! k) as [f|] eqn:Hk; [|exact Hinv].
  pose proof Hinv as (_ & _ & Hs).
  (* the current run is the only pending fetch of the instance that is not aborted *)
  assert (Hcur : forall st, comp w = Some st -> f_gen f = gen w -> k ∉ aborted w -> k = run w).
  { intros st Hc Hg Hab. destruct (Hs st Hc) as (_ & _ & _ & Hother).
    destruct (decide (k = run w)); [done|]. destruct Hab. apply Hother; [by exists f|done]. }
  assert (Hnab : forall st, comp w = Some st -> k ∈ aborted w -> k <> run w).
  { intros st Hc Hab ->. destruct (Hs st Hc) as (_ & Hn & _). done. }
  destruct r as [|c|[payload|]]; [| | destruct (source_decode payload) as [e|xs] |];
    (eapply linv_settle_gen; [exact Hinv|exact Hk|..]);
    unfold setCells; simpl; repeat (case_bool_decide || case_decide || case_match); simpl;
    try reflexivity; intros st' Hst'; simplify_eq/=; eexists; (split; [done|]); simpl;
    naive_solver.
Qed.

Lemma linv_dispatch e w : linv w -> linv (ldispatch e w).
Proof.
  destruct e; simpl; [apply linv_mount|apply linv_unmount|apply linv_setProps|apply linv_settle].
Qed.

Lemma lreachable_linv en p w : lreachable en p w -> linv w.
Proof.
  intros Hr. eapply (star_invariant lstep linv); [|exact Hr|].
  - intros a b [ev ?]. by apply linv_dispatch.
  - split_and!; [done|done|done].
Qed.

Lemma lrun_reachable en p es w : lreachable en p w -> lreachable en p (lrun es w).
Proof.
  apply star_foldl. constructor.
Qed.

(** The settlement of a fetch of the mounted instance, by its run. *)
Lemma settle_cur_eq k f r w st :
  fetches w !! k = Some f -> f_gen f = gen w -> comp w = Some st ->
  comp (settle k r w) =
  if bool_decide (k ∈ aborted w) then
    match r with
    | OkJson (Some _) => Some st
    | _ => Some (setItems [] st)
    end
  else
    Some (setLoading false
      (setItems (match r with
                 | OkJson (Some payload) =>
                     match source_decode payload with inr xs => xs | inl _ => [] end
                 | _ => []
                 end) st)).
Proof.
  intros Hk Hg Hc. unfold settle, setCells. rewrite Hk. simpl.
  destruct r as [|c|[payload|]]; [| | destruct (source_decode payload)|];
    case_bool_decide; simpl; rewrite ?Hc; simpl; rewrite ?decide_True by done; simpl;
    rewrite ?Hc; simpl; rewrite ?decide_True by done; done.
Qed.

(** ** What the effect guarantees, and what it does not *)

(** A fetch of the mounted instance that is not its current run belongs
    to an aborted run. *)
Lemma lreachable_stale_aborted en p w st k f :
  lreachable en p w -> comp w = Some st -> fetches w !! k = Some f -> f_gen f = gen w ->
  k <> run w -> k ∈ aborted w.
Proof.
  intros Hr Hc Hk Hg Hne. destruct (lreachable_linv en p w Hr) as (_ & _ & Hs).
  destruct (Hs st Hc) as (_ & _ & _ & Hother). apply Hother; [by exists f|done].
Qed.

Lemma lreachable_run_not_aborted en p w st :
  lreachable en p w -> comp w = Some st -> run w ∉ aborted w.
Proof.
  intros Hr Hc. destruct (lreachable_linv en p w Hr) as (_ & _ & Hs). apply (Hs st Hc).
Qed.

(** The current run's fetch settles: the decoded payload (or the empty
    list on any failure) is shown and loading ends. *)
Lemma settle_current en p w st f r :
  lreachable en p w -> comp w = Some st -> fetches w !! run w = Some f -> f_gen f = gen w ->
  comp (settle (run w) r w) =
  Some (mkLState (match r with
                  | OkJson (Some payload) =>
                      match source_decode payload with inr xs => xs | inl _ => [] end
                  | _ => []
                  end) false).
Proof.
  intros Hr Hc Hk Hg. rewrite (settle_cur_eq _ f r w st Hk Hg Hc).
  rewrite bool_decide_eq_false_2 by exact (lreachable_run_not_aborted en p w st Hr Hc).
  done.
Qed.

(** A fetch of an aborted run of the mounted instance: a success is
    ignored, but a failure still empties the list ([catch] does not look
    at [aborted]), whatever the current run has shown. *)
Lemma settle_stale en p w st k f r :
  lreachable en p w -> comp w = Some st -> fetches w !! k = Some f -> f_gen f = gen w ->
  k <> run w ->
  comp (settle k r w) =
  match r with
  | OkJson (Some _) => Some st
  | _ => Some (setItems [] st)
  end.
Proof.
  intros Hr Hc Hk Hg Hne. rewrite (settle_cur_eq _ f r w st Hk Hg Hc).
  by rewrite bool_decide_eq_true_2 by exact (lreachable_stale_aborted en p w st k f Hr Hc Hk Hg Hne).
Qed.

(** New props start a new run whose fetch is pending and raise the flag. *)
Lemma setProps_started p w st :
  comp w = Some st -> p <> props w ->
  let w' := setProps p w in
  comp w' = Some (setLoading true st) /\ run w' = nextRun w /\ gen w' = gen w /\
  props w' = p /\ fetches w' !! nextRun w = Some (mkFetch (gen w) (source_url (env w) p)).
Proof.
  intros Hc Hne. unfold setProps, startRun, setCells. rewrite Hc, decide_False by done.
  simpl. rewrite Hc, decide_True by done. simpl. split_and!; try done. apply lookup_insert_eq.
Qed.

End LoaderInvariant.

End Loader.
