(* ===== verification/MapView.v ===== *)
(** * The float map: [MapVisualization] (src/unnamed/part_003, lines 1-196)

    The component loads the floats of its [region] prop from
    [/api/data/floats] with the [aborted]-flag effect of [Loader] (lines
    24-57), maps each record of the payload to a [FloatData] with
    defaults (lines 38-47), and renders either a spinner or one marker per
    float, coloured by temperature or salinity ([getFloatColor], lines
    59-66), sized by depth ([getFloatSize], lines 68-73) and placed by an
    equirectangular projection (lines 102-106), with a details panel for
    the float last clicked (lines 153-193).

    [mapSource] is the [FetchSource] of the component; the world of the
    component is the loader's world with the [selectedFloat] cell. *)

From Stdlib Require Import QArith Lqa.
From S2P Require Import Prelude JsValue JsNumber Endpoint Loader.
Local Set Warnings "-register-all".
Local Open Scope js_scope.

Module MapView.

(** ** Data (lines 7-16) *)

(** [FloatData] as the mapping of lines 38-47 fills it: [Number(...)]
    for the coordinates, the payload's values (or the defaults of [??])
    for the other fields. *)
Record FloatData := mkFloat {
  id : string;
  lat : jnum;
  lon : jnum;
  temperature : jval;
  salinity : jval;
  depth : jval;
  lastUpdate : jval;
  status : jval
}.

(** One element [d] of the payload (lines 39-46); [d.float_id] throws on
    [null]. *)
Definition mapFloat (d : jval) : js_exn + FloatData :=
  let* fid := get_prop d "float_id" in
  let* la := get_prop d "latitude" in
  let* lo := get_prop d "longitude" in
  let* te := get_prop d "temperature" in
  let* sa := get_prop d "salinity" in
  let* de := get_prop d "depth" in
  let* ts := get_prop d "timestamp" in
  let* stt := get_prop d "status" in
  inr (mkFloat (match fid with Some v => to_string v | None => "undefined" end)
         (to_number la) (to_number lo)
         (js_nullish te (JNum 0)) (js_nullish sa (JNum 0)) (js_nullish de (JNum 0))
         (js_nullish ts (JStr "")) (js_nullish stt (JStr "active"))).

(** [xs.map(f)] where [f] may throw: the first exception ends it. *)
Fixpoint js_map {X Y} (f : X -> js_exn + Y) (l : list X) : js_exn + list Y :=
  match l with
  | [] => inr []
  | x :: r => let* y := f x in let* ys := js_map f r in inr (y :: ys)
  end.

(** [(data || []).map(...)] (line 38): only an array has [map]; calling it
    on another truthy value throws a [TypeError]. *)
Definition decodeFloats (data : jval) : js_exn + list FloatData :=
  match js_or (Some data) (JArr []) with
  | JArr l => js_map mapFloat l
  | _ => inl TypeError
  end.

(** The URL of line 31. *)
Definition floatsUrl (e : Env) (region : string) : string :=
  baseUrl e +:+ "/api/data/floats?region=" +:+ encodeURIComponent region +:+ "&limit=500".

#[export] Instance mapSource : FetchSource string FloatData := {
  source_url := floatsUrl;
  source_decode := decodeFloats
}.

(** ** Rendering (lines 59-196) *)

(** [a > c] for a value [a] of the payload and a number [c]: [a] is
    converted with ToNumber. *)
Definition gt_num (a : jval) (c : Q) : bool := jgt (to_number (Some a)) (Fin c).

Definition getFloatColor (parameter : string) (f : FloatData) : string :=
  if str_eq (status f) "inactive" then "text-gray-400"
  else
    let sal := bool_decide (parameter = "salinity"%string) in
    let value := if sal then salinity f else temperature f in
    if gt_num value (if sal then 36 else 29) then "text-red-400"
    else if gt_num value (if sal then 35.5 else 27) then "text-orange-400"
    else if gt_num value (if sal then 35 else 25) then "text-yellow-400"
    else "text-blue-400".

Definition getFloatSize (f : FloatData) : string :=
  if str_eq (status f) "inactive" then "w-3 h-3"
  else if gt_num (depth f) 1500 then "w-6 h-6"
  else if gt_num (depth f) 1000 then "w-5 h-5"
  else "w-4 h-4".

(** The projection of lines 103-104, before it is printed. *)
Definition leftPct (f : FloatData) : jnum :=
  jmul (jdiv (jadd (lon f) (Fin 180)) (Fin 360)) (Fin 100).

Definition topPct (f : FloatData) : jnum :=
  jmul (jdiv (jadd (Fin 90) (jneg (lat f))) (Fin 180)) (Fin 100).

(** A marker: its key, its class and its position; the style prints
    [m_left] and [m_top] with Number::toString followed by [%]. *)
Record Marker := mkMarker {
  m_key : string;
  m_class : string;
  m_left : jnum;
  m_top : jnum;
  m_pulse : bool            (** [float.status === 'active'] (line 113) *)
}.

Definition marker (parameter : string) (f : FloatData) : Marker :=
  mkMarker (id f) ("absolute cursor-pointer " +:+ getFloatColor parameter f +:+ " " +:+ getFloatSize f)
    (leftPct f) (topPct f)
    (str_eq (status f) "active").

Definition regionLabel (region : string) : string :=
  if decide (region = "global"%string) then "Global Ocean"
  else if decide (region = "indian"%string) then "Indian Ocean"
  else if decide (region = "pacific"%string) then "Pacific Ocean"
  else "Atlantic Ocean".

(** The details panel (lines 160-190): its title and its five lines; a
    field holding a plain object makes the render throw. *)
Definition details (f : FloatData) : js_exn + list string :=
  let* t := jsx_text (temperature f) in
  let* sa := jsx_text (salinity f) in
  let* de := jsx_text (depth f) in
  let* stt := jsx_text (status f) in
  inr [("Float " +:+ id f)%string;
       (to_fixed 2 (lat f) +:+ "°N, " +:+ to_fixed 2 (lon f) +:+ "°E")%string;
       (t +:+ "°C")%string; (sa +:+ " PSU")%string; (de +:+ "m depth")%string; stt].

Inductive View :=
| Spinner                                                   (** lines 75-84 *)
| Map (markers : list Marker) (label : string) (panel : option (list string)).

(** The render (lines 75-195). *)
Definition view (region parameter : string) (st : LState FloatData) (sel : option FloatData)
    : js_exn + View :=
  if isLoading st then inr Spinner
  else
    let* panel := match sel with
                  | Some f => let* d := details f in inr (Some d)
                  | None => inr None
                  end in
    inr (Map (map (marker parameter) (items st)) (regionLabel region) panel).

(** ** The component *)

Record World := mkWorld {
  loader : LWorld string FloatData;
  selectedFloat : option FloatData
}.

Definition initWorld (e : Env) (region : string) : World :=
  mkWorld (initLWorld e region) None.

Inductive Event :=
| Mount (region : string)
| Unmount
| SetRegion (region : string)          (** the parent renders with a new prop *)
| Settle (k : nat) (r : Response)
| ClickMarker (i : nat)                (** line 111 *)
| CloseDetails.                        (** line 163 *)

(** [setSelectedFloat]: effective while mounted. *)
Definition setSelected (s : option FloatData) (w : World) : World :=
  match comp (loader w) with
  | Some _ => mkWorld (loader w) s
  | None => w
  end.

Definition dispatch (e : Event) (w : World) : World :=
  match e with
  | Mount region =>
      match comp (loader w) with
      | None => mkWorld (mount region (loader w)) None
      | Some _ => w
      end
  | Unmount => mkWorld (unmount (loader w)) (selectedFloat w)
  | SetRegion region => mkWorld (setProps region (loader w)) (selectedFloat w)
  | Settle k r => mkWorld (settle k r (loader w)) (selectedFloat w)
  | ClickMarker i =>
      match comp (loader w) with
      | Some st =>
          if isLoading st then w
          else match items st !! i with Some f => setSelected (Some f) w | None => w end
      | None => w
      end
  | CloseDetails => setSelected None w
  end.

Definition run (es : list Event) (w : World) : World := foldl (fun w e => dispatch e w) w es.

Inductive step : World -> World -> Prop :=
| step_event e w : step w (dispatch e w).

Definition reachable (e : Env) (region : string) (w : World) : Prop :=
  star step (initWorld e region) w.

(** ** Scenario *)

Definition localEnv : Env := mkEnv None (Some ("http:", "localhost")).

(** A record of the floats endpoint. *)
Definition sampleRecord : jval :=
  JObj [("float_id", JNum 2903574); ("latitude", JNum 12.5); ("longitude", JNum 77.2);
        ("temperature", JNum 28.5); ("depth", JNum 1200)].

Definition sampleFloat : FloatData :=
  mkFloat "2903574" (Fin 12.5) (Fin 77.2) (JNum 28.5) (JNum 0) (JNum 1200) (JStr "") (JStr "active").

(** The global map, switched to the Indian Ocean, whose new request
    answered first. *)
Definition switchedWorld : World :=
  run [Mount "global"; SetRegion "indian"; Settle 1 (OkJson (Some (JArr [sampleRecord])))]
    (initWorld localEnv "global").

(** ** Lemmas *)

(** Every event of the map is an event of its loader or leaves it. *)
Lemma dispatch_loader ev w :
  loader (dispatch ev w) = loader w \/ exists le, loader (dispatch ev w) = ldispatch le (loader w).
Proof.
  destruct ev; simpl.
  - destruct (comp (loader w)); [by left|right; by exists (LMount region)].
  - right. by exists LUnmount.
  - right. by exists (LSetProps region).
  - right. by exists (LSettle k r).
  - left. unfold setSelected. by repeat case_match.
  - left. unfold setSelected. by repeat case_match.
Qed.

(** The loader of a reachable map is a reachable loader. *)
Lemma reachable_loader e region w : reachable e region w -> lreachable e region (loader w).
Proof.
  intros Hr. cut (forall a b, star step a b -> lreachable e region (loader a) ->
                  lreachable e region (loader b)).
  { intros Hc. apply (Hc _ _ Hr). apply star_refl. }
  intros a b Hab. induction Hab as [a|a b c Hs _ IH]; intros Ha; [exact Ha|]. apply IH.
  destruct Hs as [ev w0]. destruct (dispatch_loader ev w0) as [->|[le ->]]; [exact Ha|].
  eapply star_right; [exact Ha|constructor].
Qed.

Lemma map_run_reachable e region es w : reachable e region w -> reachable e region (run es w).
Proof.
  apply star_foldl. constructor.
Qed.

(** ** Properties of the component *)

(** C22. A stale failure empties the map: when the request of an earlier
    region fails after the region changed (the network, an HTTP error or
    a body that is not JSON), its [catch] block still calls
    [setFloats([])] on the mounted map, although the cleanup set
    [aborted]; the floats the current request displayed disappear. *)
Theorem map_stale_failure_clears e region w st k f r :
  reachable e region w -> comp (loader w) = Some st ->
  fetches (loader w) !! k = Some f -> f_gen f = gen (loader w) -> k <> Loader.run (loader w) ->
  (r = NetworkError \/ (exists c, r = HttpError c) \/ r = OkJson None) ->
  comp (loader (dispatch (Settle k r) w)) = Some (mkLState [] (isLoading st)).
Proof.
  intros Hr Hc Hk Hg Hne Hfail. simpl.
  rewrite (settle_stale e region (loader w) st k f r (reachable_loader e region w Hr) Hc Hk Hg Hne).
  by destruct Hfail as [->|[[c ->]| ->]].
Qed.

Lemma map_stale_failure_clears_witness :
  reachable localEnv "global" switchedWorld /\
  comp (loader switchedWorld) = Some (mkLState [sampleFloat] false) /\
  comp (loader (dispatch (Settle 0 (HttpError 500)) switchedWorld)) = Some (mkLState [] false).
Proof.
  assert (Hr : reachable localEnv "global" switchedWorld) by apply map_run_reachable, star_refl.
  split_and!; [exact Hr|vm_compute; reflexivity|].
  apply (map_stale_failure_clears localEnv "global" switchedWorld (mkLState [sampleFloat] false) 0
    (mkFetch 1 "http://localhost:8000/api/data/floats?region=global&limit=500") (HttpError 500));
    [exact Hr|vm_compute; reflexivity..|discriminate|right; left; by eexists].
Defined.

(** C23. The loading flag follows the current request: in every
    reachable world the mounted map shows its spinner exactly while the
    request of the current region is pending; requests of earlier regions
    never lower it. *)
Theorem map_loading_tracks_current e region w st :
  reachable e region w -> comp (loader w) = Some st ->
  (isLoading st = true <-> currentPending (loader w) (Loader.run (loader w))) /\
  (forall k, currentPending (loader w) k -> k <> Loader.run (loader w) -> k ∈ aborted (loader w)).
Proof.
  intros Hr Hc. destruct (lreachable_linv e region (loader w) (reachable_loader e region w Hr))
    as (_ & _ & Hs).
  destruct (Hs st Hc) as (_ & _ & Hl & Ho). done.
Qed.

Lemma map_loading_tracks_current_witness :
  let w := run [Mount "global"; SetRegion "indian"] (initWorld localEnv "global") in
  reachable localEnv "global" w /\
  comp (loader w) = Some (mkLState [] true) /\ currentPending (loader w) (Loader.run (loader w)).
Proof.
  assert (Hr : reachable localEnv "global" (run [Mount "global"; SetRegion "indian"]
    (initWorld localEnv "global"))) by apply map_run_reachable, star_refl.
  split_and!; [exact Hr|vm_compute; reflexivity|].
  apply (map_loading_tracks_current localEnv "global" _ (mkLState [] true) Hr); [vm_compute; reflexivity|].
  reflexivity.
Defined.

(** Settling: the answer to the current request replaces the floats
    with the decoded payload (the empty list if the payload cannot be
    decoded) and ends loading; a successful answer to an earlier region's
    request is ignored. *)
Theorem map_settle_effect e region w st k f payload :
  reachable e region w -> comp (loader w) = Some st ->
  fetches (loader w) !! k = Some f -> f_gen f = gen (loader w) ->
  comp (loader (dispatch (Settle k (OkJson (Some payload))) w)) =
  if decide (k = Loader.run (loader w)) then
    Some (mkLState (match decodeFloats payload with inr xs => xs | inl _ => [] end) false)
  else Some st.
Proof.
  intros Hr Hc Hk Hg. pose proof (reachable_loader e region w Hr) as Hl. simpl.
  case_decide as Hrun.
  - subst k. exact (settle_current e region (loader w) st f _ Hl Hc Hk Hg).
  - exact (settle_stale e region (loader w) st k f _ Hl Hc Hk Hg Hrun).
Qed.

Lemma map_settle_effect_witness :
  let w := run [Mount "global"; SetRegion "indian"] (initWorld localEnv "global") in
  reachable localEnv "global" w /\
  comp (loader (dispatch (Settle 1 (OkJson (Some (JArr [sampleRecord])))) w)) =
    Some (mkLState [sampleFloat] false).
Proof.
  assert (Hr : reachable localEnv "global" (run [Mount "global"; SetRegion "indian"]
    (initWorld localEnv "global"))) by apply map_run_reachable, star_refl.
  split; [exact Hr|].
  rewrite (map_settle_effect localEnv "global" _ (mkLState [] true) 1
    (mkFetch 1 "http://localhost:8000/api/data/floats?region=indian&limit=500") _ Hr);
    vm_compute; reflexivity.
Defined.

(** The record of one JSON object of the payload. *)
Definition floatOfObject (kvs : list (string * jval)) : FloatData :=
  mkFloat (match obj_lookup "float_id" kvs with Some v => to_string v | None => "undefined" end)
    (to_number (obj_lookup "latitude" kvs)) (to_number (obj_lookup "longitude" kvs))
    (js_nullish (obj_lookup "temperature" kvs) (JNum 0))
    (js_nullish (obj_lookup "salinity" kvs) (JNum 0))
    (js_nullish (obj_lookup "depth" kvs) (JNum 0))
    (js_nullish (obj_lookup "timestamp" kvs) (JStr ""))
    (js_nullish (obj_lookup "status" kvs) (JStr "active")).

Lemma js_map_objects (l : list (list (string * jval))) :
  js_map mapFloat (map JObj l) = inr (map floatOfObject l).
Proof. induction l as [|kvs l IH]; simpl; [done|]. by rewrite IH. Qed.

(** C24. Decoding the payload: an array of objects gives one float per
    object, with [String(d.float_id)], [Number(...)] coordinates and the
    [??] defaults (0, [''], ['active']); [null] gives no float; an object
    or a string has no [map] and throws, as does an array with a [null]
    element ([d.float_id]), so the [catch] empties the map. *)
Theorem decodeFloats_spec (l : list (list (string * jval))) kvs s l1 l2 :
  decodeFloats (JArr (map JObj l)) = inr (map floatOfObject l) /\
  decodeFloats JNull = inr [] /\
  decodeFloats (JObj kvs) = inl TypeError /\
  (s <> ""%string -> decodeFloats (JStr s) = inl TypeError) /\
  decodeFloats (JArr (map JObj l1 ++ JNull :: l2)) = inl TypeError.
Proof.
  split_and!; [apply js_map_objects|done|done| |].
  - intros Hs. unfold decodeFloats, js_or. simpl. by rewrite bool_decide_eq_false_2.
  - unfold decodeFloats. simpl. induction l1 as [|o l1 IH]; simpl; [done|].
    by destruct (js_map mapFloat (map JObj l1 ++ JNull :: l2)).
Qed.

(** C25. Marker positions: a float with finite coordinates in
    [-90, 90] x [-180, 180] is placed inside the map, at
    [(lon + 180) / 360 * 100] percent from the left and
    [(90 - lat) / 180 * 100] percent from the top; a missing or
    non-numeric coordinate gives [NaN]. *)
Theorem marker_position_bounds f la lo :
  lat f = Fin la -> lon f = Fin lo -> (-90 <= la <= 90)%Q -> (-180 <= lo <= 180)%Q ->
  exists x y, leftPct f = Fin x /\ topPct f = Fin y /\
    (x == (lo + 180) / 360 * 100)%Q /\ (y == (90 + - la) / 180 * 100)%Q /\
    (0 <= x <= 100)%Q /\ (0 <= y <= 100)%Q.
Proof.
  intros Hla Hlo Hb1 Hb2. unfold leftPct, topPct. rewrite Hla, Hlo.
  exists ((lo + 180) / 360 * 100)%Q, ((90 + - la) / 180 * 100)%Q.
  split_and!; try reflexivity; unfold Qdiv;
    change (/ 360)%Q with (1 # 360)%Q; change (/ 180)%Q with (1 # 180)%Q; lra.
Qed.

Lemma decodeFloats_spec_witness :
  ("0" <> ""%string) /\ decodeFloats (JArr [sampleRecord]) = inr [sampleFloat].
Proof.
  split; [done|]. exact (proj1 (decodeFloats_spec [[("float_id", JNum 2903574);
    ("latitude", JNum 12.5); ("longitude", JNum 77.2); ("temperature", JNum 28.5);
    ("depth", JNum 1200)]] [] "0" [] [])).
Defined.

Lemma marker_position_bounds_witness :
  lat sampleFloat = Fin 12.5 /\ lon sampleFloat = Fin 77.2 /\
  exists x y, leftPct sampleFloat = Fin x /\ topPct sampleFloat = Fin y /\
    (0 <= x <= 100)%Q /\ (0 <= y <= 100)%Q.
Proof.
  split_and!; [reflexivity|reflexivity|].
  destruct (marker_position_bounds sampleFloat 12.5 77.2) as (x & y & Hx & Hy & _ & _ & Hbx & Hby);
    [reflexivity|reflexivity|split; vm_compute; discriminate..|].
  exists x, y. split_and!; first [assumption|apply Hbx|apply Hby].
Defined.

(** The colour classes in the order of the legend, coolest first. *)
Definition colorRank (c : string) : nat :=
  if decide (c = "text-red-400"%string) then 3
  else if decide (c = "text-orange-400"%string) then 2
  else if decide (c = "text-yellow-400"%string) then 1
  else 0.

Lemma gt_num_fin a t c : to_number (Some a) = Fin t -> gt_num a c = negb (Qle_bool t c).
Proof. unfold gt_num, jgt, jlt. by intros ->. Qed.

(** The class of an active float whose value is the number [t], by the
    three thresholds [c1 > c2 > c3]. *)
Lemma color_by_thresholds p f t :
  str_eq (status f) "inactive" = false ->
  to_number (Some (if bool_decide (p = "salinity"%string) then salinity f else temperature f))
    = Fin t ->
  let '(c1, c2, c3) := if bool_decide (p = "salinity"%string) then (36, 35.5, 35)%Q
                       else (29, 27, 25)%Q in
  colorRank (getFloatColor p f) =
    if Qle_bool t c1 then if Qle_bool t c2 then if Qle_bool t c3 then 0 else 1 else 2 else 3.
Proof.
  intros Hs Hv. unfold getFloatColor. rewrite Hs.
  destruct (bool_decide (p = "salinity"%string)); rewrite !(gt_num_fin _ t) by exact Hv;
    by repeat (destruct (Qle_bool _ _)).
Qed.

(** Colours are monotone: of two active floats, the one with the
    larger value (temperature, or salinity when the parameter is
    ['salinity'], converted with ToNumber as [>] does) never gets a cooler
    colour. *)
Theorem float_color_monotone p f1 f2 t1 t2 :
  str_eq (status f1) "inactive" = false -> str_eq (status f2) "inactive" = false ->
  to_number (Some (if bool_decide (p = "salinity"%string) then salinity f1 else temperature f1))
    = Fin t1 ->
  to_number (Some (if bool_decide (p = "salinity"%string) then salinity f2 else temperature f2))
    = Fin t2 ->
  (t1 <= t2)%Q -> (colorRank (getFloatColor p f1) <= colorRank (getFloatColor p f2))%nat.
Proof.
  intros Hs1 Hs2 Hv1 Hv2 Hle.
  pose proof (color_by_thresholds p f1 t1 Hs1 Hv1) as H1.
  pose proof (color_by_thresholds p f2 t2 Hs2 Hv2) as H2.
  destruct (bool_decide (p = "salinity"%string)); simpl in H1, H2; rewrite H1, H2;
    repeat match goal with
    | |- context [Qle_bool ?a ?b] =>
        let E := fresh in destruct (Qle_bool a b) eqn:E;
        [apply Qle_bool_iff in E|apply not_true_iff_false in E; rewrite Qle_bool_iff in E]
    end; (lia || (exfalso; lra)).
Qed.

Lemma float_color_monotone_witness :
  str_eq (status sampleFloat) "inactive" = false /\
  (colorRank (getFloatColor "temperature" sampleFloat) <=
   colorRank (getFloatColor "temperature" (mkFloat "1" (Fin 0) (Fin 0) (JStr "30.5") (JNum 0)
      (JNum 0) (JStr "") (JStr "active"))))%nat.
Proof.
  split; [reflexivity|].
  apply (float_color_monotone "temperature" _ _ 28.5 30.5);
    [reflexivity|reflexivity|vm_compute; reflexivity|vm_compute; reflexivity|
     vm_compute; discriminate].
Defined.

(** The details panel outlives the region: a float selected on the
    map of one region stays selected when the region changes, and once
    the new region's floats are shown its panel is still displayed, even
    when the float is not among them. *)
Theorem selection_survives_region_change e region w st f d region' payload xs :
  reachable e region w -> comp (loader w) = Some st -> selectedFloat w = Some f ->
  details f = inr d -> region' <> props (loader w) -> decodeFloats payload = inr xs ->
  let w' := run [SetRegion region'; Settle (nextRun (loader w)) (OkJson (Some payload))] w in
  comp (loader w') = Some (mkLState xs false) /\
  view region' "temperature" (mkLState xs false) (selectedFloat w') =
    inr (Map (map (marker "temperature") xs) (regionLabel region') (Some d)).
Proof.
  intros Hr Hc Hsel Hd Hne Hdec w'.
  destruct (setProps_started region' (loader w) st Hc Hne) as (Hc1 & Hr1 & Hg1 & _ & Hk1).
  set (w1 := dispatch (SetRegion region') w).
  assert (Hreach1 : lreachable e region (loader w1)).
  { apply reachable_loader. eapply star_right; [exact Hr|constructor]. }
  split.
  - subst w'. simpl. rewrite <- Hr1 in Hk1 |- *.
    rewrite (settle_current e region _ _ _ _ Hreach1 Hc1 Hk1 (eq_sym Hg1)). simpl. by rewrite Hdec.
  - subst w'. simpl. rewrite Hsel. unfold view. simpl. by rewrite Hd.
Qed.

Lemma selection_survives_region_change_witness :
  let w := run [Mount "global"; Settle 0 (OkJson (Some (JArr [sampleRecord]))); ClickMarker 0]
             (initWorld localEnv "global") in
  reachable localEnv "global" w /\ selectedFloat w = Some sampleFloat /\
  view "indian" "temperature" (mkLState [] false)
    (selectedFloat (run [SetRegion "indian"; Settle (nextRun (loader w)) (OkJson (Some (JArr [])))] w))
  = inr (Map [] "Indian Ocean" (Some ["Float 2903574"; "12.50°N, 77.20°E"; "28.5°C"; "0 PSU";
                                      "1200m depth"; "active"])).
Proof.
  assert (Hr : reachable localEnv "global" (run [Mount "global";
    Settle 0 (OkJson (Some (JArr [sampleRecord]))); ClickMarker 0] (initWorld localEnv "global")))
    by apply map_run_reachable, star_refl.
  split_and!; [exact Hr|vm_compute; reflexivity|].
  refine (proj2 (selection_survives_region_change localEnv "global" _ (mkLState [sampleFloat] false)
    sampleFloat _ "indian" (JArr []) [] Hr _ _ _ _ _)); vm_compute; first [reflexivity|discriminate].
Defined.

End MapView.
