(* ===== verification/Chart.v ===== *)
(** * The time-series chart: [DataChart]
    (src/code/Floatchat/components/DataChart.tsx, lines 1-177)

    The component loads the series of its [type] and [timeRange] props
    from [/api/visualization/timeseries] with the [aborted]-flag effect of
    [Loader] (lines 18-43), extracts the first trace of a Plotly figure
    (lines 30-33) and renders the latest value, the change against the
    previous one and the range of the series (lines 71-75 and 88-176).

    The figure may arrive as a JSON string, which the code parses with
    [JSON.parse]; the parser is the parameter [json_parse] of the section
    ([None] when it throws), as in the feed's message handler. *)

From Stdlib Require Import QArith Lqa Ascii.
From S2P Require Import Prelude JsValue JsNumber Endpoint Loader.
Local Set Warnings "-register-all".
Local Open Scope js_scope.

Module Chart.

(** [interface ChartData]: the value is [Number(...)]. *)
Record ChartData := mkPoint {
  time : string;
  value : jnum
}.

(** [v[i]]: an element of an array, a character of a string, a property
    of an object named by the index; [undefined] otherwise. *)
Definition get_index (v : jval) (i : nat) : option jval :=
  match v with
  | JArr l => l !! i
  | JStr s => option_map (fun c => JStr (String c EmptyString)) (String.list_ascii_of_string s !! i)
  | JObj kvs => obj_lookup (pretty i) kvs
  | _ => None
  end.

(** [v?.k] and [v?.[0]]: [undefined] on [null] and [undefined], no throw. *)
Definition opt_prop (v : option jval) (k : string) : option jval :=
  match v with
  | None | Some JNull => None
  | Some x => match get_prop x k with inr r => r | inl _ => None end
  end.

Definition opt_index (v : option jval) (i : nat) : option jval :=
  match v with None | Some JNull => None | Some x => get_index x i end.

(** [xs.map((t, i) => ...)] on an array; a value without [map] throws. *)
Definition mapArray (f : nat -> jval -> ChartData) (v : jval) : js_exn + list ChartData :=
  match v with
  | JArr l => inr (imap f l)
  | _ => inl TypeError
  end.

Section Decode.
Variable json_parse : string -> option jval.

(** Lines 30-33: the figure, its first trace's [x] and [y] (or [[]]), and
    one point per [x]. *)
Definition decodeSeries (payload : jval) : js_exn + list ChartData :=
  let* pj := get_prop payload "plotly_json" in
  let* fig := match pj with
              | Some (JStr s) => match json_parse s with Some v => inr (Some v) | None => inl SyntaxError end
              | _ => inr pj
              end in
  let trace := opt_index (opt_prop fig "data") 0 in
  let x := js_or (opt_prop trace "x") (JArr []) in
  let y := js_or (opt_prop trace "y") (JArr []) in
  mapArray (fun i t => mkPoint (to_string t) (to_number (Some (js_nullish (get_index y i) (JNum 0))))) x.

(** The URL of line 25. *)
Definition seriesUrl (e : Env) (p : string * string) : string :=
  baseUrl e +:+ "/api/visualization/timeseries?parameter=" +:+ encodeURIComponent p.1 +:+
  "&time_range=" +:+ encodeURIComponent p.2 +:+ "&region=global".

#[export] Instance chartSource : FetchSource (string * string) ChartData := {
  source_url := seriesUrl;
  source_decode := decodeSeries
}.

End Decode.

(** ** The summary (lines 45-75 and 96-173) *)

Record Config := mkConfig { color : string; unit : string; name : string; gradient : string }.

Definition getChartConfig (type : string) : Config :=
  if decide (type = "temperature"%string) then
    mkConfig "#ef4444" "Â°C" "Temperature" "url(#temperatureGradient)"
  else if decide (type = "salinity"%string) then
    mkConfig "#3b82f6" "PSU" "Salinity" "url(#salinityGradient)"
  else mkConfig "#10b981" "" "Value" "url(#defaultGradient)".

(** A number is truthy unless it is [0] or [NaN]. *)
Definition num_truthy (x : jnum) : bool :=
  match x with NaN => false | Fin q => negb (Qeq_bool q 0) | _ => true end.

(** [data[k]?.value || 0]. *)
Definition valueAt (data : list ChartData) (k : Z) : jnum :=
  match (if decide (0 <= k)%Z then data !! Z.to_nat k else None) with
  | Some p => if num_truthy (value p) then value p else Fin 0
  | None => Fin 0
  end.

Definition jsub (x y : jnum) : jnum := jadd x (jneg y).

Definition jabs (x : jnum) : jnum :=
  match x with NaN => NaN | PInf | NInf => PInf | Fin q => Fin (Qabs.Qabs q) end.

(** [Math.min(...xs)] and [Math.max(...xs)]: [NaN] if any is, [Infinity]
    and [-Infinity] for no argument. *)
Definition jmin2 (x y : jnum) : jnum :=
  match x, y with
  | NaN, _ | _, NaN => NaN
  | _, _ => if jlt y x then y else x
  end.

Definition jmax2 (x y : jnum) : jnum :=
  match x, y with
  | NaN, _ | _, NaN => NaN
  | _, _ => if jlt x y then y else x
  end.

Definition math_min (xs : list jnum) : jnum := foldl jmin2 PInf xs.
Definition math_max (xs : list jnum) : jnum := foldl jmax2 NInf xs.

(** The texts of the header and the footer of the chart. *)
Record Summary := mkSummary {
  latestText : string;      (** [latestValue.toFixed(1)] and the unit *)
  changeText : string;      (** [Math.abs(changePercent).toFixed(1)%] *)
  increasing : bool;        (** [change >= 0] *)
  pointsText : string;      (** [data.length data points] *)
  rangeText : string        (** [Range: min - max] and the unit *)
}.

Definition summary (type : string) (data : list ChartData) : Summary :=
  let config := getChartConfig type in
  let n := Z.of_nat (length data) in
  let latestValue := valueAt data (n - 1) in
  let previousValue := valueAt data (n - 2) in
  let change := jsub latestValue previousValue in
  let changePercent := if num_truthy previousValue
                       then jmul (jdiv change previousValue) (Fin 100) else Fin 0 in
  let values := map value data in
  mkSummary (to_fixed 1 latestValue +:+ unit config)
    (to_fixed 1 (jabs changePercent) +:+ "%")
    (match change with NaN => false | _ => negb (jlt change (Fin 0)) end)
    (pretty (length data) +:+ " data points")
    ("Range: " +:+ to_fixed 1 (math_min values) +:+ " - " +:+ to_fixed 1 (math_max values)
       +:+ unit config).

(** ** Properties of the component *)

(** The figure [{data: [{x: xs, y: ys}]}] of the payload. *)
Definition figure (xs ys : list jval) : jval :=
  JObj [("data", JArr [JObj [("x", JArr xs); ("y", JArr ys)]])].

(** C26. Extracting the series: for a figure whose first trace has arrays
    [x] and [y], given as an object or as a JSON string, there is one point
    per [x], at time [String(x[i])] with value [Number(y[i] ?? 0)], so a
    shorter [y] pads the series with zeros. *)
Theorem decodeSeries_trace json_parse xs ys s :
  let expected := imap (fun i t => mkPoint (to_string t)
                          (to_number (Some (js_nullish (ys !! i) (JNum 0))))) xs in
  decodeSeries json_parse (JObj [("plotly_json", figure xs ys)]) = inr expected /\
  (json_parse s = Some (figure xs ys) ->
   decodeSeries json_parse (JObj [("plotly_json", JStr s)]) = inr expected) /\
  (json_parse s = None ->
   decodeSeries json_parse (JObj [("plotly_json", JStr s)]) = inl SyntaxError) /\
  length expected = length xs.
Proof.
  split_and!; [reflexivity|intros Hp..|by rewrite length_imap];
    unfold decodeSeries; simpl; rewrite Hp; reflexivity.
Qed.

Lemma decodeSeries_trace_witness :
  let jp := fun s : string => if decide (s = "fig")%string then Some (figure [JStr "t0"; JStr "t1"] [JNum 5])
                             else None in
  jp "fig" = Some (figure [JStr "t0"; JStr "t1"] [JNum 5]) /\
  decodeSeries jp (JObj [("plotly_json", JStr "fig")]) =
    inr [mkPoint "t0" (Fin 5); mkPoint "t1" (Fin 0)].
Proof.
  split; [reflexivity|].
  refine (proj1 (proj2 (decodeSeries_trace _ [JStr "t0"; JStr "t1"] [JNum 5] "fig")) _);
    reflexivity.
Defined.

(** C27. A failed load shows an impossible range: when the current
    request fails, the chart is emptied and its summary reads a latest
    value of 0.0, a change of 0.0% marked as increasing, "0 data points"
    and the range "Infinity - -Infinity" ([Math.min()] and [Math.max()]
    of no value). *)
Theorem chart_failure_summary json_parse e p w st f r type :
  @lreachable _ _ _ (chartSource json_parse) e p w -> comp w = Some st ->
  fetches w !! Loader.run w = Some f -> f_gen f = gen w ->
  (r = NetworkError \/ (exists c, r = HttpError c) \/ r = OkJson None) ->
  comp (@settle _ _ (chartSource json_parse) (Loader.run w) r w) = Some (mkLState [] false) /\
  summary type [] =
    mkSummary ("0.0" +:+ unit (getChartConfig type)) "0.0%" true "0 data points"
      ("Range: Infinity - -Infinity" +:+ unit (getChartConfig type)).
Proof.
  intros Hr Hc Hk Hg Hfail. split.
  - rewrite (settle_current e p w st f r Hr Hc Hk Hg). by destruct Hfail as [->|[[c ->]| ->]].
  - reflexivity.
Qed.

Lemma chart_failure_summary_witness :
  let w := @lrun _ _ _ (chartSource (fun _ => None)) [LMount ("temperature", "7d")]
             (initLWorld (mkEnv None None) ("temperature", "7d")) in
  @lreachable _ _ _ (chartSource (fun _ => None)) (mkEnv None None) ("temperature", "7d") w /\
  comp (@settle _ _ (chartSource (fun _ => None)) 0 NetworkError w) = Some (mkLState [] false).
Proof.
  assert (Hr : @lreachable _ _ _ (chartSource (fun _ => None)) (mkEnv None None)
    ("temperature", "7d") (@lrun _ _ _ (chartSource (fun _ => None)) [LMount ("temperature", "7d")]
      (initLWorld (mkEnv None None) ("temperature", "7d")))) by apply lrun_reachable, star_refl.
  split; [exact Hr|].
  refine (proj1 (chart_failure_summary (fun _ => None) _ _ _ (mkLState [] true)
    (mkFetch 1 "/api/visualization/timeseries?parameter=temperature&time_range=7d&region=global")
    NetworkError "temperature" Hr _ _ _ _)); [reflexivity..|by left].
Defined.

(** C28. The request names the series it asks for: whatever the [type]
    and [timeRange] props hold, the query string of the URL of line 25
    reads back, field by field, as [parameter = type],
    [time_range = timeRange] and [region = global], since
    [encodeURIComponent] escapes every [&] and percent-decoding inverts
    it (for a base URL without a [?] of its own). *)
Theorem seriesUrl_params e t r :
  "?"%char ∉ String.list_ascii_of_string (baseUrl e) ->
  search_param "parameter" (seriesUrl e (t, r)) = Some t /\
  search_param "time_range" (seriesUrl e (t, r)) = Some r /\
  search_param "region" (seriesUrl e (t, r)) = Some "global"%string.
Proof.
  intros Hq. unfold search_param, seriesUrl. cbn [fst snd].
  rewrite !list_ascii_of_string_app, url_query_app by done.
  pose proof (decode_encodeURIComponent t) as Dt. pose proof (decode_encodeURIComponent r) as Dr.
  pose proof (field_no_amp "parameter" t ltac:(by apply (bool_decide_unpack _))) as Ht.
  pose proof (field_no_amp "time_range" r ltac:(by apply (bool_decide_unpack _))) as Hr.
  revert Dt Dr Ht Hr.
  generalize (String.list_ascii_of_string (encodeURIComponent t))
    (String.list_ascii_of_string (encodeURIComponent r)).
  intros Et Er Dt Dr Ht Hr.
  assert (HQ : url_query (String.list_ascii_of_string "/api/visualization/timeseries?parameter=" ++
                 Et ++ String.list_ascii_of_string "&time_range=" ++
                 Er ++ String.list_ascii_of_string "&region=global") =
               (String.list_ascii_of_string "parameter" ++ "="%char :: Et) ++ "&"%char ::
               (String.list_ascii_of_string "time_range" ++ "="%char :: Er) ++ "&"%char ::
               String.list_ascii_of_string "region=global") by reflexivity.
  rewrite HQ, !split_on_app, split_on_nodelim by (done || by apply (bool_decide_unpack _)).
  simpl. split_and!; [exact Dt|exact Dr|reflexivity].
Qed.

Lemma seriesUrl_params_witness :
  let e := mkEnv None (Some ("http:", "localhost")) in
  "?"%char ∉ String.list_ascii_of_string (baseUrl e) /\
  search_param "parameter" (seriesUrl e ("sea & sky=1%", "7d")) = Some "sea & sky=1%"%string.
Proof.
  assert (Hq : "?"%char ∉ String.list_ascii_of_string (baseUrl (mkEnv None (Some ("http:", "localhost")))))
    by (apply (bool_decide_unpack _); reflexivity).
  split; [exact Hq|]. exact (proj1 (seriesUrl_params _ "sea & sky=1%" "7d" Hq)).
Defined.

(** The temperature unit of the source is [Â°C], the double-encoded [°C]:
    the latest value and the range of a temperature chart end with it. *)
Lemma temperature_unit_mojibake data :
  exists a b, latestText (summary "temperature" data) = a +:+ "Â°C" /\
              rangeText (summary "temperature" data) = b +:+ "Â°C".
Proof.
  unfold summary, getChartConfig. rewrite decide_True by done. cbn [latestText rangeText unit].
  eexists _, ("Range: " +:+ _ +:+ " - " +:+ _). split; [done|]. by autorewrite with fc_rw.
Qed.

End Chart.
