(* ===== verification/DataViz.v ===== *)
(** * The visualization tab: [DataVisualization]
    (src/code/Floatchat/components/DataVisualization.tsx, lines 1-370)

    The component keeps a view ([map], [chart] or [3d]), a parameter, a
    time range, a play flag, a layers flag and a summary of four texts
    (lines 24-35), and one ref, [playTimerRef] (line 29).  Two effects:
    - [loadSummary] (lines 37-65), run once per mount with an [aborted]
      flag, reads [/api/data/statistics] and fills the summary;
    - the animation (lines 89-110), re-run whenever [isPlaying] or
      [selectedParameter] changes: while playing it arms a 3 s interval
      whose callback selects the next of the five parameters, and its
      cleanup clears the interval; while paused it clears the ref.
    It renders [MapVisualization] (region ["global"]) in the map view and
    [DataChart] of the selected parameter and time range in the chart
    view (lines 240-269), so that changing the view mounts one and
    unmounts the other.

    The world holds the instance (its cells and the ref), its generation,
    the pending statistics request, the browser's live intervals with the
    generation of the instance that armed them and the parameter their
    callback captured, and the worlds of the two children.  A render
    commits the new cells, updates the children, then re-runs the
    animation effect when its dependencies changed: first the cleanup of
    the previous run (which exists only when that run was playing, since
    the effect re-runs on every change of [isPlaying]), then the new run.
    [new Date(t).toLocaleString()] depends on the browser's locale and is
    the parameter [localeString] of the section; [JSON.parse] of the
    chart's payload is [json_parse], as in [Chart]. *)

From Stdlib Require Import QArith.
From S2P Require Import Prelude JsValue JsNumber Endpoint Loader MapView Chart.
Local Set Warnings "-register-all".
Local Open Scope fc_scope.
Local Open Scope js_scope.

Module DataViz.

(** [activeView]: ['map' | 'chart' | '3d']. *)
Inductive ViewKind := MapV | ChartV | ProfileV.

#[export] Instance ViewKind_eq_dec : EqDecision ViewKind.
Proof. solve_decision. Defined.

Record Param := mkParam { p_id : string; p_name : string; p_unit : string; p_color : string }.

(** [parameters] (lines 67-73) and [timeRanges] (lines 75-81). *)
Definition parameters : list Param := [
  mkParam "temperature" "Temperature" "°C" "text-red-400";
  mkParam "salinity" "Salinity" "PSU" "text-blue-400";
  mkParam "oxygen" "Dissolved Oxygen" "mg/L" "text-green-400";
  mkParam "pressure" "Pressure" "dbar" "text-purple-400";
  mkParam "current" "Current Speed" "m/s" "text-orange-400"]%string.

Definition timeRanges : list string := ["24h"; "7d"; "30d"; "90d"; "1y"]%string.

(** [parameters.findIndex(p => p.id === s)]: [-1] when there is none. *)
Fixpoint findIndexFrom (s : string) (ps : list Param) (i : Z) : Z :=
  match ps with
  | [] => -1
  | p :: ps' => if decide (p_id p = s) then i else findIndexFrom s ps' (i + 1)
  end.

Definition findIndex (s : string) : Z := findIndexFrom s parameters 0.

(** [cycleFn] (lines 99-103): [parameters[(idx + 1) % parameters.length].id].
    The index is in range, since [idx >= -1]. *)
Definition nextParameter (s : string) : string :=
  let i := ((findIndex s + 1) mod Z.of_nat (length parameters))%Z in
  match parameters !! Z.to_nat i with Some p => p_id p | None => "" end.

(** The summary cells (lines 30-35). *)
Record Summary := mkSummary {
  dataPoints : string;
  activeFloats : string;
  coverage : string;
  lastUpdate : string
}.

Definition initSummary : Summary := mkSummary "—" "—" "—" "—".

Record State := mkState {
  activeView : ViewKind;
  selectedParameter : string;
  timeRange : string;
  isPlaying : bool;
  showLayers : bool;
  summary : Summary;
  playTimerRef : option nat    (** [playTimerRef.current]: an interval id or [null] *)
}.

Definition initState : State := mkState MapV "temperature" "7d" false true initSummary None.

Definition statisticsUrl (e : Env) : string := baseUrl e +:+ "/api/data/statistics".

Section DataViz.
Variable json_parse : string -> option jval.
Variable localeString : option jval -> string.

(** The body of [loadSummary] after [res.json()] (lines 48-52): a read
    of a property of [null] or [undefined] throws. *)
Definition summaryBody (stats : jval) : js_exn + Summary :=
      let* tm := get_prop stats "total_measurements" in
      let* af := get_prop stats "active_floats" in
      let* rm := get_prop stats "recent_metrics" in
      let* lu := (if truthy rm then
                    match rm with
                    | Some rmv =>
                        let r0 := Chart.get_index rmv 0 in
                        if truthy r0 then
                          match r0 with
                          | Some r0v => let* t := get_prop r0v "timestamp" in inr (localeString t)
                          | None => inr "—"%string
                          end
                        else inr "—"%string
                    | None => inr "—"%string
                    end
                  else inr "—"%string) in
      inr (mkSummary (to_string (js_nullish tm (JStr "—"))) (to_string (js_nullish af (JStr "—")))
             "—" lu).

(** The summary [loadSummary] sets for a settled fetch (lines 42-61):
    [None] when it returns ([!res.ok]) or throws (a failed [fetch] or
    [res.json()], or [summaryBody]) and the catch block ignores it. *)
Definition summaryOf (r : Response) : option Summary :=
  match r with
  | OkJson (Some stats) => match summaryBody stats with inr s => Some s | inl _ => None end
  | _ => None
  end.

Record World := mkWorld {
  comp : option State;
  gen : nat;
  env : Env;
  abortedGens : gset nat;               (** instances whose [loadSummary] cleanup ran *)
  statsReqs : gmap nat nat;             (** pending statistics fetches, by generation *)
  intervals : gmap nat (nat * string);  (** live intervals: generation, captured parameter *)
  nextId : nat;
  map : MapView.World;
  chart : LWorld (string * string) Chart.ChartData
}.

Definition initWorld (e : Env) : World :=
  mkWorld None 0 e ∅ ∅ ∅ 0 (MapView.initWorld e "global") (initLWorld e ("temperature", "7d")).

Definition withComp (c : option State) (w : World) : World :=
  mkWorld c (gen w) (env w) (abortedGens w) (statsReqs w) (intervals w) (nextId w) (map w) (chart w).

Definition withIntervals (iv : gmap nat (nat * string)) (n : nat) (w : World) : World :=
  mkWorld (comp w) (gen w) (env w) (abortedGens w) (statsReqs w) iv n (map w) (chart w).

Definition withChildren (m : MapView.World) (c : LWorld (string * string) Chart.ChartData)
    (w : World) : World :=
  mkWorld (comp w) (gen w) (env w) (abortedGens w) (statsReqs w) (intervals w) (nextId w) m c.

Definition setRef (r : option nat) (st : State) : State :=
  mkState (activeView st) (selectedParameter st) (timeRange st) (isPlaying st) (showLayers st)
    (summary st) r.

(** [if (playTimerRef.current) { clearInterval(...); playTimerRef.current = null }]
    (lines 91-94 and 106-109). *)
Definition clearPlayTimer (st : State) (w : World) : State * World :=
  match playTimerRef st with
  | Some k => (setRef None st, withIntervals (delete k (intervals w)) (nextId w) w)
  | None => (st, w)
  end.

(** A run of the animation effect (lines 89-104): paused, it clears the
    ref; playing, it arms an interval capturing the selected parameter. *)
Definition playEffect (st : State) (w : World) : State * World :=
  if isPlaying st then
    let k := nextId w in
    (setRef (Some k) st,
     withIntervals (<[k := (gen w, selectedParameter st)]> (intervals w)) (S k) w)
  else clearPlayTimer st w.

(** The children of a render from [old] to [st] (lines 240-269). *)
Definition renderChildren (old st : State) (w : World) : World :=
  let m := match activeView old, activeView st with
           | MapV, MapV => map w
           | MapV, _ => MapView.dispatch MapView.Unmount (map w)
           | _, MapV => MapView.dispatch (MapView.Mount "global") (map w)
           | _, _ => map w
           end in
  let p := (selectedParameter st, timeRange st) in
  let c := match activeView old, activeView st with
           | ChartV, ChartV => @setProps _ _ _ (Chart.chartSource json_parse) p (chart w)
           | ChartV, _ => unmount (chart w)
           | _, ChartV => @mount _ _ (Chart.chartSource json_parse) p (chart w)
           | _, _ => chart w
           end in
  withChildren m c w.

(** A render of the mounted instance from [old] to [st]: the cells, the
    children, then the animation effect if [isPlaying] or
    [selectedParameter] changed, after the cleanup of its previous run. *)
Definition render (old st : State) (w : World) : World :=
  let w1 := renderChildren old st (withComp (Some st) w) in
  if bool_decide (isPlaying old = isPlaying st /\ selectedParameter old = selectedParameter st)
  then w1
  else
    let '(st1, w2) := if isPlaying old then clearPlayTimer st w1 else (st, w1) in
    let '(st2, w3) := playEffect st1 w2 in
    withComp (Some st2) w3.

(** A [setState] of the instance of generation [g]: a render if it is the
    mounted one, nothing otherwise. *)
Definition update (g : nat) (f : State -> State) (w : World) : World :=
  match comp w with
  | Some st => if decide (g = gen w) then render st (f st) w else w
  | None => w
  end.

Definition setParam (p : string) (st : State) : State :=
  mkState (activeView st) p (timeRange st) (isPlaying st) (showLayers st) (summary st) (playTimerRef st).
Definition setTimeRange (t : string) (st : State) : State :=
  mkState (activeView st) (selectedParameter st) t (isPlaying st) (showLayers st) (summary st) (playTimerRef st).
Definition setView (v : ViewKind) (st : State) : State :=
  mkState v (selectedParameter st) (timeRange st) (isPlaying st) (showLayers st) (summary st) (playTimerRef st).
Definition setPlaying (b : bool) (st : State) : State :=
  mkState (activeView st) (selectedParameter st) (timeRange st) b (showLayers st) (summary st) (playTimerRef st).
Definition setLayers (b : bool) (st : State) : State :=
  mkState (activeView st) (selectedParameter st) (timeRange st) (isPlaying st) b (summary st) (playTimerRef st).
Definition setSummary (s : Summary) (st : State) : State :=
  mkState (activeView st) (selectedParameter st) (timeRange st) (isPlaying st) (showLayers st) s (playTimerRef st).

Inductive Event :=
| Mount
| Unmount
| SelectParameter (p : string)         (** line 146 *)
| SelectTimeRange (t : string)         (** line 169 *)
| SelectView (v : ViewKind)            (** line 191 *)
| TogglePlay                           (** line 212 *)
| ToggleLayers                         (** line 225 *)
| IntervalFires (k : nat)              (** the 3 s interval of line 104 *)
| StatsSettle (k : nat) (r : Response)
| MapEvent (e : MapView.Event)         (** settlements and clicks inside the map *)
| ChartSettle (k : nat) (r : Response).

Definition dispatch (e : Event) (w : World) : World :=
  match e with
  | Mount =>
      match comp w with
      | None =>
          let g := S (gen w) in
          let k := nextId w in
          let w1 := mkWorld (Some initState) g (env w) (abortedGens w) (<[k := g]> (statsReqs w))
                      (intervals w) (S k) (MapView.dispatch (MapView.Mount "global") (map w)) (chart w) in
          let '(st, w2) := playEffect initState w1 in
          withComp (Some st) w2
      | Some _ => w
      end
  | Unmount =>
      match comp w with
      | Some st =>
          let '(_, w1) := if isPlaying st then clearPlayTimer st w else (st, w) in
          let m := if decide (activeView st = MapV) then MapView.dispatch MapView.Unmount (map w1)
                   else map w1 in
          let c := if decide (activeView st = ChartV) then unmount (chart w1) else chart w1 in
          mkWorld None (gen w1) (env w1) ({[gen w1]} ∪ abortedGens w1) (statsReqs w1)
            (intervals w1) (nextId w1) m c
      | None => w
      end
  | SelectParameter p =>
      if decide (p ∈ List.map p_id parameters) then update (gen w) (setParam p) w else w
  | SelectTimeRange t =>
      if decide (t ∈ timeRanges) then update (gen w) (setTimeRange t) w else w
  | SelectView v => update (gen w) (setView v) w
  | TogglePlay => update (gen w) (fun st => setPlaying (negb (isPlaying st)) st) w
  | ToggleLayers => update (gen w) (fun st => setLayers (negb (showLayers st)) st) w
  | IntervalFires k =>
      match intervals w !! k with
      | Some (g, captured) => update g (setParam (nextParameter captured)) w
      | None => w
      end
  | StatsSettle k r =>
      match statsReqs w !! k with
      | Some g =>
          let w1 := mkWorld (comp w) (gen w) (env w) (abortedGens w) (delete k (statsReqs w))
                      (intervals w) (nextId w) (map w) (chart w) in
          match summaryOf r with
          | Some s => if decide (g ∈ abortedGens w) then w1 else update g (setSummary s) w1
          | None => w1
          end
      | None => w
      end
  | MapEvent e =>
      match e with
      | MapView.Settle _ _ | MapView.ClickMarker _ | MapView.CloseDetails =>
          withChildren (MapView.dispatch e (map w)) (chart w) w
      | _ => w
      end
  | ChartSettle k r =>
      withChildren (map w) (@settle _ _ (Chart.chartSource json_parse) k r (chart w)) w
  end.

Inductive step : World -> World -> Prop :=
| step_event e w : step w (dispatch e w).

Definition reachable (e : Env) (w : World) : Prop := initWorld e ==[ step ]=>* w.

Definition run (es : list Event) (w : World) : World := foldl (fun w e => dispatch e w) w es.

End DataViz.


Lemma findIndexFrom_notin s ps i : s ∉ List.map p_id ps -> findIndexFrom s ps i = (-1)%Z.
Proof.
  revert i. induction ps as [|p ps IH]; intros i Hn; [done|]. simpl in *.
  rewrite decide_False by (intros <-; apply Hn; left). apply IH. intros H. apply Hn. by right.
Qed.

(** [cycleFn] always selects another parameter: the next one in the list,
    or the first one for an id that is not in it. *)
Lemma nextParameter_neq s : nextParameter s <> s.
Proof.
  destruct (decide (s ∈ List.map p_id parameters)) as [Hin|Hn].
  - assert (Hall : Forall (fun s => nextParameter s <> s) (List.map p_id parameters)).
    { repeat constructor; vm_compute; discriminate. }
    rewrite Forall_forall in Hall. by apply Hall.
  - unfold nextParameter, findIndex. rewrite findIndexFrom_notin by done. simpl.
    intros Heq. apply Hn. rewrite <- Heq. left.
Qed.

(** Playing visits the five parameters in turn and comes back after five
    ticks. *)
Lemma nextParameter_cycle s :
  s ∈ List.map p_id parameters ->
  Nat.iter 5 nextParameter s = s /\
  forall t, t ∈ List.map p_id parameters -> exists i, (i < 5)%nat /\ Nat.iter i nextParameter s = t.
Proof.
  assert (Hall : Forall (fun s => Nat.iter 5 nextParameter s = s /\
            Forall (fun t => Exists (fun i => Nat.iter i nextParameter s = t) (seq 0 5))
              (List.map p_id parameters)) (List.map p_id parameters))
    by (apply (bool_decide_unpack _); vm_compute; reflexivity).
  rewrite Forall_forall in Hall. intros Hin. destruct (Hall s Hin) as [H5 Hts].
  split; [done|]. intros t Ht. rewrite Forall_forall in Hts.
  destruct (proj1 (Exists_exists _ _) (Hts t Ht)) as (i & Hi & Heq). apply elem_of_seq in Hi.
  exists i. split; [lia|done].
Qed.

(** Whatever is selected, the next parameter is one of the five. *)
Lemma nextParameter_in s : nextParameter s ∈ List.map p_id parameters.
Proof.
  destruct (decide (s ∈ List.map p_id parameters)) as [Hin|Hn].
  - assert (Hall : Forall (fun s => nextParameter s ∈ List.map p_id parameters)
                     (List.map p_id parameters))
      by (apply (bool_decide_unpack _); vm_compute; reflexivity).
    rewrite Forall_forall in Hall. by apply Hall.
  - unfold nextParameter, findIndex. rewrite findIndexFrom_notin by done. simpl. left.
Qed.

(** ** The animation timer *)

(** The intervals an instance should own: the one in its ref, capturing
    its selected parameter. *)
Definition timersOf (w : World) : gmap nat (nat * string) :=
  match comp w with
  | Some st => match playTimerRef st with
               | Some k => {[k := (gen w, selectedParameter st)]}
               | None => ∅
               end
  | None => ∅
  end.

(** The live intervals are exactly those of the mounted instance, which
    holds one while it plays. *)
Definition playInv (w : World) : Prop :=
  intervals w = timersOf w /\
  forall st, comp w = Some st -> (isPlaying st = true <-> is_Some (playTimerRef st)).

Section PlayTimer.
Variable json_parse : string -> option jval.
Variable localeString : option jval -> string.

Lemma renderChildren_frame old st w :
  comp (renderChildren json_parse old st w) = comp w /\
  gen (renderChildren json_parse old st w) = gen w /\
  intervals (renderChildren json_parse old st w) = intervals w /\
  nextId (renderChildren json_parse old st w) = nextId w.
Proof. done. Qed.

(** A render that leaves [isPlaying] and [selectedParameter] alone only
    commits the cells and updates the children. *)
Lemma render_same old st w :
  isPlaying old = isPlaying st -> selectedParameter old = selectedParameter st ->
  render json_parse old st w = renderChildren json_parse old st (withComp (Some st) w).
Proof. intros H1 H2. unfold render. by rewrite bool_decide_true. Qed.

(** A render that changes them clears the old interval, if any, and arms
    a new one if the instance plays. *)
Lemma render_changed old st w :
  playInv w -> comp w = Some old -> playTimerRef st = playTimerRef old ->
  ~ (isPlaying old = isPlaying st /\ selectedParameter old = selectedParameter st) ->
  let w' := render json_parse old st w in
  comp w' = Some (setRef (if isPlaying st then Some (nextId w) else None) st) /\
  intervals w' = (if isPlaying st then {[nextId w := (gen w, selectedParameter st)]} else ∅) /\
  gen w' = gen w.
Proof.
  intros [Hiv Hiff] Hc Hr Hne. specialize (Hiff old Hc). unfold timersOf in Hiv. rewrite Hc in Hiv.
  unfold render. rewrite bool_decide_false by done.
  destruct (isPlaying old) eqn:Ho.
  - destruct (proj1 Hiff eq_refl) as [k Hk]. rewrite Hk in Hiv.
    unfold clearPlayTimer. simpl. rewrite Hr, Hk. simpl. rewrite Hiv, delete_singleton.
    unfold playEffect. simpl. destruct (isPlaying st); simpl; by rewrite ?decide_True.
  - destruct (playTimerRef old) eqn:Hk; [discriminate (proj2 Hiff ltac:(by eexists))|].
    unfold playEffect, clearPlayTimer. destruct (isPlaying st); simpl; rewrite ?Hr, ?Hiv; [done|].
    destruct st; simpl in *; subst; done.
Qed.

Lemma render_inv old st w :
  playInv w -> comp w = Some old -> playTimerRef st = playTimerRef old ->
  playInv (render json_parse old st w).
Proof.
  intros Hinv Hc Hr.
  destruct (decide (isPlaying old = isPlaying st /\ selectedParameter old = selectedParameter st))
    as [[H1 H2]|Hne].
  - rewrite render_same by done. destruct Hinv as [Hiv Hiff]. split.
    + unfold timersOf in *. simpl. rewrite Hiv, Hc, Hr, H2. done.
    + intros st' [= <-]. rewrite <- H1, Hr. by apply Hiff.
  - destruct (render_changed old st w Hinv Hc Hr Hne) as (Hc' & Hiv' & Hg').
    split; [unfold timersOf; rewrite Hc', Hiv', Hg'; by destruct (isPlaying st)|].
    intros st' Hst'. rewrite Hc' in Hst'. injection Hst' as <-. simpl.
    destruct (isPlaying st); split; intros H; try done; by inversion H.
Qed.

Lemma update_inv g f w :
  playInv w -> (forall st, playTimerRef (f st) = playTimerRef st) ->
  playInv (update json_parse g f w).
Proof.
  intros Hinv Hf. unfold update. destruct (comp w) as [st|] eqn:Hc; [|done].
  case_decide; [|done]. by apply render_inv.
Qed.


Lemma dv_dispatch_inv e w : playInv w -> playInv (dispatch json_parse localeString e w).
Proof.
  intros Hinv. pose proof Hinv as [Hiv Hiff]. unfold timersOf in Hiv.
  destruct e; simpl.
  - destruct (comp w) eqn:Hc; [done|]. split; [by rewrite Hiv|]. intros st [= <-]. simpl.
    split; [done|by intros []].
  - destruct (comp w) as [st|] eqn:Hc; [|done]. specialize (Hiff st eq_refl).
    destruct (isPlaying st) eqn:Hp.
    + destruct (proj1 Hiff eq_refl) as [k Hk]. unfold clearPlayTimer. rewrite Hk.
      split; [|done]. simpl. rewrite Hiv, Hk, delete_singleton. by rewrite decide_True.
    + split; [|done]. simpl.
      destruct (playTimerRef st) eqn:Hk; [discriminate (proj2 Hiff ltac:(by eexists))|done].
  - case_decide; [apply update_inv; done|done].
  - case_decide; [apply update_inv; done|done].
  - apply update_inv; done.
  - apply update_inv; done.
  - apply update_inv; done.
  - destruct (intervals w !! k) as [[g c]|]; [apply update_inv; done|done].
  - destruct (statsReqs w !! k) as [g|]; [|done].
    assert (Hinv1 : playInv (mkWorld (comp w) (gen w) (env w) (abortedGens w) (delete k (statsReqs w))
                      (intervals w) (nextId w) (map w) (chart w))) by done.
    destruct (summaryOf localeString r); [|done]. case_decide; [done|]. by apply update_inv.
  - destruct e; done.
  - done.
Qed.

Lemma dv_initWorld_inv e : playInv (initWorld e).
Proof. done. Qed.

Lemma reachable_playInv e w : reachable json_parse localeString e w -> playInv w.
Proof.
  intros Hr. eapply (star_invariant (step json_parse localeString) playInv); [|exact Hr|apply dv_initWorld_inv].
  intros a b [ev ?]. by apply dv_dispatch_inv.
Qed.

(** Every render leaves the instance mounted, so a [setState] keeps the
    mounted flag. *)
Lemma render_mounted old st w : is_Some (comp (render json_parse old st w)).
Proof.
  unfold render. case_bool_decide; [by eexists|].
  destruct (if isPlaying old then _ else _) as [st1 w2]. destruct (playEffect st1 w2). by eexists.
Qed.

Lemma update_mounted g f w : is_Some (comp (update json_parse g f w)) <-> is_Some (comp w).
Proof.
  unfold update. destruct (comp w) eqn:Hc; [|by rewrite Hc]. case_decide; [|by rewrite Hc].
  split; [by eexists|intros _; apply render_mounted].
Qed.

Lemma dv_run_reachable e es w :
  reachable json_parse localeString e w ->
  reachable json_parse localeString e (run json_parse localeString es w).
Proof.
  apply star_foldl. constructor.
Qed.

(** A tick of the instance's own interval: it selects the next parameter of
    the one the interval captured, which is the selected one, and the
    effect replaces the interval by a fresh one capturing the new
    parameter. *)
Lemma tick_effect w st k :
  playInv w -> comp w = Some st -> playTimerRef st = Some k ->
  let w' := dispatch json_parse localeString (IntervalFires k) w in
  isPlaying st = true /\
  comp w' = Some (setRef (Some (nextId w)) (setParam (nextParameter (selectedParameter st)) st)) /\
  intervals w' = {[nextId w := (gen w, nextParameter (selectedParameter st))]}.
Proof.
  intros Hinv Hc Hk. pose proof Hinv as [Hiv Hiff].
  assert (Hp : isPlaying st = true) by (apply Hiff; [done|by eexists]).
  unfold timersOf in Hiv. rewrite Hc, Hk in Hiv. simpl. rewrite Hiv, lookup_singleton.
  unfold update. rewrite Hc, decide_True by done.
  destruct (render_changed st (setParam (nextParameter (selectedParameter st)) st) w Hinv Hc)
    as (Hc' & Hiv' & _); [done|simpl; intros [_ H]; by apply (nextParameter_neq (selectedParameter st))|].
  simpl in Hc', Hiv'. rewrite Hp in Hc', Hiv'. rewrite decide_True by done. by split_and!.
Qed.

(** C10. The animation timer never leaks: in every reachable world the
    browser's live intervals are exactly the one in [playTimerRef] of the
    mounted instance, armed while it plays (none while paused, none after
    unmount, none of an earlier instance), and each tick of that interval
    selects the next parameter, keeps playing and replaces the interval by
    exactly one new one. *)
Theorem play_timer_single e w :
  reachable json_parse localeString e w ->
  intervals w = timersOf w /\
  (forall st, comp w = Some st -> isPlaying st = true <-> is_Some (playTimerRef st)) /\
  (forall st k, comp w = Some st -> playTimerRef st = Some k ->
     let w' := dispatch json_parse localeString (IntervalFires k) w in
     isPlaying st = true /\
     comp w' = Some (setRef (Some (nextId w)) (setParam (nextParameter (selectedParameter st)) st)) /\
     intervals w' = {[nextId w := (gen w, nextParameter (selectedParameter st))]}).
Proof.
  intros Hr. pose proof (reachable_playInv e w Hr) as Hinv. pose proof Hinv as [Hiv Hiff].
  split_and!; [done|done|]. intros st k Hc Hk. by apply tick_effect.
Qed.

(** The browser firing the interval the mounted instance holds, if any. *)
Definition tick (w : World) : World :=
  match comp w with
  | Some st => match playTimerRef st with
               | Some k => dispatch json_parse localeString (IntervalFires k) w
               | None => w
               end
  | None => w
  end.

Lemma tick_reachable e w :
  reachable json_parse localeString e w -> reachable json_parse localeString e (tick w).
Proof.
  intros Hr. unfold tick. repeat case_match; try done. eapply star_right; [exact Hr|constructor].
Qed.

Lemma ticks_reachable e w n :
  reachable json_parse localeString e w ->
  reachable json_parse localeString e (Nat.iter n tick w).
Proof. intros Hr. induction n as [|n IH]; [done|]. by apply tick_reachable. Qed.

(** [n] ticks of a playing instance select the parameter [n] steps further
    in the cycle, and the instance keeps playing. *)
Lemma ticks_select e w st n :
  reachable json_parse localeString e w -> comp w = Some st -> isPlaying st = true ->
  exists st', comp (Nat.iter n tick w) = Some st' /\ isPlaying st' = true /\
              selectedParameter st' = Nat.iter n nextParameter (selectedParameter st).
Proof.
  intros Hr Hc Hp. induction n as [|n (st' & Hc' & Hp' & Hs')]; [by exists st|].
  pose proof (reachable_playInv e _ (ticks_reachable e w n Hr)) as Hinv.
  destruct (playTimerRef st') as [k|] eqn:Hk; [|destruct (proj1 (proj2 Hinv st' Hc') Hp') as [? Hk']; congruence].
  destruct (tick_effect _ st' k Hinv Hc' Hk) as (_ & Hc'' & _).
  eexists. simpl. unfold tick at 1. rewrite Hc', Hk, Hc''. split_and!; [done|done|simpl].
  by rewrite Hs'.
Qed.

(** C11. Playing is live: from any reachable world whose instance plays,
    the ticks of its interval select every one of the five parameters
    within five ticks, the instance still playing when it does. *)
Theorem play_visits_every_parameter e w st p :
  reachable json_parse localeString e w -> comp w = Some st -> isPlaying st = true ->
  p ∈ List.map p_id parameters ->
  exists n st', (1 <= n <= 5)%nat /\ comp (Nat.iter n tick w) = Some st' /\
                isPlaying st' = true /\ selectedParameter st' = p.
Proof.
  intros Hr Hc Hp Hin.
  destruct (proj2 (nextParameter_cycle _ (nextParameter_in (selectedParameter st))) p Hin)
    as (i & Hi & Hit).
  destruct (ticks_select e w st (S i) Hr Hc Hp) as (st' & Hc' & Hp' & Hs').
  exists (S i), st'. split_and!; [lia|lia|done|done|]. rewrite Hs', <- Hit. apply Nat.iter_succ_r.
Qed.

End PlayTimer.

(** ** Scenario *)

Definition localEnv : Env := mkEnv None (Some ("http:", "localhost")).

Lemma play_timer_single_witness :
  let w := run (fun _ => None) (fun _ => "") [Mount; TogglePlay] (initWorld localEnv) in
  reachable (fun _ => None) (fun _ => "") localEnv w /\ intervals w = timersOf w /\
  comp (dispatch (fun _ => None) (fun _ => "") (IntervalFires 1) w) =
    Some (mkState MapV "salinity" "7d" true true initSummary (Some 2)).
Proof.
  assert (Hr : reachable (fun _ => None) (fun _ => "") localEnv
                 (run (fun _ => None) (fun _ => "") [Mount; TogglePlay] (initWorld localEnv)))
    by (apply dv_run_reachable, star_refl).
  split_and!; [exact Hr|exact (proj1 (play_timer_single _ _ _ _ Hr))|].
  refine (proj1 (proj2 (proj2 (proj2 (play_timer_single _ _ _ _ Hr))
            (mkState MapV "temperature" "7d" true true initSummary (Some 1)) 1 _ _))); reflexivity.
Defined.

Lemma play_visits_every_parameter_witness :
  let w := run (fun _ => None) (fun _ => "") [Mount; TogglePlay] (initWorld localEnv) in
  reachable (fun _ => None) (fun _ => "") localEnv w /\
  exists n st', (1 <= n <= 5)%nat /\ comp (Nat.iter n (tick (fun _ => None) (fun _ => "")) w) = Some st' /\
                isPlaying st' = true /\ selectedParameter st' = "pressure"%string.
Proof.
  assert (Hr : reachable (fun _ => None) (fun _ => "") localEnv
                 (run (fun _ => None) (fun _ => "") [Mount; TogglePlay] (initWorld localEnv)))
    by (apply dv_run_reachable, star_refl).
  split; [exact Hr|].
  apply (play_visits_every_parameter _ _ localEnv _ (mkState MapV "temperature" "7d" true true initSummary (Some 1)));
    [exact Hr|reflexivity|reflexivity|..]; cbn; set_solver.
Defined.

End DataViz.
