(* ===== verification/DataVizView.v ===== *)
(** * The render of the visualization tab: [DataVisualization]
    (src/code/Floatchat/components/DataVisualization.tsx, lines 112-367)

    The render shows four groups of controls (lines 138-236): one button
    per parameter, time range and view type, the one of the current
    selection highlighted, the Play/Pause button and the Layers toggle;
    the main area of the active view (lines 239-297), titled with the name
    of the selected parameter ([parameters.find(...)?.name], which renders
    nothing when no parameter has that id) for the map and the chart; and
    the summary cards (lines 300-366).

    [view] is a pure function of the component's [State]; the children
    (the map and the chart) are the worlds [DataViz] keeps.  The theorem
    of this file shows that the controls of every reachable world
    highlight exactly one entry each and that the title names the
    highlighted parameter. *)

From S2P Require Import Prelude JsValue DataViz.
Local Open Scope fc_scope.

Module DataVizView.
Import DataViz.

(** [timeRanges] (lines 75-81) and [visualizationTypes] (lines 83-87). *)
Definition timeRangeNames : list (string * string) :=
  [("24h", "24 Hours"); ("7d", "7 Days"); ("30d", "30 Days"); ("90d", "90 Days"); ("1y", "1 Year")]%string.

Definition visualizationTypes : list (ViewKind * string) :=
  [(MapV, "Map View"); (ChartV, "Time Series"); (ProfileV, "3D Profile")]%string.

(** A button of the controls and whether it is highlighted. *)
Record Control := mkControl { c_label : string; c_active : bool }.

(** [parameters.find(p => p.id === s)?.name], [undefined] rendering as
    nothing. *)
Definition paramName (s : string) : string :=
  match list_find (fun p => p_id p = s) parameters with Some (_, p) => p_name p | None => "" end.

Inductive Main :=
| MapMain (title : string)      (** lines 240-255 *)
| ChartMain (title : string)    (** lines 257-270 *)
| ProfileMain.                  (** the placeholder, lines 272-296 *)

(** The buttons of the controls (lines 143-158, 166-178, 186-202). *)
Definition paramButtons (st : State) : list Control :=
  List.map (fun p => mkControl (p_name p) (bool_decide (selectedParameter st = p_id p))) parameters.

Definition rangeButtons (st : State) : list Control :=
  List.map (fun r => mkControl r.2 (bool_decide (timeRange st = r.1))) timeRangeNames.

Definition viewButtons (st : State) : list Control :=
  List.map (fun v => mkControl v.2 (bool_decide (activeView st = v.1))) visualizationTypes.

(** The main area of the active view (lines 239-297). *)
Definition mainArea (st : State) : Main :=
  match activeView st with
  | MapV => MapMain (paramName (selectedParameter st) +:+ " Distribution")
  | ChartV => ChartMain (paramName (selectedParameter st) +:+ " Trends")
  | ProfileV => ProfileMain
  end.

(** The three cards under the main area (lines 300-366): the summary
    the statistics request filled, constant quality figures, and export
    buttons without a handler. *)
Definition summaryCards (st : State) : list (string * list (string * string)) :=
  [("Data Summary", [("Data Points", dataPoints (summary st)); ("Active Floats", activeFloats (summary st));
                     ("Coverage", coverage (summary st)); ("Last Update", lastUpdate (summary st))]);
   ("Quality Metrics", [("Data Quality", "98.5%"); ("Completeness", "94.2%");
                        ("Accuracy", "97.8%"); ("Timeliness", "96.1%")]);
   ("Export Options", [("Download CSV", ""); ("Download NetCDF", "");
                       ("Share Visualization", ""); ("Custom Export", "")])]%string.

Record View := mkView {
  v_params : list Control;
  v_ranges : list Control;
  v_views : list Control;
  v_playLabel : string;             (** line 216 *)
  v_layers : bool;                  (** lines 224-232 *)
  v_main : Main;
  v_cards : list (string * list (string * string))
}.

(** The render (lines 112-367). *)
Definition view (st : State) : View :=
  mkView (paramButtons st) (rangeButtons st) (viewButtons st)
    (if isPlaying st then "Pause" else "Play") (showLayers st) (mainArea st) (summaryCards st).

(** The labels of the highlighted buttons. *)
Definition highlighted (cs : list Control) : list string := List.map c_label (filter c_active cs).

(** The name of a time range and of a view, as their buttons print them. *)
Definition rangeName (t : string) : string :=
  match list_find (fun r => r.1 = t) timeRangeNames with Some (_, r) => r.2 | None => "" end.

Definition viewName (v : ViewKind) : string :=
  match list_find (fun x => x.1 = v) visualizationTypes with Some (_, x) => x.2 | None => "" end.

(** The selection of a state is one the controls offer. *)
Definition selOk (st : State) : Prop :=
  selectedParameter st ∈ List.map p_id parameters /\ timeRange st ∈ timeRanges.

Definition onSel (w : World) : Prop := forall st, comp w = Some st -> selOk st.

(** ** The selection stays one the controls offer *)

Section Selection.
Variable json_parse : string -> option jval.
Variable localeString : option jval -> string.

Lemma setRef_id st : setRef (playTimerRef st) st = st.
Proof. by destruct st. Qed.

Lemma clearPlayTimer_fst st w : exists r, (clearPlayTimer st w).1 = setRef r st.
Proof. unfold clearPlayTimer. case_match; [by eexists|]. exists (playTimerRef st). by rewrite setRef_id. Qed.

Lemma playEffect_fst st w : exists r, (playEffect st w).1 = setRef r st.
Proof. unfold playEffect. case_match; [by eexists|apply clearPlayTimer_fst]. Qed.

(** A render commits the new cells, up to the interval in the ref. *)
Lemma render_comp old st w : exists r, comp (render json_parse old st w) = Some (setRef r st).
Proof.
  unfold render. case_bool_decide; [exists (playTimerRef st); by rewrite setRef_id|].
  destruct (if isPlaying old then _ else _) as [st1 w2] eqn:E1.
  assert (Hst1 : exists r, st1 = setRef r st).
  { destruct (isPlaying old).
    - destruct (clearPlayTimer_fst st (renderChildren json_parse old st (withComp (Some st) w))) as [r Hr].
      rewrite E1 in Hr. by exists r.
    - injection E1 as <- _. exists (playTimerRef st). by rewrite setRef_id. }
  destruct Hst1 as [r1 ->]. destruct (playEffect_fst (setRef r1 st) w2) as [r2 Hr2].
  destruct (playEffect (setRef r1 st) w2) as [st2 w3]. simpl in *. subst. by exists r2.
Qed.

Lemma update_sel g f w : (forall st, selOk st -> selOk (f st)) -> onSel w -> onSel (update json_parse g f w).
Proof.
  intros Hf Hw st. unfold update. destruct (comp w) as [st0|] eqn:Hc; [|by apply Hw].
  case_decide; [|by apply Hw]. destruct (render_comp st0 (f st0) w) as [r ->].
  intros [= <-]. apply Hf, Hw, Hc.
Qed.

Lemma dispatch_sel e w : onSel w -> onSel (dispatch json_parse localeString e w).
Proof.
  intros Hw. destruct e; simpl.
  - destruct (comp w) eqn:Hc; [exact Hw|]. intros st [= <-]. by split; apply (bool_decide_unpack _).
  - destruct (comp w) as [s|]; [|exact Hw]. destruct (if isPlaying s then _ else _). by intros st ?.
  - case_decide; [|exact Hw]. by apply update_sel; [intros st [_ Ht]|].
  - case_decide; [|exact Hw]. by apply update_sel; [intros st [Hp _]|].
  - by apply update_sel.
  - by apply update_sel.
  - by apply update_sel.
  - destruct (intervals w !! k) as [[g c]|]; [|exact Hw].
    apply update_sel; [intros st [_ Ht]; split; [apply nextParameter_in|done]|exact Hw].
  - destruct (statsReqs w !! k); [|exact Hw]. destruct (summaryOf localeString r); [|exact Hw].
    case_decide; [exact Hw|]. by apply update_sel.
  - destruct e; exact Hw.
  - exact Hw.
Qed.

Lemma reachable_sel e w : reachable json_parse localeString e w -> onSel w.
Proof.
  intros Hr. eapply (star_invariant (step json_parse localeString) onSel); [|exact Hr|done].
  intros a b [ev ?]. by apply dispatch_sel.
Qed.

End Selection.

(** ** Highlighting, entry by entry *)

Lemma highlighted_params p :
  p ∈ List.map p_id parameters ->
  highlighted (List.map (fun q => mkControl (p_name q) (bool_decide (p = p_id q))) parameters) = [paramName p] /\
  paramName p <> "".
Proof.
  assert (Hall : Forall (fun p =>
      highlighted (List.map (fun q => mkControl (p_name q) (bool_decide (p = p_id q))) parameters) = [paramName p] /\
      paramName p <> "") (List.map p_id parameters))
    by (apply (bool_decide_unpack _); vm_compute; reflexivity).
  rewrite Forall_forall in Hall. apply Hall.
Qed.

Lemma highlighted_ranges t :
  t ∈ timeRanges ->
  highlighted (List.map (fun r => mkControl r.2 (bool_decide (t = r.1))) timeRangeNames) = [rangeName t] /\
  rangeName t <> "".
Proof.
  assert (Hall : Forall (fun t =>
      highlighted (List.map (fun r => mkControl r.2 (bool_decide (t = r.1))) timeRangeNames) = [rangeName t] /\
      rangeName t <> "") timeRanges)
    by (apply (bool_decide_unpack _); vm_compute; reflexivity).
  rewrite Forall_forall in Hall. apply Hall.
Qed.

Lemma highlighted_views v :
  highlighted (List.map (fun x => mkControl x.2 (bool_decide (v = x.1))) visualizationTypes) = [viewName v].
Proof. by destruct v. Qed.

(** C12. The controls show the selection: in every reachable world the
    rendered controls highlight exactly one parameter, one time range and
    one view, those of the state, and the parameter and the time range
    have names, so the title of the map or the chart names the
    highlighted parameter. *)
Theorem viz_controls_consistent jp ls e w st :
  reachable jp ls e w -> comp w = Some st ->
  highlighted (v_params (view st)) = [paramName (selectedParameter st)] /\
  highlighted (v_ranges (view st)) = [rangeName (timeRange st)] /\
  highlighted (v_views (view st)) = [viewName (activeView st)] /\
  paramName (selectedParameter st) <> "" /\ rangeName (timeRange st) <> "".
Proof.
  intros Hr Hc. destruct (reachable_sel jp ls e w Hr st Hc) as [Hp Ht].
  destruct (highlighted_params _ Hp) as [H1 H2]. destruct (highlighted_ranges _ Ht) as [H3 H4].
  split_and!; [exact H1|exact H3|apply highlighted_views|exact H2|exact H4].
Qed.

Lemma viz_controls_consistent_witness :
  let w := run (fun _ => None) (fun _ => "") [Mount; SelectParameter "oxygen"; SelectView ChartV]
             (initWorld localEnv) in
  reachable (fun _ => None) (fun _ => "") localEnv w /\
  highlighted (v_params (view (mkState ChartV "oxygen" "7d" false true initSummary None))) =
    ["Dissolved Oxygen"]%string.
Proof.
  assert (Hr : reachable (fun _ => None) (fun _ => "") localEnv
                 (run (fun _ => None) (fun _ => "") [Mount; SelectParameter "oxygen"; SelectView ChartV]
                    (initWorld localEnv))) by (apply dv_run_reachable, star_refl).
  split; [exact Hr|].
  exact (proj1 (viz_controls_consistent _ _ _ _ _ Hr eq_refl)).
Defined.

End DataVizView.
