(* ===== verification/FloatList.v ===== *)
(** * The float list: [FloatList] (src/unnamed/part_001, lines 1-259)

    The component shows five mock floats (lines 35-96) filtered by a
    search term and a status filter (lines 98-104), each with its status
    badge, coordinates, measurements and battery gauge (lines 106-227),
    and a summary of the counts (lines 229-256).  It receives a [region]
    prop from the dashboard and never reads it.

    Numbers are the literals of the mock data, printed with
    Number::toString ([JsNumber.num_to_string]) or [toFixed].
    [toLowerCase] is modelled on ASCII letters, the only letters of the
    ids; a search term with non-ASCII capitals is lowered only in its ASCII
    part. *)

From Stdlib Require Import QArith.
From S2P Require Import Prelude JsValue JsNumber.
Local Set Warnings "-register-all".

Module FloatList.

Inductive Status := Active | Inactive | Warning.

#[export] Instance Status_eq_dec : EqDecision Status.
Proof. solve_decision. Defined.

Definition statusName (s : Status) : string :=
  match s with Active => "active" | Inactive => "inactive" | Warning => "warning" end.

(** [interface Float] (lines 17-28). *)
Record Float := mkFloat {
  id : string;
  lat : Q;
  lon : Q;
  temperature : Q;
  salinity : Q;
  depth : Q;
  lastUpdate : string;
  status : Status;
  battery : Q;
  cycles : Q
}.

(** The mock data of lines 35-96. *)
Definition floats : list Float := [
  mkFloat "2903574" 12.5 77.2 28.5 35.2 1000 "2 hours ago" Active 85 1247;
  mkFloat "2903575" 15.3 80.1 26.8 34.9 1500 "4 hours ago" Active 92 1103;
  mkFloat "2903576" 8.7 76.8 29.2 35.5 800 "1 hour ago" Warning 23 2156;
  mkFloat "2903577" 18.2 82.5 25.1 34.7 2000 "1 day ago" Inactive 0 3421;
  mkFloat "2903578" 6.9 79.3 30.1 35.8 600 "30 minutes ago" Active 78 987]%Q.

(** The status filter: ['all'] or one status (line 32). *)
Inductive Filter := All | Only (s : Status).

Record State := mkState {
  searchTerm : string;
  statusFilter : Filter
}.

Definition initState : State := mkState "" All.

(** ** Filtering (lines 98-104) *)

(** [toLowerCase] on ASCII capitals. *)
Definition lower_char (c : Ascii.ascii) : Ascii.ascii :=
  let n := Ascii.nat_of_ascii c in
  if (65 <=? n) && (n <=? 90) then Ascii.ascii_of_nat (n + 32) else c.

Definition toLowerCase (s : string) : string :=
  String.string_of_list_ascii (map lower_char (String.list_ascii_of_string s)).

Fixpoint is_prefix (t s : list Ascii.ascii) : bool :=
  match t, s with
  | [], _ => true
  | c :: t', d :: s' => bool_decide (c = d) && is_prefix t' s'
  | _ :: _, [] => false
  end.

Fixpoint occurs (t s : list Ascii.ascii) : bool :=
  is_prefix t s || match s with [] => false | _ :: s' => occurs t s' end.

(** [s.includes(t)]: [t] occurs in [s]. *)
Definition includes (s t : string) : bool :=
  occurs (String.list_ascii_of_string t) (String.list_ascii_of_string s).

Definition matchesSearch (term : string) (f : Float) : bool :=
  includes (toLowerCase (id f)) (toLowerCase term) ||
  includes (num_to_string (lat f)) term ||
  includes (num_to_string (lon f)) term.

Definition matchesStatus (flt : Filter) (f : Float) : bool :=
  match flt with All => true | Only s => bool_decide (status f = s) end.

Definition filteredFloats (st : State) : list Float :=
  filter (fun f => matchesSearch (searchTerm st) f && matchesStatus (statusFilter st) f = true)
    floats.

(** ** Rendering (lines 106-258) *)

Definition getStatusColor (s : Status) : string :=
  match s with
  | Active => "text-green-400 bg-green-400/20"
  | Warning => "text-yellow-400 bg-yellow-400/20"
  | Inactive => "text-gray-400 bg-gray-400/20"
  end.

Definition getBatteryColor (battery : Q) : string :=
  if negb (Qle_bool battery 70) then "text-green-400"
  else if negb (Qle_bool battery 30) then "text-yellow-400"
  else "text-red-400".

(** The texts and classes of one row (lines 155-226). *)
Definition row (f : Float) : list string :=
  [("#" +:+ id f)%string; getStatusColor (status f); statusName (status f);
   (to_fixed 2 (Fin (lat f)) +:+ "°, " +:+ to_fixed 2 (Fin (lon f)) +:+ "°")%string;
   (num_to_string (depth f) +:+ "m")%string;
   (num_to_string (temperature f) +:+ "°C")%string;
   (num_to_string (salinity f) +:+ " PSU")%string;
   lastUpdate f;
   (num_to_string (cycles f) +:+ " cycles")%string;
   getBatteryColor (battery f);
   (num_to_string (battery f) +:+ "%")%string].

Record View := mkView {
  rows : list (list string);
  emptyMessage : bool;         (** "No floats found matching your criteria" *)
  totalCount : nat;
  activeCount : nat;
  warningCount : nat
}.

Definition view (region : string) (st : State) : View :=
  let fl := filteredFloats st in
  mkView (map row fl) (bool_decide (length fl = 0%nat)) (length fl)
    (length (filter (fun f => status f = Active) fl))
    (length (filter (fun f => status f = Warning) fl)).

Inductive Event := SetSearch (s : string) | SetStatusFilter (flt : Filter).

Definition dispatch (e : Event) (st : State) : State :=
  match e with
  | SetSearch s => mkState s (statusFilter st)
  | SetStatusFilter flt => mkState (searchTerm st) flt
  end.

(** ** Properties *)

Lemma is_prefix_spec t s : is_prefix t s = true <-> exists suf, s = t ++ suf.
Proof.
  revert s. induction t as [|c t IH]; intros s; simpl; [split; [eauto|done]|].
  destruct s as [|d s]; [split; [done|by intros [? ?]]|].
  rewrite andb_true_iff, bool_decide_eq_true, IH. split.
  - intros [-> [suf ->]]. by exists suf.
  - intros [suf [= -> ->]]. eauto.
Qed.

Lemma occurs_spec t s : occurs t s = true <-> exists pre suf, s = pre ++ t ++ suf.
Proof.
  induction s as [|d s IH]; simpl; rewrite orb_true_iff, is_prefix_spec.
  - split; [intros [[suf Hs]|Hf]; [by exists nil, suf|done]|].
    intros (pre & suf & Hs). left. exists suf. destruct pre; [done|discriminate].
  - rewrite IH. split.
    + intros [[suf Hs]|(pre & suf & Hs)]; [exists nil, suf; done|].
      exists (d :: pre), suf. by rewrite Hs.
    + intros ([|d' pre] & suf & Hs); [left; by exists suf|right].
      injection Hs as -> ->. by exists pre, suf.
Qed.

(** C29. The list shows exactly the mock floats whose id contains the
    search term ignoring ASCII case, or whose latitude or longitude, as
    Number::toString prints it, contains the term as typed, and whose
    status passes the filter, in the order of the mock data; the region
    chosen on the dashboard plays no part. *)
Theorem filteredFloats_spec st region region' f :
  (f ∈ filteredFloats st <->
   f ∈ floats /\
   ((exists pre suf, String.list_ascii_of_string (toLowerCase (id f)) =
                     pre ++ String.list_ascii_of_string (toLowerCase (searchTerm st)) ++ suf) \/
    (exists pre suf, String.list_ascii_of_string (num_to_string (lat f)) =
                     pre ++ String.list_ascii_of_string (searchTerm st) ++ suf) \/
    (exists pre suf, String.list_ascii_of_string (num_to_string (lon f)) =
                     pre ++ String.list_ascii_of_string (searchTerm st) ++ suf)) /\
   matchesStatus (statusFilter st) f = true) /\
  sublist (filteredFloats st) floats /\
  view region st = view region' st.
Proof.
  split_and!; [|apply sublist_filter|done].
  unfold filteredFloats, matchesSearch, includes. rewrite list_elem_of_filter.
  rewrite andb_true_iff, !orb_true_iff, !occurs_spec. naive_solver.
Qed.

Lemma filteredFloats_spec_witness :
  view "indian" (mkState "8" (Only Warning)) = view "global" (mkState "8" (Only Warning)) /\
  map id (filteredFloats (mkState "8" (Only Warning))) = ["2903576"].
Proof.
  split; [exact (proj2 (proj2 (filteredFloats_spec _ "indian" "global"
    (mkFloat "2903576" 8.7 76.8 29.2 35.5 800 "1 hour ago" Warning 23 2156)))) |].
  vm_compute. reflexivity.
Defined.

End FloatList.
