(* ===== verification/Collaboration.v ===== *)
(** * The collaboration tab: [Collaboration] (src/unnamed/part_002, lines 889-1400)

    The component keeps a tab ([sessions], [collaborators], [activity]),
    the share modal's flag and session, and three lists that its mount
    effect fills with mock data ([loadMockData], lines 960-1071), dated
    relative to [Date.now()].  The sessions tab offers, per session, a
    share button that opens the modal ([handleShareSession]) and a copy
    button ([handleCopyLink]) that writes [<origin>/shared/<id>] to the
    clipboard and toasts a success; the modal offers the same copy button
    and closes on its backdrop or its [×] button.  Dates are printed with
    [formatTimeAgo] (lines 1103-1113) against the render time.

    The world holds the mounted instance, the page's origin, the texts
    written to the clipboard and the toasts shown.  [writeText] returns a
    promise the code does not await: the toast is shown whether or not the
    write succeeds, and the model records the attempted write. *)

From S2P Require Import Prelude JsValue.
Local Set Warnings "-register-all".
Local Open Scope fc_scope.
Local Open Scope Z_scope.

Module Collaboration.

Inductive Role := Owner | Admin | Editor | Viewer.
Inductive Presence := Online | Offline | Away.
Inductive ActivityType := AQuery | AVisualization | AExport | AShare.

Definition roleName (r : Role) : string :=
  match r with Owner => "owner" | Admin => "admin" | Editor => "editor" | Viewer => "viewer" end.

Definition presenceName (s : Presence) : string :=
  match s with Online => "online" | Offline => "offline" | Away => "away" end.

(** [interface Collaborator] (lines 912-920); dates in ms since the epoch. *)
Record Collaborator := mkCollaborator {
  c_id : string; c_name : string; c_email : string; c_avatar : string;
  c_role : Role; c_status : Presence; c_lastActive : Z
}.

Record Permissions := mkPermissions { canEdit : bool; canShare : bool; canExport : bool }.

(** [interface SharedSession] (lines 922-936). *)
Record SharedSession := mkSession {
  s_id : string; s_title : string; s_description : string; s_owner : string;
  s_collaborators : list Collaborator; s_isPublic : bool;
  s_createdAt : Z; s_lastActivity : Z; s_permissions : Permissions
}.

(** [interface Activity] (lines 938-945). *)
Record Activity := mkActivity {
  a_id : string; a_user : string; a_action : string; a_description : string;
  a_timestamp : Z; a_type : ActivityType
}.

Inductive Tab := Sessions | Collaborators | ActivityTab.

#[export] Instance Tab_eq_dec : EqDecision Tab.
Proof. solve_decision. Defined.

Record State := mkState {
  activeTab : Tab;
  isShareModalOpen : bool;
  selectedSession : option SharedSession;
  collaborators : list Collaborator;
  sharedSessions : list SharedSession;
  activities : list Activity
}.

(** The first render (lines 948-953). *)
Definition initState : State := mkState Sessions false None [] [] [].

(** ** The mock data (lines 960-1071), loaded at time [now] *)

Definition mockCollaborators (now : Z) : list Collaborator := [
  mkCollaborator "1" "Dr. Sarah Johnson" "sarah.johnson@incois.gov.in" "SJ" Owner Online now;
  mkCollaborator "2" "Prof. Rajesh Kumar" "rajesh.kumar@incois.gov.in" "RK" Admin Online (now - 300000);
  mkCollaborator "3" "Dr. Maria Garcia" "maria.garcia@ocean.edu" "MG" Editor Away (now - 600000);
  mkCollaborator "4" "Dr. Chen Wei" "chen.wei@marine.cn" "CW" Viewer Offline (now - 3600000)]%string.

Definition mockSessions (now : Z) : list SharedSession := [
  mkSession "1" "Indian Ocean Temperature Analysis"
    "Comprehensive analysis of temperature trends in the Indian Ocean region" "Dr. Sarah Johnson"
    [mkCollaborator "2" "Prof. Rajesh Kumar" "rajesh.kumar@incois.gov.in" "RK" Admin Online now;
     mkCollaborator "3" "Dr. Maria Garcia" "maria.garcia@ocean.edu" "MG" Editor Away now]
    false (now - 86400000) (now - 1800000) (mkPermissions true true true);
  mkSession "2" "Global ARGO Float Distribution"
    "Real-time monitoring of ARGO float distribution worldwide" "Prof. Rajesh Kumar"
    [mkCollaborator "1" "Dr. Sarah Johnson" "sarah.johnson@incois.gov.in" "SJ" Owner Online now]
    true (now - 172800000) (now - 3600000) (mkPermissions false true false)]%string.

Definition mockActivities (now : Z) : list Activity := [
  mkActivity "1" "Dr. Sarah Johnson" "created" "new visualization for temperature trends"
    (now - 300000) AVisualization;
  mkActivity "2" "Prof. Rajesh Kumar" "shared" "session with Dr. Maria Garcia" (now - 600000) AShare;
  mkActivity "3" "Dr. Maria Garcia" "exported" "data in NetCDF format" (now - 900000) AExport;
  mkActivity "4" "Dr. Chen Wei" "queried" "salinity data for Pacific region" (now - 1200000) AQuery]%string.

(** [loadMockData]: its three [setState] calls are batched into one render. *)
Definition loadMockData (now : Z) (st : State) : State :=
  mkState (activeTab st) (isShareModalOpen st) (selectedSession st)
    (mockCollaborators now) (mockSessions now) (mockActivities now).

(** ** Rendering helpers (lines 1073-1113) *)

Definition getRoleColor (r : string) : string :=
  if decide (r = "owner") then "text-purple-400 bg-purple-400/20"
  else if decide (r = "admin") then "text-blue-400 bg-blue-400/20"
  else if decide (r = "editor") then "text-green-400 bg-green-400/20"
  else "text-gray-400 bg-gray-400/20".

Definition getStatusColor (s : string) : string :=
  if decide (s = "online") then "bg-green-400"
  else if decide (s = "away") then "bg-yellow-400"
  else "bg-gray-400".

Definition activityIconName (t : ActivityType) : string * string :=
  match t with
  | AQuery => ("MessageCircle", "w-4 h-4 text-blue-400")
  | AVisualization => ("Globe", "w-4 h-4 text-green-400")
  | AExport => ("Share2", "w-4 h-4 text-purple-400")
  | AShare => ("Users", "w-4 h-4 text-orange-400")
  end.

(** [formatTimeAgo(date)] at time [now]: [Math.floor] is [Z.div], which
    rounds towards minus infinity as [Math.floor] does. *)
Definition formatTimeAgo (now date : Z) : string :=
  let diff := now - date in
  let minutes := diff / 60000 in
  let hours := minutes / 60 in
  let days := hours / 24 in
  if decide (minutes < 60) then pretty minutes +:+ "m ago"
  else if decide (hours < 24) then pretty hours +:+ "h ago"
  else pretty days +:+ "d ago".

(** ** The world and its events *)

Record World := mkWorld {
  comp : option State;
  origin : string;               (** [window.location.origin] *)
  clipboard : list string;       (** the texts passed to [writeText] *)
  toasts : list toast
}.

Definition initWorld (o : string) : World := mkWorld None o [] [].

Definition withComp (c : option State) (w : World) : World :=
  mkWorld c (origin w) (clipboard w) (toasts w).

Definition setTab (t : Tab) (st : State) : State :=
  mkState t (isShareModalOpen st) (selectedSession st) (collaborators st) (sharedSessions st)
    (activities st).

Definition setModalOpen (b : bool) (st : State) : State :=
  mkState (activeTab st) b (selectedSession st) (collaborators st) (sharedSessions st)
    (activities st).

(** [handleShareSession] (lines 1115-1118). *)
Definition handleShareSession (s : SharedSession) (st : State) : State :=
  mkState (activeTab st) true (Some s) (collaborators st) (sharedSessions st) (activities st).

Definition shareLink (o id : string) : string := o +:+ "/shared/" +:+ id.

(** [handleCopyLink] (lines 1120-1124). *)
Definition handleCopyLink (sessionId : string) (w : World) : World :=
  mkWorld (comp w) (origin w) (clipboard w ++ [shareLink (origin w) sessionId])
    (toasts w ++ [ToastSuccess (JStr "Link copied to clipboard!")]).

(** [handleInviteCollaborator] (lines 1126-1130): no element of the
    render calls it. *)
Definition handleInviteCollaborator (email role : string) (w : World) : World :=
  match comp w with
  | Some st => mkWorld (Some (setModalOpen false st)) (origin w) (clipboard w)
                 (toasts w ++ [ToastSuccess (JStr ("Invitation sent to " +:+ email))])
  | None => w
  end.

Inductive Event :=
| Mount (now : Z)
| Unmount
| SelectTab (t : Tab)                  (** line 1164 *)
| ShareSession (i : nat)               (** the share button of a session card, line 1208 *)
| CopyLink (i : nat)                   (** the copy button of a session card, line 1214 *)
| CloseModal                           (** the backdrop or the [×] button, lines 1350, 1362 *)
| ModalCopy.                           (** the copy button of the modal, line 1383 *)

Definition dispatch (e : Event) (w : World) : World :=
  match e, comp w with
  | Mount now, None => withComp (Some (loadMockData now initState)) w
  | Mount _, Some _ => w
  | Unmount, _ => withComp None w
  | SelectTab t, Some st => withComp (Some (setTab t st)) w
  | ShareSession i, Some st =>
      if decide (activeTab st = Sessions) then
        match sharedSessions st !! i with
        | Some s => withComp (Some (handleShareSession s st)) w
        | None => w
        end
      else w
  | CopyLink i, Some st =>
      if decide (activeTab st = Sessions) then
        match sharedSessions st !! i with
        | Some s => handleCopyLink (s_id s) w
        | None => w
        end
      else w
  | CloseModal, Some st =>
      if isShareModalOpen st then withComp (Some (setModalOpen false st)) w else w
  | ModalCopy, Some st =>
      match isShareModalOpen st, selectedSession st with
      | true, Some s => handleCopyLink (s_id s) w
      | _, _ => w
      end
  | _, None => w
  end.

Inductive step : World -> World -> Prop :=
| step_event e w : step w (dispatch e w).

Definition reachable (o : string) (w : World) : Prop := initWorld o ==[ step ]=>* w.

(** ** Properties *)

(** [formatTimeAgo] for a date in the past: whole minutes below an hour,
    whole hours below a day, whole days beyond. *)
Lemma formatTimeAgo_past now date :
  0 <= now - date ->
  (now - date < 3600000 -> formatTimeAgo now date = pretty ((now - date) / 60000) +:+ "m ago" /\
                          0 <= (now - date) / 60000 < 60) /\
  (3600000 <= now - date < 86400000 ->
     formatTimeAgo now date = pretty ((now - date) / 3600000) +:+ "h ago" /\
     1 <= (now - date) / 3600000 < 24) /\
  (86400000 <= now - date ->
     formatTimeAgo now date = pretty ((now - date) / 86400000) +:+ "d ago" /\
     1 <= (now - date) / 86400000).
Proof.
  intros H0. unfold formatTimeAgo.
  rewrite !Z.div_div by lia. change (60000 * 60) with 3600000. change (3600000 * 24) with 86400000.
  split_and!; intros Hd.
  - rewrite decide_True by (apply Z.div_lt_upper_bound; lia). split; [done|].
    split; [apply Z.div_pos; lia|apply Z.div_lt_upper_bound; lia].
  - rewrite decide_False by (assert (60 <= (now - date) / 60000) by (apply Z.div_le_lower_bound; lia); lia).
    rewrite decide_True by (apply Z.div_lt_upper_bound; lia). split; [done|].
    split; [apply Z.div_le_lower_bound; lia|apply Z.div_lt_upper_bound; lia].
  - rewrite decide_False by (assert (60 <= (now - date) / 60000) by (apply Z.div_le_lower_bound; lia); lia).
    rewrite decide_False by (assert (24 <= (now - date) / 3600000) by (apply Z.div_le_lower_bound; lia); lia).
    split; [done|]. apply Z.div_le_lower_bound; lia.
Qed.

(** The sessions of the mock data are those of ids ["1"] and ["2"]. *)
Lemma mockSessions_ids now s : s ∈ mockSessions now -> s_id s = "1"%string \/ s_id s = "2"%string.
Proof.
  unfold mockSessions. rewrite !elem_of_cons. intros [->|[->|Hn]]; [by left|by right|].
  by apply not_elem_of_nil in Hn.
Qed.

Definition copyToast : toast := ToastSuccess (JStr "Link copied to clipboard!").

(** The mounted instance shows the mock sessions of its mount time, an
    open modal shows one of them, the clipboard receives only links to
    them, and the only toast is the copy's. *)
Definition collabInv (o : string) (w : World) : Prop :=
  origin w = o /\
  (forall st, comp w = Some st ->
     (exists now, sharedSessions st = mockSessions now) /\
     (isShareModalOpen st = true -> exists s, selectedSession st = Some s /\ s ∈ sharedSessions st)) /\
  Forall (fun x => x = shareLink o "1" \/ x = shareLink o "2") (clipboard w) /\
  Forall (fun t => t = copyToast) (toasts w).

Lemma collabInv_copy o st w s :
  collabInv o w -> comp w = Some st -> s ∈ sharedSessions st -> collabInv o (handleCopyLink (s_id s) w).
Proof.
  intros (Ho & Hc & Hcl & Ht) Hst Hs. destruct (proj1 (Hc st Hst)) as [now Hnow].
  rewrite Hnow in Hs. split_and!; [done|done| |].
  - apply Forall_app. split; [done|]. apply Forall_singleton. rewrite Ho.
    destruct (mockSessions_ids now s Hs) as [-> | ->]; [by left|by right].
  - apply Forall_app. by split; [|apply Forall_singleton].
Qed.

Lemma collabInv_withComp o w st :
  collabInv o w -> (exists now, sharedSessions st = mockSessions now) ->
  (isShareModalOpen st = true -> exists s, selectedSession st = Some s /\ s ∈ sharedSessions st) ->
  collabInv o (withComp (Some st) w).
Proof. intros (Ho & _ & Hcl & Ht) H1 H2. split_and!; [done| |done|done]. by intros ? [= <-]. Qed.

Lemma collabInv_dispatch o e w : collabInv o w -> collabInv o (dispatch e w).
Proof.
  intros Hinv. pose proof Hinv as (Ho & Hc & Hcl & Ht).
  destruct e; simpl; destruct (comp w) as [st|] eqn:Hst; try done.
  - apply collabInv_withComp; [done|by eexists|done].
  - destruct (Hc st eq_refl) as [Hn Hm]. by apply collabInv_withComp.
  - case_decide; [|done]. destruct (sharedSessions st !! i) as [s|] eqn:Hi; [|done].
    destruct (Hc st eq_refl) as [Hn _].
    apply collabInv_withComp; [done|done|]. intros _. exists s. split; [done|].
    by eapply list_elem_of_lookup_2.
  - case_decide; [|done]. destruct (sharedSessions st !! i) as [s|] eqn:Hi; [|done].
    by eapply collabInv_copy; [| |eapply list_elem_of_lookup_2].
  - destruct (Hc st eq_refl) as [Hn Hm]. destruct (isShareModalOpen st) eqn:Hm'; [|done].
    apply collabInv_withComp; [done|done|]. by intros ?.
  - destruct (Hc st eq_refl) as [Hn Hm]. destruct (isShareModalOpen st) eqn:Hm'; [|done].
    destruct (Hm eq_refl) as (s & Hs & Hin). rewrite Hs. by eapply collabInv_copy.
Qed.

Lemma reachable_collabInv o w : reachable o w -> collabInv o w.
Proof.
  intros Hr. eapply (star_invariant step (collabInv o)); [|exact Hr|done].
  intros a b [e ?]. by apply collabInv_dispatch.
Qed.

(** No invitation is ever sent: every toast the component shows is the
    copy's, and it copies only links to the two sessions it lists. *)
Theorem collaboration_no_invite o w :
  reachable o w ->
  Forall (fun t => t = copyToast) (toasts w) /\
  Forall (fun x => x = shareLink o "1" \/ x = shareLink o "2") (clipboard w).
Proof. intros Hr. destruct (reachable_collabInv o w Hr) as (_ & _ & Hcl & Ht). done. Qed.

End Collaboration.
