(* ===== verification/CollabView.v ===== *)
(** * The render of the collaboration tab: [Collaboration]
    (src/unnamed/part_002, lines 1131-1398)

    Under a heading with the Invite and Share Session buttons (neither has
    a handler, lines 1142-1149), the render shows one button per tab, the
    active one highlighted (lines 1155-1175), the content of the active
    tab: a card per shared session (lines 1181-1266), a row per
    collaborator (lines 1269-1311) or a row per activity (lines
    1314-1340), and the share modal when it is open on a session (lines
    1344-1396).  Dates are printed by [formatTimeAgo] against the render
    time [now] and the link of the modal against the page's origin.

    The theorems of this file show that the render depends only on the
    time elapsed since the dates it prints, so that the tab as first shown
    depends only on the time since mounting, and that the modal's copy
    button copies the link the modal shows, as the copy button of the
    session's card does. *)

From S2P Require Import Prelude JsValue Collaboration.
Local Open Scope fc_scope.
Local Open Scope Z_scope.

Module CollabView.
Import Collaboration.

(** The tab buttons (lines 1155-1158): the tab and its label. *)
Definition tabs : list (Tab * string) :=
  [(Sessions, "Shared Sessions"); (Collaborators, "Collaborators"); (ActivityTab, "Activity")]%string.

(** An avatar of a session card (lines 1229-1238): the initials, the
    [title] (the name) and the class of the status dot. *)
Record Avatar := mkAvatar { av_text : string; av_title : string; av_dot : string }.

Record SessionCard := mkCard {
  sc_title : string;
  sc_icon : string;                    (** [Globe] or [Lock], lines 1194-1198 *)
  sc_description : string;
  sc_created : string;                 (** line 1202 *)
  sc_avatars : list Avatar;
  sc_badge : string;                   (** line 1240 *)
  sc_permissions : list string         (** lines 1246-1262 *)
}.

(** The permission chips (lines 1246-1262). *)
Definition permissionChips (p : Permissions) : list string :=
  (if canEdit p then ["Edit"] else []) ++ (if canShare p then ["Share"] else []) ++
  (if canExport p then ["Export"] else [])%string.

(** A session card (lines 1183-1264). *)
Definition sessionCard (now : Z) (s : SharedSession) : SessionCard :=
  mkCard (s_title s) (if s_isPublic s then "Globe" else "Lock") (s_description s)
    ("Created by " +:+ s_owner s +:+ " • " +:+ formatTimeAgo now (s_createdAt s))
    (List.map (fun c => mkAvatar (c_avatar c) (c_name c) (getStatusColor (presenceName (c_status c))))
       (s_collaborators s))
    ("+" +:+ pretty (length (s_collaborators s)))
    (permissionChips (s_permissions s)).

Record CollabRow := mkRow {
  cr_avatar : string; cr_dot : string; cr_name : string; cr_role : string;
  cr_roleColor : string; cr_email : string; cr_lastActive : string
}.

(** A row of the collaborators tab (lines 1272-1308); its message and
    settings buttons have no handler. *)
Definition collaboratorRow (now : Z) (c : Collaborator) : CollabRow :=
  mkRow (c_avatar c) (getStatusColor (presenceName (c_status c))) (c_name c) (roleName (c_role c))
    (getRoleColor (roleName (c_role c))) (c_email c) ("Last active " +:+ formatTimeAgo now (c_lastActive c)).

Record ActivityRow := mkActivityRow {
  ar_icon : string * string; ar_user : string; ar_action : string; ar_description : string;
  ar_time : string
}.

(** A row of the activity feed (lines 1317-1337). *)
Definition activityRow (now : Z) (a : Activity) : ActivityRow :=
  mkActivityRow (activityIconName (a_type a)) (a_user a) (a_action a) (a_description a)
    (formatTimeAgo now (a_timestamp a)).

Inductive Content :=
| SessionsC (cards : list SessionCard)
| CollaboratorsC (rows : list CollabRow)
| ActivityC (rows : list ActivityRow).

(** The content of the active tab (lines 1179-1341). *)
Definition content (now : Z) (st : State) : Content :=
  match activeTab st with
  | Sessions => SessionsC (List.map (sessionCard now) (sharedSessions st))
  | Collaborators => CollaboratorsC (List.map (collaboratorRow now) (collaborators st))
  | ActivityTab => ActivityC (List.map (activityRow now) (activities st))
  end.

Record Modal := mkModal { m_title : string; m_description : string; m_link : string; m_visibility : string }.

(** The share modal (lines 1344-1396): [isShareModalOpen && selectedSession]
    renders nothing when either is falsy; the link of its input is
    [`${window.location.origin}/shared/${selectedSession.id}`]. *)
Definition shareModal (o : string) (st : State) : option Modal :=
  if isShareModalOpen st then
    match selectedSession st with
    | Some s => Some (mkModal (s_title s) (s_description s) (o +:+ "/shared/" +:+ s_id s)
                       (if s_isPublic s then "This session is public" else "This session is private"))
    | None => None
    end
  else None.

Record View := mkView {
  v_tabs : list (string * bool);
  v_content : Content;
  v_modal : option Modal
}.

(** The render (lines 1131-1398) at time [now] on a page of origin [o]. *)
Definition view (now : Z) (o : string) (st : State) : View :=
  mkView (List.map (fun t => (t.2, bool_decide (activeTab st = t.1))) tabs) (content now st) (shareModal o st).

(** ** Time translation

    [shiftState k st] is [st] with every date [k] ms later. *)

Definition shiftCollaborator (k : Z) (c : Collaborator) : Collaborator :=
  mkCollaborator (c_id c) (c_name c) (c_email c) (c_avatar c) (c_role c) (c_status c) (c_lastActive c + k).

Definition shiftSession (k : Z) (s : SharedSession) : SharedSession :=
  mkSession (s_id s) (s_title s) (s_description s) (s_owner s) (List.map (shiftCollaborator k) (s_collaborators s))
    (s_isPublic s) (s_createdAt s + k) (s_lastActivity s + k) (s_permissions s).

Definition shiftActivity (k : Z) (a : Activity) : Activity :=
  mkActivity (a_id a) (a_user a) (a_action a) (a_description a) (a_timestamp a + k) (a_type a).

Definition shiftState (k : Z) (st : State) : State :=
  mkState (activeTab st) (isShareModalOpen st) (option_map (shiftSession k) (selectedSession st))
    (List.map (shiftCollaborator k) (collaborators st)) (List.map (shiftSession k) (sharedSessions st))
    (List.map (shiftActivity k) (activities st)).

Lemma formatTimeAgo_shift now date k : formatTimeAgo (now + k) (date + k) = formatTimeAgo now date.
Proof. unfold formatTimeAgo. by replace (now + k - (date + k)) with (now - date) by lia. Qed.

Lemma sessionCard_shift now k s : sessionCard (now + k) (shiftSession k s) = sessionCard now s.
Proof.
  destruct s; unfold sessionCard; cbn -[formatTimeAgo]. rewrite formatTimeAgo_shift, List.map_map, length_map.
  done.
Qed.

Lemma collaboratorRow_shift now k c : collaboratorRow (now + k) (shiftCollaborator k c) = collaboratorRow now c.
Proof. destruct c; unfold collaboratorRow; cbn -[formatTimeAgo]. by rewrite formatTimeAgo_shift. Qed.

Lemma activityRow_shift now k a : activityRow (now + k) (shiftActivity k a) = activityRow now a.
Proof. destruct a; unfold activityRow; cbn -[formatTimeAgo]. by rewrite formatTimeAgo_shift. Qed.

Lemma map_shift {A B C} (f : B -> C) (g : A -> B) (h : A -> C) xs :
  (forall x, f (g x) = h x) -> List.map f (List.map g xs) = List.map h xs.
Proof. intros Hx. rewrite List.map_map. by apply List.map_ext. Qed.

(** The render is invariant under time translation: it prints only the
    time elapsed since each date. *)
Lemma view_shift now k o st : view (now + k) o (shiftState k st) = view now o st.
Proof.
  unfold view, content, shareModal. destruct st as [t m sel cs ss acts]; cbn [activeTab isShareModalOpen
    selectedSession collaborators sharedSessions activities shiftState].
  f_equal; [destruct t; f_equal; apply map_shift; intros x;
            [apply sessionCard_shift|apply collaboratorRow_shift|apply activityRow_shift]|].
  by destruct m, sel.
Qed.

(** The mock data loaded at time [t] is that loaded at time [0], [t] ms
    later. *)
Lemma loadMockData_shift t tab :
  setTab tab (loadMockData t initState) = shiftState t (setTab tab (loadMockData 0 initState)).
Proof.
  unfold setTab, loadMockData, mockCollaborators, mockSessions, mockActivities, shiftState, shiftCollaborator, shiftSession, shiftActivity; cbn.
  repeat f_equal; lia.
Qed.

(** ** Properties *)

(** C31. The tab as first rendered depends only on the time elapsed since
    mounting: whatever the mount time [t], the render [d] ms later, on
    any tab, is the render [d] ms after a mount at time [0]. *)
Theorem collab_first_render_elapsed t d o tab :
  view (t + d) o (setTab tab (loadMockData t initState)) = view d o (setTab tab (loadMockData 0 initState)).
Proof. rewrite loadMockData_shift, Z.add_comm. apply view_shift. Qed.

(** C30. The modal copies what it shows: in every reachable world whose
    render shows the share modal, the modal's copy button writes the link
    the modal shows, a link to one of the two listed sessions, and toasts
    the copy; the session is one of the cards, whose own copy button does
    the same on the sessions tab. *)
Theorem modal_copy_link o w st m now :
  reachable o w -> comp w = Some st -> v_modal (view now o st) = Some m ->
  clipboard (dispatch ModalCopy w) = clipboard w ++ [m_link m] /\
  toasts (dispatch ModalCopy w) = toasts w ++ [copyToast] /\
  (m_link m = shareLink o "1" \/ m_link m = shareLink o "2") /\
  exists i s, sharedSessions st !! i = Some s /\ sc_title (sessionCard now s) = m_title m /\
    (activeTab st = Sessions -> dispatch (CopyLink i) w = dispatch ModalCopy w).
Proof.
  intros Hr Hc Hm. destruct (reachable_collabInv o w Hr) as (Ho & Hinv & _).
  destruct (Hinv st Hc) as [[t Hs] Hsel]. cbn [view v_modal] in Hm. unfold shareModal in Hm.
  destruct (isShareModalOpen st) eqn:Ho'; [|done]. destruct (Hsel eq_refl) as (s & Hss & Hin).
  rewrite Hss in Hm. injection Hm as <-. cbn [m_link m_title].
  assert (Hmc : dispatch ModalCopy w = handleCopyLink (s_id s) w) by (simpl; by rewrite Hc, Ho', Hss).
  rewrite Hmc. cbn [handleCopyLink clipboard toasts]. rewrite Ho. split_and!; [done|done| |].
  - rewrite Hs in Hin. by destruct (mockSessions_ids t s Hin) as [-> | ->]; [left|right].
  - apply list_elem_of_lookup in Hin as [i Hi]. exists i, s. split_and!; [done|done|].
    intros Ht. simpl. by rewrite Hc, decide_True, Hi.
Qed.

Lemma modal_copy_link_witness :
  let w := foldl (fun w e => dispatch e w) (initWorld "https://floatchat.app") [Mount 0; ShareSession 1] in
  reachable "https://floatchat.app" w /\
  clipboard (dispatch ModalCopy w) = ["https://floatchat.app/shared/2"]%string.
Proof.
  assert (Hr : reachable "https://floatchat.app"
    (foldl (fun w e => dispatch e w) (initWorld "https://floatchat.app") [Mount 0; ShareSession 1]))
    by (apply (star_foldl step dispatch); [constructor|apply star_refl]).
  split; [exact Hr|].
  destruct (modal_copy_link _ _ _ _ 0 Hr eq_refl eq_refl) as [-> _]. reflexivity.
Defined.

End CollabView.
