(* ===== verification/ExportView.v ===== *)
(** * The export history as [DataExport] renders it
    (src/code/Floatchat/components/DataExport.tsx, lines 181-283)

    Each request of [exportRequests] is a row: a status icon
    ([getStatusIcon], lines 181-192), the format's name, the number of
    parameters, the region and the time range's name, a progress bar
    while processing, and either the file size ([formatFileSize], lines
    194-199) or the progress.  The creation time is shown with
    [toLocaleTimeString], which depends on the browser's locale; the row
    keeps the timestamp itself. *)

From Stdlib Require Import QArith Qround Lqa.
From S2P Require Import Prelude JsValue JsNumber ExportTracker.
Local Set Warnings "-register-all".

Module ExportView.
Import ExportTracker.

(** The names of the option lists (lines 52-111). *)
Definition formatNames : list (string * string) :=
  [("csv", "CSV"); ("netcdf", "NetCDF"); ("json", "JSON"); ("excel", "Excel")]%string.

Definition timeRangeNames : list (string * string) :=
  [("24h", "24 Hours"); ("7d", "7 Days"); ("30d", "30 Days"); ("90d", "90 Days");
   ("1y", "1 Year"); ("custom", "Custom Range")]%string.

(** [list.find(x => x.id === id)?.name]: the name, or [undefined], which
    JSX renders as nothing. *)
Definition findName (l : list (string * string)) (i : string) : string :=
  match List.find (fun p => bool_decide (p.1 = i)) l with Some p => p.2 | None => "" end.

Definition statusText (s : ReqStatus) : string :=
  match s with
  | Pending => "pending" | Processing => "processing" | Completed => "completed" | Failed => "failed"
  end.

(** [getStatusIcon]: the icon and its classes. *)
Definition getStatusIcon (s : string) : string * string :=
  if decide (s = "completed"%string) then ("CheckCircle", "w-4 h-4 text-green-400")
  else if decide (s = "processing"%string) then ("Clock", "w-4 h-4 text-blue-400 animate-spin")
  else if decide (s = "failed"%string) then ("AlertCircle", "w-4 h-4 text-red-400")
  else ("Clock", "w-4 h-4 text-yellow-400").

Definition KiB : Z := 1024.

(** [formatFileSize(bytes)]: the divisions by powers of 1024 are exact in
    binary, so [toFixed] rounds the exact quotient. *)
Definition formatFileSize (bytes : Z) : string :=
  if decide (bytes < KiB)%Z then num_to_string (inject_Z bytes) +:+ " B"
  else if decide (bytes < KiB * KiB)%Z then to_fixed 1 (Fin (inject_Z bytes / inject_Z KiB)) +:+ " KB"
  else if decide (bytes < KiB * KiB * KiB)%Z then
    to_fixed 1 (Fin (inject_Z bytes / inject_Z (KiB * KiB))) +:+ " MB"
  else to_fixed 1 (Fin (inject_Z bytes / inject_Z (KiB * KiB * KiB))) +:+ " GB".

Record Row := mkRow {
  row_key : string;
  row_icon : string * string;
  row_title : string;            (** "<format name> Export" *)
  row_params : string;           (** "<n> parameters" *)
  row_place : string;            (** "<region> • <time range name>" *)
  row_bar : option string;       (** the width of the progress bar *)
  row_size : string;             (** file size or progress *)
  row_created : Z;
  row_download : bool
}.

Definition historyRow (r : Request.t) : Row :=
  let st := statusText (Request.status r) in
  let completed := bool_decide (Request.status r = Completed) in
  mkRow (Request.id r) (getStatusIcon st)
    (findName formatNames (Request.format r) +:+ " Export")
    (pretty (length (Request.parameters r)) +:+ " parameters")
    (Request.region r +:+ " • " +:+ findName timeRangeNames (Request.timeRange r))
    (if bool_decide (Request.status r = Processing) then Some (pretty (Request.progress r) +:+ "%")
     else None)
    (match Request.fileSize r with
     | Some b => if completed && negb (bool_decide (b = 0%Z)) then formatFileSize b
                 else pretty (Request.progress r) +:+ "%"
     | None => pretty (Request.progress r) +:+ "%"
     end)
    (Request.createdAt r)
    (completed && match Request.downloadUrl r with
                  | Some u => negb (bool_decide (u = ""%string))
                  | None => false
                  end).

(** The history section, shown when there is a request (line 222). *)
Definition history (st : ExportTracker.State) : option (list Row) :=
  match exportRequests st with
  | [] => None
  | l => Some (map historyRow l)
  end.

(** ** Properties *)

Lemma Qfloor_eq (z : Z) (x : Q) :
  (inject_Z z <= x)%Q -> (x < inject_Z (z + 1))%Q -> Qfloor x = z.
Proof.
  intros H1 H2.
  assert (z <= Qfloor x)%Z by (rewrite <- (Qfloor_Z z); by apply Qfloor_resp_le).
  assert (Qfloor x < z + 1)%Z.
  { destruct (Z.lt_ge_cases (Qfloor x) (z + 1)) as [|Hge]; [done|exfalso].
    rewrite Zle_Qle in Hge. pose proof (Qfloor_le x). lra. }
  lia.
Qed.

(** Whole numbers below 1024 print as their decimal digits, checked for
    each of them. *)
Lemma num_to_string_small (c : Z) :
  (0 <= c < 1024)%Z -> num_to_string (inject_Z c) = pretty c.
Proof.
  intros Hc.
  assert (Hall : forallb (fun n => bool_decide (num_to_string (inject_Z (Z.of_nat n)) = pretty (Z.of_nat n)))
                   (seq 0 1024) = true) by (vm_compute; reflexivity).
  rewrite forallb_forall in Hall. specialize (Hall (Z.to_nat c)).
  rewrite Z2Nat.id in Hall by lia. apply bool_decide_eq_true in Hall; [done|].
  apply in_seq. lia.
Qed.

(** [toFixed(f)] of a non-negative value below a million. *)
Lemma to_fixed_pos (f : nat) (x : Q) :
  (0 <= x)%Q -> (x < 1000000)%Q ->
  to_fixed f (Fin x) = String.string_of_list_ascii (fixed_positive f x).
Proof.
  intros H0 H1. unfold to_fixed.
  replace (Qle_bool (inject_Z (10 ^ 21)) (Qabs.Qabs x)) with false.
  - by replace (Qle_bool 0 x) with true by (symmetry; by apply Qle_bool_iff).
  - symmetry. apply not_true_iff_false. rewrite Qle_bool_iff, Qabs.Qabs_pos by exact H0.
    intros H. assert (inject_Z (10 ^ 21) = 1000000000000000000000)%Q as E by reflexivity.
    rewrite E in H. lra.
Qed.

(** C32. Sizes just below a mebibyte are shown as "1024.0 KB": every size
    from 1048525 to 1048575 bytes rounds to 1024.0 at one decimal, since
    [formatFileSize] chooses the unit before rounding; sizes below 1024
    bytes are shown as whole bytes. *)
Theorem formatFileSize_kb_boundary b c :
  (1048525 <= b < 1048576)%Z -> (0 <= c < 1024)%Z ->
  formatFileSize b = "1024.0 KB"%string /\ formatFileSize c = (pretty c +:+ " B")%string.
Proof.
  intros [Hb1 Hb2] [Hc1 Hc2]. split.
  - unfold formatFileSize. rewrite decide_False by (unfold KiB; lia).
    rewrite decide_True by (unfold KiB; lia).
    assert (Hq1 : (1048525 <= inject_Z b)%Q) by (change 1048525%Q with (inject_Z 1048525); by rewrite <- Zle_Qle).
    assert (Hq2 : (inject_Z b + 1 <= 1048576)%Q)
      by (change 1048576%Q with (inject_Z 1048576); change 1%Q with (inject_Z 1); rewrite <- inject_Z_plus, <- Zle_Qle; lia).
    assert (Hfl : Qfloor (inject_Z b / inject_Z KiB * inject_Z (10 ^ Z.of_nat 1) + (1 # 2)) = 10240%Z).
    { apply Qfloor_eq; unfold KiB; change (inject_Z 1024) with 1024%Q;
        change (inject_Z (10 ^ Z.of_nat 1)) with 10%Q;
        change (inject_Z 10240) with 10240%Q; change (inject_Z (10240 + 1)) with 10241%Q;
        unfold Qdiv; change (/ 1024)%Q with (1 # 1024)%Q; lra. }
    rewrite to_fixed_pos; [|unfold KiB, Qdiv; change (inject_Z 1024) with 1024%Q;
      change (/ 1024)%Q with (1 # 1024)%Q; lra..].
    unfold fixed_positive. rewrite Hfl. reflexivity.
  - unfold formatFileSize. rewrite decide_True by (unfold KiB; lia).
    by rewrite num_to_string_small.
Qed.

Lemma formatFileSize_kb_boundary_witness :
  (1048525 <= 1048575 < 1048576)%Z /\ formatFileSize 1048575 = "1024.0 KB"%string.
Proof.
  split; [lia|]. exact (proj1 (formatFileSize_kb_boundary 1048575 5 ltac:(lia) ltac:(lia))).
Defined.

End ExportView.
