(* ===== verification/Dashboard.v ===== *)
(** * The dashboard: [Dashboard] (src/unnamed/part_002, lines 631-888)

    The dashboard keeps a region and a time range chosen with two rows of
    buttons (lines 740-777), loads four statistics once per mount with an
    [aborted] flag ([loadStats], lines 695-721), simulates a refresh with
    a 2 s timer ([handleRefresh], lines 723-729), and renders the map and
    the float list of the chosen region and two charts of the chosen time
    range (lines 824-885).

    The world composes the dashboard's own cells and requests with the
    worlds of its children: [MapView] for the map, [Loader] worlds of the
    [Chart] source for the two charts, and the [FloatList] state.  A
    render with a new region or time range passes the new props to the
    children ([MapView.SetRegion], [Loader.setProps]); mounting and
    unmounting the dashboard mounts and unmounts them.  The date of the
    last ingest is shown with [toLocaleString], which depends on the
    locale; the model keeps the timestamp it is built from. *)

From Stdlib Require Import QArith.
From S2P Require Import Prelude JsValue JsNumber Endpoint Loader MapView Chart FloatList.
Local Set Warnings "-register-all".
Local Open Scope fc_scope.
Local Open Scope js_scope.

Module Dashboard.

(** The value of a card: a text, or the date [new Date(ts)] that
    [toLocaleString] prints in the browser's locale. *)
Inductive MetricValue := Text (s : string) | LocaleDate (ts : jval).

(** [interface Metric] (lines 679-686), without the icon component. *)
Record Metric := mkMetric {
  label : string;
  value : MetricValue;
  change : string;
  trend : string;
  color : string
}.

(** [lastIngest] (line 708): the dash unless the timestamp is truthy. *)
Definition ingestValue (recentTs : option jval) : MetricValue :=
  match recentTs with
  | Some v => if truthy_val v then LocaleDate v else Text "—"
  | None => Text "—"
  end.

Definition metrics (total active measurements lastIngest : MetricValue) : list Metric :=
  [mkMetric "Total Floats" total "" "up" "text-purple-400";
   mkMetric "Active Floats" active "" "up" "text-purple-400";
   mkMetric "Measurements" measurements "" "up" "text-green-400";
   mkMetric "Last Ingest" lastIngest "" "up" "text-blue-400"].

(** The initial cards (lines 688-693). *)
Definition initMetrics : list Metric := metrics (Text "—") (Text "—") (Text "—") (Text "—").

Record State := mkState {
  selectedRegion : string;
  timeRange : string;
  isLoading : bool;
  lastUpdated : Z;
  mounted : bool;
  oceanMetrics : list Metric
}.

Definition initState (now : Z) : State := mkState "global" "7d" false now false initMetrics.

Definition regions : list string := ["global"; "indian"; "pacific"; "atlantic"]%string.
Definition timeRanges : list string := ["24h"; "7d"; "30d"; "90d"]%string.

(** The body of [loadStats] after its awaits (lines 701-714): [None] when
    it returns or throws without setting the cards. *)
Definition statsCards (r : Response) : option (list Metric) :=
  match r with
  | OkJson (Some stats) =>
      match get_prop stats "total_floats", get_prop stats "active_floats",
            get_prop stats "total_measurements", get_prop stats "recent_metrics" with
      | inr total, inr active, inr meas, inr recent =>
          let recentTs :=
            if truthy recent then
              match recent with
              | Some rm => if truthy (Chart.get_index rm 0)
                           then match Chart.get_index rm 0 with
                                | Some r0 => match get_prop r0 "timestamp" with
                                             | inr t => t
                                             | inl _ => None
                                             end
                                | None => None
                                end
                           else Some JNull
              | None => Some JNull
              end
            else Some JNull in
          Some (metrics (Text (to_string (js_nullish total (JStr "—"))))
                  (Text (to_string (js_nullish active (JStr "—"))))
                  (Text (to_string (js_nullish meas (JStr "—"))))
                  (ingestValue recentTs))
      | _, _, _, _ => None
      end
  | _ => None
  end.

Section Dashboard.
Variable json_parse : string -> option jval.

Record World := mkWorld {
  comp : option State;
  gen : nat;
  env : Env;
  statsReqs : gmap nat nat;         (** pending [loadStats] fetches, by generation *)
  refreshTimers : gmap nat nat;     (** pending [handleRefresh] timers, by generation *)
  nextId : nat;
  map : MapView.World;
  tempChart : LWorld (string * string) Chart.ChartData;
  salChart : LWorld (string * string) Chart.ChartData;
  floatList : FloatList.State
}.

Definition initWorld (e : Env) : World :=
  mkWorld None 0 e ∅ ∅ 0 (MapView.initWorld e "global")
    (initLWorld e ("temperature", "7d")) (initLWorld e ("salinity", "7d")) FloatList.initState.

Definition setCells (g : nat) (f : State -> State) (w : World) : World :=
  match comp w with
  | Some st =>
      if decide (g = gen w) then
        mkWorld (Some (f st)) (gen w) (env w) (statsReqs w) (refreshTimers w) (nextId w) (map w)
          (tempChart w) (salChart w) (floatList w)
      else w
  | None => w
  end.

Definition withChildren (m : MapView.World) (tc sc : LWorld (string * string) Chart.ChartData)
    (fl : FloatList.State) (w : World) : World :=
  mkWorld (comp w) (gen w) (env w) (statsReqs w) (refreshTimers w) (nextId w) m tc sc fl.

Inductive Event :=
| Mount (now : Z)
| Unmount
| SelectRegion (r : string)                 (** line 748 *)
| SelectTimeRange (t : string)              (** line 767 *)
| ClickRefresh                              (** line 781 *)
| RefreshTimer (k : nat) (now : Z)          (** the 2 s timer of line 726 *)
| StatsSettle (k : nat) (r : Response)
| MapEvent (e : MapView.Event)              (** settlements and clicks inside the map *)
| TempChartSettle (k : nat) (r : Response)
| SalChartSettle (k : nat) (r : Response)
| FloatListEvent (e : FloatList.Event).

Definition dispatch (e : Event) (w : World) : World :=
  match e with
  | Mount now =>
      match comp w with
      | None =>
          let g := S (gen w) in
          let k := nextId w in
          let st := initState now in
          mkWorld (Some (mkState (selectedRegion st) (timeRange st) (isLoading st) (lastUpdated st)
                           true (oceanMetrics st)))
            g (env w) (<[k := g]> (statsReqs w)) (refreshTimers w) (S k)
            (MapView.dispatch (MapView.Mount (selectedRegion st)) (map w))
            (@mount _ _ (Chart.chartSource json_parse) ("temperature", timeRange st) (tempChart w))
            (@mount _ _ (Chart.chartSource json_parse) ("salinity", timeRange st) (salChart w))
            FloatList.initState
      | Some _ => w
      end
  | Unmount =>
      match comp w with
      | Some _ =>
          mkWorld None (gen w) (env w) (statsReqs w) (refreshTimers w) (nextId w)
            (MapView.dispatch MapView.Unmount (map w))
            (unmount (tempChart w))
            (unmount (salChart w))
            (floatList w)
      | None => w
      end
  | SelectRegion r =>
      match comp w with
      | Some st =>
          if decide (r ∈ regions) then
            let w1 := setCells (gen w) (fun st => mkState r (timeRange st) (isLoading st)
                                   (lastUpdated st) (mounted st) (oceanMetrics st)) w in
            withChildren (MapView.dispatch (MapView.SetRegion r) (map w1)) (tempChart w1)
              (salChart w1) (floatList w1) w1
          else w
      | None => w
      end
  | SelectTimeRange t =>
      match comp w with
      | Some st =>
          if decide (t ∈ timeRanges) then
            let w1 := setCells (gen w) (fun st => mkState (selectedRegion st) t (isLoading st)
                                   (lastUpdated st) (mounted st) (oceanMetrics st)) w in
            withChildren (map w1)
              (@setProps _ _ _ (Chart.chartSource json_parse) ("temperature", t) (tempChart w1))
              (@setProps _ _ _ (Chart.chartSource json_parse) ("salinity", t) (salChart w1))
              (floatList w1) w1
          else w
      | None => w
      end
  | ClickRefresh =>
      match comp w with
      | Some st =>
          if isLoading st then w
          else
            let w1 := setCells (gen w) (fun st => mkState (selectedRegion st) (timeRange st) true
                                   (lastUpdated st) (mounted st) (oceanMetrics st)) w in
            mkWorld (comp w1) (gen w1) (env w1) (statsReqs w1)
              (<[nextId w1 := gen w1]> (refreshTimers w1)) (S (nextId w1))
              (map w1) (tempChart w1) (salChart w1) (floatList w1)
      | None => w
      end
  | RefreshTimer k now =>
      match refreshTimers w !! k with
      | Some g =>
          setCells g (fun st => mkState (selectedRegion st) (timeRange st) false now
                         (mounted st) (oceanMetrics st))
            (mkWorld (comp w) (gen w) (env w) (statsReqs w) (delete k (refreshTimers w))
               (nextId w) (map w) (tempChart w) (salChart w) (floatList w))
      | None => w
      end
  | StatsSettle k r =>
      match statsReqs w !! k with
      | Some g =>
          let w1 := mkWorld (comp w) (gen w) (env w) (delete k (statsReqs w)) (refreshTimers w)
                      (nextId w) (map w) (tempChart w) (salChart w) (floatList w) in
          match statsCards r with
          | Some ms =>
              setCells g (fun st => mkState (selectedRegion st) (timeRange st) (isLoading st)
                             (lastUpdated st) (mounted st) ms) w1
          | None => w1
          end
      | None => w
      end
  | MapEvent e =>
      match e with
      | MapView.Settle _ _ | MapView.ClickMarker _ | MapView.CloseDetails =>
          withChildren (MapView.dispatch e (map w)) (tempChart w) (salChart w) (floatList w) w
      | _ => w
      end
  | TempChartSettle k r =>
      withChildren (map w) (@settle _ _ (Chart.chartSource json_parse) k r (tempChart w))
        (salChart w) (floatList w) w
  | SalChartSettle k r =>
      withChildren (map w) (tempChart w)
        (@settle _ _ (Chart.chartSource json_parse) k r (salChart w)) (floatList w) w
  | FloatListEvent e =>
      match comp w with
      | Some _ => withChildren (map w) (tempChart w) (salChart w) (FloatList.dispatch e (floatList w)) w
      | None => w
      end
  end.

Inductive step : World -> World -> Prop :=
| step_event e w : step w (dispatch e w).

Definition reachable (e : Env) (w : World) : Prop := initWorld e ==[ step ]=>* w.

End Dashboard.

(** ** Properties *)

(** C33. The dashboard's controls: choosing another region updates the
    dashboard, starts the map's request for that region (with its URL) and
    shows the map's spinner, while the float list shows the same floats
    as before, since it ignores its region; the Refresh button, after its
    2 s timer, only stamps [lastUpdated]: no statistics, map or chart
    request is made and the cards are unchanged. *)
Theorem dashboard_controls json_parse w st r m now :
  comp w = Some st -> isLoading st = false -> r ∈ regions ->
  r <> props (MapView.loader (map w)) -> Loader.comp (MapView.loader (map w)) = Some m ->
  let w' := dispatch json_parse (SelectRegion r) w in
  (exists st', comp w' = Some st' /\ selectedRegion st' = r) /\
  fetches (MapView.loader (map w')) !! nextRun (MapView.loader (map w)) =
    Some (mkFetch (Loader.gen (MapView.loader (map w)))
            (MapView.floatsUrl (Loader.env (MapView.loader (map w))) r)) /\
  Loader.comp (MapView.loader (map w')) = Some (setLoading true m) /\
  FloatList.view r (floatList w') = FloatList.view (selectedRegion st) (floatList w) /\
  let w2 := dispatch json_parse (RefreshTimer (nextId w) now) (dispatch json_parse ClickRefresh w) in
  comp w2 = Some (mkState (selectedRegion st) (timeRange st) false now (mounted st) (oceanMetrics st)) /\
  statsReqs w2 = statsReqs w /\ map w2 = map w /\ tempChart w2 = tempChart w /\
  salChart w2 = salChart w.
Proof.
  intros Hc Hl Hr Hne Hm. simpl. rewrite Hc, decide_True by done.
  unfold setCells. rewrite Hc, decide_True by done. simpl.
  destruct (@setProps_started _ _ _ MapView.mapSource r (MapView.loader (map w)) m Hm Hne) as (Hc1 & Hrun & _ & _ & Hk1).
  split_and!; [by eexists|exact Hk1|exact Hc1|done|..];
    rewrite ?Hl; simpl; rewrite ?Hc, ?decide_True by done; simpl;
    rewrite ?lookup_insert_eq; simpl; rewrite ?decide_True by done; try reflexivity.
Qed.

Lemma dashboard_controls_witness :
  let w := dispatch (fun _ => None) (Mount 0) (initWorld (mkEnv None None)) in
  comp w = Some (mkState "global" "7d" false 0 true initMetrics) /\
  Loader.comp (MapView.loader (map w)) = Some (mkLState [] true) /\
  FloatList.view "indian" (floatList (dispatch (fun _ => None) (SelectRegion "indian") w)) =
  FloatList.view "global" (floatList w).
Proof.
  split_and!; [reflexivity|reflexivity|].
  refine (proj1 (proj2 (proj2 (proj2 (dashboard_controls (fun _ => None) _
    (mkState "global" "7d" false 0 true initMetrics) "indian" (mkLState [] true) 5
    _ _ _ _ _))))); [reflexivity|reflexivity|vm_compute; set_solver|discriminate|reflexivity].
Defined.

End Dashboard.
