(* ===== verification/Page.v ===== *)
(** * The page: [Home] (src/code/Floatchat/app/page.tsx)

    The page keeps the active tab (line 32) and renders, under the tab
    buttons (lines 61-79), the component of that tab only (lines 89-94),
    inside a [motion.div] keyed by the tab: choosing another tab unmounts
    the component of the old one and mounts the component of the new one.
    [RealTimeUpdates] is imported (line 26) but rendered nowhere, and the
    [explore] tab shows the static [Features].

    What a tab's component promises the page is the class [Component]: a
    mounted flag, a mount (at a time, for components that read the
    clock when they mount), an unmount, and the handlers of its own
    events; [ComponentLaws] states that mounting and unmounting set the
    flag and that no handler changes it.  The page's theorems are proved
    against the class; each component discharges the laws with its own
    [dispatch]. *)

From S2P Require Import Prelude JsValue Endpoint ExportTracker Chat DataViz Collaboration Dashboard.
Local Set Warnings "-register-all".
Local Open Scope fc_scope.

Module Page.

(** What a component promises its parent. *)
Class Component (W E : Type) := {
  mounted : W -> bool;
  mountAt : Z -> W -> W;
  unmountC : W -> W;
  handle : E -> W -> W           (** the component's own events: not mount or unmount *)
}.

Class ComponentLaws (W E : Type) `{!Component W E} : Prop := {
  mounted_mount now w : mounted (mountAt now w) = true;
  mounted_unmount w : mounted (unmountC w) = false;
  mounted_handle e w : mounted (handle e w) = mounted w
}.

Definition isSomeB {A} (o : option A) : bool := match o with Some _ => true | None => false end.

(** The tabs of lines 35-42. *)
Inductive Tab := TDashboard | TChat | TVisualize | TExport | TCollaborate | TExplore.

#[export] Instance Tab_eq_dec : EqDecision Tab.
Proof. solve_decision. Defined.

Definition tabId (t : Tab) : string :=
  match t with
  | TDashboard => "dashboard" | TChat => "chat" | TVisualize => "visualize"
  | TExport => "export" | TCollaborate => "collaborate" | TExplore => "explore"
  end.

(** The component of the tab [mine] when the page goes from tab [old] to
    tab [new]: the old tab's component is unmounted, the new one's
    mounted. *)
Definition switchTo {W E} `{!Component W E} (mine old new : Tab) (now : Z) (w : W) : W :=
  if decide (old = mine) then unmountC w
  else if decide (new = mine) then mountAt now w
  else w.

Section Generic.
Context {W E : Type} `{!Component W E} `{!ComponentLaws W E}.

Lemma mounted_switchTo mine old new now w :
  old <> new -> mounted w = bool_decide (old = mine) ->
  mounted (switchTo mine old new now w) = bool_decide (new = mine).
Proof.
  intros Hne Hm. unfold switchTo.
  destruct (decide (old = mine)) as [<-|Ho]; simpl.
  { rewrite mounted_unmount. by rewrite bool_decide_false. }
  destruct (decide (new = mine)) as [<-|Hn]; simpl.
  { rewrite mounted_mount. by rewrite bool_decide_true. }
  rewrite Hm, !bool_decide_false by done. done.
Qed.

(** A property kept by mounting and unmounting is kept by a tab switch. *)
Lemma switchTo_preserves (P : W -> Prop) mine old new now w :
  (forall w, P w -> P (mountAt now w)) -> (forall w, P w -> P (unmountC w)) ->
  P w -> P (switchTo mine old new now w).
Proof. intros Hm Hu Hw. unfold switchTo. by repeat case_decide; auto. Qed.

End Generic.

(** ** The components of the tabs *)

(** A handler keeps the mounted flag: every branch leaves the instance's
    cell [None] or [Some]. *)
Local Ltac shape_solver :=
  repeat (case_match; simpl in *; simplify_eq); try done;
  repeat match goal with H : ?c = _ |- context [?c] => rewrite H end; done.

#[export] Instance exportC : Component ExportTracker.World ExportTracker.Event := {
  mounted w := isSomeB (ExportTracker.comp w);
  mountAt _ w := ExportTracker.dispatch ExportTracker.Mount w;
  unmountC w := ExportTracker.dispatch ExportTracker.Unmount w;
  handle e w := match e with
                | ExportTracker.Mount | ExportTracker.Unmount => w
                | _ => ExportTracker.dispatch e w
                end
}.

#[export] Instance exportLaws : ComponentLaws ExportTracker.World ExportTracker.Event.
Proof.
  split; [intros now w; simpl; destruct (ExportTracker.comp w) eqn:E; simpl; rewrite ?E; done|done|].
  intros e w. destruct e; simpl; try done;
    unfold ExportTracker.inModal, ExportTracker.fireTimer, ExportTracker.updateInstance;
    shape_solver.
Qed.

#[export] Instance collabC : Component Collaboration.World Collaboration.Event := {
  mounted w := isSomeB (Collaboration.comp w);
  mountAt now w := Collaboration.dispatch (Collaboration.Mount now) w;
  unmountC w := Collaboration.dispatch Collaboration.Unmount w;
  handle e w := match e with
                | Collaboration.Mount _ | Collaboration.Unmount => w
                | _ => Collaboration.dispatch e w
                end
}.

#[export] Instance collabLaws : ComponentLaws Collaboration.World Collaboration.Event.
Proof.
  split; [intros now w; simpl; destruct (Collaboration.comp w) eqn:E; simpl; rewrite ?E; done|done|].
  intros e w. destruct e; simpl; try done; shape_solver.
Qed.

#[export] Instance chatC : Component Chat.World Chat.Event := {
  mounted w := isSomeB (Chat.comp w);
  mountAt now w := Chat.dispatch (Chat.Mount now) w;
  unmountC w := Chat.dispatch Chat.Unmount w;
  handle e w := match e with
                | Chat.Mount _ | Chat.Unmount => w
                | _ => Chat.dispatch e w
                end
}.

#[export] Instance chatLaws : ComponentLaws Chat.World Chat.Event.
Proof.
  split; [intros now w; simpl; destruct (Chat.comp w) eqn:E; simpl; rewrite ?E; [done|unfold Chat.setCells; simpl; by rewrite decide_True]|done|].
  intros e w. destruct e; simpl; try done;
    unfold Chat.handleSendMessage, Chat.settle, Chat.copyToClipboard,
      Chat.setCells, Chat.addToasts, Chat.dropRequest, Chat.withComp;
    shape_solver.
Qed.

Section Tabs.
Variable json_parse : string -> option jval.
Variable localeString : option jval -> string.

#[local] Instance dashC : Component Dashboard.World Dashboard.Event := {
  mounted w := isSomeB (Dashboard.comp w);
  mountAt now w := Dashboard.dispatch json_parse (Dashboard.Mount now) w;
  unmountC w := Dashboard.dispatch json_parse Dashboard.Unmount w;
  handle e w := match e with
                | Dashboard.Mount _ | Dashboard.Unmount => w
                | _ => Dashboard.dispatch json_parse e w
                end
}.

#[local] Instance dashLaws : ComponentLaws Dashboard.World Dashboard.Event.
Proof.
  split; [intros now w; simpl; destruct (Dashboard.comp w) eqn:E; simpl; rewrite ?E; done|
          intros w; simpl; destruct (Dashboard.comp w) eqn:E; simpl; rewrite ?E; done|].
  intros e w. destruct e; simpl; try done; unfold Dashboard.setCells, Dashboard.withChildren;
    shape_solver.
Qed.

#[local] Instance vizC : Component DataViz.World DataViz.Event := {
  mounted w := isSomeB (DataViz.comp w);
  mountAt _ w := DataViz.dispatch json_parse localeString DataViz.Mount w;
  unmountC w := DataViz.dispatch json_parse localeString DataViz.Unmount w;
  handle e w := match e with
                | DataViz.Mount | DataViz.Unmount => w
                | _ => DataViz.dispatch json_parse localeString e w
                end
}.

Lemma isSomeB_update g f w :
  isSomeB (DataViz.comp (DataViz.update json_parse g f w)) = isSomeB (DataViz.comp w).
Proof.
  pose proof (DataViz.update_mounted json_parse g f w) as H.
  destruct (DataViz.comp (DataViz.update json_parse g f w)), (DataViz.comp w); try done;
    exfalso; destruct H as [H1 H2]; [destruct H1 as [? ?]|destruct H2 as [? ?]]; by eauto.
Qed.

#[local] Instance vizLaws : ComponentLaws DataViz.World DataViz.Event.
Proof.
  split; [intros now w; simpl; destruct (DataViz.comp w) eqn:E; simpl; rewrite ?E; [done|];
            unfold DataViz.playEffect, DataViz.clearPlayTimer; done|
          intros w; simpl; destruct (DataViz.comp w) eqn:E; simpl; rewrite ?E; [|done];
            destruct (if DataViz.isPlaying _ then _ else _); done|].
  intros e w. destruct e; simpl; try done;
    repeat case_match; rewrite ?isSomeB_update; try done; unfold DataViz.withChildren; shape_solver.
Qed.

(** ** The page *)

Record World := mkWorld {
  activeTab : Tab;
  dash : Dashboard.World;
  chat : Chat.World;
  viz : DataViz.World;
  export : ExportTracker.World;
  collab : Collaboration.World
}.

(** The first render at time [now]: the dashboard tab, its component
    mounted. *)
Definition initWorld (e : Env) (o : string) (now : Z) : World :=
  mkWorld TDashboard (mountAt now (Dashboard.initWorld e)) (Chat.initWorld e) (DataViz.initWorld e)
    ExportTracker.initWorld (Collaboration.initWorld o).

Inductive Event :=
| ClickTab (t : Tab) (now : Z)                    (** line 66, at time [now] *)
| DashboardEvent (e : Dashboard.Event)
| ChatEvent (e : Chat.Event)
| VizEvent (e : DataViz.Event)
| ExportEvent (e : ExportTracker.Event)
| CollabEvent (e : Collaboration.Event).

(** [setActiveTab(tab.id)]: a new tab unmounts the old tab's component and
    mounts the new one's; the same tab is the same state, and React skips
    the render. *)
Definition dispatch (e : Event) (w : World) : World :=
  match e with
  | ClickTab t now =>
      if decide (t = activeTab w) then w
      else
        let old := activeTab w in
        mkWorld t (switchTo TDashboard old t now (dash w)) (switchTo TChat old t now (chat w))
          (switchTo TVisualize old t now (viz w)) (switchTo TExport old t now (export w))
          (switchTo TCollaborate old t now (collab w))
  | DashboardEvent e => mkWorld (activeTab w) (handle e (dash w)) (chat w) (viz w) (export w) (collab w)
  | ChatEvent e => mkWorld (activeTab w) (dash w) (handle e (chat w)) (viz w) (export w) (collab w)
  | VizEvent e => mkWorld (activeTab w) (dash w) (chat w) (handle e (viz w)) (export w) (collab w)
  | ExportEvent e => mkWorld (activeTab w) (dash w) (chat w) (viz w) (handle e (export w)) (collab w)
  | CollabEvent e => mkWorld (activeTab w) (dash w) (chat w) (viz w) (export w) (handle e (collab w))
  end.

(** The values the browser can deliver to the export tab. *)
Definition event_ok (e : Event) : bool :=
  match e with ExportEvent e => ExportTracker.event_ok e | _ => true end.

Inductive step : World -> World -> Prop :=
| step_event e w : event_ok e = true -> step w (dispatch e w).

Definition reachable (e : Env) (o : string) (now : Z) (w : World) : Prop :=
  initWorld e o now ==[ step ]=>* w.

(** Exactly the component of the active tab is mounted. *)
Definition pageInv (w : World) : Prop :=
  mounted (dash w) = bool_decide (activeTab w = TDashboard) /\
  mounted (chat w) = bool_decide (activeTab w = TChat) /\
  mounted (viz w) = bool_decide (activeTab w = TVisualize) /\
  mounted (export w) = bool_decide (activeTab w = TExport) /\
  mounted (collab w) = bool_decide (activeTab w = TCollaborate).

Lemma pageInv_dispatch e w : pageInv w -> pageInv (dispatch e w).
Proof.
  intros Hinv. pose proof Hinv as (H1 & H2 & H3 & H4 & H5).
  destruct e as [t now|e|e|e|e|e]; unfold dispatch.
  - destruct (decide (t = activeTab w)) as [Ht|Ht]; [done|].
    split_and!; cbn [activeTab dash chat viz export collab]; by apply mounted_switchTo.
  - unfold pageInv; cbn [activeTab dash chat viz export collab]. by rewrite mounted_handle.
  - unfold pageInv; cbn [activeTab dash chat viz export collab]. by rewrite mounted_handle.
  - unfold pageInv; cbn [activeTab dash chat viz export collab]. by rewrite mounted_handle.
  - unfold pageInv; cbn [activeTab dash chat viz export collab]. by rewrite mounted_handle.
  - unfold pageInv; cbn [activeTab dash chat viz export collab]. by rewrite mounted_handle.
Qed.

Lemma pageInv_init e o now : pageInv (initWorld e o now).
Proof.
  split_and!; cbn [dash chat viz export collab initWorld activeTab];
    [rewrite mounted_mount; reflexivity|reflexivity..].
Qed.

(** Every component of the page is a reachable world of its own model. *)
Definition projReachable (e : Env) (o : string) (w : World) : Prop :=
  Dashboard.reachable json_parse e (dash w) /\ Chat.reachable e (chat w) /\
  DataViz.reachable json_parse localeString e (viz w) /\ ExportTracker.reachable (export w) /\
  Collaboration.reachable o (collab w).

Local Ltac one_step := intros; eapply star_right; [eassumption|constructor; try reflexivity].

Lemma projReachable_dispatch e o ev w :
  event_ok ev = true -> projReachable e o w -> projReachable e o (dispatch ev w).
Proof.
  intros Hok (H1 & H2 & H3 & H4 & H5). destruct ev as [t now|ev|ev|ev|ev|ev]; unfold dispatch.
  - destruct (decide (t = activeTab w)); [done|].
    split_and!; cbn [dash chat viz export collab]; apply switchTo_preserves; try one_step; done.
  - split_and!; try done. cbn [dash]. simpl. case_match; try done; one_step.
  - split_and!; try done. cbn [chat]. simpl. case_match; try done; one_step.
  - split_and!; try done. cbn [viz]. simpl. case_match; try done; one_step.
  - split_and!; try done. cbn [export]. simpl. case_match; try done; one_step; done.
  - split_and!; try done. cbn [collab]. simpl. case_match; try done; one_step.
Qed.

Lemma projReachable_init e o now : projReachable e o (initWorld e o now).
Proof.
  split_and!; cbn [dash chat viz export collab initWorld]; try apply star_refl.
  apply star_one. constructor.
Qed.

(** C9. The page mounts exactly the component of its active tab: a tab
    switch unmounts the old tab's component and mounts the new one's, and
    no event of a component mounts or unmounts another.  Every component
    of a reachable page is a reachable world of its own model, so the
    theorems proved of each component hold inside the page. *)
Theorem page_tabs e o now w :
  reachable e o now w -> pageInv w /\ projReachable e o w.
Proof.
  intros Hr. eapply (star_invariant step (fun w => pageInv w /\ projReachable e o w));
    [|exact Hr|split; [apply pageInv_init|apply projReachable_init]].
  intros a b [ev ? Hok] [Hi Hp]. split; [by apply pageInv_dispatch|by apply projReachable_dispatch].
Qed.

End Tabs.

Lemma page_tabs_witness :
  let w := dispatch (fun _ => None) (fun _ => "") (ClickTab TChat 6)
             (dispatch (fun _ => None) (fun _ => "") (ClickTab TExport 5)
                (initWorld (fun _ => None) (mkEnv None None) "http://localhost:3000" 0)) in
  reachable (fun _ => None) (fun _ => "") (mkEnv None None) "http://localhost:3000" 0 w /\
  pageInv (fun _ => None) (fun _ => "") w.
Proof.
  assert (Hr : reachable (fun _ => None) (fun _ => "") (mkEnv None None) "http://localhost:3000" 0
    (dispatch (fun _ => None) (fun _ => "") (ClickTab TChat 6)
       (dispatch (fun _ => None) (fun _ => "") (ClickTab TExport 5)
          (initWorld (fun _ => None) (mkEnv None None) "http://localhost:3000" 0)))).
  { eapply star_right; [eapply star_right; [apply star_refl|]|]; by constructor. }
  split; [exact Hr|exact (proj1 (page_tabs _ _ _ _ _ _ Hr))].
Defined.

End Page.
