(* ===== verification/Startup.v ===== *)
(** * The startup script (src/unnamed/part_000, lines 1-73)

    A bash script that checks for [node] and [python3] (exiting with
    status 1 when one is missing), warns when PostgreSQL is not running,
    installs the dependencies, creates the database, starts the backend
    ([python app.py &]), waits 5 s, starts the frontend ([npm run dev &]),
    announces the URLs, installs a trap that kills both servers on SIGINT
    or SIGTERM, and waits.

    The shell is a record ([Sh]): its working directory, its output and
    the commands it ran ([out], a trace of [Action]s), the background
    jobs it started and has not killed, those of them that have ended on
    their own, [$!], the two PID variables, whether the trap is installed,
    and its exit status once it has exited.  Each line of the script is a
    function on the shell, applied only while the shell has not exited
    ([script], [run_lines]); [after m k] is the shell after its first [k]
    lines, where a signal may arrive ([signal]); [startup m] runs the 31
    lines and then [wait] (line 73), which returns with status 0 once
    every background job has ended and blocks otherwise.  There is no
    [set -e]: a failed [cd], [npm install] or [pip install] does not stop
    the script.  The machine ([Machine]) answers the tests the script
    makes, and says which server keeps running from which directory (a
    server started where its [app.py] or [package.json] is missing ends at
    once); a server that keeps running is taken to run until it is killed.
    [createdb] (line 36) is a [Run] whose success the machine decides
    from [pg_ready] and [db_exists]; its other failures are not modelled.
    As bash runs them without job control, the background servers ignore
    SIGINT; a signal the trap does not catch ends the script with status
    [128 + n] and leaves them running. *)

From S2P Require Import Prelude Endpoint.

Module Startup.

Record Machine := mkMachine {
  has_node : bool;              (** [command -v node] *)
  has_python3 : bool;           (** [command -v python3] *)
  pg_ready : bool;              (** [pg_isready -q] *)
  db_exists : bool;             (** the database [floatchat] exists *)
  dir_exists : string -> bool;  (** the directories [cd] can enter *)
  start_dir : string;           (** where the script is run from *)
  keeps_running : string -> string -> bool
    (** whether a server started with this command from this directory
        keeps running: [python app.py] or [npm run dev] started where
        there is no [app.py] or [package.json] exits at once *)
}.

Inductive Action :=
| Echo (s : string)
| Chdir (d : string)                     (** a [cd] that succeeds *)
| CdFailed (d : string)                  (** [cd: d: No such file or directory] *)
| Run (cmd dir : string)                 (** a foreground command, in [dir] *)
| Spawn (pid : nat) (cmd dir : string)   (** [cmd &], in [dir] *)
| Sleep (s : Z)
| Kill (pid : nat)
| Exit (code : Z).

#[export] Instance Action_eq_dec : EqDecision Action.
Proof. solve_decision. Defined.

Record Sh := mkSh {
  cwd : string;
  out : list Action;
  procs : list nat;             (** background jobs started and not killed *)
  nextPid : nat;
  lastBg : option nat;          (** [$!] *)
  backendPid : option nat;      (** [BACKEND_PID] *)
  frontendPid : option nat;     (** [FRONTEND_PID] *)
  trapped : bool;               (** [trap cleanup SIGINT SIGTERM] has run *)
  status : option Z;            (** the exit status, once exited *)
  exited : list nat             (** background processes that ended on their own *)
}.

Definition initSh (m : Machine) : Sh := mkSh (start_dir m) [] [] 0 None None None false None [].

(** ** Commands *)

Definition emit (a : Action) (st : Sh) : Sh :=
  mkSh (cwd st) (out st ++ [a]) (procs st) (nextPid st) (lastBg st) (backendPid st)
    (frontendPid st) (trapped st) (status st) (exited st).

Definition echo (s : string) : Sh -> Sh := emit (Echo s).

Definition exit (c : Z) (st : Sh) : Sh :=
  let st' := emit (Exit c) st in
  mkSh (cwd st') (out st') (procs st') (nextPid st') (lastBg st') (backendPid st')
    (frontendPid st') (trapped st') (Some c) (exited st').

(** [cd d]: an absolute path or one relative to the working directory. *)
Definition cd (m : Machine) (d : string) (st : Sh) : Sh :=
  let target := if String.prefix "/" d then d else cwd st +:+ "/" +:+ d in
  if dir_exists m target then
    let st' := emit (Chdir target) st in
    mkSh target (out st') (procs st') (nextPid st') (lastBg st') (backendPid st')
      (frontendPid st') (trapped st') (status st') (exited st')
  else emit (CdFailed d) st.

Definition run (cmd : string) (st : Sh) : Sh := emit (Run cmd (cwd st)) st.

(** [cmd &]: a new background process, [$!] set to its PID; it ends on
    its own at once when the machine does not keep [cmd] running from the
    working directory.  [procs] lists the processes started and not
    killed by the script, [exited] those that ended by themselves. *)
Definition spawn (m : Machine) (cmd : string) (st : Sh) : Sh :=
  let p := nextPid st in
  mkSh (cwd st) (out st ++ [Spawn p cmd (cwd st)]) (procs st ++ [p]) (S p) (Some p)
    (backendPid st) (frontendPid st) (trapped st) (status st)
    (exited st ++ (if keeps_running m cmd (cwd st) then [] else [p])).

Definition sleep (s : Z) : Sh -> Sh := emit (Sleep s).

(** [kill $VAR 2>/dev/null]: with the variable unset, [kill] fails
    silently. *)
Definition kill (p : option nat) (st : Sh) : Sh :=
  match p with
  | Some k =>
      let st' := emit (Kill k) st in
      mkSh (cwd st') (out st') (filter (fun q => q <> k) (procs st')) (nextPid st') (lastBg st')
        (backendPid st') (frontendPid st') (trapped st') (status st') (exited st')
  | None => st
  end.

Definition setBackendPid (st : Sh) : Sh :=
  mkSh (cwd st) (out st) (procs st) (nextPid st) (lastBg st) (lastBg st) (frontendPid st)
    (trapped st) (status st) (exited st).

Definition setFrontendPid (st : Sh) : Sh :=
  mkSh (cwd st) (out st) (procs st) (nextPid st) (lastBg st) (backendPid st) (lastBg st)
    (trapped st) (status st) (exited st).

Definition setTrap (st : Sh) : Sh :=
  mkSh (cwd st) (out st) (procs st) (nextPid st) (lastBg st) (backendPid st) (frontendPid st)
    true (status st) (exited st).

(** [wait] (line 73), the last line: it returns once every background
    process has ended, and the script then ends with [wait]'s status 0;
    while one still runs the shell stays blocked in it. *)
Definition wait (st : Sh) : Sh :=
  match status st with
  | Some _ => st
  | None =>
      if bool_decide (Forall (fun p => p ∈ exited st) (procs st)) then
        mkSh (cwd st) (out st) (procs st) (nextPid st) (lastBg st) (backendPid st) (frontendPid st)
          (trapped st) (Some 0%Z) (exited st)
      else st
  end.

(** ** The script *)

Definition projectDir : string := "/Users/mohitmongia/Documents/SIH-3".
Definition backendDir : string := "/Users/mohitmongia/Documents/SIH-3/backend".
Definition pgWarning : string :=
  "⚠️  PostgreSQL is not running. Please start PostgreSQL and try again.".

(** The lines of the script with their line numbers. *)
Definition script (m : Machine) : list (nat * (Sh -> Sh)) := [
  (4, echo "🌊 Starting FloatChat - AI-Powered Ocean Data Discovery");
  (5, echo "==================================================");
  (8, fun st => if has_node m then st
                else exit 1 (echo "❌ Node.js is not installed. Please install Node.js 18+ and try again." st));
  (14, fun st => if has_python3 m then st
                 else exit 1 (echo "❌ Python 3 is not installed. Please install Python 3.9+ and try again." st));
  (20, fun st => if pg_ready m then st
                 else echo "   On Ubuntu: sudo systemctl start postgresql"
                        (echo "   On macOS: brew services start postgresql" (echo pgWarning st)));
  (26, echo "📦 Installing frontend dependencies...");
  (27, cd m projectDir);
  (28, run "npm install");
  (30, echo "📦 Installing backend dependencies...");
  (31, cd m "backend");
  (32, run "pip install -r requirements.txt");
  (34, echo "🗄️  Setting up database...");
  (36, fun st => let st1 := run "createdb floatchat" st in
                 if pg_ready m && negb (db_exists m) then st1 else echo "Database already exists" st1);
  (38, echo "🚀 Starting backend server...");
  (39, cd m backendDir);
  (40, spawn m "python app.py");
  (41, setBackendPid);
  (43, echo "⏳ Waiting for backend to start...");
  (44, sleep 5);
  (46, echo "🚀 Starting frontend server...");
  (47, cd m projectDir);
  (48, spawn m "npm run dev");
  (49, setFrontendPid);
  (51, echo "");
  (52, echo "✅ FloatChat is starting up!");
  (53, echo "🌐 Frontend: http://localhost:3000");
  (54, echo "🔧 Backend API: http://localhost:8000");
  (55, echo "📚 API Docs: http://localhost:8000/docs");
  (56, echo "");
  (57, echo "Press Ctrl+C to stop all services");
  (70, setTrap)]%string.

(** A line runs only while the shell has not exited. *)
Definition run_line (f : Sh -> Sh) (st : Sh) : Sh :=
  match status st with Some _ => st | None => f st end.

Definition run_lines (ls : list (nat * (Sh -> Sh))) (st : Sh) : Sh :=
  foldl (fun st l => run_line l.2 st) st ls.

(** The shell after its first [k] lines, where a signal may arrive. *)
Definition after (m : Machine) (k : nat) : Sh := run_lines (take k (script m)) (initSh m).

(** The whole script: its lines, then [wait]. *)
Definition startup (m : Machine) : Sh := wait (after m (length (script m))).

(** [cleanup] (lines 60-67). *)
Definition cleanup (st : Sh) : Sh :=
  exit 0 (echo "✅ All services stopped"
    (kill (frontendPid st) (kill (backendPid st)
      (echo "🛑 Stopping FloatChat services..." (echo "" st)))))%string.

(** Signal [n] (2 for SIGINT, 15 for SIGTERM) delivered to the script:
    the trap runs [cleanup]; without it the script dies with [128 + n]
    and its background servers, which ignore SIGINT, keep running. *)
Definition signal (n : Z) (st : Sh) : Sh :=
  match status st with
  | Some _ => st
  | None =>
      if trapped st then cleanup st
      else mkSh (cwd st) (out st) (procs st) (nextPid st) (lastBg st) (backendPid st)
             (frontendPid st) (trapped st) (Some (128 + n)%Z) (exited st)
  end.

(** ** What does not depend on the directories *)

(** An action with its directories erased: a [cd] that fails and one that
    succeeds leave the same control state. *)
Definition shape (a : Action) : Action :=
  match a with
  | Chdir _ | CdFailed _ => Chdir ""
  | Run c _ => Run c ""
  | Spawn p c _ => Spawn p c ""
  | a => a
  end.

(** The part of the shell that the directories do not influence. *)
Definition ctl (st : Sh) :=
  (map shape (out st), procs st, nextPid st, lastBg st, backendPid st, frontendPid st,
   trapped st, status st).

(** The machine with the same tests whose directories all exist. *)
Definition canon (m : Machine) : Machine :=
  mkMachine (has_node m) (has_python3 m) (pg_ready m) (db_exists m) (fun _ => true) "" (fun _ _ => true).

Lemma script_ctl m :
  Forall2 (fun l l' => forall st st', ctl st = ctl st' -> ctl (run_line l.2 st) = ctl (run_line l'.2 st'))
    (script m) (script (canon m)).
Proof.
  unfold script, canon; cbn [has_node has_python3 pg_ready db_exists].
  repeat (apply List.Forall2_cons || apply List.Forall2_nil). all: intros [] [] H; cbn [ctl] in H; simplify_eq.
  all: repeat match goal with H : map shape _ = map shape _ |- _ => revert H end.
  all: unfold ctl, run_line, echo, emit, exit, cd, run, spawn, sleep, setBackendPid,
         setFrontendPid, setTrap; cbn; repeat case_match; intros; simplify_eq; cbn.
  all: rewrite ?map_app; cbn [map shape]; congruence.
Qed.

Lemma run_lines_ctl ls ls' st st' :
  Forall2 (fun l l' => forall st st', ctl st = ctl st' -> ctl (run_line l.2 st) = ctl (run_line l'.2 st'))
    ls ls' ->
  ctl st = ctl st' -> ctl (run_lines ls st) = ctl (run_lines ls' st').
Proof.
  intros Hl. revert st st'. induction Hl as [|l l' ls ls' Hll _ IH]; intros st st' H; [done|].
  apply IH, Hll, H.
Qed.

(** The control state after [k] lines is that of the canonical machine. *)
Lemma after_ctl m k : ctl (after m k) = ctl (after (canon m) k).
Proof. apply run_lines_ctl; [by apply Forall2_take, script_ctl|done]. Qed.
Lemma signal_ctl n st st' : ctl st = ctl st' -> ctl (signal n st) = ctl (signal n st').
Proof.
  destruct st as [c o p np lb bp fp t s], st' as [c' o' p' np' lb' bp' fp' t' s'].
  unfold ctl; cbn. intros H. injection H as Ho -> -> -> -> -> -> ->.
  destruct s', t', bp', fp'; cbn; by rewrite ?map_app, Ho.
Qed.

Lemma echo_shape s l : Echo s ∈ l <-> Echo s ∈ map shape l.
Proof.
  rewrite list_elem_of_fmap. split; [intros H; by exists (Echo s); split|].
  intros (a & Ha & Hin). by destruct a; cbn in Ha; simplify_eq.
Qed.

(** No command runs: only echoes, [cd]s, sleeps and the exit. *)
Definition no_command (a : Action) : Prop :=
  match a with Run _ _ | Spawn _ _ _ => False | _ => True end.

Lemma no_command_shape l : Forall no_command l <-> Forall no_command (map shape l).
Proof. rewrite Forall_fmap. apply Forall_iff. by intros []. Qed.

Lemma after_length m : length (script m) = 31%nat.
Proof. reflexivity. Qed.

Lemma after_all m k : (31 <= k)%nat -> after m k = after m 31.
Proof. intros Hk. unfold after. by rewrite !take_ge by (rewrite after_length; lia). Qed.

#[export] Instance no_command_dec a : Decision (no_command a).
Proof. destruct a; cbn; apply _. Defined.

(** The projections of the control state after [k] lines, and after a
    signal there, are those of the canonical machine. *)
Lemma after_canon m k :
  map shape (out (after m k)) = map shape (out (after (canon m) k)) /\
  procs (after m k) = procs (after (canon m) k) /\
  trapped (after m k) = trapped (after (canon m) k) /\
  status (after m k) = status (after (canon m) k) /\
  backendPid (after m k) = backendPid (after (canon m) k) /\
  frontendPid (after m k) = frontendPid (after (canon m) k) /\
  nextPid (after m k) = nextPid (after (canon m) k) /\
  forall n, procs (signal n (after m k)) = procs (signal n (after (canon m) k)) /\
            status (signal n (after m k)) = status (signal n (after (canon m) k)).
Proof.
  pose proof (after_ctl m k) as H. pose proof (fun n => signal_ctl n _ _ H) as Hs.
  unfold ctl in H, Hs. simplify_eq. split_and!; try done; intros n; specialize (Hs n); by simplify_eq.
Qed.

(** Decides a statement on the control state of the canonical machine
    by evaluation, in each case of the machine's four tests. *)
Ltac decide_canon m :=
  let hn := fresh in let hp := fresh in let pr := fresh in let de := fresh in
  destruct m as [hn hp pr de ? ? ?]; unfold canon; cbn [has_node has_python3 pg_ready db_exists];
  destruct hn, hp, pr, de; vm_compute; intuition congruence.

(** ** Line by line: the servers that end on their own *)

Lemma after_S m k l : script m !! k = Some l -> after m (S k) = run_line l.2 (after m k).
Proof. intros Hk. unfold after, run_lines. by rewrite (take_S_r _ _ _ Hk), foldl_app. Qed.

(** Proves a statement about one line [k] of the script, for every line. *)
Ltac by_line k Hk :=
  do 31 (destruct k as [|k]; [injection Hk as <-; cbn [snd];
    unfold echo, emit, exit, cd, run, spawn, sleep, setBackendPid, setFrontendPid, setTrap;
    repeat case_match; cbn; first [lia | done | congruence]|]);
  discriminate Hk.

(** Only the two [&] lines (indices 15 and 21) change [exited]. *)
Lemma line_exited m k l st :
  script m !! k = Some l -> k <> 15%nat -> k <> 21%nat -> exited (run_line l.2 st) = exited st.
Proof. intros Hk H15 H21. unfold run_line. destruct (status st); [done|]. by_line k Hk. Qed.

(** With [node] and [python3] no line exits. *)
Lemma line_status m k l st :
  script m !! k = Some l -> has_node m = true -> has_python3 m = true ->
  status st = None -> status (run_line l.2 st) = None.
Proof. intros Hk Hn Hp Hs. unfold run_line. rewrite Hs. by_line k Hk. Qed.

Lemma exited_frame m i j :
  (i <= j <= 31)%nat -> (forall k, (i <= k < j)%nat -> k <> 15%nat /\ k <> 21%nat) ->
  exited (after m j) = exited (after m i).
Proof.
  intros Hij Hk. induction j as [|j IH]; [by replace i with 0%nat by lia|].
  destruct (decide (i = S j)) as [->|Hne]; [done|].
  destruct (lookup_lt_is_Some_2 (script m) j) as [l Hl]; [rewrite after_length; lia|].
  rewrite (after_S m j l Hl). destruct (Hk j ltac:(lia)).
  rewrite (line_exited m j l _ Hl) by done. apply IH; [lia|intros; apply Hk; lia].
Qed.

Lemma status_after m k :
  has_node m = true -> has_python3 m = true -> (k <= 31)%nat -> status (after m k) = None.
Proof.
  intros Hn Hp. induction k as [|k IH]; intros Hk; [done|].
  destruct (lookup_lt_is_Some_2 (script m) k) as [l Hl]; [rewrite after_length; lia|].
  rewrite (after_S m k l Hl). apply (line_status m k); [done|done|done|apply IH; lia].
Qed.

Lemma pids_after m : has_node m = true -> has_python3 m = true ->
  nextPid (after m 15) = 0%nat /\ nextPid (after m 21) = 1%nat.
Proof.
  destruct (after_canon m 15) as (_ & _ & _ & _ & _ & _ & H15 & _).
  destruct (after_canon m 21) as (_ & _ & _ & _ & _ & _ & H21 & _).
  rewrite H15, H21. decide_canon m.
Qed.

(** When the script reaches [wait], the backend has ended on its own
    unless it keeps running from the directory it was started in, and
    likewise the frontend. *)
Lemma exited_after m : has_node m = true -> has_python3 m = true ->
  exited (after m 31) =
    (if keeps_running m "python app.py" (cwd (after m 15)) then [] else [0%nat]) ++
    (if keeps_running m "npm run dev" (cwd (after m 21)) then [] else [1%nat]).
Proof.
  intros Hn Hp. destruct (pids_after m Hn Hp) as [P15 P21].
  rewrite (exited_frame m 22 31) by (lia || (intros; lia)).
  rewrite (after_S m 21 _ eq_refl). unfold run_line. rewrite (status_after m 21) by (done || lia). cbn [snd spawn exited].
  rewrite (exited_frame m 16 21) by (lia || (intros; lia)).
  rewrite (after_S m 15 _ eq_refl). unfold run_line. rewrite (status_after m 15) by (done || lia). cbn [snd spawn exited].
  rewrite (exited_frame m 0 15) by (lia || (intros; lia)). cbn [after take run_lines foldl initSh exited].
  rewrite P15, P21. by destruct (keeps_running _ _ _), (keeps_running _ _ _).
Qed.

(** [cd] to an absolute directory that exists enters it. *)
Lemma cwd_cd m d st : String.prefix "/" d = true -> dir_exists m d = true -> cwd (cd m d st) = d.
Proof. intros Hp Hd. unfold cd. rewrite Hp, Hd. done. Qed.

Lemma cwd_spawns m : has_node m = true -> has_python3 m = true ->
  (dir_exists m backendDir = true -> cwd (after m 15) = backendDir) /\
  (dir_exists m projectDir = true -> cwd (after m 21) = projectDir).
Proof.
  intros Hn Hp. split; intros Hd.
  - rewrite (after_S m 14 _ eq_refl). unfold run_line. rewrite (status_after m 14) by (done || lia).
    by apply cwd_cd.
  - rewrite (after_S m 20 _ eq_refl). unfold run_line. rewrite (status_after m 20) by (done || lia).
    by apply cwd_cd.
Qed.

(** [wait] returns only when every background process has ended. *)
Lemma wait_status st :
  status st = None -> procs st = [0; 1]%nat ->
  status (wait st) = (if bool_decide (0%nat ∈ exited st /\ 1%nat ∈ exited st) then Some 0%Z else None) /\
  (status (wait st) = None -> wait st = st).
Proof.
  intros Hs Hp. unfold wait. rewrite Hs, Hp.
  assert (Hf : Forall (fun p => p ∈ exited st) [0; 1]%nat <-> 0%nat ∈ exited st /\ 1%nat ∈ exited st)
    by (rewrite !Forall_cons, Forall_nil; tauto).
  destruct (bool_decide (Forall _ _)) eqn:E; [apply bool_decide_eq_true in E|apply bool_decide_eq_false in E];
    rewrite ?(bool_decide_eq_true_2 _ (proj1 Hf E)), ?bool_decide_eq_false_2 by tauto; done.
Qed.

(** [wait] after the shell has exited does nothing. *)
Lemma wait_exited st z : status st = Some z -> wait st = st.
Proof. unfold wait. by intros ->. Qed.

(** The script up to [wait]: what its 31 lines do on every machine. *)
Lemma script_lines m :
  (has_node m = false \/ has_python3 m = false ->
   status (after m 31) = Some 1%Z /\ procs (after m 31) = [] /\ Forall no_command (out (after m 31))) /\
  (has_node m = true -> has_python3 m = true ->
   status (after m 31) = None /\ procs (after m 31) = [0; 1]%nat /\
   backendPid (after m 31) = Some 0%nat /\ frontendPid (after m 31) = Some 1%nat /\
   trapped (after m 31) = true /\
   (Echo pgWarning ∈ out (after m 31) <-> pg_ready m = false) /\
   (Echo "Database already exists" ∈ out (after m 31) <-> pg_ready m = false \/ db_exists m = true) /\
   Echo ("🔧 Backend API: " +:+ baseUrl (mkEnv None (Some ("http:", "localhost")))) ∈ out (after m 31) /\
   forall n, status (signal n (after m 31)) = Some 0%Z /\ procs (signal n (after m 31)) = []).
Proof.
  destruct (after_canon m 31) as (Ho & Hp & Ht & Hs & Hb & Hf & _ & Hsig).
  rewrite no_command_shape, !(echo_shape _ (out _)), Ho, Hp, Ht, Hs, Hb, Hf.
  rewrite <- (bool_decide_eq_true (Forall _ _)), <- (bool_decide_eq_true (Echo pgWarning ∈ _)),
    <- (bool_decide_eq_true (Echo "Database already exists" ∈ _)),
    <- (bool_decide_eq_true (Echo (_ +:+ _) ∈ _)).
  split; intros Hm; [|intros Hm']; split_and!;
    try (intros n; destruct (Hsig n) as [-> ->]); clear Ho Hp Ht Hs Hb Hf Hsig;
    revert Hm; try revert Hm'; decide_canon m.
Qed.

(** C34. The startup script: without [node] or [python3] it prints its
    error and exits with status 1 before running any command.  With both,
    whatever PostgreSQL, the database and the directories are, it reaches
    [wait] (line 73) with the backend (started first) and the frontend
    started, both PIDs recorded and the trap installed; it has warned
    exactly when PostgreSQL is not running but gone on, printed "Database
    already exists" whenever [createdb] fails (also when PostgreSQL is
    down), and announced as the backend the base URL the components
    compute on a page served from localhost.  The backend was started in
    [backend/] and the frontend in the project directory when these exist.
    [wait] returns, and the script ends with status 0, exactly when both
    servers have ended on their own (as they do when started in the wrong
    directory); while either runs the script stays in [wait], and a SIGINT
    or SIGTERM then stops both servers and exits with status 0. *)
Theorem startup_spec m :
  (has_node m = false \/ has_python3 m = false ->
   status (startup m) = Some 1%Z /\ procs (startup m) = [] /\ Forall no_command (out (startup m))) /\
  (has_node m = true -> has_python3 m = true ->
   let st := after m (length (script m)) in
   status st = None /\ procs st = [0; 1]%nat /\
   backendPid st = Some 0%nat /\ frontendPid st = Some 1%nat /\ trapped st = true /\
   (Echo pgWarning ∈ out st <-> pg_ready m = false) /\
   (Echo "Database already exists" ∈ out st <-> pg_ready m = false \/ db_exists m = true) /\
   Echo ("🔧 Backend API: " +:+ baseUrl (mkEnv None (Some ("http:", "localhost")))) ∈ out st /\
   (dir_exists m backendDir = true -> cwd (after m 15) = backendDir) /\
   (dir_exists m projectDir = true -> cwd (after m 21) = projectDir) /\
   status (startup m) =
     (if keeps_running m "python app.py" (cwd (after m 15)) || keeps_running m "npm run dev" (cwd (after m 21))
      then None else Some 0%Z) /\
   (status (startup m) = None -> startup m = st /\
    forall n, status (signal n (startup m)) = Some 0%Z /\ procs (signal n (startup m)) = [])).
Proof.
  unfold startup. rewrite after_length. destruct (script_lines m) as [Ha Hb]. split.
  - intros Hm. destruct (Ha Hm) as (Hs & Hrest). by rewrite (wait_exited _ _ Hs).
  - intros Hn Hp. cbv zeta. destruct (Hb Hn Hp) as (Hs & Hps & Hbk & Hfr & Htr & Hw & Hd & He & Hsig).
    destruct (wait_status _ Hs Hps) as [Hws Hwid]. destruct (cwd_spawns m Hn Hp) as [Hc1 Hc2].
    split_and!; try done.
    + rewrite Hws, exited_after by done.
      by destruct (keeps_running m "python app.py" _), (keeps_running m "npm run dev" _).
    + intros HN. rewrite (Hwid HN). by split.
Qed.

(** C35. Ctrl+C before the trap orphans the servers: a SIGINT or SIGTERM
    ([n]) delivered after the first [k] lines of a run with [node] and
    [python3] ends the script with status [128 + n] as long as the trap is
    not installed ([k < 31]), and leaves running every server started so
    far: the backend once line 40 has run ([16 <= k]), the frontend too
    once line 48 has ([22 <= k]); during the [sleep 5] the backend is
    orphaned.  Once the trap is installed the same signal stops both
    servers and the script exits with 0. *)
Theorem signal_during_startup m k n :
  has_node m = true -> has_python3 m = true ->
  procs (signal n (after m k)) =
    (if decide (k < 16) then [] else if decide (k < 22) then [0]
     else if decide (k < 31) then [0; 1] else [])%nat /\
  status (signal n (after m k)) = Some (if decide (k < 31)%nat then 128 + n else 0)%Z.
Proof.
  intros Hn Hp. destruct (after_canon m k) as (_ & _ & _ & _ & _ & _ & _ & Hsig).
  destruct (Hsig n) as [-> ->]. clear Hsig. revert Hn Hp.
  destruct (decide (31 <= k)%nat) as [Hk|Hk].
  - rewrite (after_all (canon m) k Hk), !decide_False by lia. decide_canon m.
  - do 31 (destruct k as [|k]; [decide_canon m|]). lia.
Qed.

Lemma startup_spec_witness :
  let m := mkMachine true true false false (fun _ => true) "/tmp" (fun _ _ => false) in
  Echo pgWarning ∈ out (after m (length (script m))) /\ status (startup m) = Some 0%Z.
Proof.
  destruct (proj2 (startup_spec (mkMachine true true false false (fun _ => true) "/tmp" (fun _ _ => false)))
              eq_refl eq_refl) as (_ & _ & _ & _ & _ & Hw & _ & _ & _ & _ & Hs & _).
  split; [by apply Hw|exact Hs].
Defined.

Lemma signal_during_startup_witness :
  let m := mkMachine true true true false (fun _ => false) "/tmp" (fun _ _ => true) in
  procs (signal 2 (after m 18)) = [0%nat] /\ status (signal 2 (after m 18)) = Some 130%Z.
Proof.
  exact (signal_during_startup (mkMachine true true true false (fun _ => false) "/tmp" (fun _ _ => true)) 18 2
           eq_refl eq_refl).
Defined.

End Startup.
