(* ===== verification/Header.v ===== *)
(** * The page header: [Header]
    (the [Header] component concatenated after [DataExport] in
    src/code/Floatchat/components/DataExport.tsx, lines 456-568)

    The header keeps one cell, [isMenuOpen] (line 457).  The menu button
    of small screens (lines 532-537) flips it and shows [X] while the menu
    is open and [Menu] otherwise; the mobile menu (lines 542-564) lists the
    same four anchors as the desktop navigation (lines 481-494).  The
    anchors only move to a fragment of the page: nothing closes the menu
    but the button.  The Bell, Download, Share and Sign In buttons have no
    handler. *)

From S2P Require Import Prelude.

Module Header.

(** The fragments of the navigation links, with their labels. *)
Definition navLinks : list (string * string) :=
  [("#features", "Features"); ("#data", "Data Sources"); ("#api", "API"); ("#about", "About")]%string.

Record State := mkState { isMenuOpen : bool; fragment : string }.

Definition initState : State := mkState false "".

Inductive Event :=
| ToggleMenu                  (** the menu button, line 534 *)
| FollowLink (href : string). (** a navigation link, desktop or mobile *)

Definition dispatch (e : Event) (st : State) : State :=
  match e with
  | ToggleMenu => mkState (negb (isMenuOpen st)) (fragment st)
  | FollowLink h => if decide (h ∈ List.map fst navLinks) then mkState (isMenuOpen st) h else st
  end.

Record View := mkView {
  desktopNav : list string;            (** lines 481-494 *)
  menuIcon : string;                   (** [X] or [Menu], line 536 *)
  mobileNav : option (list string)     (** lines 542-564 *)
}.

Definition view (st : State) : View :=
  mkView (List.map snd navLinks) (if isMenuOpen st then "X" else "Menu")
    (if isMenuOpen st then Some (List.map snd navLinks) else None).

Definition run (es : list Event) (st : State) : State := foldl (fun st e => dispatch e st) st es.

#[export] Instance Event_eq_dec : EqDecision Event.
Proof. solve_decision. Defined.

Definition toggles (es : list Event) : nat := length (filter (fun e => e = ToggleMenu) es).

Lemma toggles_toggle es : toggles (ToggleMenu :: es) = S (toggles es).
Proof. unfold toggles. by rewrite filter_cons_True. Qed.

Lemma toggles_link h es : toggles (FollowLink h :: es) = toggles es.
Proof. unfold toggles. by rewrite filter_cons_False. Qed.

(** The menu is open exactly after an odd number of presses of its
    button, whatever links were followed in between. *)
Lemma menu_parity es st :
  isMenuOpen (run es st) = xorb (isMenuOpen st) (Nat.odd (toggles es)).
Proof.
  revert st. induction es as [|e es IH]; intros st; [cbv [run foldl toggles]; simpl; by destruct (isMenuOpen st)|].
  change (run (e :: es) st) with (run es (dispatch e st)). rewrite IH. destruct e as [|h].
  - rewrite toggles_toggle, Nat.odd_succ, <- Nat.negb_odd. simpl.
    by destruct (isMenuOpen st), (Nat.odd _).
  - rewrite toggles_link. simpl. by case_decide.
Qed.

End Header.
