(* ===== verification/Dom.v ===== *)
(** * Rendered element trees

    The static components (the Hero, the Features section, the Footer,
    the root layout) render fixed JSX.  This file holds the tree they
    render: an element has its JSX tag ([div], [a], [motion.div], or the
    name of a [lucide-react] icon), the attributes the model keeps ([key],
    [href], [id], [onClick], [lang]; class names and animation props are
    styling and are left out) and its children; a text node holds the
    bytes of a JSX text or of an interpolated string.  The queries over a
    tree collect, in document order, its elements, the values of one
    attribute and its texts. *)

From S2P Require Import Prelude.
From Stdlib Require Import Ascii.
Local Open Scope fc_scope.

Module Dom.

Inductive Node :=
| El (tag : string) (attrs : list (string * string)) (kids : list Node)
| Txt (s : string).

(** The nodes of a tree in document order (preorder). *)
Fixpoint nodes (n : Node) : list Node :=
  n :: match n with
       | El _ _ ks => (fix go (ks : list Node) : list Node :=
                         match ks with [] => [] | k :: r => nodes k ++ go r end) ks
       | Txt _ => []
       end.

Fixpoint lookupAttr (k : string) (a : list (string * string)) : option string :=
  match a with
  | [] => None
  | (k', v) :: r => if decide (k = k') then Some v else lookupAttr k r
  end.

Definition attr (k : string) (n : Node) : option string :=
  match n with El _ a _ => lookupAttr k a | Txt _ => None end.

Definition tagOf (n : Node) : option string :=
  match n with El t _ _ => Some t | Txt _ => None end.

(** The values of attribute [k] in document order. *)
Definition attrValues (k : string) (n : Node) : list string := omap (attr k) (nodes n).

(** The texts of a tree in document order, and its text content. *)
Definition texts (n : Node) : list string :=
  omap (fun m => match m with Txt s => Some s | El _ _ _ => None end) (nodes n).

Definition textContent (n : Node) : string := foldr String.append "" (texts n).

(** The elements of tag [t]. *)
Definition elementsOf (t : string) (n : Node) : list Node :=
  filter (fun m => tagOf m = Some t) (nodes n).

(** The fragment links: the [href]s that start with [#], and the name
    they point to. *)
Definition fragmentOf (h : string) : option string :=
  match h with String c r => if decide (c = "#"%char) then Some r else None | EmptyString => None end.

Definition fragmentTargets (n : Node) : list string := omap fragmentOf (attrValues "href" n).

(** ** Lemmas *)

Lemma nodes_El t a ks : nodes (El t a ks) = El t a ks :: mjoin (List.map nodes ks).
Proof. simpl. f_equal. induction ks as [|k r IH]; [done|]. simpl. by rewrite IH. Qed.

Lemma omap_mjoin {A B} (f : A -> option B) (ls : list (list A)) :
  omap f (mjoin ls) = mjoin (List.map (omap f) ls).
Proof. induction ls as [|l r IH]; [done|]. simpl. by rewrite omap_app, IH. Qed.

Lemma attrValues_El k t a ks :
  attrValues k (El t a ks) = option_list (lookupAttr k a) ++ mjoin (List.map (attrValues k) ks).
Proof.
  unfold attrValues. rewrite nodes_El, <- (List.map_map nodes (omap (attr k))), <- omap_mjoin.
  cbn [omap list_omap attr]. by destruct (lookupAttr k a).
Qed.

End Dom.
