(* ===== verification/StaticUI.v ===== *)
(** * The static parts of the page: [Hero], [Features], [Footer] and the
    root layout

    [Hero] (src/unnamed/part_001, lines 260-407), [Features]
    (src/unnamed/part_002, lines 302-630), [Footer]
    (src/code/Floatchat/components/Footer.tsx, lines 1-211) and
    [RootLayout] (src/code/Floatchat/app/layout.tsx) hold no state: each
    is a function from its inputs (the current year for the footer, the
    children for the layout) to the tree of [Dom] it renders, built from
    the constant arrays the component declares.  The JSX texts keep the
    bytes of the source, including its double-encoded characters. *)

From S2P Require Import Prelude Dom Header.
From Stdlib Require Import Ascii.
Local Open Scope fc_scope.

Module StaticUI.
Import Dom.

(** An element without attributes, and an icon of [lucide-react]. *)
Definition el (t : string) (ks : list Node) : Node := El t [] ks.
Definition icon (name : string) : Node := El name [] [].

(** [key={index}]: React turns the number into its decimal string. *)
Definition indexKey (i : nat) : list (string * string) := [("key", pretty i)].

Module Hero.

Record Pill := mkPill { pill_icon : string; pill_text : string; pill_color : string }.
Record Stat := mkStat { stat_label : string; stat_value : string; stat_icon : string }.

(** [features] (lines 276-281) and [stats] (lines 283-288). *)
Definition features : list Pill :=
  [mkPill "Brain" "AI-Powered Queries" "text-purple-400";
   mkPill "BarChart3" "Real-time Visualization" "text-blue-400";
   mkPill "Globe" "Global Ocean Data" "text-green-400";
   mkPill "Database" "Structured Storage" "text-orange-400"]%string.

Definition stats : list Stat :=
  [mkStat "ARGO Floats" "4,000+" "Globe"; mkStat "Data Points" "50M+" "Database";
   mkStat "Ocean Coverage" "99%" "Shield"; mkStat "Active Users" "1,200+" "Users"]%string.

(** A feature pill (lines 355-367) and a stat (lines 380-395). *)
Definition pill (i : nat) (f : Pill) : Node :=
  El "motion.div" (indexKey i) [icon (pill_icon f); el "span" [Txt (pill_text f)]].

Definition stat (i : nat) (s : Stat) : Node :=
  El "motion.div" (indexKey i)
    [el "div" [icon (stat_icon s)]; el "div" [Txt (stat_value s)]; el "div" [Txt (stat_label s)]].

(** The render (lines 290-406); the two call-to-action buttons have no
    [onClick]. *)
Definition render : Node :=
  el "section"
    [el "div" [el "div" []; el "div" []; el "div" []];
     el "div" [el "div"
       [el "motion.div"
          [el "h1" [el "span" [Txt "FloatChat"]];
           el "p" [Txt "AI-Powered Ocean Data Discovery"];
           el "p" [Txt ("Explore the depths of oceanographic data through intelligent conversation. " +:+
                        "Query ARGO float data, visualize ocean parameters, and discover insights " +:+
                        "with the power of AI.")]];
        el "motion.div"
          [el "motion.button" [Txt "Start Exploring"; icon "ArrowRight"];
           el "motion.button" [icon "Play"; Txt "Watch Demo"]];
        el "motion.div" (imap pill features);
        el "motion.div" (imap stat stats)]];
     el "div" []; el "div" []; el "div" []]%string.

End Hero.

Module Features.

Record MainFeature := mkMain {
  mf_icon : string; mf_title : string; mf_description : string; mf_color : string; mf_details : list string
}.
Record AdvancedFeature := mkAdvanced { af_icon : string; af_title : string; af_description : string; af_metrics : string }.
Record UseCase := mkUseCase { uc_title : string; uc_description : string; uc_icon : string; uc_color : string }.

(** [mainFeatures] (lines 335-384). *)
Definition mainFeatures : list MainFeature :=
  [mkMain "Brain" "AI-Powered Queries"
     "Ask questions in natural language and get intelligent responses about ocean data"
     "from-purple-500 to-pink-500"
     ["Natural language processing for complex queries"; "Context-aware responses with data insights";
      "Multi-language support for global accessibility"; "Learning from user interactions"];
   mkMain "BarChart3" "Real-time Visualization"
     "Interactive charts, maps, and 3D visualizations of ocean parameters" "from-blue-500 to-cyan-500"
     ["Live data streaming and updates"; "Interactive charts with zoom and pan";
      "3D ocean profile visualizations"; "Customizable dashboard layouts"];
   mkMain "Globe" "Global Ocean Coverage" "Access data from ARGO floats across all major ocean basins"
     "from-green-500 to-teal-500"
     ["99% global ocean coverage"; "Real-time float tracking"; "Multi-resolution data access";
      "Regional and basin-specific views"];
   mkMain "Database" "Structured Data Storage" "Efficient storage and retrieval of massive ocean datasets"
     "from-orange-500 to-red-500"
     ["PostgreSQL for structured data"; "Vector database for metadata"; "Optimized query performance";
      "Data compression and indexing"]]%string.

(** [advancedFeatures] (lines 386-411) and [useCases] (lines 413-438). *)
Definition advancedFeatures : list AdvancedFeature :=
  [mkAdvanced "Zap" "Lightning Fast" "Optimized performance for real-time data processing" "< 100ms response time";
   mkAdvanced "Shield" "Secure & Reliable" "Enterprise-grade security and data protection" "99.9% uptime";
   mkAdvanced "Users" "Collaborative" "Share insights and collaborate with your team" "Unlimited users";
   mkAdvanced "Download" "Export Ready" "Export data in multiple formats" "10+ formats"]%string.

Definition useCases : list UseCase :=
  [mkUseCase "Marine Research" "Scientists can quickly analyze ocean trends and patterns" "Search" "text-blue-400";
   mkUseCase "Climate Monitoring" "Track climate change impacts on ocean systems" "TrendingUp" "text-green-400";
   mkUseCase "Educational Tool" "Students learn oceanography through interactive data" "Users" "text-purple-400";
   mkUseCase "Policy Making" "Data-driven decisions for ocean conservation" "Shield" "text-orange-400"]%string.

(** A main feature card (lines 468-491), an advanced feature (lines
    501-515) and a use case (lines 535-548). *)
Definition mainCard (i : nat) (f : MainFeature) : Node :=
  El "motion.div" (indexKey i)
    [el "div" [icon (mf_icon f)]; el "h3" [Txt (mf_title f)]; el "p" [Txt (mf_description f)];
     el "ul" (imap (fun j d => El "li" (indexKey j) [el "div" []; el "span" [Txt d]]) (mf_details f))].

Definition advancedCard (i : nat) (f : AdvancedFeature) : Node :=
  El "motion.div" (indexKey i)
    [el "div" [icon (af_icon f)]; el "h4" [Txt (af_title f)]; el "p" [Txt (af_description f)];
     el "div" [Txt (af_metrics f)]].

Definition useCaseCard (i : nat) (u : UseCase) : Node :=
  El "motion.div" (indexKey i)
    [el "div" [icon (uc_icon u)]; el "h4" [Txt (uc_title u)]; el "p" [Txt (uc_description u)]].

(** The double quote, which the JSX text of line 571 holds. *)
Definition dq : string := String "034"%char EmptyString.

(** A card of the demo section (lines 562-608): none of its buttons has
    an [onClick]. *)
Definition demoCard (ic title text label : string) : Node :=
  el "motion.div" [el "div" [icon ic; el "h4" [Txt title]]; el "p" [Txt text]; el "button" [Txt label]].

(** The heading (lines 443-461). *)
Definition heading : Node :=
  el "div" [el "motion.h2" [Txt "Powerful Features for"; Txt " "; el "span" [Txt "Ocean Data Discovery"]];
            el "motion.p" [Txt "Discover the full potential of ocean data with our comprehensive suite of AI-powered tools"]]%string.

(** The demo section (lines 555-610). *)
Definition demoSection : Node :=
  el "div"
    [el "div" [el "h3" [Txt "Try It Yourself"]; el "p" [Txt "Experience the power of AI-driven ocean data discovery"]];
     el "div"
       [demoCard "Brain" "Ask Questions"
          (dq +:+ "Show me temperature trends in the Indian Ocean for the last 6 months" +:+ dq) "Try AI Chat";
        demoCard "Globe" "Explore Data" "Interactive maps and visualizations of global ocean data" "View Dashboard";
        demoCard "Download" "Export Results" "Download data in multiple formats for further analysis"
          "Download Data"]]%string.

(** The call to action (lines 613-627).  Its arrow is the three
    characters [â†’] of the source (the UTF-8 bytes of [→] read as
    Windows-1252 and saved again as UTF-8). *)
Definition callToAction : Node :=
  el "div" [el "motion.div" [el "button" [Txt "Get Started Today"; el "div" [Txt "â†’"]]]]%string.

(** The render (lines 440-629). *)
Definition render : Node :=
  el "div"
    [heading;
     el "div" (imap mainCard mainFeatures);
     el "div" (imap advancedCard advancedFeatures);
     el "div" [el "motion.h3" [Txt "Perfect For"]; el "div" (imap useCaseCard useCases)];
     demoSection; callToAction]%string.

End Features.

Module Footer.

Record Link := mkLink { l_name : string; l_href : string; l_icon : option string }.

(** [footerLinks] (lines 19-44): an object literal whose keys are not
    array indices, so [Object.entries] lists them in insertion order. *)
Definition footerLinks : list (string * list Link) :=
  [("Product", [mkLink "Features" "#features" None; mkLink "API Documentation" "#api" None;
                mkLink "Data Sources" "#data" None; mkLink "Pricing" "#pricing" None]);
   ("Resources", [mkLink "Documentation" "#docs" None; mkLink "Tutorials" "#tutorials" None;
                  mkLink "Blog" "#blog" None; mkLink "Support" "#support" None]);
   ("Company", [mkLink "About Us" "#about" None; mkLink "Careers" "#careers" None;
                mkLink "Contact" "#contact" None; mkLink "Privacy Policy" "#privacy" None]);
   ("Community", [mkLink "GitHub" "https://github.com" (Some "Github");
                  mkLink "Twitter" "https://twitter.com" (Some "Twitter");
                  mkLink "LinkedIn" "https://linkedin.com" (Some "Linkedin");
                  mkLink "Discord" "#discord" (Some "ExternalLink")])]%string.

(** [partners] (lines 46-52). *)
Definition partners : list string := ["INCOIS"; "MoES"; "Argo Program"; "Ocean Data"; "Marine Science"]%string.

(** A link (lines 123-139): the icon when the link has one
    ([Icon && <Icon .../>]), the name, and the external-link mark when
    [link.href.startsWith('http')]. *)
Definition linkItem (l : Link) : Node :=
  El "motion.li" [("key", l_name l)]
    [El "a" [("href", l_href l)]
       (option_list (icon <$> l_icon l) ++ [el "span" [Txt (l_name l)]] ++
        (if String.prefix "http" (l_href l) then [icon "ExternalLink"] else []))].

(** A column of links (lines 109-143). *)
Definition column (c : string * list Link) : Node :=
  El "div" [("key", c.1)] [el "motion.h4" [Txt c.1]; el "ul" (List.map linkItem c.2)].

(** The copyright line (lines 178-180): the source holds [Â©], the
    double-encoded [©], and [{currentYear}] prints the year in decimal. *)
Definition copyright (currentYear : Z) : Node :=
  el "div" [Txt "Â© "; Txt (pretty currentYear);
            Txt " FloatChat. All rights reserved. Built for Smart India Hackathon 2025."]%string.

(** The brand column (lines 57-106): the logo, the tagline and the
    contact lines. *)
Definition brand : Node :=
  el "div"
    [el "motion.div" [el "div" [icon "Waves"; el "div" []];
                      el "div" [el "h3" [Txt "FloatChat"]; el "p" [Txt "AI Ocean Data Discovery"]]];
     el "motion.p" [Txt ("Empowering ocean research and discovery through AI-powered data analysis. " +:+
                         "Making complex oceanographic data accessible to everyone.")];
     el "div"
       [el "div" [icon "MapPin"; el "span" [Txt "Indian National Centre for Ocean Information Services"]];
        el "div" [icon "Phone"; el "span" [Txt "+91-40-2389-5000"]];
        el "div" [icon "Mail"; el "span" [Txt "info@incois.gov.in"]];
        el "div" [icon "Globe"; el "span" [Txt "incois.gov.in"]]]]%string.

(** The partners (lines 146-165), keyed by name. *)
Definition partnersSection : Node :=
  el "motion.div"
    [el "h4" [Txt "Trusted by Leading Organizations"];
     el "div" (List.map (fun p => El "motion.div" [("key", p)] [el "span" [Txt p]]) partners)]%string.

(** The bottom row (lines 167-192): the copyright and three fragment links. *)
Definition bottom (currentYear : Z) : Node :=
  el "motion.div"
    [copyright currentYear;
     el "div" [El "a" [("href", "#privacy")] [Txt "Privacy Policy"];
               El "a" [("href", "#terms")] [Txt "Terms of Service"];
               El "a" [("href", "#cookies")] [Txt "Cookie Policy"]]]%string.

(** The hackathon badge (lines 194-207). *)
Definition badge : Node :=
  el "motion.div" [el "div" [el "div" []; el "span" [Txt "Smart India Hackathon 2025 - Problem Statement #25040"]]]%string.

(** The render (lines 54-210) in the year [currentYear]
    ([new Date().getFullYear()], line 17). *)
Definition render (currentYear : Z) : Node :=
  el "footer" [el "div"
    [el "div" (brand :: List.map column footerLinks); partnersSection; bottom currentYear; badge]]%string.

End Footer.

Module Layout.

(** [metadata] (lines 8-14). *)
Record Metadata := mkMetadata {
  title : string; description : string; keywords : string; authors : list string; viewport : string
}.

Definition metadata : Metadata :=
  mkMetadata "FloatChat - AI-Powered Ocean Data Discovery"
    "Discover and visualize ARGO ocean data through intelligent conversation"
    "ocean data, ARGO floats, AI, visualization, oceanography, marine science" ["FloatChat Team"]
    "width=device-width, initial-scale=1".

(** [RootLayout] (lines 16-40): the page's children, then the one
    [Toaster] every [toast] call of the components shows in, at the top
    right for 4 s. *)
Definition RootLayout (children : list Node) : Node :=
  El "html" [("lang", "en")]
    [el "body" (children ++ [El "Toaster" [("position", "top-right"); ("duration", "4000")] []])]%string.

End Layout.

(** ** The static page *)

(** The static trees of the page in one layout: the Hero (shown on the
    dashboard tab), the Features section (the explore tab) and the Footer. *)
Definition staticPage (currentYear : Z) : Node :=
  Layout.RootLayout [Hero.render; Features.render; Footer.render currentYear].

Lemma staticPage_ids y : attrValues "id" (staticPage y) = [].
Proof. vm_compute. reflexivity. Qed.

Lemma footer_fragments y :
  fragmentTargets (Footer.render y) =
    ["features"; "api"; "data"; "pricing"; "docs"; "tutorials"; "blog"; "support"; "about"; "careers";
     "contact"; "privacy"; "discord"; "privacy"; "terms"; "cookies"]%string.
Proof. vm_compute. reflexivity. Qed.


(** The copyright line starts with [Â], not with [©]: the double-encoded
    bytes of the source reach the page. *)
Lemma footer_copyright_mojibake y :
  String.prefix "Â©" (textContent (Footer.copyright y)) = true /\
  String.prefix "©" (textContent (Footer.copyright y)) = false.
Proof. split; vm_compute; reflexivity. Qed.

(** The Discord link shows the external-link icon although it points to
    the fragment [#discord] of the page. *)
Lemma discord_marked_external y :
  elementsOf "a" (Footer.render y) !! 15 =
    Some (El "a" [("href", "#discord")] [icon "ExternalLink"; el "span" [Txt "Discord"]])%string.
Proof. vm_compute. reflexivity. Qed.

(** The buttons of the Hero and of the Features section, with their text:
    none has an [onClick], so clicking them does nothing. *)
Lemma static_buttons :
  List.map textContent (elementsOf "motion.button" Hero.render ++ elementsOf "button" Features.render) =
    ["Start Exploring"; "Watch Demo"; "Try AI Chat"; "View Dashboard"; "Download Data";
     "Get Started Todayâ†’"]%string /\
  Forall (fun b => attr "onClick" b = None)
    (elementsOf "motion.button" Hero.render ++ elementsOf "button" Features.render).
Proof. split; [vm_compute; reflexivity|apply (bool_decide_unpack _); vm_compute; reflexivity]. Qed.

(** Dead in-page links: the footer links to sixteen fragments and the
    header to four, and no element of the static page (the layout, the
    Hero, the Features section, the Footer) declares an [id], so none of
    these links has a target to scroll to. *)
Theorem fragment_links_dead y h :
  h ∈ fragmentTargets (Footer.render y) ++ omap fragmentOf (List.map fst Header.navLinks) ->
  h ∉ attrValues "id" (staticPage y).
Proof. intros _. rewrite staticPage_ids. apply not_elem_of_nil. Qed.

Lemma fragment_links_dead_witness :
  "features"%string ∈ fragmentTargets (Footer.render 2025) /\
  "features"%string ∉ attrValues "id" (staticPage 2025).
Proof.
  assert (Hin : "features"%string ∈ fragmentTargets (Footer.render 2025))
    by (rewrite footer_fragments; left).
  split; [exact Hin|]. apply (fragment_links_dead 2025). apply elem_of_app. by left.
Defined.

End StaticUI.
