(* ===== verification/PageView.v ===== *)
(** * The render of the page: [Home] (src/code/Floatchat/app/page.tsx, lines 44-101)

    Under the [Header], the page shows the [Hero] on the dashboard tab only
    (line 55), one button per tab with the active one highlighted (lines
    61-79), the content of the active tab (lines 83-95: the tab's
    component, or the static [Features] on the [explore] tab) and the
    [Footer].  The header keeps its own state ([Header.State]); the page
    state is [Page.World].  The cell [isLoading] of line 33 is never read
    nor set.  The lemma of this file ties the render to the page's
    invariant: the highlighted tab is the one whose component is mounted. *)

From S2P Require Import Prelude ExportTracker Chat DataViz Collaboration Dashboard Page Header.
Local Open Scope fc_scope.

Module PageView.
Import Page.

(** [tabs] (lines 35-42): the tab and its label. *)
Definition tabs : list (Tab * string) :=
  [(TDashboard, "Dashboard"); (TChat, "AI Chat"); (TVisualize, "Visualize");
   (TExport, "Export"); (TCollaborate, "Collaborate"); (TExplore, "Explore")]%string.

Inductive Content := CDashboard | CChat | CVisualize | CExport | CCollaborate | CFeatures.

(** The content of a tab (lines 89-94). *)
Definition contentOf (t : Tab) : Content :=
  match t with
  | TDashboard => CDashboard | TChat => CChat | TVisualize => CVisualize
  | TExport => CExport | TCollaborate => CCollaborate | TExplore => CFeatures
  end.

Record View := mkView {
  header : Header.View;                (** line 53 *)
  heroShown : bool;                    (** line 55 *)
  tabButtons : list (string * bool);   (** lines 61-79 *)
  content : Content                    (** lines 83-95 *)
}.

Definition view (h : Header.State) (w : World) : View :=
  mkView (Header.view h) (bool_decide (activeTab w = TDashboard))
    (List.map (fun t => (t.2, bool_decide (activeTab w = t.1))) tabs) (contentOf (activeTab w)).

(** The mounted flags of the five stateful tabs, in the order of [tabs]
    (the [explore] tab has no state). *)
Definition mountedFlags (w : World) : list bool :=
  [isSomeB (Dashboard.comp (dash w)); isSomeB (Chat.comp (chat w)); isSomeB (DataViz.comp (viz w));
   isSomeB (ExportTracker.comp (export w)); isSomeB (Collaboration.comp (collab w)); false].

(** In a page that satisfies the invariant, the highlighted button is the
    tab whose component is mounted, the only one. *)
Lemma view_highlights_mounted jp ls h w :
  pageInv jp ls w -> activeTab w <> TExplore ->
  List.map snd (tabButtons (view h w)) = mountedFlags w.
Proof.
  intros (H1 & H2 & H3 & H4 & H5) Hx. simpl in H1, H2, H3, H4, H5. unfold mountedFlags. rewrite H1, H2, H3, H4, H5.
  unfold view; cbn [tabButtons]. destruct (activeTab w); try done; vm_compute; reflexivity.
Qed.

End PageView.
